(** * EthersWalletConnector: a shallow embedding of both connector versions

    The repository holds two versions of one class, [EthersWalletConnector]:
    - [V1]: [src/index.js] (init takes the configuration directly);
    - [V2]: the later revision (setup/init split, permission revocation on
      disconnect, switch-then-add network flow, deferred listener).

    The connector talks to a browser-injected wallet provider and to the
    ethers library.  Both are outside the repository, so they are taken as
    an environment [Env W]: a deterministic machine over an arbitrary world
    state [W] that answers each request.  Every definition below follows the
    JavaScript source statement by statement; asynchronous code is
    sequenced in the order in which its awaits complete. *)

From Stdlib Require Import ZArith String List Bool Ascii HexString Lia.
From stdpp Require Import gmap strings.
Import ListNotations.

Set Warnings "-register-all".

Local Open Scope string_scope.
Local Open Scope list_scope.
Local Open Scope nat_scope.

(** ** JavaScript values *)

(** The values the connector stores, compares and passes around.  [VNum]
    holds the integral numbers (chain ids, error codes); [VFun] is a
    function value identified by a number the environment understands;
    [VObj] is an object given by its own properties. *)
Inductive JsVal : Type :=
| VUndefined
| VNull
| VBool (b : bool)
| VNum (z : Z)
| VStr (s : string)
| VFun (f : nat)
| VObj (props : list (string * JsVal)).

Definition isUndefined (v : JsVal) : bool :=
  match v with VUndefined => true | _ => false end.

Definition isNull (v : JsVal) : bool :=
  match v with VNull => true | _ => false end.

Definition nullish (v : JsVal) : bool := isUndefined v || isNull v.

(** [typeof v === 'function'] *)
Definition isFunction (v : JsVal) : bool :=
  match v with VFun _ => true | _ => false end.

(** [typeof v === 'boolean'] *)
Definition isBoolean (v : JsVal) : bool :=
  match v with VBool _ => true | _ => false end.

(** JavaScript truthiness, as used by [if (v)] and [!v]. *)
Definition truthy (v : JsVal) : bool :=
  match v with
  | VUndefined | VNull => false
  | VBool b => b
  | VNum z => negb (Z.eqb z 0%Z)
  | VStr s => negb (String.eqb s "")
  | VFun _ | VObj _ => true
  end.

(** [a ?? b] *)
Definition coalesce (a b : JsVal) : JsVal := if nullish a then b else a.

(** Default parameter value: [undefined] is replaced by the default. *)
Definition defaultTo (v d : JsVal) : JsVal := if isUndefined v then d else v.

Fixpoint lookupProp (k : string) (props : list (string * JsVal)) : JsVal :=
  match props with
  | [] => VUndefined
  | (k', v) :: rest => if String.eqb k k' then v else lookupProp k rest
  end.

(** Reading property [k] of a non-nullish value.  Only own properties of
    objects are modelled; a primitive has none of the names used here. *)
Definition propOf (v : JsVal) (k : string) : JsVal :=
  match v with VObj props => lookupProp k props | _ => VUndefined end.

(** [v?.k] *)
Definition optChain (v : JsVal) (k : string) : JsVal :=
  if nullish v then VUndefined else propOf v k.

(** [a === b] on primitives.  Two objects are equal only by identity, which
    [VObj] does not carry; the connector never compares two objects. *)
Definition strictEq (a b : JsVal) : bool :=
  match a, b with
  | VUndefined, VUndefined => true
  | VNull, VNull => true
  | VBool x, VBool y => Bool.eqb x y
  | VNum x, VNum y => Z.eqb x y
  | VStr x, VStr y => String.eqb x y
  | VFun f, VFun g => Nat.eqb f g
  | _, _ => false
  end.

(** The value thrown when a property of [undefined] or [null] is read, or
    when something that is not a function is called. *)
Definition TypeError : JsVal := VObj [("name", VStr "TypeError")].

(** [String.prototype.toUpperCase] on the ASCII range (wallet addresses are
    hexadecimal strings). *)
Definition upperAscii (c : ascii) : ascii :=
  let n := nat_of_ascii c in
  if (97 <=? n) && (n <=? 122) then ascii_of_nat (n - 32) else c.

Fixpoint toUpperCase (s : string) : string :=
  match s with
  | EmptyString => EmptyString
  | String c rest => String (upperAscii c) (toUpperCase rest)
  end.

(** [Array.prototype.indexOf] with strict equality on strings: the first
    position of [x], or [None] for the JavaScript result [-1]. *)
Fixpoint indexOf (x : string) (l : list string) : option nat :=
  match l with
  | [] => None
  | y :: rest =>
      if String.eqb y x then Some 0
      else match indexOf x rest with Some i => Some (S i) | None => None end
  end.

(** [Array.prototype.includes] on strings. *)
Definition includes (x : string) (l : list string) : bool :=
  existsb (fun y => String.eqb y x) l.

(** ** What the environment answers *)

(** A settled promise, or a call that returned or threw. *)
Inductive Reply (A : Type) : Type :=
| Resolve (a : A)
| Reject (e : JsVal).
Arguments Resolve {A} a.
Arguments Reject {A} e.

(** The value of the local variable [accounts] of [connectWallet]: what
    [eth_accounts] answered (an array of address strings, or [null] or
    [undefined] from a provider that has none), or the [null] the retry
    closure stores when it gives up. *)
Inductive Accounts : Type :=
| AccArray (l : list string)
| AccNull
| AccUndefined.

(** [Array.isArray(accounts)] *)
Definition isArray (a : Accounts) : bool :=
  match a with AccArray _ => true | _ => false end.

Record NativeCurrency : Type := mkNativeCurrency {
  nc_name : JsVal;
  nc_symbol : JsVal;
  nc_decimals : JsVal
}.

(** The parameter object of [wallet_addEthereumChain]. *)
Record AddChainParams : Type := mkAddChainParams {
  chainId : string;
  chainName : JsVal;
  rpcUrls : list JsVal;
  nativeCurrency : NativeCurrency;
  blockExplorerUrls : option (list JsVal)
}.

(** An ethers [Contract] instance: [new Contract(target, abi, runner)]. *)
Record Contract : Type := mkContract {
  target : string;
  abi : JsVal;
  runner : JsVal
}.

(** What the local variable [contract] of [contract] can hold.  The caches
    are plain objects, so reading [cache[contractAddress]] finds either a
    [Contract] stored earlier or, for an address that names a property of
    [Object.prototype], that inherited property. *)
Inductive Wrapped : Type :=
| Built (c : Contract)
| Inherited (name : string).
Coercion Built : Contract >-> Wrapped.

(** The injected provider, the ethers helpers and the caller's functions,
    over a world state [W]. *)
Record Env (W : Type) : Type := mkEnv {
  (* window.ethereum *)
  window_ethereum : W -> JsVal;
  (* await detectEthereumProvider() *)
  detectEthereumProvider : W -> Reply JsVal * W;
  (* await browserProvider.request({ method: ... }) *)
  eth_chainId : W -> Reply JsVal * W;
  eth_accounts : W -> Reply Accounts * W;
  wallet_requestPermissions : W -> Reply unit * W;
  wallet_revokePermissions : W -> Reply unit * W;
  wallet_addEthereumChain : AddChainParams -> W -> Reply unit * W;
  wallet_switchEthereumChain : string -> W -> Reply unit * W;
  (* ethers: toNumber, toBeHex, provider.getSigner, contract methods, txn.wait *)
  toNumber : JsVal -> Reply Z;
  toBeHex : JsVal -> Reply string;
  getSigner : JsVal -> W -> Reply JsVal * W;
  (* new Contract(target, abi, runner): the exception the constructor
     throws for these arguments, if it throws (an ABI it cannot parse) *)
  newContractThrows : string -> JsVal -> JsVal -> option JsVal;
  (* await contract[methodName](...methodParams, params) *)
  contractMethod : Wrapped -> string -> list JsVal -> JsVal -> W -> Reply JsVal * W;
  txnWait : JsVal -> W -> Reply JsVal * W;
  (* calling a function value handed in by the caller: what the call
     returns (for an async function, a promise) or throws; where the
     source awaits the call, what the awaited result is *)
  callFunction : nat -> list JsVal -> W -> Reply JsVal * W;
  (* for a value that is a promise (or any other thenable): how it
     settles; [None] for every other value *)
  promiseOf : JsVal -> option (W -> Reply JsVal * W)
}.
Arguments window_ethereum {W} _ _.
Arguments detectEthereumProvider {W} _ _.
Arguments eth_chainId {W} _ _.
Arguments eth_accounts {W} _ _.
Arguments wallet_requestPermissions {W} _ _.
Arguments wallet_revokePermissions {W} _ _.
Arguments wallet_addEthereumChain {W} _ _ _.
Arguments wallet_switchEthereumChain {W} _ _ _.
Arguments toNumber {W} _ _.
Arguments toBeHex {W} _ _.
Arguments getSigner {W} _ _ _.
Arguments newContractThrows {W} _ _ _ _.
Arguments contractMethod {W} _ _ _ _ _ _.
Arguments txnWait {W} _ _ _.
Arguments callFunction {W} _ _ _ _.
Arguments promiseOf {W} _ _.

(** ** The connector's private fields *)

(** One record serves both versions.  [#x] of the source is [h_x] here.
    [h_isSetup] exists in [V2] only; no [V1] operation reads or writes it. *)
Record State : Type := mkState {
  h_isSetup : bool;
  h_shouldNetworkData : JsVal;
  h_shouldWalletAddress : JsVal;
  h_isInitalized : bool;
  h_provider : JsVal;
  h_browserProvider : JsVal;
  h_signer : JsVal;
  h_account : JsVal;
  h_currentChainId : JsVal;
  h_execBeforeReconnect : JsVal;
  h_signerContract : gmap string Contract;
  h_providerContract : gmap string Contract
}.

(** The state of a freshly constructed connector. *)
Definition newState : State :=
  mkState false VUndefined VUndefined false VUndefined VUndefined VUndefined
          VUndefined VUndefined VUndefined ∅ ∅.

Definition set_isSetup (b : bool) (st : State) : State :=
  mkState b (h_shouldNetworkData st) (h_shouldWalletAddress st)
    (h_isInitalized st) (h_provider st) (h_browserProvider st) (h_signer st)
    (h_account st) (h_currentChainId st) (h_execBeforeReconnect st)
    (h_signerContract st) (h_providerContract st).

Definition set_shouldNetworkData (v : JsVal) (st : State) : State :=
  mkState (h_isSetup st) v (h_shouldWalletAddress st)
    (h_isInitalized st) (h_provider st) (h_browserProvider st) (h_signer st)
    (h_account st) (h_currentChainId st) (h_execBeforeReconnect st)
    (h_signerContract st) (h_providerContract st).

Definition set_shouldWalletAddress (v : JsVal) (st : State) : State :=
  mkState (h_isSetup st) (h_shouldNetworkData st) v
    (h_isInitalized st) (h_provider st) (h_browserProvider st) (h_signer st)
    (h_account st) (h_currentChainId st) (h_execBeforeReconnect st)
    (h_signerContract st) (h_providerContract st).

Definition set_isInitalized (b : bool) (st : State) : State :=
  mkState (h_isSetup st) (h_shouldNetworkData st) (h_shouldWalletAddress st)
    b (h_provider st) (h_browserProvider st) (h_signer st)
    (h_account st) (h_currentChainId st) (h_execBeforeReconnect st)
    (h_signerContract st) (h_providerContract st).

Definition set_provider (v : JsVal) (st : State) : State :=
  mkState (h_isSetup st) (h_shouldNetworkData st) (h_shouldWalletAddress st)
    (h_isInitalized st) v (h_browserProvider st) (h_signer st)
    (h_account st) (h_currentChainId st) (h_execBeforeReconnect st)
    (h_signerContract st) (h_providerContract st).

Definition set_browserProvider (v : JsVal) (st : State) : State :=
  mkState (h_isSetup st) (h_shouldNetworkData st) (h_shouldWalletAddress st)
    (h_isInitalized st) (h_provider st) v (h_signer st)
    (h_account st) (h_currentChainId st) (h_execBeforeReconnect st)
    (h_signerContract st) (h_providerContract st).

Definition set_signer (v : JsVal) (st : State) : State :=
  mkState (h_isSetup st) (h_shouldNetworkData st) (h_shouldWalletAddress st)
    (h_isInitalized st) (h_provider st) (h_browserProvider st) v
    (h_account st) (h_currentChainId st) (h_execBeforeReconnect st)
    (h_signerContract st) (h_providerContract st).

Definition set_account (v : JsVal) (st : State) : State :=
  mkState (h_isSetup st) (h_shouldNetworkData st) (h_shouldWalletAddress st)
    (h_isInitalized st) (h_provider st) (h_browserProvider st) (h_signer st)
    v (h_currentChainId st) (h_execBeforeReconnect st)
    (h_signerContract st) (h_providerContract st).

Definition set_currentChainId (v : JsVal) (st : State) : State :=
  mkState (h_isSetup st) (h_shouldNetworkData st) (h_shouldWalletAddress st)
    (h_isInitalized st) (h_provider st) (h_browserProvider st) (h_signer st)
    (h_account st) v (h_execBeforeReconnect st)
    (h_signerContract st) (h_providerContract st).

Definition set_execBeforeReconnect (v : JsVal) (st : State) : State :=
  mkState (h_isSetup st) (h_shouldNetworkData st) (h_shouldWalletAddress st)
    (h_isInitalized st) (h_provider st) (h_browserProvider st) (h_signer st)
    (h_account st) (h_currentChainId st) v
    (h_signerContract st) (h_providerContract st).

Definition set_signerContract (m : gmap string Contract) (st : State) : State :=
  mkState (h_isSetup st) (h_shouldNetworkData st) (h_shouldWalletAddress st)
    (h_isInitalized st) (h_provider st) (h_browserProvider st) (h_signer st)
    (h_account st) (h_currentChainId st) (h_execBeforeReconnect st)
    m (h_providerContract st).

Definition set_providerContract (m : gmap string Contract) (st : State) : State :=
  mkState (h_isSetup st) (h_shouldNetworkData st) (h_shouldWalletAddress st)
    (h_isInitalized st) (h_provider st) (h_browserProvider st) (h_signer st)
    (h_account st) (h_currentChainId st) (h_execBeforeReconnect st)
    (h_signerContract st) m.

(** ** Observable actions and the machine *)

(** What a run does that the outside can see, in the order it happens. *)
Inductive Action : Type :=
| Emit (name : string) (args : list JsVal)   (* this.emit(name, ...args) *)
| Request (method : string)                  (* browserProvider.request *)
| Call (f : nat)                             (* a caller's function is run *)
| ConsoleLog (v : JsVal).                    (* console.log(v) *)

(** A callback handed to [setTimeout] that has not run yet. *)
Inductive Timer : Type :=
| RegisterChainChanged.

(** The connector, the world it runs in, the [chainChanged] listeners it
    has put on the provider, the timers it has scheduled, and the
    continuations of [disconnectWallet] calls that were started without
    being awaited (each with the answer its revoke request received). *)
Record Sys (W : Type) : Type := mkSys {
  conn : State;
  world : W;
  chainListeners : nat;
  timers : list Timer;
  suspended : list (Reply unit)
}.
Arguments mkSys {W} _ _ _ _ _.
Arguments conn {W} _.
Arguments world {W} _.
Arguments chainListeners {W} _.
Arguments timers {W} _.
Arguments suspended {W} _.

(** How a computation ends.  [Diverge] is the exhaustion of the fuel given
    to a [while] loop; JavaScript has no such outcome. *)
Inductive Outcome (A : Type) : Type :=
| Ret (a : A)
| Throw (e : JsVal)
| Diverge.
Arguments Ret {A} a.
Arguments Throw {A} e.
Arguments Diverge {A}.

(** A computation: from a system to an outcome, the system after it, and
    the actions it performed, oldest first. *)
Definition M (W A : Type) : Type := Sys W -> Outcome A * Sys W * list Action.

Definition ret {W A} (a : A) : M W A := fun s => (Ret a, s, []).

Definition throw {W A} (e : JsVal) : M W A := fun s => (Throw e, s, []).

Definition diverge {W A} : M W A := fun s => (Diverge, s, []).

Definition bind {W A B} (m : M W A) (k : A -> M W B) : M W B :=
  fun s =>
    match m s with
    | (Ret a, s1, t1) =>
        match k a s1 with (o, s2, t2) => (o, s2, t1 ++ t2) end
    | (Throw e, s1, t1) => (Throw e, s1, t1)
    | (Diverge, s1, t1) => (Diverge, s1, t1)
    end.

(** [try { m } catch (e) { h e }] *)
Definition tryCatch {W A} (m : M W A) (h : JsVal -> M W A) : M W A :=
  fun s =>
    match m s with
    | (Throw e, s1, t1) =>
        match h e s1 with (o, s2, t2) => (o, s2, t1 ++ t2) end
    | r => r
    end.

Notation "'let*' x ':=' m 'in' k" := (bind m (fun x => k))
  (at level 10, x name, m at level 100, k at level 200).
Notation "m ';;;' k" := (bind m (fun _ => k))
  (at level 100, k at level 200, right associativity).

Definition get {W} : M W State := fun s => (Ret (conn s), s, []).

Definition modify {W} (f : State -> State) : M W unit :=
  fun s => (Ret tt, mkSys (f (conn s)) (world s) (chainListeners s) (timers s) (suspended s), []).

Definition log {W} (a : Action) : M W unit := fun s => (Ret tt, s, [a]).

(** [this.emit(name, ...args)].  The listeners of the connector's events
    are the caller's code.  The model records the event and takes every
    listener to return normally; a listener that throws would make [emit]
    throw at this point. *)
Definition emit {W} (name : string) (args : list JsVal) : M W unit :=
  log (Emit name args).

(** Turning an answer into an outcome: a rejection is thrown by [await]. *)
Definition settle {W A} (r : Reply A) : M W A :=
  match r with Resolve a => ret a | Reject e => throw e end.

(** One interaction with the world. *)
Definition ask {W A} (q : W -> Reply A * W) : M W A :=
  fun s =>
    let (r, w) := q (world s) in
    settle r (mkSys (conn s) w (chainListeners s) (timers s) (suspended s)).

(** [this.#error(message)] *)
Definition error {W A} (message : string) : M W A :=
  throw (VStr (String.append "ERROR - EthersWalletConnector: " message)).

(** [await this.#browserProvider.request({ method, ... })]: reading
    [request] off a missing provider throws before anything is sent. *)
Definition request {W A} (method : string) (q : W -> Reply A * W) : M W A :=
  let* st := get in
  if nullish (h_browserProvider st) then throw TypeError
  else log (Request method) ;;; ask q.

(** Calling a value: only functions can be called. *)
Definition call {W} (E : Env W) (f : JsVal) (args : list JsVal) : M W JsVal :=
  match f with
  | VFun n => log (Call n) ;;; ask (callFunction E n args)
  | _ => throw TypeError
  end.

(** A value that the promise machinery would follow rather than hand on:
    only objects and functions can be thenables. *)
Definition thenable {W} (E : Env W) (v : JsVal) : option (W -> Reply JsVal * W) :=
  match v with
  | VObj _ | VFun _ => promiseOf E v
  | _ => None
  end.

(** [return v] in an [async] function, for a [v] that was not awaited: the
    promise of the function is resolved with [v], so when [v] is itself a
    promise the caller sees how [v] settles; any other value is handed on
    as it is. *)
Definition adopt {W} (E : Env W) (v : JsVal) : M W JsVal :=
  match thenable E v with
  | Some q => ask q
  | None => ret v
  end.

(** [list.forEach(f)] *)
Fixpoint forEach {W A} (f : A -> M W unit) (l : list A) : M W unit :=
  match l with
  | [] => ret tt
  | x :: rest => f x ;;; forEach f rest
  end.

Definition gets {W A} (f : State -> A) : M W A := fun s => (Ret (f (conn s)), s, []).

(** [v.k] and [v[k]]: reading a property of [undefined] or [null] throws. *)
Definition member {W} (v : JsVal) (k : string) : M W JsVal :=
  if nullish v then throw TypeError else ret (propOf v k).

(** [accounts.map((account) => account.toUpperCase())] *)
Definition upperAccounts {W} (a : Accounts) : M W (list string) :=
  match a with
  | AccArray l => ret (map toUpperCase l)
  | AccNull | AccUndefined => throw TypeError
  end.

(** [v.toUpperCase()]: only strings have the method. *)
Definition upperOf {W} (v : JsVal) : M W string :=
  match v with
  | VStr s => ret (toUpperCase s)
  | _ => throw TypeError
  end.

(** [accounts.length] *)
Definition lengthOf {W} (a : Accounts) : M W nat :=
  match a with
  | AccArray l => ret (length l)
  | AccNull | AccUndefined => throw TypeError
  end.

(** [accounts[i]], where [None] is the index [-1]: outside the array the
    result is [undefined]. *)
Definition elementAt {W} (a : Accounts) (i : option nat) : M W JsVal :=
  match a with
  | AccArray l =>
      ret (match i with
           | Some n => match nth_error l n with Some x => VStr x | None => VUndefined end
           | None => VUndefined
           end)
  | AccNull | AccUndefined => throw TypeError
  end.

(** [this.#browserProvider.on('chainChanged', handler)] *)
Definition addChainChangedListener {W} : M W unit :=
  fun s =>
    if nullish (h_browserProvider (conn s)) then (Throw TypeError, s, [])
    else (Ret tt, mkSys (conn s) (world s) (S (chainListeners s)) (timers s) (suspended s), []).

(** [setTimeout(callback, 400)] *)
Definition setTimeout {W} (t : Timer) : M W unit :=
  fun s => (Ret tt, mkSys (conn s) (world s) (chainListeners s) (timers s ++ [t]) (suspended s), []).

(** An event handler or timer callback run by the event loop: what it
    throws is an unhandled rejection and reaches nobody. *)
Definition detached {W} (m : M W unit) : M W unit :=
  tryCatch m (fun _ => ret tt).

(** The provider fires an event: every registered listener runs.  The
    model runs the handlers one after the other, each to its end.  On a
    provider the handlers are all started before the first of them
    resumes after its first await, so the actions of different handlers
    can interleave otherwise than here; with one listener there is nothing
    to interleave. *)
Fixpoint runListeners {W} (n : nat) (handler : M W unit) : M W unit :=
  match n with
  | 0 => ret tt
  | S k => detached handler ;;; runListeners k handler
  end.

(** [new BrowserProvider(ethereum)] *)
Definition BrowserProvider (ethereum : JsVal) : JsVal :=
  VObj [("ethereum", ethereum)].

(** The connector object itself, as a value ([this]). *)
Definition this : JsVal := VObj [("constructor", VStr "EthersWalletConnector")].

(** The local variables [accounts] and [tryConnectCount] of
    [connectWallet], which the [reconnect] closure updates. *)
Record Locals : Type := mkLocals {
  accounts : Accounts;
  tryConnectCount : nat
}.

(** [window.ethereum ?? await detectEthereumProvider()] *)
Definition injectedProvider {W} (E : Env W) : M W JsVal :=
  fun s =>
    if nullish (window_ethereum E (world s)) then ask (detectEthereumProvider E) s
    else ret (window_ethereum E (world s)) s.

(** The property names every plain object inherits from
    [Object.prototype]. *)
Definition objectPrototype : list string :=
  ["constructor"; "hasOwnProperty"; "isPrototypeOf"; "propertyIsEnumerable";
   "toLocaleString"; "toString"; "valueOf"; "__proto__";
   "__defineGetter__"; "__defineSetter__"; "__lookupGetter__"; "__lookupSetter__"].

Definition inherited (k : string) : bool := includes k objectPrototype.

(** [cache[k]] on a cache object: an own property if there is one, else
    what the prototype has under that name; [None] is [undefined].  The
    own properties only ever are [Contract] instances and the inherited
    ones are functions or objects, so a value found is never nullish. *)
Definition cached (cache : gmap string Contract) (k : string) : option Wrapped :=
  match cache !! k with
  | Some c => Some (Built c)
  | None => if inherited k then Some (Inherited k) else None
  end.

(** [new Contract(target, abi, runner)] *)
Definition newContract {W} (E : Env W) (target : string) (abi runner : JsVal)
  : M W Contract :=
  match newContractThrows E target abi runner with
  | Some e => throw e
  | None => ret (mkContract target abi runner)
  end.

(** [(this.#signerContract[contractAddress] ??=
      new Contract(contractAddress, ABI, this.#signer))]: what the cache
    has under the address if that is not nullish, else a new instance,
    which is stored. *)
Definition signerContractFor {W} (E : Env W) (contractAddress : string) (ABI : JsVal)
  : M W Wrapped :=
  let* st := get in
  match cached (h_signerContract st) contractAddress with
  | Some c => ret c
  | None =>
      let* c := newContract E contractAddress ABI (h_signer st) in
      modify (set_signerContract (<[contractAddress := c]> (h_signerContract st))) ;;;
      ret (Built c)
  end.

(** [(this.#providerContract[contractAddress] ??=
      new Contract(contractAddress, ABI, this.#provider))] *)
Definition providerContractFor {W} (E : Env W) (contractAddress : string) (ABI : JsVal)
  : M W Wrapped :=
  let* st := get in
  match cached (h_providerContract st) contractAddress with
  | Some c => ret c
  | None =>
      let* c := newContract E contractAddress ABI (h_provider st) in
      modify (set_providerContract (<[contractAddress := c]> (h_providerContract st))) ;;;
      ret (Built c)
  end.

Definition requiredOptions : list string :=
  ["chain_id"; "chain_name"; "currency_name"; "currency_symbol"; "rpc_url"].

(** ** Version 1: [src/index.js] *)

Module V1.
Section Connector.
Context {W : Type} (E : Env W).

Definition provider (st : State) : JsVal := h_provider st.
Definition signer (st : State) : JsVal := h_signer st.
Definition account (st : State) : JsVal := coalesce (h_account st) VUndefined.
Definition currentChainId (st : State) : JsVal := h_currentChainId st.
Definition isCorrectNetwork (st : State) : bool :=
  strictEq (h_currentChainId st)
           (coalesce (optChain (h_shouldNetworkData st) "chain_id") (VNum 0%Z)).
Definition isWalletConnected (st : State) : bool :=
  negb (strictEq (h_account st) VNull || strictEq (h_account st) VUndefined).

Definition checkShouldNetworkDataIsCorrect : M W unit :=
  let* st := get in
  (if strictEq (h_shouldNetworkData st) VUndefined || strictEq (h_shouldNetworkData st) VNull
   then error "You should initialize EthersWalletConnector with chainData in first parameter."
   else ret tt) ;;;
  forEach (fun option =>
             let* st := get in
             let* v := member (h_shouldNetworkData st) option in
             if strictEq v VUndefined
             then error (String.append "'" (String.append option "' option is required in 'shouldNetworkData'."))
             else ret tt)
          requiredOptions.

Definition destroy : M W JsVal :=
  modify (fun st =>
            mkState (h_isSetup st) VUndefined VUndefined false VUndefined VUndefined
                    VUndefined VUndefined VUndefined VUndefined ∅ ∅) ;;;
  ret VUndefined.

Definition disconnectWallet : M W JsVal :=
  let* st := get in
  if isWalletConnected st then
    modify (set_account VUndefined) ;;;
    emit "walletDisconnected" [] ;;;
    ret VUndefined
  else ret VUndefined.

Definition getCurrentAccounts : M W Accounts :=
  request "eth_accounts" (eth_accounts E).

Definition requestConnect : M W bool :=
  tryCatch
    (request "wallet_requestPermissions" (wallet_requestPermissions E) ;;; ret true)
    (fun _ => ret false).

(** [this.#currentChainId = toNumber(await request({ method: 'eth_chainId' }))] *)
Definition readChainId : M W unit :=
  let* raw := request "eth_chainId" (eth_chainId E) in
  let* n := settle (toNumber E raw) in
  modify (set_currentChainId (VNum n)).

(** The [params] array of [#addOrSwitchNetwork] (its single element). *)
Definition addChainParams : M W AddChainParams :=
  let* st := get in
  let d := h_shouldNetworkData st in
  let* chain_id := member d "chain_id" in
  let* hex := settle (toBeHex E chain_id) in
  let* chain_name := member d "chain_name" in
  let* rpc_url := member d "rpc_url" in
  let* currency_name := member d "currency_name" in
  let* currency_symbol := member d "currency_symbol" in
  let* currency_decimals := member d "currency_decimals" in
  let* block_explorer_url := member d "block_explorer_url" in
  ret (mkAddChainParams hex chain_name [rpc_url]
         (mkNativeCurrency currency_name currency_symbol
            (coalesce currency_decimals (VNum 18%Z)))
         (if negb (strictEq (coalesce block_explorer_url (VStr "")) (VStr ""))
          then Some [block_explorer_url] else None)).

Definition addOrSwitchNetwork : M W bool :=
  let* params := addChainParams in
  let* added :=
    tryCatch
      (request "wallet_addEthereumChain" (wallet_addEthereumChain E params) ;;; ret true)
      (fun _ => emit "failedToAddnetwork" [] ;;; ret false) in
  if negb added then ret false
  else
    readChainId ;;;
    let* st := get in
    ret (isCorrectNetwork st).

(** The call [this.disconnectWallet()] inside is not awaited; this
    version's [disconnectWallet] has no await, so it has run to its end
    when the call returns. *)
Definition detectNetwork (askUserToSwitch : bool) : M W bool :=
  readChainId ;;;
  let* st := get in
  if negb (isCorrectNetwork st) then
    if askUserToSwitch then
      let* isSwitched := addOrSwitchNetwork in
      ret isSwitched
    else
      detached (disconnectWallet ;;; ret tt) ;;;
      ret false
  else ret true.

(** The second half of the [reconnect] closure: ask for permission and
    read the accounts again. *)
Definition attemptConnect (loc : Locals) : M W (bool * Locals) :=
  let* connected := requestConnect in
  if negb connected then
    emit "failedToConnectWallet" [] ;;;
    ret (false, mkLocals AccNull (tryConnectCount loc))
  else
    let* accs := getCurrentAccounts in
    ret (true, mkLocals accs (S (tryConnectCount loc))).

(** The first half of the [reconnect] closure, for [tryConnectCount > 0]:
    the value of [shouldRetry]. *)
Definition shouldRetryNow (loc : Locals) : M W bool :=
  let shouldRetry := true in
  let shouldRetry := if 3 <? tryConnectCount loc then false else shouldRetry in
  if shouldRetry then
    let* st := get in
    if isFunction (h_execBeforeReconnect st) then
      let* newShouldRetry := call E (h_execBeforeReconnect st) [] in
      match newShouldRetry with
      | VBool b => ret b
      | _ => ret true
      end
    else ret shouldRetry
  else ret shouldRetry.

Definition reconnect (failEventName : string) (loc : Locals) : M W (bool * Locals) :=
  if 0 <? tryConnectCount loc then
    let* shouldRetry := shouldRetryNow loc in
    if negb shouldRetry then
      emit failEventName [] ;;;
      ret (false, mkLocals AccNull (tryConnectCount loc))
    else attemptConnect loc
  else attemptConnect loc.

(** [! accounts.map(upper).includes(this.#shouldWalletAddress.toUpperCase())] *)
Definition allowedMissing (a : Accounts) : M W bool :=
  let* uppers := upperAccounts a in
  let* st := get in
  let* wanted := upperOf (h_shouldWalletAddress st) in
  ret (negb (includes wanted uppers)).

(** [accounts.length <= 0] *)
Definition noAccounts (a : Accounts) : M W bool :=
  let* n := lengthOf a in
  ret (n <=? 0).

(** [while (cond(accounts)) { if (! await reconnect(failEventName)) break; }] *)
Fixpoint retryLoop (fuel : nat) (cond : Accounts -> M W bool)
         (failEventName : string) (loc : Locals) : M W Locals :=
  match fuel with
  | 0 => diverge
  | S fuel' =>
      let* again := cond (accounts loc) in
      if again then
        let* r := reconnect failEventName loc in
        if fst r then retryLoop fuel' cond failEventName (snd r)
        else ret (snd r)
      else ret loc
  end.

(** The body of [if (accounts !== null) { ... }]. *)
Definition adoptAccount (a : Accounts) : M W unit :=
  let* st := get in
  let* account_index :=
    (if negb (strictEq (h_shouldWalletAddress st) VNull) then
       let* uppers := upperAccounts a in
       let* wanted := upperOf (h_shouldWalletAddress st) in
       ret (indexOf wanted uppers)
     else ret (Some 0)) in
  let* acct := elementAt a account_index in
  modify (set_account acct) ;;;
  let* st := get in
  let* sg := (if nullish (h_provider st) then throw TypeError
              else ask (getSigner E (h_account st))) in
  modify (set_signer sg) ;;;
  let* st := get in
  emit "walletConnected" [h_account st].

Definition connectWallet (fuel : nat) (forceNewConnect : JsVal) : M W JsVal :=
  let forceNewConnect := defaultTo forceNewConnect (VBool false) in
  let* isCorrectNetwork := detectNetwork true in
  if negb isCorrectNetwork then ret VUndefined
  else
    let* forceNewConnect :=
      (if isFunction forceNewConnect then call E forceNewConnect []
       else ret forceNewConnect) in
    let* goOn :=
      (if truthy forceNewConnect then
         let* connected := requestConnect in
         if negb connected then emit "failedToConnectWallet" [] ;;; ret false
         else ret true
       else ret true) in
    if negb goOn then ret VUndefined
    else
      let* accs := getCurrentAccounts in
      let accs := if negb (isArray accs) then AccArray [] else accs in
      let loc := mkLocals accs 0 in
      let* st := get in
      let* loc :=
        (if negb (strictEq (h_shouldWalletAddress st) VNull)
         then retryLoop fuel allowedMissing "invalidWallet" loc
         else retryLoop fuel noAccounts "failedToConnectWallet" loc) in
      (match accounts loc with
       | AccNull => ret tt
       | a => adoptAccount a
       end) ;;;
      gets h_account.

(** The [chainChanged] handler registered by [init]. *)
Definition onChainChanged : M W unit :=
  let* isCorrectNetwork := detectNetwork false in
  emit "networkSwitched" [VBool isCorrectNetwork].

(** The provider fires [chainChanged]. *)
Definition chainChanged : M W unit :=
  fun s => runListeners (chainListeners s) onChainChanged s.

Definition init (fuel : nat)
           (shouldNetworkData shouldWalletAddress execBeforeReconnect autoConnect : JsVal)
  : M W JsVal :=
  let shouldWalletAddress := defaultTo shouldWalletAddress VNull in
  let execBeforeReconnect := defaultTo execBeforeReconnect VNull in
  let autoConnect := defaultTo autoConnect (VBool true) in
  let* st := get in
  (if h_isInitalized st then error "EthersWalletConnector is already initialized."
   else ret tt) ;;;
  modify (set_shouldNetworkData shouldNetworkData) ;;;
  modify (set_shouldWalletAddress shouldWalletAddress) ;;;
  modify (set_execBeforeReconnect execBeforeReconnect) ;;;
  let* autoConnect :=
    (if isFunction autoConnect then call E autoConnect [] else ret autoConnect) in
  checkShouldNetworkDataIsCorrect ;;;
  let* ethereum := injectedProvider E in
  modify (set_browserProvider ethereum) ;;;
  if truthy ethereum then
    modify (set_provider (BrowserProvider ethereum)) ;;;
    (if truthy autoConnect then connectWallet fuel VUndefined ;;; ret tt
     else detectNetwork true ;;; ret tt) ;;;
    addChainChangedListener ;;;
    modify (set_isInitalized true) ;;;
    emit "walletConnectorInitialized" [] ;;;
    ret VUndefined
  else
    emit "browserProviderNotFound" [] ;;;
    error "You should install MetaMask.".

(** The object returned by [contract]: it closes over the local variable
    [contract]. *)
Record Wrapper : Type := mkWrapper { contract_ : Wrapped }.

Definition contract (fuel : nat) (contractAddress : string) (ABI isSigner : JsVal)
  : M W Wrapper :=
  let isSigner := defaultTo isSigner (VBool false) in
  let* st := get in
  (if negb (isWalletConnected st) then connectWallet fuel VUndefined ;;; ret tt
   else ret tt) ;;;
  let* c :=
    (if truthy isSigner then signerContractFor E contractAddress ABI
     else providerContractFor E contractAddress ABI) in
  ret (mkWrapper c).

(** [wrapper.call(methodName, methodParams, callParams, onError)] *)
Definition call_ (w : Wrapper) (methodName : string) (methodParams : list JsVal)
           (callParams onError : JsVal) : M W JsVal :=
  tryCatch
    (ask (contractMethod E (contract_ w) methodName methodParams callParams))
    (fun e =>
       if isFunction onError then
         let* r := call E onError [e] in
         adopt E (coalesce r VNull)
       else
         log (ConsoleLog e) ;;;
         ret VNull).

(** [wrapper.send(methodName, methodParams, sendParams)] *)
Definition send (w : Wrapper) (methodName : string) (methodParams : list JsVal)
           (sendParams : JsVal) : M W JsVal :=
  tryCatch
    (let* txn := ask (contractMethod E (contract_ w) methodName methodParams sendParams) in
     let* receipt := ask (txnWait E txn) in
     ret receipt)
    (fun e =>
       log (ConsoleLog e) ;;;
       adopt E (coalesce (optChain (optChain e "info") "error")
                         (coalesce (optChain e "innerError") e))).

End Connector.
End V1.

(** ** Version 2: the later revision *)

(** How the [try]/[catch] of [#addOrSwitchNetwork] is left: by falling
    through (with the value of [isAddingNewNetwork]) or by [return]. *)
Inductive Flow : Type :=
| Continue (isAddingNewNetwork : bool)
| Return (b : bool).

Module V2.
Section Connector.
Context {W : Type} (E : Env W).

Definition provider (st : State) : JsVal := h_provider st.
Definition signer (st : State) : JsVal := h_signer st.
Definition account (st : State) : JsVal := coalesce (h_account st) VUndefined.
Definition currentChainId (st : State) : JsVal := h_currentChainId st.
Definition isCorrectNetwork (st : State) : bool :=
  strictEq (h_currentChainId st)
           (coalesce (optChain (h_shouldNetworkData st) "chain_id") (VNum 0%Z)).
Definition isWalletConnected (st : State) : bool :=
  negb (strictEq (h_account st) VNull || strictEq (h_account st) VUndefined).

Definition destroy : M W JsVal :=
  modify (fun _ =>
            mkState false VUndefined VUndefined false VUndefined VUndefined
                    VUndefined VUndefined VUndefined VUndefined ∅ ∅) ;;;
  ret this.

Definition setup (shouldNetworkData shouldWalletAddress execBeforeReconnect : JsVal)
  : M W JsVal :=
  let shouldWalletAddress := defaultTo shouldWalletAddress VNull in
  let execBeforeReconnect := defaultTo execBeforeReconnect VNull in
  destroy ;;;
  modify (set_shouldNetworkData shouldNetworkData) ;;;
  modify (set_shouldWalletAddress shouldWalletAddress) ;;;
  modify (set_execBeforeReconnect execBeforeReconnect) ;;;
  modify (set_isSetup true) ;;;
  ret this.

Definition checkShouldNetworkDataIsCorrect : M W unit :=
  let* st := get in
  (if strictEq (h_shouldNetworkData st) VUndefined || strictEq (h_shouldNetworkData st) VNull
   then error "You should initialize EthersWalletConnector with chainData in first parameter."
   else ret tt) ;;;
  forEach (fun option =>
             let* st := get in
             let* v := member (h_shouldNetworkData st) option in
             if strictEq v VUndefined
             then error (String.append "'" (String.append option "' option is required in 'shouldNetworkData'."))
             else ret tt)
          requiredOptions.

Definition checkIfAllowed : M W bool :=
  let* st := get in
  if negb (truthy (h_browserProvider st)) then
    emit "walletProviderNotFound" [] ;;;
    error "Wallet provider not found."
  else ret true.

Definition disconnectWallet : M W JsVal :=
  let* allowed := checkIfAllowed in
  if negb allowed then ret VUndefined
  else
    let* st := get in
    if isWalletConnected st then
      tryCatch
        (request "wallet_revokePermissions" (wallet_revokePermissions E) ;;;
         modify (set_account VUndefined) ;;;
         emit "walletDisconnected" [] ;;;
         ret VUndefined)
        (fun _ => ret (VBool false))
    else ret VUndefined.

(** [this.disconnectWallet()] called without [await]: the body runs up to
    its first await, where the revoke request has been sent; what follows
    the await is kept in [suspended] with the answer to that request.  The
    model takes the wallet to answer in a later turn of the event loop, as
    a wallet that asks its user does; [resumeDisconnectWallet] is that
    turn.  With a promise that is settled already, the continuation would
    run before the next step of the caller instead. *)
Definition sendRevokeAndSuspend : M W unit :=
  fun s =>
    if nullish (h_browserProvider (conn s)) then (Throw TypeError, s, [])
    else
      let (r, w) := wallet_revokePermissions E (world s) in
      (Ret tt,
       mkSys (conn s) w (chainListeners s) (timers s) (suspended s ++ [r]),
       [Request "wallet_revokePermissions"]).

Definition startDisconnectWallet : M W unit :=
  detached
    (let* allowed := checkIfAllowed in
     if negb allowed then ret tt
     else
       let* st := get in
       if isWalletConnected st then sendRevokeAndSuspend else ret tt).

(** The event loop resumes the oldest suspended [disconnectWallet]. *)
Definition resumeDisconnectWallet : M W unit :=
  fun s =>
    match suspended s with
    | [] => (Ret tt, s, [])
    | r :: rest =>
        detached
          (match r with
           | Resolve _ => modify (set_account VUndefined) ;;; emit "walletDisconnected" []
           | Reject _ => ret tt
           end)
          (mkSys (conn s) (world s) (chainListeners s) (timers s) rest)
    end.

Definition getCurrentAccounts : M W Accounts :=
  request "eth_accounts" (eth_accounts E).

Definition requestConnect : M W bool :=
  tryCatch
    (request "wallet_requestPermissions" (wallet_requestPermissions E) ;;; ret true)
    (fun _ => ret false).

(** [this.#currentChainId = toNumber(await request({ method: 'eth_chainId' }))] *)
Definition readChainId : M W unit :=
  let* raw := request "eth_chainId" (eth_chainId E) in
  let* n := settle (toNumber E raw) in
  modify (set_currentChainId (VNum n)).

(** The [params] array of [#addOrSwitchNetwork] (its single element). *)
Definition addChainParams : M W AddChainParams :=
  let* st := get in
  let d := h_shouldNetworkData st in
  let* chain_id := member d "chain_id" in
  let* hex := settle (toBeHex E chain_id) in
  let* chain_name := member d "chain_name" in
  let* rpc_url := member d "rpc_url" in
  let* currency_name := member d "currency_name" in
  let* currency_symbol := member d "currency_symbol" in
  let* currency_decimals := member d "currency_decimals" in
  let* block_explorer_url := member d "block_explorer_url" in
  ret (mkAddChainParams hex chain_name [rpc_url]
         (mkNativeCurrency currency_name currency_symbol
            (coalesce currency_decimals (VNum 18%Z)))
         (if negb (strictEq (coalesce block_explorer_url (VStr "")) (VStr ""))
          then Some [block_explorer_url] else None)).

Definition addOrSwitchNetwork : M W bool :=
  let* params := addChainParams in
  let* flow :=
    tryCatch
      (let* st := get in
       let* chain_id := member (h_shouldNetworkData st) "chain_id" in
       let* hex := settle (toBeHex E chain_id) in
       request "wallet_switchEthereumChain" (wallet_switchEthereumChain E hex) ;;;
       ret (Continue false))
      (fun e =>
         let* code := member e "code" in
         if strictEq code (VNum 4902%Z) then
           tryCatch
             (request "wallet_addEthereumChain" (wallet_addEthereumChain E params) ;;;
              ret (Continue true))
             (fun e =>
                let* code := member e "code" in
                if negb (strictEq code (VNum (-32603)%Z)) then
                  emit "failedToAddNetwork" [] ;;;
                  ret (Return false)
                else ret (Continue true))
         else
           emit "failedToSwitchNetwork" [] ;;;
           ret (Return false)) in
  match flow with
  | Return b => ret b
  | Continue isAddingNewNetwork =>
      let* previousChainId := gets h_currentChainId in
      readChainId ;;;
      let* st := get in
      let isCorrectNetwork := isCorrectNetwork st in
      (if negb isAddingNewNetwork then
         if negb (strictEq previousChainId (h_currentChainId st)) then
           let* chain_name := member (h_shouldNetworkData st) "chain_name" in
           emit "networkSwitched" [VBool isCorrectNetwork; chain_name]
         else ret tt
       else ret tt) ;;;
      ret isCorrectNetwork
  end.

Definition detectNetwork (askUserToSwitch : bool) : M W bool :=
  readChainId ;;;
  let* st := get in
  if negb (isCorrectNetwork st) then
    if askUserToSwitch then
      let* isSwitched := addOrSwitchNetwork in
      ret isSwitched
    else
      startDisconnectWallet ;;;
      ret false
  else ret true.

(** The second half of the [reconnect] closure: ask for permission and
    read the accounts again. *)
Definition attemptConnect (loc : Locals) : M W (bool * Locals) :=
  let* connected := requestConnect in
  if negb connected then
    emit "failedToConnectWallet" [] ;;;
    ret (false, mkLocals AccNull (tryConnectCount loc))
  else
    let* accs := getCurrentAccounts in
    ret (true, mkLocals accs (S (tryConnectCount loc))).

(** The first half of the [reconnect] closure, for [tryConnectCount > 0]:
    the value of [shouldRetry]. *)
Definition shouldRetryNow (loc : Locals) : M W bool :=
  let shouldRetry := true in
  let shouldRetry := if 3 <? tryConnectCount loc then false else shouldRetry in
  if shouldRetry then
    let* st := get in
    if isFunction (h_execBeforeReconnect st) then
      let* newShouldRetry := call E (h_execBeforeReconnect st) [] in
      match newShouldRetry with
      | VBool b => ret b
      | _ => ret true
      end
    else ret shouldRetry
  else ret shouldRetry.

Definition reconnect (failEventName : string) (failEventArgs : list JsVal)
           (loc : Locals) : M W (bool * Locals) :=
  if 0 <? tryConnectCount loc then
    let* shouldRetry := shouldRetryNow loc in
    if negb shouldRetry then
      emit failEventName failEventArgs ;;;
      ret (false, mkLocals AccNull (tryConnectCount loc))
    else attemptConnect loc
  else attemptConnect loc.

(** [! accounts.map(upper).includes(this.#shouldWalletAddress.toUpperCase())] *)
Definition allowedMissing (a : Accounts) : M W bool :=
  let* uppers := upperAccounts a in
  let* st := get in
  let* wanted := upperOf (h_shouldWalletAddress st) in
  ret (negb (includes wanted uppers)).

(** [accounts.length <= 0] *)
Definition noAccounts (a : Accounts) : M W bool :=
  let* n := lengthOf a in
  ret (n <=? 0).

(** [while (cond(accounts)) { if (! await reconnect(name, ...args)) break; }];
    the arguments of [reconnect] are evaluated anew at every call. *)
Fixpoint retryLoop (fuel : nat) (cond : Accounts -> M W bool)
         (failEventName : string) (failEventArgs : M W (list JsVal))
         (loc : Locals) : M W Locals :=
  match fuel with
  | 0 => diverge
  | S fuel' =>
      let* again := cond (accounts loc) in
      if again then
        let* args := failEventArgs in
        let* r := reconnect failEventName args loc in
        if fst r then retryLoop fuel' cond failEventName failEventArgs (snd r)
        else ret (snd r)
      else ret loc
  end.

(** The body of [if (accounts !== null) { ... }]. *)
Definition adoptAccount (a : Accounts) : M W unit :=
  let* st := get in
  let* account_index :=
    (if negb (strictEq (h_shouldWalletAddress st) VNull) then
       let* uppers := upperAccounts a in
       let* wanted := upperOf (h_shouldWalletAddress st) in
       ret (indexOf wanted uppers)
     else ret (Some 0)) in
  let* acct := elementAt a account_index in
  modify (set_account acct) ;;;
  let* st := get in
  let* sg := (if nullish (h_provider st) then throw TypeError
              else ask (getSigner E (h_account st))) in
  modify (set_signer sg) ;;;
  let* st := get in
  emit "walletConnected" [h_account st].

Definition connectWallet (fuel : nat) (forceNewConnect : JsVal) : M W JsVal :=
  let forceNewConnect := defaultTo forceNewConnect (VBool false) in
  let* allowed := checkIfAllowed in
  if negb allowed then ret VUndefined
  else
    let* isCorrectNetwork := detectNetwork true in
    if negb isCorrectNetwork then ret VUndefined
    else
      let* forceNewConnect :=
        (if isFunction forceNewConnect then call E forceNewConnect []
         else ret forceNewConnect) in
      let* goOn :=
        (if truthy forceNewConnect then
           let* connected := requestConnect in
           if negb connected then emit "failedToConnectWallet" [] ;;; ret false
           else ret true
         else ret true) in
      if negb goOn then ret VUndefined
      else
        let* accs := getCurrentAccounts in
        let accs := if negb (isArray accs) then AccArray [] else accs in
        let loc := mkLocals accs 0 in
        let* st := get in
        let* loc :=
          (if negb (strictEq (h_shouldWalletAddress st) VNull)
           then retryLoop fuel allowedMissing "invalidWallet"
                  (let* st := get in ret [h_shouldWalletAddress st]) loc
           else retryLoop fuel noAccounts "failedToConnectWallet" (ret []) loc) in
        (match accounts loc with
         | AccNull => ret tt
         | a => adoptAccount a
         end) ;;;
        gets h_account.

(** The [chainChanged] handler that [init] registers through a timer. *)
Definition onChainChanged : M W unit :=
  let* isCorrectNetwork := detectNetwork false in
  let* st := get in
  let* chain_name := member (h_shouldNetworkData st) "chain_name" in
  emit "networkSwitched" [VBool isCorrectNetwork; chain_name].

(** The provider fires [chainChanged]. *)
Definition chainChanged : M W unit :=
  fun s => runListeners (chainListeners s) onChainChanged s.

(** The oldest pending timer fires. *)
Definition fireTimer : M W unit :=
  fun s =>
    match timers s with
    | [] => (Ret tt, s, [])
    | RegisterChainChanged :: rest =>
        detached addChainChangedListener
                 (mkSys (conn s) (world s) (chainListeners s) rest (suspended s))
    end.

Definition init (fuel : nat) (autoConnect : JsVal) : M W JsVal :=
  let autoConnect := defaultTo autoConnect (VBool true) in
  let* st := get in
  (if negb (h_isSetup st) then error "You should setup EthersWalletConnector first."
   else ret tt) ;;;
  (if h_isInitalized st then error "EthersWalletConnector is already initialized."
   else ret tt) ;;;
  let* autoConnect :=
    (if isFunction autoConnect then call E autoConnect [] else ret autoConnect) in
  checkShouldNetworkDataIsCorrect ;;;
  let* ethereum := injectedProvider E in
  modify (set_browserProvider ethereum) ;;;
  if truthy ethereum then
    modify (set_provider (BrowserProvider ethereum)) ;;;
    (if negb (truthy autoConnect) then detectNetwork true ;;; ret tt else ret tt) ;;;
    setTimeout RegisterChainChanged ;;;
    modify (set_isInitalized true) ;;;
    emit "walletConnectorInitialized" [] ;;;
    (if truthy autoConnect then connectWallet fuel VUndefined ;;; ret tt else ret tt) ;;;
    ret VUndefined
  else
    emit "walletProviderNotFound" [] ;;;
    error "Wallet provider not found.".

(** The object returned by [contract]: it closes over the local variables
    [contractCaller] and [contractSigner]. *)
Record Wrapper : Type := mkWrapper {
  contractCaller : Wrapped;
  contractSigner : Wrapped
}.

(** [None] is the [undefined] of the bare [return]. *)
Definition contract (fuel : nat) (contractAddress : string) (ABI : JsVal)
  : M W (option Wrapper) :=
  let* allowed := checkIfAllowed in
  if negb allowed then ret None
  else
    let* st := get in
    (if negb (isWalletConnected st) then connectWallet fuel VUndefined ;;; ret tt
     else ret tt) ;;;
    let* contractCaller := providerContractFor E contractAddress ABI in
    let* contractSigner := signerContractFor E contractAddress ABI in
    ret (Some (mkWrapper contractCaller contractSigner)).

(** [wrapper.call(methodName, methodParams, callParams, onError)] *)
Definition call_ (w : Wrapper) (methodName : string) (methodParams : list JsVal)
           (callParams onError : JsVal) : M W JsVal :=
  tryCatch
    (ask (contractMethod E (contractCaller w) methodName methodParams callParams))
    (fun e =>
       if isFunction onError then
         let* r := call E onError [e] in
         adopt E (coalesce r VNull)
       else
         log (ConsoleLog e) ;;;
         ret VNull).

(** [wrapper.signedCall(methodName, methodParams, callParams, onError)] *)
Definition signedCall (w : Wrapper) (methodName : string) (methodParams : list JsVal)
           (callParams onError : JsVal) : M W JsVal :=
  tryCatch
    (ask (contractMethod E (contractSigner w) methodName methodParams callParams))
    (fun e =>
       if isFunction onError then
         let* r := call E onError [e] in
         adopt E (coalesce r VNull)
       else
         log (ConsoleLog e) ;;;
         ret VNull).

(** [wrapper.send(methodName, methodParams, sendParams)] *)
Definition send (w : Wrapper) (methodName : string) (methodParams : list JsVal)
           (sendParams : JsVal) : M W JsVal :=
  tryCatch
    (let* txn := ask (contractMethod E (contractSigner w) methodName methodParams sendParams) in
     let* receipt := ask (txnWait E txn) in
     ret receipt)
    (fun e =>
       log (ConsoleLog e) ;;;
       adopt E (coalesce (optChain (optChain e "info") "error")
                         (coalesce (optChain e "innerError") e))).

End Connector.
End V2.

(** ** Runs, operations and sample environments *)

Definition outcomeOf {W A} (r : Outcome A * Sys W * list Action) : Outcome A := fst (fst r).
Definition sysOf {W A} (r : Outcome A * Sys W * list Action) : Sys W := snd (fst r).
Definition traceOf {W A} (r : Outcome A * Sys W * list Action) : list Action := snd r.

(** Forgetting the value a computation returns. *)
Definition void {W A} (m : M W A) : M W unit := m ;;; ret tt.

(** A system in which nothing has happened yet. *)
Definition freshSys {W} (w : W) : Sys W := mkSys newState w 0 [] [].

(** The same system with other private fields. *)
Definition withConn {W} (st : State) (s : Sys W) : Sys W :=
  mkSys st (world s) (chainListeners s) (timers s) (suspended s).

(** The same system in another world state. *)
Definition withWorld {W} (w : W) (s : Sys W) : Sys W :=
  mkSys (conn s) w (chainListeners s) (timers s) (suspended s).

(** What can happen to a version 1 connector: a call of a public method,
    a call of a method of a wrapper it returned, or a provider event. *)
Inductive Op1 : Type :=
| Init1 (shouldNetworkData shouldWalletAddress execBeforeReconnect autoConnect : JsVal)
| Destroy1
| ConnectWallet1 (forceNewConnect : JsVal)
| DisconnectWallet1
| Contract1 (contractAddress : string) (ABI isSigner : JsVal)
| WrapperCall1 (w : V1.Wrapper) (methodName : string) (methodParams : list JsVal)
               (callParams onError : JsVal)
| WrapperSend1 (w : V1.Wrapper) (methodName : string) (methodParams : list JsVal)
               (sendParams : JsVal)
| ChainChanged1.

Definition exec1 {W} (E : Env W) (fuel : nat) (op : Op1) : M W unit :=
  match op with
  | Init1 d a c auto => void (V1.init E fuel d a c auto)
  | Destroy1 => void V1.destroy
  | ConnectWallet1 f => void (V1.connectWallet E fuel f)
  | DisconnectWallet1 => void V1.disconnectWallet
  | Contract1 addr ABI isSigner => void (V1.contract E fuel addr ABI isSigner)
  | WrapperCall1 w m ps cp onError => void (V1.call_ E w m ps cp onError)
  | WrapperSend1 w m ps sp => void (V1.send E w m ps sp)
  | ChainChanged1 => V1.chainChanged E
  end.

(** What can happen to a version 2 connector; the event loop can also
    fire a timer or resume a suspended [disconnectWallet]. *)
Inductive Op2 : Type :=
| Setup2 (shouldNetworkData shouldWalletAddress execBeforeReconnect : JsVal)
| Init2 (autoConnect : JsVal)
| Destroy2
| ConnectWallet2 (forceNewConnect : JsVal)
| DisconnectWallet2
| Contract2 (contractAddress : string) (ABI : JsVal)
| WrapperCall2 (w : V2.Wrapper) (methodName : string) (methodParams : list JsVal)
               (callParams onError : JsVal)
| WrapperSignedCall2 (w : V2.Wrapper) (methodName : string) (methodParams : list JsVal)
                     (callParams onError : JsVal)
| WrapperSend2 (w : V2.Wrapper) (methodName : string) (methodParams : list JsVal)
               (sendParams : JsVal)
| ChainChanged2
| FireTimer2
| Resume2.

Definition exec2 {W} (E : Env W) (fuel : nat) (op : Op2) : M W unit :=
  match op with
  | Setup2 d a c => void (V2.setup d a c)
  | Init2 auto => void (V2.init E fuel auto)
  | Destroy2 => void V2.destroy
  | ConnectWallet2 f => void (V2.connectWallet E fuel f)
  | DisconnectWallet2 => void (V2.disconnectWallet E)
  | Contract2 addr ABI => void (V2.contract E fuel addr ABI)
  | WrapperCall2 w m ps cp onError => void (V2.call_ E w m ps cp onError)
  | WrapperSignedCall2 w m ps cp onError => void (V2.signedCall E w m ps cp onError)
  | WrapperSend2 w m ps sp => void (V2.send E w m ps sp)
  | ChainChanged2 => V2.chainChanged E
  | FireTimer2 => V2.fireTimer
  | Resume2 => V2.resumeDisconnectWallet
  end.

(** Operations that empty the contract caches: [destroy], and in version 2
    also [setup], which calls it. *)
Definition resets1 (op : Op1) : bool :=
  match op with Destroy1 => true | _ => false end.

Definition resets2 (op : Op2) : bool :=
  match op with Destroy2 | Setup2 _ _ _ => true | _ => false end.

(** Running operations one after the other, whatever each one returns. *)
Fixpoint runAll {W Op} (exec : Op -> M W unit) (ops : list Op) (s : Sys W) : Sys W :=
  match ops with
  | [] => s
  | op :: rest => runAll exec rest (sysOf (exec op s))
  end.

(** The number of [wallet_requestPermissions] requests in a trace. *)
Definition isPermissionRequest (a : Action) : bool :=
  match a with
  | Request method => String.eqb method "wallet_requestPermissions"
  | _ => false
  end.

Definition permissionRequests (t : list Action) : nat :=
  length (List.filter isPermissionRequest t).

(** Whether an action is the emission of the event [name]. *)
Definition emits (name : string) (a : Action) : bool :=
  match a with
  | Emit n _ => String.eqb n name
  | _ => false
  end.

(** The events of a trace, in order. *)
Definition events (t : list Action) : list Action :=
  List.filter (fun a => match a with Emit _ _ => true | _ => false end) t.

(** A provider whose answers never change: it is (or is not) injected as
    [window.ethereum], sits on chain [chain], reports [accts], and settles
    every permission, revocation, add-chain and switch-chain request the
    same way; every caller function returns [callback].  [toNumber] and
    [toBeHex] accept integral numbers only. *)
Definition steadyEnv (ethereum : JsVal) (chain : Z) (accts : Accounts)
           (permission revoke addChain switchChain : Reply unit)
           (callback : Reply JsVal) : Env unit :=
  {| window_ethereum := fun _ => ethereum;
     detectEthereumProvider := fun w => (Resolve VNull, w);
     eth_chainId := fun w => (Resolve (VNum chain), w);
     eth_accounts := fun w => (Resolve accts, w);
     wallet_requestPermissions := fun w => (permission, w);
     wallet_revokePermissions := fun w => (revoke, w);
     wallet_addEthereumChain := fun _ w => (addChain, w);
     wallet_switchEthereumChain := fun _ w => (switchChain, w);
     toNumber := fun v => match v with VNum z => Resolve z | _ => Reject TypeError end;
     toBeHex := fun v => match v with
                         | VNum z => if (0 <=? z)%Z then Resolve (HexString.of_Z z)
                                     else Reject TypeError
                         | _ => Reject TypeError
                         end;
     getSigner := fun a w => (Resolve (VObj [("address", a)]), w);
     newContractThrows := fun _ _ _ => None;
     contractMethod := fun _ _ _ _ w => (Reject (VObj [("code", VStr "CALL_EXCEPTION")]), w);
     txnWait := fun _ w => (Resolve VUndefined, w);
     callFunction := fun _ _ w => (callback, w);
     promiseOf := fun _ => None |}.

(** The injected provider object of the sample runs. *)
Definition metamask : JsVal := VObj [("isMetaMask", VBool true)].

(** The network descriptor of the README (BNB Smart Chain Testnet). *)
Definition bscTestnet : JsVal :=
  VObj [("chain_id", VNum 97%Z);
        ("chain_name", VStr "BNB Smart Chain Testnet");
        ("currency_name", VStr "BNB");
        ("currency_symbol", VStr "tBNB");
        ("rpc_url", VStr "https://data-seed-prebsc-1-s3.bnbchain.org:8545");
        ("block_explorer_url", VStr "https://testnet.bscscan.com")].

(** A connector configured for [bscTestnet] that holds the provider but
    has no account: the state after [init] without auto-connect.
    [allowed] is the allowed wallet address and [cb] the confirm callback. *)
Definition readyState (allowed cb : JsVal) : State :=
  mkState true bscTestnet allowed true (BrowserProvider metamask) metamask
          VUndefined VUndefined (VNum 97%Z) cb ∅ ∅.

Definition readySys (allowed cb : JsVal) : Sys unit :=
  mkSys (readyState allowed cb) tt 1 [] [].

(** The presence check in the words of the specification: the descriptor
    is neither [null] nor [undefined], and none of the five named fields is
    [undefined]. *)
Definition descriptorPresent (d : JsVal) : bool :=
  negb (isUndefined d || isNull d)
  && negb (isUndefined (propOf d "chain_id"))
  && negb (isUndefined (propOf d "chain_name"))
  && negb (isUndefined (propOf d "currency_name"))
  && negb (isUndefined (propOf d "currency_symbol"))
  && negb (isUndefined (propOf d "rpc_url")).

(** A descriptor that has exactly the five required fields. *)
Definition fiveFields (chain_id chain_name currency_name currency_symbol rpc_url : JsVal)
  : JsVal :=
  VObj [("chain_id", chain_id); ("chain_name", chain_name);
        ("currency_name", currency_name); ("currency_symbol", currency_symbol);
        ("rpc_url", rpc_url)].


(** Running [m] after the caller's function [f] has been called and the
    world has moved to [w1]. *)
Definition afterCall {W A} (f : nat) (w1 : W) (m : M W A) (s : Sys W)
  : Outcome A * Sys W * list Action :=
  (outcomeOf (m (withWorld w1 s)), sysOf (m (withWorld w1 s)),
   Call f :: traceOf (m (withWorld w1 s))).

(** A provider that grants every permission request and never has an
    account; the confirm callback, when there is one, answers [answer]. *)
Definition emptyWallet (answer : JsVal) : Env unit :=
  steadyEnv metamask 97%Z (AccArray []) (Resolve tt) (Resolve tt) (Resolve tt)
            (Resolve tt) (Resolve answer).


(** The private fields with the chain id blanked: what the network phase
    ([#detectNetwork(true)] and [#addOrSwitchNetwork]) never touches. *)
Definition besidesChain (st : State) : State := set_currentChainId VUndefined st.

(** The private fields with chain id, account and signer blanked: what
    [connectWallet], [disconnectWallet] and the [chainChanged] handler
    never touch. *)
Definition besidesWallet (st : State) : State :=
  set_signer VUndefined (set_account VUndefined (set_currentChainId VUndefined st)).

(** The predicate that no action satisfies. *)
Definition noAction (a : Action) : bool := false.


(** A provider that sits on chain 1 and stays there: it accepts the
    add-chain and switch-chain requests without changing chain. *)
Definition stubbornChain : Env unit :=
  steadyEnv metamask 1%Z (AccArray ["0xabc"]) (Resolve tt) (Resolve tt) (Resolve tt)
            (Resolve tt) (Resolve VUndefined).


(** The two contract caches. *)
Definition caches (st : State) : gmap string Contract * gmap string Contract :=
  (h_signerContract st, h_providerContract st).


(** Whatever a lookup finds in the contract caches of [st], it finds in
    those of [st']. *)
Definition grows (st st' : State) : Prop :=
  (forall a c, cached (h_signerContract st) a = Some c ->
               cached (h_signerContract st') a = Some c)
  /\ (forall a c, cached (h_providerContract st) a = Some c ->
                  cached (h_providerContract st') a = Some c).

(** [m] never drops or replaces a cached contract. *)
Definition extends {W A} (m : M W A) : Prop :=
  forall s, grows (conn s) (conn (sysOf (m s))).

(** The cache that [V1.contract] consults for a given [isSigner]. *)
Definition cacheFor (isSigner : JsVal) (st : State) : gmap string Contract :=
  if truthy (defaultTo isSigner (VBool false)) then h_signerContract st
  else h_providerContract st.

(** A provider on the expected chain with one account. *)
Definition oneAccount : Env unit :=
  steadyEnv metamask 97%Z (AccArray ["0xabc"]) (Resolve tt) (Resolve tt) (Resolve tt)
            (Resolve tt) (Resolve VUndefined).


(** Two calls of version 1's [contract] for one address, the first for
    reading and the second for signing, with different ABIs. *)
Definition readingCall : Outcome V1.Wrapper * Sys unit * list Action :=
  V1.contract oneAccount 5 "0x55" (VStr "abi1") (VBool false) (readySys VNull VNull).

Definition signingCall : Outcome V1.Wrapper * Sys unit * list Action :=
  V1.contract oneAccount 5 "0x55" (VStr "abi2") (VBool true) (sysOf readingCall).


(** [m] sends at most [n] permission requests, however it ends. *)
Definition atMost {W A} (n : nat) (m : M W A) : Prop :=
  forall s, permissionRequests (traceOf (m s)) <= n.

(** [m] performs no action at all and does not run out of fuel: it only
    computes a value from the private fields, or throws. *)
Definition pureTest {W A} (m : M W A) : Prop :=
  forall s, traceOf (m s) = [] /\ sysOf (m s) = s /\ outcomeOf (m s) <> Diverge.


(** [connectWallet] of version 1, any address allowed, no callback, on a
    provider that grants every permission request and never has an
    account. *)
Definition overCapRun : Outcome JsVal * Sys unit * list Action :=
  V1.connectWallet (emptyWallet VUndefined) 5 VUndefined (readySys VNull VNull).


(** The last action of a trace. *)
Fixpoint lastAction (t : list Action) : option Action :=
  match t with
  | [] => None
  | [a] => Some a
  | _ :: rest => lastAction rest
  end.

(** The trace ends with the emission of [name] or of
    [failedToConnectWallet]. *)
Definition endsInFailure (name : string) (t : list Action) : bool :=
  match lastAction t with
  | Some (Emit ev _) => String.eqb ev name || String.eqb ev "failedToConnectWallet"
  | _ => false
  end.

(** [a] is something the provider answers to [eth_accounts]. *)
Definition fromProvider {W} (E : Env W) (a : Accounts) : Prop :=
  exists w w', eth_accounts E w = (Resolve a, w').

(** The provider never reports the allowed address among its accounts,
    whatever the letter case. *)
Definition neverReports {W} (E : Env W) (allowed : JsVal) : Prop :=
  forall a w l w',
    allowed = VStr a ->
    eth_accounts E w = (Resolve (AccArray l), w') ->
    includes (toUpperCase a) (map toUpperCase l) = false.

(** A wallet that holds another account and turns every permission
    request down. *)
Definition refusingWallet : Env unit :=
  steadyEnv metamask 97%Z (AccArray ["0xdef"]) (Reject (VObj [("code", VNum 4001%Z)]))
            (Resolve tt) (Resolve tt) (Resolve tt) (Resolve VUndefined).

(** [connectWallet] of version 2 with the allowed address ["0xabc"] on
    that wallet. *)
Definition refusedRun : Outcome JsVal * Sys unit * list Action :=
  V2.connectWallet refusingWallet 5 VUndefined (readySys (VStr "0xabc") VNull).

(** A wallet that holds the allowed address in another letter case. *)
Definition matchingWallet : Env unit :=
  steadyEnv metamask 97%Z (AccArray ["0xdef"; "0xABC"]) (Resolve tt)
            (Resolve tt) (Resolve tt) (Resolve tt) (Resolve VUndefined).


(** ** Predicates on computations *)

(** No action of the trace satisfies [P]. *)
Definition never (P : Action -> bool) (t : list Action) : Prop :=
  Forall (fun a => P a = false) t.

(** [m] leaves the projection [p] of the private fields as it found it and
    performs no action that satisfies [P], however it ends. *)
Definition keeps {W A X} (p : State -> X) (P : Action -> bool) (m : M W A) : Prop :=
  forall s, p (conn (sysOf (m s))) = p (conn s) /\ never P (traceOf (m s)).

(** [m] does not run out of fuel. *)
Definition halts {W A} (m : M W A) : Prop :=
  forall s, outcomeOf (m s) <> Diverge.

(** The run [r], preceded by the actions [t]. *)
Definition prefixed {W A} (t : list Action) (r : Outcome A * Sys W * list Action)
  : Outcome A * Sys W * list Action :=
  (outcomeOf r, sysOf r, t ++ traceOf r).

(** The two ways [connectWallet] can go once the network check has passed
    and an allowed address is configured.  Either no account is adopted:
    the account is still [account0], [walletConnected] is not emitted, and
    a run that returns has ended with a failure event.  Or the retry loop
    was left with an array [l] that the provider answered and that has the
    allowed address [x] up to letter case, and the run ends with [finish]
    on that array. *)
Definition policyShape {W} (E : Env W) (finish : Accounts -> M W JsVal)
           (account0 allowed : JsVal) (r : Outcome JsVal * Sys W * list Action) : Prop :=
  (h_account (conn (sysOf r)) = account0
   /\ never (emits "walletConnected") (traceOf r)
   /\ (forall v, outcomeOf r = Ret v -> endsInFailure "invalidWallet" (traceOf r) = true))
  \/ (exists x l s1 t1,
         allowed = VStr x
         /\ includes (toUpperCase x) (map toUpperCase l) = true
         /\ fromProvider E (AccArray l)
         /\ never (emits "walletConnected") t1
         /\ h_shouldWalletAddress (conn s1) = allowed
         /\ h_account (conn s1) = account0
         /\ r = prefixed t1 (finish (AccArray l) s1)).

(** The end of [connectWallet] once the loop has been left with an array:
    adopt an account from it and return the stored account. *)
Definition finish1 {W} (E : Env W) (a : Accounts) : M W JsVal :=
  bind (V1.adoptAccount E a) (fun _ => gets h_account).

Definition finish2 {W} (E : Env W) (a : Accounts) : M W JsVal :=
  bind (V2.adoptAccount E a) (fun _ => gets h_account).

(** An action without the arguments of an [invalidWallet] event. *)
Definition bare (a : Action) : Action :=
  match a with
  | Emit name args => if String.eqb name "invalidWallet" then Emit name [] else a
  | _ => a
  end.

(** Two runs with the same outcome, the same system afterwards, and the
    same actions up to the arguments of [invalidWallet]. *)
Definition sameRun {W A} (r1 r2 : Outcome A * Sys W * list Action) : Prop :=
  outcomeOf r1 = outcomeOf r2
  /\ sysOf r1 = sysOf r2
  /\ map bare (traceOf r1) = map bare (traceOf r2).

(** Two computations that run alike from every system. *)
Definition agree {W A} (m1 m2 : M W A) : Prop :=
  forall s, sameRun (m1 s) (m2 s).

(** A wallet that refuses to revoke permissions. *)
Definition keepingWallet : Env unit :=
  steadyEnv metamask 97%Z (AccArray ["0xabc"]) (Resolve tt)
            (Reject (VObj [("code", VNum 4001%Z)])) (Resolve tt) (Resolve tt)
            (Resolve VUndefined).

(** A connector that is connected to the account ["0xabc"]. *)
Definition connectedSys : Sys unit :=
  mkSys (set_account (VStr "0xabc") (readyState VNull VNull)) tt 1 [] [].

(** What the provider and the event loop hold for the connector: the
    number of registered [chainChanged] listeners and the pending timers. *)
Definition hooks {W} (s : Sys W) : nat * list Timer := (chainListeners s, timers s).

(** [m] registers no listener and sets no timer, however it ends. *)
Definition steady {W A} (m : M W A) : Prop :=
  forall s, hooks (sysOf (m s)) = hooks s.

(** When [m] returns, it has registered [n] more listeners and set the
    timers [ts]. *)
Definition registers {W A} (n : nat) (ts : list Timer) (m : M W A) : Prop :=
  forall s v, outcomeOf (m s) = Ret v ->
    hooks (sysOf (m s)) = (n + chainListeners s, timers s ++ ts).


(** The thrown string of [#error(message)]. *)
Definition errorOf (message : string) : JsVal :=
  VStr (String.append "ERROR - EthersWalletConnector: " message).

(** When [m] returns, the private fields satisfy [q]. *)
Definition establishes {W A} (q : State -> bool) (m : M W A) : Prop :=
  forall s v, outcomeOf (m s) = Ret v -> q (conn (sysOf (m s))) = true.

(** What [m] returns is [undefined] or the account stored when it returns. *)
Definition returnsAccount {W} (m : M W JsVal) : Prop :=
  forall s v, outcomeOf (m s) = Ret v ->
    v = VUndefined \/ v = h_account (conn (sysOf (m s))).

(** A browser without any wallet: nothing is injected and detection finds
    nothing. *)
Definition noWallet : Env unit :=
  steadyEnv VUndefined 97%Z (AccArray []) (Resolve tt) (Resolve tt) (Resolve tt)
            (Resolve tt) (Resolve VUndefined).

(** The provider answers every chain-id request, in every world state,
    with something [toNumber] accepts. *)
Definition chainIdAnswered {W} (E : Env W) : Prop :=
  forall w, exists raw w' n, eth_chainId E w = (Resolve raw, w') /\ toNumber E raw = Resolve n.

(** How often the event [name] is emitted in a trace. *)
Definition emitted (name : string) (t : list Action) : nat :=
  length (List.filter (emits name) t).

(** A connector like [readySys] with one pending listener registration. *)
Definition pendingSys : Sys unit :=
  mkSys (readyState VNull VNull) tt 1 [RegisterChainChanged] [].

(** A connector like [readySys] on whose provider two listeners are
    registered. *)
Definition twoListeners : Sys unit :=
  mkSys (readyState VNull VNull) tt 2 [] [].

(** If [m] returns and has emitted [walletConnected], the event carries
    exactly the returned value, which is the account stored at the end. *)
Definition announces {W} (m : M W JsVal) : Prop :=
  forall s v args,
    outcomeOf (m s) = Ret v ->
    In (Emit "walletConnected" args) (traceOf (m s)) ->
    args = [v] /\ v = h_account (conn (sysOf (m s))).

(** The projection that forgets the private fields. *)
Definition nothing (st : State) : unit := tt.

(** The parameter object that [#addOrSwitchNetwork] builds from the network
    descriptor [d], once [toBeHex] has turned its [chain_id] into [hex]. *)
Definition paramsOf (hex : string) (d : JsVal) : AddChainParams :=
  mkAddChainParams hex (propOf d "chain_name") [propOf d "rpc_url"]
    (mkNativeCurrency (propOf d "currency_name") (propOf d "currency_symbol")
       (coalesce (propOf d "currency_decimals") (VNum 18%Z)))
    (if negb (strictEq (coalesce (propOf d "block_explorer_url") (VStr "")) (VStr ""))
     then Some [propOf d "block_explorer_url"] else None).

(** A wallet that knows the configured chain but sits on chain 1 and turns
    the switch request down (code 4001, the user's rejection). *)
Definition unwillingWallet : Env unit :=
  steadyEnv metamask 1%Z (AccArray ["0xabc"]) (Resolve tt) (Resolve tt) (Resolve tt)
            (Reject (VObj [("code", VNum 4001%Z)])) (Resolve VUndefined).

(** A wallet on chain 1 that does not know the configured chain (code 4902
    on the switch request) and fails with an internal error (code -32603)
    on the add request. *)
Definition confusedWallet : Env unit :=
  steadyEnv metamask 1%Z (AccArray ["0xabc"]) (Resolve tt) (Resolve tt)
            (Reject (VObj [("code", VNum (-32603)%Z)]))
            (Reject (VObj [("code", VNum 4902%Z)])) (Resolve VUndefined).

(** A wallet on chain 1 that turns the add request down. *)
Definition addRefusingWallet : Env unit :=
  steadyEnv metamask 1%Z (AccArray ["0xabc"]) (Resolve tt) (Resolve tt)
            (Reject (VObj [("code", VNum 4001%Z)])) (Resolve tt) (Resolve VUndefined).

(** A provider whose contract reads answer 7 and whose caller functions
    throw. *)
Definition readableChain : Env unit :=
  {| window_ethereum := fun _ => metamask;
     detectEthereumProvider := fun w => (Resolve VNull, w);
     eth_chainId := fun w => (Resolve (VNum 97%Z), w);
     eth_accounts := fun w => (Resolve (AccArray ["0xabc"]), w);
     wallet_requestPermissions := fun w => (Resolve tt, w);
     wallet_revokePermissions := fun w => (Resolve tt, w);
     wallet_addEthereumChain := fun _ w => (Resolve tt, w);
     wallet_switchEthereumChain := fun _ w => (Resolve tt, w);
     toNumber := fun v => match v with VNum z => Resolve z | _ => Reject TypeError end;
     toBeHex := fun v => match v with
                         | VNum z => Resolve (HexString.of_Z z)
                         | _ => Reject TypeError
                         end;
     getSigner := fun a w => (Resolve (VObj [("address", a)]), w);
     newContractThrows := fun _ _ _ => None;
     contractMethod := fun _ _ _ _ w => (Resolve (VNum 7%Z), w);
     txnWait := fun _ w => (Resolve (VObj [("status", VNum 1%Z)]), w);
     callFunction := fun _ _ w => (Reject (VStr "handler failed"), w);
     promiseOf := fun _ => None |}.

(** A provider whose contract calls fail and whose caller functions throw. *)
Definition failingHandler : Env unit :=
  steadyEnv metamask 97%Z (AccArray ["0xabc"]) (Resolve tt) (Resolve tt) (Resolve tt)
            (Resolve tt) (Reject (VStr "handler failed")).

(** If [m] throws, the initialised flag, the listeners and the timers are
    as before. *)
Definition failsClean {W A} (m : M W A) : Prop :=
  forall s e, outcomeOf (m s) = Throw e ->
    h_isInitalized (conn (sysOf (m s))) = h_isInitalized (conn s)
    /\ hooks (sysOf (m s)) = hooks s.

(** An injected wallet that rejects the chain-id request. *)
Definition silentWallet : Env unit :=
  {| window_ethereum := fun _ => metamask;
     detectEthereumProvider := fun w => (Resolve VNull, w);
     eth_chainId := fun w => (Reject (VObj [("code", VNum 4100%Z)]), w);
     eth_accounts := fun w => (Resolve (AccArray ["0xabc"]), w);
     wallet_requestPermissions := fun w => (Resolve tt, w);
     wallet_revokePermissions := fun w => (Resolve tt, w);
     wallet_addEthereumChain := fun _ w => (Resolve tt, w);
     wallet_switchEthereumChain := fun _ w => (Resolve tt, w);
     toNumber := fun v => match v with VNum z => Resolve z | _ => Reject TypeError end;
     toBeHex := fun v => match v with
                         | VNum z => Resolve (HexString.of_Z z)
                         | _ => Reject TypeError
                         end;
     getSigner := fun a w => (Resolve (VObj [("address", a)]), w);
     newContractThrows := fun _ _ _ => None;
     contractMethod := fun _ _ _ _ w => (Resolve VUndefined, w);
     txnWait := fun _ w => (Resolve VUndefined, w);
     callFunction := fun _ _ w => (Resolve VUndefined, w);
     promiseOf := fun _ => None |}.

(** A version 2 connector after [setup(bscTestnet)]. *)
Definition setUpSys : Sys unit :=
  sysOf (V2.setup bscTestnet VNull VNull (freshSys tt)).

(** A copy of an environment in which the promises are those [p] knows. *)
Definition withPromises {W} (E : Env W) (p : JsVal -> option (W -> Reply JsVal * W))
  : Env W :=
  {| window_ethereum := window_ethereum E;
     detectEthereumProvider := detectEthereumProvider E;
     eth_chainId := eth_chainId E;
     eth_accounts := eth_accounts E;
     wallet_requestPermissions := wallet_requestPermissions E;
     wallet_revokePermissions := wallet_revokePermissions E;
     wallet_addEthereumChain := wallet_addEthereumChain E;
     wallet_switchEthereumChain := wallet_switchEthereumChain E;
     toNumber := toNumber E;
     toBeHex := toBeHex E;
     getSigner := getSigner E;
     newContractThrows := newContractThrows E;
     contractMethod := contractMethod E;
     txnWait := txnWait E;
     callFunction := callFunction E;
     promiseOf := p |}.

(** A copy of an environment with another [Contract] constructor. *)
Definition withConstructor {W} (E : Env W) (t : string -> JsVal -> JsVal -> option JsVal)
  : Env W :=
  {| window_ethereum := window_ethereum E;
     detectEthereumProvider := detectEthereumProvider E;
     eth_chainId := eth_chainId E;
     eth_accounts := eth_accounts E;
     wallet_requestPermissions := wallet_requestPermissions E;
     wallet_revokePermissions := wallet_revokePermissions E;
     wallet_addEthereumChain := wallet_addEthereumChain E;
     wallet_switchEthereumChain := wallet_switchEthereumChain E;
     toNumber := toNumber E;
     toBeHex := toBeHex E;
     getSigner := getSigner E;
     newContractThrows := t;
     contractMethod := contractMethod E;
     txnWait := txnWait E;
     callFunction := callFunction E;
     promiseOf := promiseOf E |}.

(** A promise that is fulfilled with [v], and one that is rejected with
    [e], as the sample environments represent them. *)
Definition fulfilledWith (v : JsVal) : JsVal := VObj [("fulfilled", v)].

Definition rejectedWith (e : JsVal) : JsVal := VObj [("rejected", e)].

Definition settlement {W} (p : JsVal) : option (W -> Reply JsVal * W) :=
  match p with
  | VObj [(k, v)] =>
      if String.eqb k "fulfilled" then Some (fun w => (Resolve v, w))
      else if String.eqb k "rejected" then Some (fun w => (Reject v, w))
      else None
  | _ => None
  end.

(** A wallet whose contract calls fail, and a caller whose functions are
    [async] and return nothing: each call of one yields a promise that is
    fulfilled with [undefined]. *)
Definition asyncHandler : Env unit :=
  withPromises
    (steadyEnv metamask 97%Z (AccArray ["0xabc"]) (Resolve tt) (Resolve tt) (Resolve tt)
               (Resolve tt) (Resolve (fulfilledWith VUndefined)))
    settlement.

(** The error that the sample environments' contract calls throw. *)
Definition callException : JsVal := VObj [("code", VStr "CALL_EXCEPTION")].

(** A contract instance of the sample runs. *)
Definition sampleContract : Contract :=
  mkContract "0x55" (VStr "[]") (BrowserProvider metamask).

(** [call] of both versions on a wrapper whose (caller) contract is [c],
    and [signedCall] on one whose signer contract is [c], all end in
    [result]. *)
Definition callEnds {W} (E : Env W) (c c' : Wrapped) (methodName : string)
           (methodParams : list JsVal) (callParams onError : JsVal) (s : Sys W)
           (result : Outcome JsVal * Sys W * list Action) : Prop :=
  V1.call_ E (V1.mkWrapper c) methodName methodParams callParams onError s = result
  /\ V2.call_ E (V2.mkWrapper c c') methodName methodParams callParams onError s = result
  /\ V2.signedCall E (V2.mkWrapper c' c) methodName methodParams callParams onError s
     = result.

(** [send] of both versions on a wrapper whose (signer) contract is [c]
    ends in [result]. *)
Definition sendEnds {W} (E : Env W) (c c' : Wrapped) (methodName : string)
           (methodParams : list JsVal) (sendParams : JsVal) (s : Sys W)
           (result : Outcome JsVal * Sys W * list Action) : Prop :=
  V1.send E (V1.mkWrapper c) methodName methodParams sendParams s = result
  /\ V2.send E (V2.mkWrapper c' c) methodName methodParams sendParams s = result.

(** The error object that [send] reports for a caught [e], case by case:
    [e.info.error] if that is neither [null] nor [undefined], else
    [e.innerError] if that is neither, else [e] itself. *)
Definition extracted (e x : JsVal) : Prop :=
  let err := propOf (propOf e "info") "error" in
  let inner := propOf e "innerError" in
  (err <> VUndefined /\ err <> VNull /\ x = err)
  \/ ((err = VUndefined \/ err = VNull)
      /\ inner <> VUndefined /\ inner <> VNull /\ x = inner)
  \/ ((err = VUndefined \/ err = VNull)
      /\ (inner = VUndefined \/ inner = VNull) /\ x = e).

(** What [send] does after it caught [e] in world state [w]: it has logged
    [e], and it returns the extracted error object; if that object is a
    promise, [send] ends as the promise settles. *)
Definition sendReports {W} (E : Env W) (c c' : Wrapped) (methodName : string)
           (methodParams : list JsVal) (sendParams : JsVal) (s : Sys W)
           (e : JsVal) (w : W) : Prop :=
  forall x, extracted e x ->
    (thenable E x = None ->
     sendEnds E c c' methodName methodParams sendParams s
              (Ret x, withWorld w s, [ConsoleLog e]))
    /\ (forall q v w',
           thenable E x = Some q -> q w = (Resolve v, w') ->
           sendEnds E c c' methodName methodParams sendParams s
                    (Ret v, withWorld w' s, [ConsoleLog e]))
    /\ (forall q e' w',
           thenable E x = Some q -> q w = (Reject e', w') ->
           sendEnds E c c' methodName methodParams sendParams s
                    (Throw e', withWorld w' s, [ConsoleLog e])).

(** The runner that [V1.contract] binds a new [Contract] to, for a given
    [isSigner]. *)
Definition runnerFor (isSigner : JsVal) (st : State) : JsVal :=
  if truthy (defaultTo isSigner (VBool false)) then h_signer st else h_provider st.

(** The state after [V1.contract] has stored [c] under [k] in the cache
    that [isSigner] selects. *)
Definition storeFor (isSigner : JsVal) (k : string) (c : Contract) (st : State) : State :=
  if truthy (defaultTo isSigner (VBool false))
  then set_signerContract (<[k := c]> (h_signerContract st)) st
  else set_providerContract (<[k := c]> (h_providerContract st)) st.

(** A [Contract] constructor that parses its ABI: it accepts the empty
    JSON list and throws a [SyntaxError] for every other string. *)
Definition SyntaxError : JsVal := VObj [("name", VStr "SyntaxError")].

Definition parsesAbi (target : string) (abi runner : JsVal) : option JsVal :=
  match abi with
  | VStr a => if String.eqb a "[]" then None else Some SyntaxError
  | _ => None
  end.

(** [oneAccount] with that constructor. *)
Definition strictAbi : Env unit := withConstructor oneAccount parsesAbi.

(** Whether the connector is set up and whether it is initialised. *)
Definition marks (st : State) : bool * bool := (h_isSetup st, h_isInitalized st).

(** The methods of the requests of a trace, in order. *)
Definition requests (t : list Action) : list string :=
  flat_map (fun a => match a with Request method => [method] | _ => [] end) t.

(** * Reasoning rules for computations *)

Lemma never_nil P : never P [].
Proof. constructor. Qed.

Lemma never_app P t1 t2 : never P t1 -> never P t2 -> never P (t1 ++ t2).
Proof. intros H1 H2. apply Forall_app. split; assumption. Qed.

Lemma never_app_inv P t1 t2 : never P (t1 ++ t2) -> never P t1 /\ never P t2.
Proof. intros H. apply Forall_app in H. exact H. Qed.

Lemma never_one P a : P a = false -> never P [a].
Proof. intros H. constructor; [exact H | constructor]. Qed.

Lemma never_In P t a : never P t -> P a = true -> ~ In a t.
Proof.
  intros Hn Ha Hin. unfold never in Hn. rewrite Forall_forall in Hn.
  apply list_elem_of_In in Hin. specialize (Hn a Hin). congruence.
Qed.

Lemma never_filter P t : never P t -> List.filter P t = [].
Proof.
  induction 1 as [|a t Ha _ IH]; simpl; [reflexivity|].
  rewrite Ha. exact IH.
Qed.

Section Rules.
Context {W : Type}.

(** Running a [bind], case by case. *)
Lemma bind_Ret {A B} (m : M W A) (k : A -> M W B) s a s1 t1 :
  m s = (Ret a, s1, t1) ->
  bind m k s = (outcomeOf (k a s1), sysOf (k a s1), t1 ++ traceOf (k a s1)).
Proof.
  intros H. unfold bind. rewrite H.
  destruct (k a s1) as [[o s2] t2]. reflexivity.
Qed.

Lemma bind_pure {A B} (m : M W A) (k : A -> M W B) s a :
  m s = (Ret a, s, []) -> bind m k s = k a s.
Proof.
  intros H. unfold bind. rewrite H. destruct (k a s) as [[o s2] t2]. reflexivity.
Qed.

Lemma bind_Throw {A B} (m : M W A) (k : A -> M W B) s e s1 t1 :
  m s = (Throw e, s1, t1) -> bind m k s = (Throw e, s1, t1).
Proof. intros H. unfold bind. rewrite H. reflexivity. Qed.

Lemma bind_Diverge {A B} (m : M W A) (k : A -> M W B) s s1 t1 :
  m s = (Diverge, s1, t1) -> bind m k s = (Diverge, s1, t1).
Proof. intros H. unfold bind. rewrite H. reflexivity. Qed.

(** A [bind] that returns went through both of its halves. *)
Lemma bind_inv {A B} (m : M W A) (k : A -> M W B) s o s2 t :
  bind m k s = (o, s2, t) ->
  (exists a s1 t1 t2, m s = (Ret a, s1, t1) /\ k a s1 = (o, s2, t2) /\ t = t1 ++ t2)
  \/ (exists e, m s = (Throw e, s2, t) /\ o = Throw e)
  \/ (m s = (Diverge, s2, t) /\ o = Diverge).
Proof.
  unfold bind. destruct (m s) as [[[a|e|] s1] t1].
  - destruct (k a s1) as [[o' s2'] t2] eqn:Hk. intros H. inversion H; subst.
    left. exists a, s1, t1, t2. auto.
  - intros H. inversion H; subst. right. left. exists e. auto.
  - intros H. inversion H; subst. right. right. auto.
Qed.

Section Keeps.
Context {X : Type} (p : State -> X) (P : Action -> bool).

Lemma keeps_ret {A} (a : A) : keeps (W:=W) p P (ret a).
Proof. intros s. split; [reflexivity | apply never_nil]. Qed.

Lemma keeps_throw {A} e : keeps (W:=W) (A:=A) p P (throw e).
Proof. intros s. split; [reflexivity | apply never_nil]. Qed.

Lemma keeps_diverge {A} : keeps (W:=W) (A:=A) p P diverge.
Proof. intros s. split; [reflexivity | apply never_nil]. Qed.

Lemma keeps_error {A} msg : keeps (W:=W) (A:=A) p P (error msg).
Proof. apply keeps_throw. Qed.

Lemma keeps_get : keeps (W:=W) p P get.
Proof. intros s. split; [reflexivity | apply never_nil]. Qed.

Lemma keeps_gets {A} (f : State -> A) : keeps (W:=W) p P (gets f).
Proof. intros s. split; [reflexivity | apply never_nil]. Qed.

Lemma keeps_modify (f : State -> State) :
  (forall st, p (f st) = p st) -> keeps (W:=W) p P (modify f).
Proof. intros Hf s. split; [apply Hf | apply never_nil]. Qed.

Lemma keeps_log a : P a = false -> keeps (W:=W) p P (log a).
Proof. intros Ha s. split; [reflexivity | apply never_one, Ha]. Qed.

Lemma keeps_emit name args :
  P (Emit name args) = false -> keeps (W:=W) p P (emit name args).
Proof. apply keeps_log. Qed.

Lemma keeps_settle {A} (r : Reply A) : keeps (W:=W) p P (settle r).
Proof. destruct r; [apply keeps_ret | apply keeps_throw]. Qed.

Lemma keeps_ask {A} (q : W -> Reply A * W) : keeps p P (ask q).
Proof.
  intros s. unfold ask. destruct (q (world s)) as [r w].
  destruct r; split; try reflexivity; apply never_nil.
Qed.

Lemma keeps_bind {A B} (m : M W A) (k : A -> M W B) :
  keeps p P m -> (forall a, keeps p P (k a)) -> keeps p P (bind m k).
Proof.
  intros Hm Hk s. destruct (Hm s) as [Hp Ht].
  destruct (m s) as [[[a|e|] s1] t1] eqn:Hms.
  - rewrite (bind_Ret _ _ _ _ _ _ Hms). destruct (Hk a s1) as [Hp' Ht'].
    unfold sysOf, traceOf in *. simpl in *. split.
    + rewrite Hp'. exact Hp.
    + apply never_app; assumption.
  - rewrite (bind_Throw _ _ _ _ _ _ Hms). split; assumption.
  - rewrite (bind_Diverge _ _ _ _ _ Hms). split; assumption.
Qed.

Lemma keeps_tryCatch {A} (m : M W A) (h : JsVal -> M W A) :
  keeps p P m -> (forall e, keeps p P (h e)) -> keeps p P (tryCatch m h).
Proof.
  intros Hm Hh s. destruct (Hm s) as [Hp Ht]. unfold tryCatch.
  destruct (m s) as [[[a|e|] s1] t1] eqn:Hms; try (split; assumption).
  destruct (Hh e s1) as [Hp' Ht']. destruct (h e s1) as [[o s2] t2].
  unfold sysOf, traceOf in *. simpl in *. split.
  - rewrite Hp'. exact Hp.
  - apply never_app; assumption.
Qed.

Lemma keeps_detached (m : M W unit) : keeps p P m -> keeps p P (detached m).
Proof. intros Hm. apply keeps_tryCatch; [exact Hm | intros e; apply keeps_ret]. Qed.

Lemma keeps_void {A} (m : M W A) : keeps p P m -> keeps p P (void m).
Proof. intros Hm. apply keeps_bind; [exact Hm | intros a; apply keeps_ret]. Qed.

Lemma keeps_request {A} method (q : W -> Reply A * W) :
  P (Request method) = false -> keeps p P (request method q).
Proof.
  intros HP. unfold request. apply keeps_bind; [apply keeps_get | intros st].
  destruct (nullish (h_browserProvider st)); [apply keeps_throw|].
  apply keeps_bind; [apply keeps_log, HP | intros _; apply keeps_ask].
Qed.

Lemma keeps_call (E : Env W) f args :
  (forall n, P (Call n) = false) -> keeps p P (call E f args).
Proof.
  intros HP. destruct f; simpl; try apply keeps_throw.
  apply keeps_bind; [apply keeps_log, HP | intros _; apply keeps_ask].
Qed.

Lemma keeps_adopt (E : Env W) v : keeps p P (adopt E v).
Proof. unfold adopt. destruct (thenable E v); [apply keeps_ask | apply keeps_ret]. Qed.

Lemma keeps_newContract (E : Env W) target abi runner :
  keeps p P (newContract E target abi runner).
Proof.
  unfold newContract.
  destruct (newContractThrows E target abi runner); [apply keeps_throw | apply keeps_ret].
Qed.

Lemma keeps_member v k : keeps (W:=W) p P (member v k).
Proof. unfold member. destruct (nullish v); [apply keeps_throw | apply keeps_ret]. Qed.

Lemma keeps_upperAccounts a : keeps (W:=W) p P (upperAccounts a).
Proof. destruct a; simpl; [apply keeps_ret | apply keeps_throw ..]. Qed.

Lemma keeps_upperOf v : keeps (W:=W) p P (upperOf v).
Proof. destruct v; simpl; try apply keeps_throw. apply keeps_ret. Qed.

Lemma keeps_lengthOf a : keeps (W:=W) p P (lengthOf a).
Proof. destruct a; simpl; [apply keeps_ret | apply keeps_throw ..]. Qed.

Lemma keeps_elementAt a i : keeps (W:=W) p P (elementAt a i).
Proof. destruct a; simpl; [apply keeps_ret | apply keeps_throw ..]. Qed.

Lemma keeps_addChainChangedListener : keeps (W:=W) p P addChainChangedListener.
Proof.
  intros s. unfold addChainChangedListener.
  destruct (nullish (h_browserProvider (conn s))); split; try reflexivity; apply never_nil.
Qed.

Lemma keeps_setTimeout t : keeps (W:=W) p P (setTimeout t).
Proof. intros s. split; [reflexivity | apply never_nil]. Qed.

Lemma keeps_injectedProvider (E : Env W) : keeps p P (injectedProvider E).
Proof.
  intros s. unfold injectedProvider.
  destruct (nullish (window_ethereum E (world s))); [apply keeps_ask | apply keeps_ret].
Qed.

Lemma keeps_forEach {A} (f : A -> M W unit) l :
  (forall x, keeps p P (f x)) -> keeps p P (forEach f l).
Proof.
  intros Hf. induction l as [|x l IH]; simpl; [apply keeps_ret|].
  apply keeps_bind; [apply Hf | intros _; exact IH].
Qed.

Lemma keeps_runListeners n (h : M W unit) :
  keeps p P h -> keeps p P (runListeners n h).
Proof.
  intros Hh. induction n as [|n IH]; simpl; [apply keeps_ret|].
  apply keeps_bind; [apply keeps_detached, Hh | intros _; exact IH].
Qed.

End Keeps.
End Rules.

(** Weakening: a coarser projection, a smaller set of excluded actions. *)
Lemma keeps_weaken {W A X Y} (p : State -> X) (q : State -> Y) (P Q : Action -> bool)
      (m : M W A) :
  (forall a b, p a = p b -> q a = q b) ->
  (forall a, P a = false -> Q a = false) ->
  keeps p P m -> keeps q Q m.
Proof.
  intros Hpq HPQ Hm s. destruct (Hm s) as [Hp Ht]. split.
  - apply Hpq, Hp.
  - unfold never in *. eapply Forall_impl; [exact Ht | exact HPQ].
Qed.

(** Side conditions of the rules: the action at hand is not excluded. *)
Ltac keeps_side :=
  first [ reflexivity | solve [auto] | solve [intros; auto] ].

(** Decomposing a goal [keeps p P m] along the shape of [m]. *)
Ltac keeps_step :=
  first
    [ assumption
    | match goal with
      | H : forall _, keeps _ _ _ |- keeps _ _ _ => apply H
      end
    | apply keeps_ret | apply keeps_throw | apply keeps_diverge | apply keeps_error
    | apply keeps_get | apply keeps_gets | apply keeps_settle | apply keeps_ask
    | apply keeps_adopt | apply keeps_newContract
    | apply keeps_member | apply keeps_upperAccounts | apply keeps_upperOf
    | apply keeps_lengthOf | apply keeps_elementAt
    | apply keeps_addChainChangedListener | apply keeps_setTimeout
    | apply keeps_injectedProvider
    | apply keeps_modify; intros; reflexivity
    | apply keeps_log; keeps_side
    | apply keeps_emit; keeps_side
    | apply keeps_request; keeps_side
    | apply keeps_call; keeps_side
    | apply keeps_bind; [ | intros ? ]
    | apply keeps_tryCatch; [ | intros ? ]
    | apply keeps_detached
    | apply keeps_void
    | apply keeps_forEach; intros ?
    | apply keeps_runListeners
    | match goal with
      | |- keeps _ _ (if ?b then _ else _) => destruct b
      | |- keeps _ _ (match ?x with _ => _ end) => destruct x
      | |- keeps _ _ (let _ := _ in _) => cbv zeta
      end
    ].

Ltac keeps_tac := repeat keeps_step.

(** * The getters *)

Lemma strictEq_undefined v : strictEq v VUndefined = isUndefined v.
Proof. destruct v; reflexivity. Qed.

Lemma strictEq_null v : strictEq v VNull = isNull v.
Proof. destruct v; reflexivity. Qed.

Lemma getters_agree_on (st : State) :
  (V1.isWalletConnected st = true <-> V1.account st <> VUndefined)
  /\ V1.account st <> VNull
  /\ (V2.isWalletConnected st = true <-> V2.account st <> VUndefined)
  /\ V2.account st <> VNull.
Proof.
  unfold V1.isWalletConnected, V1.account, V2.isWalletConnected, V2.account, coalesce, nullish.
  destruct (h_account st); simpl; repeat split; intros; congruence.
Qed.

(** C9.  Whatever operations have run, from whatever state, in either
    version: [isWalletConnected()] is true exactly when [account()] is not
    [undefined], and [account()] is never [null].  The state after any
    sequence of operations is covered, so every reachable state is, and
    every operation preserves the correspondence. *)
Theorem getter_consistency :
  forall (W : Type) (E : Env W) (fuel : nat),
    (forall (ops : list Op1) (s : Sys W),
        let st := conn (runAll (exec1 E fuel) ops s) in
        (V1.isWalletConnected st = true <-> V1.account st <> VUndefined)
        /\ V1.account st <> VNull)
    /\ (forall (ops : list Op2) (s : Sys W),
          let st := conn (runAll (exec2 E fuel) ops s) in
          (V2.isWalletConnected st = true <-> V2.account st <> VUndefined)
          /\ V2.account st <> VNull).
Proof.
  intros W E fuel. split; intros ops s st;
    destruct (getters_agree_on st) as (H1 & H2 & H3 & H4); split; assumption.
Qed.

(** * Running computations symbolically *)

(** Unfold the monad and the built-ins, then project out of the records
    that have become explicit. *)
Ltac munfold :=
  cbv beta iota zeta delta
      [bind ret throw diverge get gets modify log emit ask settle request call
       tryCatch detached member error void upperAccounts upperOf lengthOf
       elementAt addChainChangedListener setTimeout withConn withWorld
       outcomeOf sysOf traceOf forEach requiredOptions injectedProvider].

Ltac mproj :=
  cbn [conn world chainListeners timers suspended fst snd app
       h_isSetup h_shouldNetworkData h_shouldWalletAddress h_isInitalized
       h_provider h_browserProvider h_signer h_account h_currentChainId
       h_execBeforeReconnect h_signerContract h_providerContract
       set_isSetup set_shouldNetworkData set_shouldWalletAddress
       set_isInitalized set_provider set_browserProvider set_signer
       set_account set_currentChainId set_execBeforeReconnect
       set_signerContract set_providerContract
       accounts tryConnectCount negb andb orb
       isFunction isUndefined isNull isBoolean isArray].

Ltac mrun := repeat (munfold; mproj).

(** Put tests in the form the hypotheses use. *)
Ltac mnorm :=
  rewrite ?strictEq_undefined, ?strictEq_null, ?app_nil_r; unfold nullish.

(** Decide the next test or the next answer of the world from a hypothesis. *)
Ltac mhyp :=
  match goal with
  | H : ?c = _ |- context [if ?c then _ else _] => rewrite H
  | H : ?c = _ |- context [match ?c with _ => _ end] => rewrite H
  | H : ?c = true |- context [if negb ?c then _ else _] => rewrite H
  | H : ?c = false |- context [if negb ?c then _ else _] => rewrite H
  end.

Ltac mgo := repeat (progress (mrun; mnorm; try mhyp)).

(** * Validation of the network descriptor *)

Section Validation.
Context {W : Type} (E : Env W).

Lemma check1_present (s : Sys W) :
  descriptorPresent (h_shouldNetworkData (conn s)) = true ->
  V1.checkShouldNetworkDataIsCorrect s = (Ret tt, s, []).
Proof.
  unfold descriptorPresent, V1.checkShouldNetworkDataIsCorrect.
  intros H. repeat (apply andb_prop in H; destruct H as [H ?]).
  repeat match goal with
         | Hx : negb _ = true |- _ => apply negb_true_iff in Hx
         end.
  mgo. reflexivity.
Qed.

Lemma check1_absent (s : Sys W) :
  descriptorPresent (h_shouldNetworkData (conn s)) = false ->
  exists msg, V1.checkShouldNetworkDataIsCorrect s = (Throw (VStr msg), s, []).
Proof.
  unfold descriptorPresent, V1.checkShouldNetworkDataIsCorrect. mgo.
  destruct (isUndefined (h_shouldNetworkData (conn s)) || isNull (h_shouldNetworkData (conn s)))
    eqn:H0; mgo; [intros _; eexists; reflexivity|].
  destruct (isUndefined (propOf (h_shouldNetworkData (conn s)) "chain_id"))
    eqn:H1; mgo; [intros _; eexists; reflexivity|].
  destruct (isUndefined (propOf (h_shouldNetworkData (conn s)) "chain_name"))
    eqn:H2; mgo; [intros _; eexists; reflexivity|].
  destruct (isUndefined (propOf (h_shouldNetworkData (conn s)) "currency_name"))
    eqn:H3; mgo; [intros _; eexists; reflexivity|].
  destruct (isUndefined (propOf (h_shouldNetworkData (conn s)) "currency_symbol"))
    eqn:H4; mgo; [intros _; eexists; reflexivity|].
  destruct (isUndefined (propOf (h_shouldNetworkData (conn s)) "rpc_url"))
    eqn:H5; mgo; [intros _; eexists; reflexivity|].
  discriminate.
Qed.

Lemma check2_eq (s : Sys W) :
  V2.checkShouldNetworkDataIsCorrect s = V1.checkShouldNetworkDataIsCorrect s.
Proof. reflexivity. Qed.

End Validation.

Section ValidationInInit.
Context {W : Type} (E : Env W).

Lemma init1_rejects fuel d a c auto (s : Sys W) :
  descriptorPresent d = false ->
  exists e, outcomeOf (V1.init E fuel d a c auto s) = Throw e.
Proof.
  intros Hd. unfold V1.init. mgo.
  destruct (h_isInitalized (conn s)); mgo; [eexists; reflexivity|].
  destruct (defaultTo auto (VBool true)) eqn:Hauto; mgo;
    try (match goal with
         | |- context [V1.checkShouldNetworkDataIsCorrect ?s'] =>
             destruct (check1_absent s' Hd) as [msg Hm]; rewrite Hm
         end; eexists; reflexivity).
  match goal with
  | |- context [callFunction E ?n [] (world s)] =>
      destruct (callFunction E n [] (world s)) as [[r|e] w]; mgo;
        [|eexists; reflexivity]
  end.
  match goal with
  | |- context [V1.checkShouldNetworkDataIsCorrect ?s'] =>
      destruct (check1_absent s' Hd) as [msg Hm]; rewrite Hm
  end.
  eexists; reflexivity.
Qed.

Lemma init2_rejects fuel auto (s : Sys W) :
  descriptorPresent (h_shouldNetworkData (conn s)) = false ->
  exists e, outcomeOf (V2.init E fuel auto s) = Throw e.
Proof.
  intros Hd. unfold V2.init. mgo.
  destruct (h_isSetup (conn s)); mgo; [|eexists; reflexivity].
  destruct (h_isInitalized (conn s)); mgo; [eexists; reflexivity|].
  destruct (defaultTo auto (VBool true)) eqn:Hauto; mgo;
    try (rewrite check2_eq; destruct (check1_absent s Hd) as [msg Hm]; rewrite Hm;
         eexists; reflexivity).
  match goal with
  | |- context [callFunction E ?n [] (world s)] =>
      destruct (callFunction E n [] (world s)) as [[r|e] w]; mgo;
        [|eexists; reflexivity]
  end.
  rewrite check2_eq.
  match goal with
  | |- context [V1.checkShouldNetworkDataIsCorrect ?s'] =>
      destruct (check1_absent s' Hd) as [msg Hm]; rewrite Hm
  end.
  eexists; reflexivity.
Qed.

End ValidationInInit.

(** C8.  The descriptor is validated by presence checks only.  In both
    versions the check returns exactly when the descriptor is neither
    [null] nor [undefined] and none of [chain_id], [chain_name],
    [currency_name], [currency_symbol], [rpc_url] is [undefined], and it
    throws in every other case, which makes [init] throw.  A descriptor with
    nothing but these five fields passes whatever the values are, so the
    explorer URL is not required and neither type nor format is looked at. *)
Theorem descriptor_presence_check :
  forall (W : Type) (E : Env W) (s : Sys W),
    let d := h_shouldNetworkData (conn s) in
    (descriptorPresent d = true <->
       V1.checkShouldNetworkDataIsCorrect s = (Ret tt, s, []))
    /\ (descriptorPresent d = false <->
          exists msg, V1.checkShouldNetworkDataIsCorrect s = (Throw (VStr msg), s, []))
    /\ V2.checkShouldNetworkDataIsCorrect s = V1.checkShouldNetworkDataIsCorrect s
    /\ (forall fuel d' a c auto,
           descriptorPresent d' = false ->
           exists e, outcomeOf (V1.init E fuel d' a c auto s) = Throw e)
    /\ (forall fuel auto,
           descriptorPresent d = false ->
           exists e, outcomeOf (V2.init E fuel auto s) = Throw e)
    /\ (forall v1 v2 v3 v4 v5,
           isUndefined v1 = false -> isUndefined v2 = false ->
           isUndefined v3 = false -> isUndefined v4 = false ->
           isUndefined v5 = false ->
           descriptorPresent (fiveFields v1 v2 v3 v4 v5) = true).
Proof.
  intros W E s d. repeat split.
  - apply check1_present.
  - intros H. destruct (descriptorPresent d) eqn:Hd; [reflexivity|].
    destruct (check1_absent s Hd) as [msg Hm]. congruence.
  - apply check1_absent.
  - intros [msg Hm]. destruct (descriptorPresent d) eqn:Hd; [|reflexivity].
    rewrite (check1_present s Hd) in Hm. discriminate.
  - intros. apply init1_rejects. assumption.
  - intros. apply init2_rejects. assumption.
  - intros v1 v2 v3 v4 v5 H1 H2 H3 H4 H5. unfold descriptorPresent, fiveFields.
    simpl. rewrite H1, H2, H3, H4, H5. reflexivity.
Qed.

Lemma descriptor_presence_check_witness :
  descriptorPresent (VObj [("chain_id", VNum 97%Z)]) = false
  /\ (exists e,
         outcomeOf (V1.init oneAccount 5 (VObj [("chain_id", VNum 97%Z)]) VNull VNull
                            (VBool false) (freshSys tt)) = Throw e)
  /\ isUndefined VNull = false
  /\ descriptorPresent (fiveFields (VNum 97%Z) VNull (VBool false) (VStr "") VNull) = true.
Proof.
  destruct (descriptor_presence_check unit oneAccount (freshSys tt))
    as (_ & _ & _ & Hinit & _ & Hfive).
  split; [reflexivity|].
  split; [exact (Hinit 5 (VObj [("chain_id", VNum 97%Z)]) VNull VNull (VBool false) eq_refl)|].
  split; [reflexivity|].
  exact (Hfive (VNum 97%Z) VNull (VBool false) (VStr "") VNull
               eq_refl eq_refl eq_refl eq_refl eq_refl).
Defined.

(** * The contract wrapper *)

Lemma optChain_propOf v k : optChain v k = propOf v k.
Proof. destruct v; reflexivity. Qed.

Lemma coalesce_present r d : r <> VUndefined -> r <> VNull -> coalesce r d = r.
Proof. intros H1 H2. destruct r; try reflexivity; congruence. Qed.

Lemma coalesce_absent r d : r = VUndefined \/ r = VNull -> coalesce r d = d.
Proof. intros [-> | ->]; reflexivity. Qed.

Lemma extracted_value e x :
  extracted e x ->
  coalesce (optChain (optChain e "info") "error") (coalesce (optChain e "innerError") e) = x.
Proof.
  rewrite !optChain_propOf. unfold extracted. cbv zeta.
  intros [(H1 & H2 & ->) | [(H1 & H2 & H3 & ->) | (H1 & H2 & ->)]].
  - apply coalesce_present; assumption.
  - rewrite (coalesce_absent _ _ H1). apply coalesce_present; assumption.
  - rewrite (coalesce_absent _ _ H1). apply coalesce_absent. exact H2.
Qed.

Lemma present_dec v : (v = VUndefined \/ v = VNull) \/ (v <> VUndefined /\ v <> VNull).
Proof. destruct v; auto; right; split; discriminate. Qed.

Lemma extracted_exists e : exists x, extracted e x.
Proof.
  unfold extracted. cbv zeta.
  destruct (present_dec (propOf (propOf e "info") "error")) as [H1 | [H1 H1']].
  - destruct (present_dec (propOf e "innerError")) as [H2 | [H2 H2']].
    + exists e. right. right. auto.
    + eexists. right. left. eauto.
  - eexists. left. eauto.
Qed.

Lemma thenable_primitive {W} (E : Env W) v :
  v = VUndefined \/ v = VNull -> thenable E (coalesce v VNull) = None.
Proof. intros [-> | ->]; reflexivity. Qed.

Section WrapperErrors.
Context {W : Type} (E : Env W).

Ltac wrapper_run :=
  cbn [V1.contract_ V2.contractCaller V2.contractSigner]; mgo.

(** What the [catch] block of [call] and [signedCall] does with a handler:
    it is the handler's run followed by the adoption of its result. *)
Lemma call_caught (c c' : Wrapped) methodName methodParams callParams e f w1 (s : Sys W)
      (result : Outcome JsVal * Sys W * list Action) :
  contractMethod E c methodName methodParams callParams (world s) = (Reject e, w1) ->
  (let* r := call E (VFun f) [e] in adopt E (coalesce r VNull)) (withWorld w1 s) = result ->
  callEnds E c c' methodName methodParams callParams (VFun f) s result.
Proof.
  intros Hc Hr. unfold callEnds, V1.call_, V2.call_, V2.signedCall, tryCatch, ask.
  cbn [V1.contract_ V2.contractCaller V2.contractSigner].
  rewrite Hc. cbn [settle throw isFunction]. unfold withWorld in Hr.
  rewrite Hr. destruct result as [[o s'] t]. repeat split; reflexivity.
Qed.

Lemma call_handled (c c' : Wrapped) methodName methodParams callParams e f r w1 w2 (s : Sys W) :
  contractMethod E c methodName methodParams callParams (world s) = (Reject e, w1) ->
  callFunction E f [e] w1 = (Resolve r, w2) ->
  (r = VUndefined \/ r = VNull ->
   callEnds E c c' methodName methodParams callParams (VFun f) s
            (Ret VNull, withWorld w2 s, [Call f]))
  /\ (r <> VUndefined -> r <> VNull -> thenable E r = None ->
      callEnds E c c' methodName methodParams callParams (VFun f) s
               (Ret r, withWorld w2 s, [Call f]))
  /\ (forall q v w3,
         thenable E r = Some q -> q w2 = (Resolve v, w3) ->
         callEnds E c c' methodName methodParams callParams (VFun f) s
                  (Ret v, withWorld w3 s, [Call f]))
  /\ (forall q e' w3,
         thenable E r = Some q -> q w2 = (Reject e', w3) ->
         callEnds E c c' methodName methodParams callParams (VFun f) s
                  (Throw e', withWorld w3 s, [Call f])).
Proof.
  intros Hc Hf.
  assert (Hrun : forall result,
             adopt E (coalesce r VNull) (withWorld w2 s) = result ->
             (let* r := call E (VFun f) [e] in adopt E (coalesce r VNull)) (withWorld w1 s)
             = (let '(o, s', t) := result in (o, s', Call f :: t))).
  { intros result <-. unfold bind at 1, call, log, ask, withWorld.
    cbn [bind conn world chainListeners timers suspended]. unfold bind.
    cbn [conn world chainListeners timers suspended].
    rewrite Hf. cbn [settle ret app].
    destruct (adopt E (coalesce r VNull) _) as [[o s'] t]. reflexivity. }
  assert (Hthen : forall q, thenable E r = Some q -> coalesce r VNull = r).
  { intros q Hq. destruct r; try reflexivity; discriminate. }
  split; [|split; [|split]].
  - intros Hr. apply (call_caught c c' _ _ _ e f w1 s _ Hc).
    rewrite (Hrun _ eq_refl). unfold adopt.
    rewrite (thenable_primitive E r Hr), (coalesce_absent _ _ Hr). reflexivity.
  - intros H1 H2 Hn. apply (call_caught c c' _ _ _ e f w1 s _ Hc).
    rewrite (Hrun _ eq_refl). unfold adopt.
    rewrite (coalesce_present _ _ H1 H2), Hn. reflexivity.
  - intros q v w3 Hq Hv. apply (call_caught c c' _ _ _ e f w1 s _ Hc).
    rewrite (Hrun _ eq_refl). unfold adopt. rewrite (Hthen q Hq), Hq.
    unfold ask, withWorld. cbn [conn world chainListeners timers suspended].
    rewrite Hv. reflexivity.
  - intros q e' w3 Hq Hv. apply (call_caught c c' _ _ _ e f w1 s _ Hc).
    rewrite (Hrun _ eq_refl). unfold adopt. rewrite (Hthen q Hq), Hq.
    unfold ask, withWorld. cbn [conn world chainListeners timers suspended].
    rewrite Hv. reflexivity.
Qed.

Lemma call_handler_raises (c c' : Wrapped) methodName methodParams callParams e f e' w1 w2
      (s : Sys W) :
  contractMethod E c methodName methodParams callParams (world s) = (Reject e, w1) ->
  callFunction E f [e] w1 = (Reject e', w2) ->
  callEnds E c c' methodName methodParams callParams (VFun f) s
           (Throw e', withWorld w2 s, [Call f]).
Proof.
  intros Hc Hf. apply (call_caught c c' _ _ _ e f w1 s _ Hc).
  unfold bind at 1, call, log, ask, withWorld.
  cbn [bind conn world chainListeners timers suspended]. unfold bind.
  cbn [conn world chainListeners timers suspended].
  rewrite Hf. reflexivity.
Qed.

Lemma call_unhandled (c c' : Wrapped) methodName methodParams callParams onError e w1 (s : Sys W) :
  contractMethod E c methodName methodParams callParams (world s) = (Reject e, w1) ->
  isFunction onError = false ->
  callEnds E c c' methodName methodParams callParams onError s
           (Ret VNull, withWorld w1 s, [ConsoleLog e]).
Proof.
  intros Hc Hf. unfold callEnds, V1.call_, V2.call_, V2.signedCall.
  repeat split; wrapper_run; reflexivity.
Qed.

(** What [send] does once it has caught [e] in world state [w]. *)
Lemma send_reports (c c' : Wrapped) methodName methodParams sendParams e w (s : Sys W) :
  (forall result,
      (log (ConsoleLog e) ;;;
       adopt E (coalesce (optChain (optChain e "info") "error")
                         (coalesce (optChain e "innerError") e))) (withWorld w s) = result ->
      sendEnds E c c' methodName methodParams sendParams s result) ->
  sendReports E c c' methodName methodParams sendParams s e w.
Proof.
  intros Hsend x Hx. rewrite (extracted_value e x Hx) in Hsend.
  split; [|split].
  - intros Hn. apply Hsend. unfold bind, log, adopt. rewrite Hn. reflexivity.
  - intros q v w' Hq Hv. apply Hsend. unfold bind, log, adopt. rewrite Hq.
    unfold ask, withWorld. cbn [conn world chainListeners timers suspended].
    rewrite Hv. reflexivity.
  - intros q e' w' Hq Hv. apply Hsend. unfold bind, log, adopt. rewrite Hq.
    unfold ask, withWorld. cbn [conn world chainListeners timers suspended].
    rewrite Hv. reflexivity.
Qed.

Lemma send_call_throws (c c' : Wrapped) methodName methodParams sendParams e w1 (s : Sys W) :
  contractMethod E c methodName methodParams sendParams (world s) = (Reject e, w1) ->
  sendReports E c c' methodName methodParams sendParams s e w1.
Proof.
  intros Hc. apply send_reports. intros result <-.
  assert (Hbody : (let* txn := ask (contractMethod E c methodName methodParams sendParams) in
                   let* receipt := ask (txnWait E txn) in ret receipt) s
                  = (Throw e, withWorld w1 s, [])).
  { unfold bind, ask. rewrite Hc. reflexivity. }
  unfold sendEnds, V1.send, V2.send, tryCatch.
  cbn [V1.contract_ V2.contractCaller V2.contractSigner].
  rewrite Hbody. cbn [app].
  split;
    destruct ((log (ConsoleLog e) ;;;
               adopt E (coalesce (optChain (optChain e "info") "error")
                                 (coalesce (optChain e "innerError") e))) (withWorld w1 s))
      as [[o s'] t]; reflexivity.
Qed.

Lemma send_wait_throws (c c' : Wrapped) methodName methodParams sendParams txn e w1 w2
      (s : Sys W) :
  contractMethod E c methodName methodParams sendParams (world s) = (Resolve txn, w1) ->
  txnWait E txn w1 = (Reject e, w2) ->
  sendReports E c c' methodName methodParams sendParams s e w2.
Proof.
  intros Hc Hw. apply send_reports. intros result <-.
  assert (Hbody : (let* txn := ask (contractMethod E c methodName methodParams sendParams) in
                   let* receipt := ask (txnWait E txn) in ret receipt) s
                  = (Throw e, withWorld w2 s, [])).
  { unfold bind, ask. rewrite Hc. cbn [settle ret conn world chainListeners timers suspended].
    rewrite Hw. reflexivity. }
  unfold sendEnds, V1.send, V2.send, tryCatch.
  cbn [V1.contract_ V2.contractCaller V2.contractSigner].
  rewrite Hbody. cbn [app].
  split;
    destruct ((log (ConsoleLog e) ;;;
               adopt E (coalesce (optChain (optChain e "info") "error")
                                 (coalesce (optChain e "innerError") e))) (withWorld w2 s))
      as [[o s'] t]; reflexivity.
Qed.

End WrapperErrors.

(** C7 fails as stated: [call] and [signedCall] can throw, and they can
    return [undefined].  The contract call of the wrapper fails; with an
    [onError] function that throws, version 1's [call] throws what the
    function threw; with an [async] function that returns nothing, version
    2's [signedCall] returns [undefined], not [null]. *)
Lemma wrapper_errors_counterexample :
  contractMethod failingHandler sampleContract "balanceOf" [] VUndefined tt
  = (Reject callException, tt)
  /\ callFunction failingHandler 0 [callException] tt = (Reject (VStr "handler failed"), tt)
  /\ outcomeOf (V1.call_ failingHandler (V1.mkWrapper sampleContract) "balanceOf" []
                         VUndefined (VFun 0) connectedSys)
     = Throw (VStr "handler failed")
  /\ contractMethod asyncHandler sampleContract "balanceOf" [] VUndefined tt
     = (Reject callException, tt)
  /\ callFunction asyncHandler 0 [callException] tt
     = (Resolve (fulfilledWith VUndefined), tt)
  /\ thenable asyncHandler (fulfilledWith VUndefined)
     = Some (fun w => (Resolve VUndefined, w))
  /\ outcomeOf (V2.signedCall asyncHandler (V2.mkWrapper sampleContract sampleContract)
                              "balanceOf" [] VUndefined (VFun 0) connectedSys)
     = Ret VUndefined.
Proof. repeat split. Qed.

(** C7, amended.  When the contract method throws [e], [call] and
    [signedCall] behave alike.  If [onError] is not a function they log
    [e] and return [null].  If it is one, it is called with [e]: what it
    throws, the method throws; if it returns [null] or [undefined], the
    method returns [null]; if it returns a promise, the method ends as
    that promise settles (it returns the value unchanged, [undefined]
    included, or throws the rejection); any other value is returned as it
    is.  [send] logs the error and reports [e.info.error], else
    [e.innerError], else [e] (the first that is neither [null] nor
    [undefined]), whether the method itself or the [wait] on its
    transaction threw; it returns that object, unless the object is a
    promise, in which case [send] ends as the promise settles. *)
Theorem wrapper_normalizes_errors :
  forall (W : Type) (E : Env W) (c c' : Wrapped) (methodName : string)
         (methodParams : list JsVal) (params : JsVal) (s : Sys W),
    (forall e w1,
        contractMethod E c methodName methodParams params (world s) = (Reject e, w1) ->
        (forall onError,
            isFunction onError = false ->
            callEnds E c c' methodName methodParams params onError s
                     (Ret VNull, withWorld w1 s, [ConsoleLog e]))
        /\ (forall f e' w2,
               callFunction E f [e] w1 = (Reject e', w2) ->
               callEnds E c c' methodName methodParams params (VFun f) s
                        (Throw e', withWorld w2 s, [Call f]))
        /\ (forall f r w2,
               callFunction E f [e] w1 = (Resolve r, w2) ->
               (r = VUndefined \/ r = VNull ->
                callEnds E c c' methodName methodParams params (VFun f) s
                         (Ret VNull, withWorld w2 s, [Call f]))
               /\ (r <> VUndefined -> r <> VNull -> thenable E r = None ->
                   callEnds E c c' methodName methodParams params (VFun f) s
                            (Ret r, withWorld w2 s, [Call f]))
               /\ (forall q v w3,
                      thenable E r = Some q -> q w2 = (Resolve v, w3) ->
                      callEnds E c c' methodName methodParams params (VFun f) s
                               (Ret v, withWorld w3 s, [Call f]))
               /\ (forall q e' w3,
                      thenable E r = Some q -> q w2 = (Reject e', w3) ->
                      callEnds E c c' methodName methodParams params (VFun f) s
                               (Throw e', withWorld w3 s, [Call f])))
        /\ sendReports E c c' methodName methodParams params s e w1)
    /\ (forall txn e w1 w2,
           contractMethod E c methodName methodParams params (world s) = (Resolve txn, w1) ->
           txnWait E txn w1 = (Reject e, w2) ->
           sendReports E c c' methodName methodParams params s e w2).
Proof.
  intros W E c c' methodName methodParams params s. split.
  - intros e w1 Hc. split; [|split; [|split]].
    + intros onError Hf. exact (call_unhandled E c c' _ _ _ _ _ _ s Hc Hf).
    + intros f e' w2 Hf. exact (call_handler_raises E c c' _ _ _ _ _ _ _ _ s Hc Hf).
    + intros f r w2 Hf. exact (call_handled E c c' _ _ _ _ _ _ _ _ s Hc Hf).
    + exact (send_call_throws E c c' _ _ _ _ _ s Hc).
  - intros txn e w1 w2 Hc Hw. exact (send_wait_throws E c c' _ _ _ _ _ _ _ s Hc Hw).
Qed.

Lemma wrapper_normalizes_errors_witness :
  contractMethod asyncHandler sampleContract "balanceOf" [] VUndefined (world connectedSys)
  = (Reject callException, tt)
  /\ callFunction asyncHandler 0 [callException] tt
     = (Resolve (fulfilledWith VUndefined), tt)
  /\ thenable asyncHandler (fulfilledWith VUndefined)
     = Some (fun w => (Resolve VUndefined, w))
  /\ callEnds asyncHandler sampleContract sampleContract "balanceOf" [] VUndefined (VFun 0)
              connectedSys (Ret VUndefined, withWorld tt connectedSys, [Call 0])
  /\ callEnds asyncHandler sampleContract sampleContract "balanceOf" [] VUndefined VNull
              connectedSys (Ret VNull, withWorld tt connectedSys, [ConsoleLog callException])
  /\ extracted callException callException
  /\ sendEnds asyncHandler sampleContract sampleContract "balanceOf" [] VUndefined
              connectedSys
              (Ret callException, withWorld tt connectedSys, [ConsoleLog callException]).
Proof.
  assert (Hx : extracted callException callException).
  { right. right. repeat split; left; reflexivity. }
  destruct (proj1 (wrapper_normalizes_errors
                     unit asyncHandler sampleContract sampleContract
                     "balanceOf" [] VUndefined connectedSys)
                  callException tt eq_refl)
    as (Hnone & _ & Hcall & Hsend).
  split; [reflexivity|]. split; [reflexivity|]. split; [reflexivity|].
  split; [exact (proj1 (proj2 (proj2 (Hcall 0 (fulfilledWith VUndefined) tt eq_refl)))
                       _ VUndefined tt eq_refl eq_refl)|].
  split; [exact (Hnone VNull eq_refl)|].
  split; [exact Hx|].
  exact (proj1 (Hsend callException Hx) eq_refl).
Defined.

(** * The confirm-before-retry gate *)

Section Gate.
Context {W : Type} (E : Env W).

Lemma gate_false1 failEventName loc f w1 (s : Sys W) :
  0 < tryConnectCount loc <= 3 ->
  h_execBeforeReconnect (conn s) = VFun f ->
  callFunction E f [] (world s) = (Resolve (VBool false), w1) ->
  V1.reconnect E failEventName loc s
  = (Ret (false, mkLocals AccNull (tryConnectCount loc)), withWorld w1 s,
     [Call f; Emit failEventName []]).
Proof.
  intros [Hlo Hhi] Hcb Hf. unfold V1.reconnect, V1.shouldRetryNow.
  apply Nat.ltb_lt in Hlo. rewrite Hlo.
  assert (H3 : (3 <? tryConnectCount loc) = false) by (apply Nat.ltb_ge; lia).
  rewrite H3. mgo. reflexivity.
Qed.

Lemma gate_false2 failEventName failEventArgs loc f w1 (s : Sys W) :
  0 < tryConnectCount loc <= 3 ->
  h_execBeforeReconnect (conn s) = VFun f ->
  callFunction E f [] (world s) = (Resolve (VBool false), w1) ->
  V2.reconnect E failEventName failEventArgs loc s
  = (Ret (false, mkLocals AccNull (tryConnectCount loc)), withWorld w1 s,
     [Call f; Emit failEventName failEventArgs]).
Proof.
  intros [Hlo Hhi] Hcb Hf. unfold V2.reconnect, V2.shouldRetryNow.
  apply Nat.ltb_lt in Hlo. rewrite Hlo.
  assert (H3 : (3 <? tryConnectCount loc) = false) by (apply Nat.ltb_ge; lia).
  rewrite H3. mgo. reflexivity.
Qed.

Lemma gate_open1 failEventName loc f v w1 (s : Sys W) :
  0 < tryConnectCount loc <= 3 ->
  h_execBeforeReconnect (conn s) = VFun f ->
  callFunction E f [] (world s) = (Resolve v, w1) ->
  v <> VBool false ->
  V1.reconnect E failEventName loc s = afterCall f w1 (V1.attemptConnect E loc) s.
Proof.
  intros [Hlo Hhi] Hcb Hf Hv. unfold V1.reconnect, V1.shouldRetryNow, afterCall.
  apply Nat.ltb_lt in Hlo. rewrite Hlo.
  assert (H3 : (3 <? tryConnectCount loc) = false) by (apply Nat.ltb_ge; lia).
  rewrite H3. mgo.
  destruct v as [| |[|]| | | |]; try congruence; mgo;
    match goal with
    | |- context [V1.attemptConnect E loc ?s'] =>
        destruct (V1.attemptConnect E loc s') as [[o s2] t2]; reflexivity
    end.
Qed.

Lemma gate_open2 failEventName failEventArgs loc f v w1 (s : Sys W) :
  0 < tryConnectCount loc <= 3 ->
  h_execBeforeReconnect (conn s) = VFun f ->
  callFunction E f [] (world s) = (Resolve v, w1) ->
  v <> VBool false ->
  V2.reconnect E failEventName failEventArgs loc s
  = afterCall f w1 (V2.attemptConnect E loc) s.
Proof.
  intros [Hlo Hhi] Hcb Hf Hv. unfold V2.reconnect, V2.shouldRetryNow, afterCall.
  apply Nat.ltb_lt in Hlo. rewrite Hlo.
  assert (H3 : (3 <? tryConnectCount loc) = false) by (apply Nat.ltb_ge; lia).
  rewrite H3. mgo.
  destruct v as [| |[|]| | | |]; try congruence; mgo;
    match goal with
    | |- context [V2.attemptConnect E loc ?s'] =>
        destruct (V2.attemptConnect E loc s') as [[o s2] t2]; reflexivity
    end.
Qed.

Lemma gate_absent1 failEventName loc (s : Sys W) :
  0 < tryConnectCount loc <= 3 ->
  isFunction (h_execBeforeReconnect (conn s)) = false ->
  V1.reconnect E failEventName loc s = V1.attemptConnect E loc s.
Proof.
  intros [Hlo Hhi] Hcb. unfold V1.reconnect, V1.shouldRetryNow.
  apply Nat.ltb_lt in Hlo. rewrite Hlo.
  assert (H3 : (3 <? tryConnectCount loc) = false) by (apply Nat.ltb_ge; lia).
  rewrite H3. mgo.
  destruct (V1.attemptConnect E loc s) as [[o s2] t2]. reflexivity.
Qed.

Lemma gate_absent2 failEventName failEventArgs loc (s : Sys W) :
  0 < tryConnectCount loc <= 3 ->
  isFunction (h_execBeforeReconnect (conn s)) = false ->
  V2.reconnect E failEventName failEventArgs loc s = V2.attemptConnect E loc s.
Proof.
  intros [Hlo Hhi] Hcb. unfold V2.reconnect, V2.shouldRetryNow.
  apply Nat.ltb_lt in Hlo. rewrite Hlo.
  assert (H3 : (3 <? tryConnectCount loc) = false) by (apply Nat.ltb_ge; lia).
  rewrite H3. mgo.
  destruct (V2.attemptConnect E loc s) as [[o s2] t2]. reflexivity.
Qed.

(** [break]: when [reconnect] answers [false] the loop is left at once. *)
Lemma loop_break1 fuel cond failEventName loc loc' (s s1 s2 : Sys W) t1 t2 :
  cond (accounts loc) s = (Ret true, s1, t1) ->
  V1.reconnect E failEventName loc s1 = (Ret (false, loc'), s2, t2) ->
  V1.retryLoop E (S fuel) cond failEventName loc s = (Ret loc', s2, t1 ++ t2).
Proof.
  intros Hc Hr. cbn [V1.retryLoop].
  rewrite (bind_Ret _ _ _ _ _ _ Hc). cbv beta iota.
  rewrite (bind_Ret _ _ _ _ _ _ Hr). cbn [fst snd]. unfold ret, outcomeOf, sysOf, traceOf.
  cbn [fst snd]. rewrite !app_nil_r. reflexivity.
Qed.

Lemma loop_break2 fuel cond failEventName failEventArgs args loc loc' (s s1 s2 : Sys W) t1 t2 :
  cond (accounts loc) s = (Ret true, s1, t1) ->
  failEventArgs s1 = (Ret args, s1, []) ->
  V2.reconnect E failEventName args loc s1 = (Ret (false, loc'), s2, t2) ->
  V2.retryLoop E (S fuel) cond failEventName failEventArgs loc s = (Ret loc', s2, t1 ++ t2).
Proof.
  intros Hc Ha Hr. cbn [V2.retryLoop].
  rewrite (bind_Ret _ _ _ _ _ _ Hc). cbv beta iota.
  rewrite (bind_Ret _ _ _ _ _ _ Ha). cbv beta iota.
  rewrite (bind_Ret _ _ _ _ _ _ Hr). cbn [fst snd]. unfold ret, outcomeOf, sysOf, traceOf.
  cbn [fst snd app]. rewrite !app_nil_r. reflexivity.
Qed.

End Gate.

Section GateProceeds.
Context {W : Type} (E : Env W).

(** A retry that proceeds sends the permission request first. *)
Lemma attemptConnect_requests loc (s : Sys W) :
  nullish (h_browserProvider (conn s)) = false ->
  (exists t, traceOf (V1.attemptConnect E loc s) = Request "wallet_requestPermissions" :: t)
  /\ (exists t, traceOf (V2.attemptConnect E loc s) = Request "wallet_requestPermissions" :: t).
Proof.
  intros Hp. unfold V1.attemptConnect, V2.attemptConnect, V1.requestConnect,
    V2.requestConnect, V1.getCurrentAccounts, V2.getCurrentAccounts.
  unfold nullish in Hp.
  split; mgo;
    destruct (wallet_requestPermissions E (world s)) as [[u|e] w]; mgo;
    try (eexists; reflexivity);
    destruct (eth_accounts E w) as [[a|e] w']; mgo; eexists; reflexivity.
Qed.

End GateProceeds.

(** C5.  In a retry (attempt count above zero and not above the cap of
    three) the configured callback gates the attempt, in both versions.  If
    it is a function it is called first; when it answers [false] the
    failure event is emitted, [accounts] becomes [null] and the loop is left
    without any permission request; when it answers anything else, or when
    no function is configured, the retry proceeds to the connection attempt,
    which starts with the permission request. *)
Theorem confirm_callback_gates_retries :
  forall (W : Type) (E : Env W) (failEventName : string) (failEventArgs : list JsVal)
         (loc : Locals) (s : Sys W),
    0 < tryConnectCount loc <= 3 ->
    (forall f w1,
        h_execBeforeReconnect (conn s) = VFun f ->
        callFunction E f [] (world s) = (Resolve (VBool false), w1) ->
        V1.reconnect E failEventName loc s
          = (Ret (false, mkLocals AccNull (tryConnectCount loc)), withWorld w1 s,
             [Call f; Emit failEventName []])
        /\ V2.reconnect E failEventName failEventArgs loc s
          = (Ret (false, mkLocals AccNull (tryConnectCount loc)), withWorld w1 s,
             [Call f; Emit failEventName failEventArgs])
        /\ (forall fuel cond s0 t0,
               cond (accounts loc) s0 = (Ret true, s, t0) ->
               V1.retryLoop E (S fuel) cond failEventName loc s0
                 = (Ret (mkLocals AccNull (tryConnectCount loc)), withWorld w1 s,
                    t0 ++ [Call f; Emit failEventName []])
               /\ V2.retryLoop E (S fuel) cond failEventName (ret failEventArgs) loc s0
                 = (Ret (mkLocals AccNull (tryConnectCount loc)), withWorld w1 s,
                    t0 ++ [Call f; Emit failEventName failEventArgs])))
    /\ (forall f v w1,
           h_execBeforeReconnect (conn s) = VFun f ->
           callFunction E f [] (world s) = (Resolve v, w1) ->
           v <> VBool false ->
           V1.reconnect E failEventName loc s = afterCall f w1 (V1.attemptConnect E loc) s
           /\ V2.reconnect E failEventName failEventArgs loc s
              = afterCall f w1 (V2.attemptConnect E loc) s)
    /\ (isFunction (h_execBeforeReconnect (conn s)) = false ->
        V1.reconnect E failEventName loc s = V1.attemptConnect E loc s
        /\ V2.reconnect E failEventName failEventArgs loc s = V2.attemptConnect E loc s)
    /\ (forall s', nullish (h_browserProvider (conn s')) = false ->
           (exists t, traceOf (V1.attemptConnect E loc s')
                      = Request "wallet_requestPermissions" :: t)
           /\ (exists t, traceOf (V2.attemptConnect E loc s')
                         = Request "wallet_requestPermissions" :: t)).
Proof.
  intros W E failEventName failEventArgs loc s Hc. repeat split.
  - apply gate_false1; assumption.
  - apply gate_false2; assumption.
  - eapply loop_break1; [eassumption|]. apply gate_false1; assumption.
  - eapply loop_break2; [eassumption | reflexivity |]. apply gate_false2; assumption.
  - eapply gate_open1; eassumption.
  - eapply gate_open2; eassumption.
  - apply gate_absent1; assumption.
  - apply gate_absent2; assumption.
  - apply attemptConnect_requests; assumption.
  - apply attemptConnect_requests; assumption.
Qed.

Lemma confirm_callback_gates_retries_witness :
  0 < tryConnectCount (mkLocals (AccArray []) 1) <= 3
  /\ V2.reconnect (emptyWallet (VBool false)) "invalidWallet" [VStr "0xabc"]
       (mkLocals (AccArray []) 1) (readySys (VStr "0xabc") (VFun 0))
     = (Ret (false, mkLocals AccNull 1), readySys (VStr "0xabc") (VFun 0),
        [Call 0; Emit "invalidWallet" [VStr "0xabc"]]).
Proof.
  assert (Hc : 0 < tryConnectCount (mkLocals (AccArray []) 1) <= 3) by (simpl; lia).
  split; [exact Hc|].
  exact (proj1 (proj2 (proj1 (confirm_callback_gates_retries unit
           (emptyWallet (VBool false)) "invalidWallet" [VStr "0xabc"]
           (mkLocals (AccArray []) 1) (readySys (VStr "0xabc") (VFun 0)) Hc)
           0 tt eq_refl eq_refl))).
Defined.

(** * What each part of the connection flow leaves alone *)

Section Frames.
Context {W : Type} (E : Env W).

(** [P] excludes neither requests, nor calls of caller functions, nor any
    event other than [walletConnected]. *)
Context (P : Action -> bool).
Context (HPreq : forall method, P (Request method) = false).
Context (HPcall : forall n, P (Call n) = false).
Context (HPemit : forall name args,
            String.eqb name "walletConnected" = false -> P (Emit name args) = false).

Local Hint Resolve HPreq HPcall : core.
Local Hint Extern 1 (P (Emit _ _) = false) => apply HPemit; reflexivity : core.

Lemma readChainId1_keeps : keeps besidesChain P (V1.readChainId E).
Proof. unfold V1.readChainId. keeps_tac. Qed.

Lemma readChainId2_keeps : keeps besidesChain P (V2.readChainId E).
Proof. unfold V2.readChainId. keeps_tac. Qed.

Lemma addChainParams1_keeps : keeps besidesChain P (V1.addChainParams E).
Proof. unfold V1.addChainParams. keeps_tac. Qed.

Lemma addChainParams2_keeps : keeps besidesChain P (V2.addChainParams E).
Proof. unfold V2.addChainParams. keeps_tac. Qed.

Lemma addOrSwitchNetwork1_keeps : keeps besidesChain P (V1.addOrSwitchNetwork E).
Proof.
  unfold V1.addOrSwitchNetwork.
  pose proof readChainId1_keeps. pose proof addChainParams1_keeps. keeps_tac.
Qed.

Lemma addOrSwitchNetwork2_keeps : keeps besidesChain P (V2.addOrSwitchNetwork E).
Proof.
  unfold V2.addOrSwitchNetwork.
  pose proof readChainId2_keeps. pose proof addChainParams2_keeps. keeps_tac.
Qed.

Lemma detectNetwork1_keeps : keeps besidesChain P (V1.detectNetwork E true).
Proof.
  unfold V1.detectNetwork.
  pose proof readChainId1_keeps. pose proof addOrSwitchNetwork1_keeps. keeps_tac.
Qed.

Lemma detectNetwork2_keeps : keeps besidesChain P (V2.detectNetwork E true).
Proof.
  unfold V2.detectNetwork.
  pose proof readChainId2_keeps. pose proof addOrSwitchNetwork2_keeps. keeps_tac.
Qed.

(** The retry closure and the loop change no private field at all. *)

Lemma requestConnect_keeps :
  keeps id P (V1.requestConnect E) /\ keeps id P (V2.requestConnect E).
Proof. unfold V1.requestConnect, V2.requestConnect. split; keeps_tac. Qed.

Lemma getCurrentAccounts_keeps :
  keeps id P (V1.getCurrentAccounts E) /\ keeps id P (V2.getCurrentAccounts E).
Proof. unfold V1.getCurrentAccounts, V2.getCurrentAccounts. split; keeps_tac. Qed.

Lemma attemptConnect_keeps loc :
  keeps id P (V1.attemptConnect E loc) /\ keeps id P (V2.attemptConnect E loc).
Proof.
  destruct requestConnect_keeps, getCurrentAccounts_keeps.
  unfold V1.attemptConnect, V2.attemptConnect. split; keeps_tac.
Qed.

Lemma shouldRetryNow_keeps loc :
  keeps id P (V1.shouldRetryNow E loc) /\ keeps id P (V2.shouldRetryNow E loc).
Proof. unfold V1.shouldRetryNow, V2.shouldRetryNow. split; keeps_tac. Qed.

Lemma reconnect1_keeps name loc :
  String.eqb name "walletConnected" = false ->
  keeps id P (V1.reconnect E name loc).
Proof.
  intros Hn. destruct (attemptConnect_keeps loc), (shouldRetryNow_keeps loc).
  unfold V1.reconnect. keeps_tac.
Qed.

Lemma reconnect2_keeps name args loc :
  String.eqb name "walletConnected" = false ->
  keeps id P (V2.reconnect E name args loc).
Proof.
  intros Hn. destruct (attemptConnect_keeps loc), (shouldRetryNow_keeps loc).
  unfold V2.reconnect. keeps_tac.
Qed.

Lemma conds_keep a :
  keeps id P (V1.allowedMissing (W:=W) a) /\ keeps id P (V1.noAccounts (W:=W) a)
  /\ keeps id P (V2.allowedMissing (W:=W) a) /\ keeps id P (V2.noAccounts (W:=W) a).
Proof.
  unfold V1.allowedMissing, V1.noAccounts, V2.allowedMissing, V2.noAccounts.
  split; [|split; [|split]]; keeps_tac.
Qed.

Lemma retryLoop1_keeps fuel cond name :
  (forall a, keeps id P (cond a)) ->
  String.eqb name "walletConnected" = false ->
  forall loc, keeps id P (V1.retryLoop E fuel cond name loc).
Proof.
  intros Hc Hn. induction fuel as [|fuel IH]; intros loc; cbn [V1.retryLoop].
  - apply keeps_diverge.
  - pose proof (reconnect1_keeps name loc Hn). keeps_tac.
Qed.

Lemma retryLoop2_keeps fuel cond name args :
  (forall a, keeps id P (cond a)) ->
  keeps id P args ->
  String.eqb name "walletConnected" = false ->
  forall loc, keeps id P (V2.retryLoop E fuel cond name args loc).
Proof.
  intros Hc Ha Hn. induction fuel as [|fuel IH]; intros loc; cbn [V2.retryLoop].
  - apply keeps_diverge.
  - keeps_tac. apply reconnect2_keeps, Hn.
Qed.

End Frames.

(** * The network precondition *)

(** Split on the next undecided test or answer. *)
Ltac undecided c :=
  lazymatch c with
  | context [match _ with _ => _ end] => fail
  | context [if _ then _ else _] => fail
  | _ => idtac
  end.

Ltac mcase :=
  match goal with
  | |- context [if ?c then _ else _] => undecided c; destruct c eqn:?
  | |- context [match ?c with _ => _ end] => undecided c; destruct c eqn:?
  end.

Ltac mforward := repeat (mgo; try mcase).

Section NetworkPrecondition.
Context {W : Type} (E : Env W).

(** What [#addOrSwitchNetwork] returns is the verdict on the chain id it
    leaves in the connector. *)
Lemma addOrSwitchNetwork1_verdict (s s2 : Sys W) b t2 :
  V1.isCorrectNetwork (conn s) = false ->
  V1.addOrSwitchNetwork E s = (Ret b, s2, t2) ->
  b = V1.isCorrectNetwork (conn s2).
Proof.
  intros Hnc. unfold V1.addOrSwitchNetwork, V1.addChainParams, V1.readChainId.
  mforward; intros H; inversion H; subst; clear H; mproj;
    first [ reflexivity | symmetry; exact Hnc ].
Qed.

Lemma addOrSwitchNetwork2_verdict (s s2 : Sys W) b t2 :
  V2.isCorrectNetwork (conn s) = false ->
  V2.addOrSwitchNetwork E s = (Ret b, s2, t2) ->
  b = V2.isCorrectNetwork (conn s2).
Proof.
  intros Hnc. unfold V2.addOrSwitchNetwork, V2.addChainParams, V2.readChainId.
  mforward; intros H; inversion H; subst; clear H; mproj;
    first [ reflexivity | symmetry; exact Hnc ].
Qed.

Lemma truthy_not_nullish v : truthy v = true -> isUndefined v || isNull v = false.
Proof. destruct v; simpl; congruence. Qed.

Lemma connectWallet1_wrong_network fuel force (s s2 : Sys W) raw w1 n b t2 :
  truthy (h_browserProvider (conn s)) = true ->
  eth_chainId E (world s) = (Resolve raw, w1) ->
  toNumber E raw = Resolve n ->
  V1.isCorrectNetwork (set_currentChainId (VNum n) (conn s)) = false ->
  V1.addOrSwitchNetwork E (withConn (set_currentChainId (VNum n) (conn s)) (withWorld w1 s))
    = (Ret b, s2, t2) ->
  V1.isCorrectNetwork (conn s2) = false ->
  V1.connectWallet E fuel force s = (Ret VUndefined, s2, Request "eth_chainId" :: t2).
Proof.
  intros Hbp Hraw Hn Hnc Hsw Hend.
  assert (b = false).
  { rewrite <- Hend. eapply addOrSwitchNetwork1_verdict; [|exact Hsw]. exact Hnc. }
  subst b. apply truthy_not_nullish in Hbp.
  unfold V1.connectWallet, V1.detectNetwork, V1.readChainId.
  unfold withConn, withWorld in Hsw. cbn [conn world chainListeners timers suspended] in Hsw.
  mgo. reflexivity.
Qed.

Lemma connectWallet2_wrong_network fuel force (s s2 : Sys W) raw w1 n b t2 :
  truthy (h_browserProvider (conn s)) = true ->
  eth_chainId E (world s) = (Resolve raw, w1) ->
  toNumber E raw = Resolve n ->
  V2.isCorrectNetwork (set_currentChainId (VNum n) (conn s)) = false ->
  V2.addOrSwitchNetwork E (withConn (set_currentChainId (VNum n) (conn s)) (withWorld w1 s))
    = (Ret b, s2, t2) ->
  V2.isCorrectNetwork (conn s2) = false ->
  V2.connectWallet E fuel force s = (Ret VUndefined, s2, Request "eth_chainId" :: t2).
Proof.
  intros Hbp Hraw Hn Hnc Hsw Hend.
  assert (b = false).
  { rewrite <- Hend. eapply addOrSwitchNetwork2_verdict; [|exact Hsw]. exact Hnc. }
  subst b. pose proof (truthy_not_nullish _ Hbp) as Hnn.
  unfold V2.connectWallet, V2.checkIfAllowed, V2.detectNetwork, V2.readChainId.
  unfold withConn, withWorld in Hsw. cbn [conn world chainListeners timers suspended] in Hsw.
  mgo. reflexivity.
Qed.

End NetworkPrecondition.

(** C4.  The expected network is a precondition of connecting, in both
    versions.  Take a run in which the connector holds a provider, the chain
    id it reads is not the configured one, and the add/switch step completes
    with the connector still not on the configured chain.  Then
    [connectWallet] returns [undefined] right after that step: account and
    signer are what they were, and [walletConnected] is not emitted. *)
Theorem wrong_network_blocks_connecting :
  forall (W : Type) (E : Env W) (fuel : nat) (forceNewConnect : JsVal) (s : Sys W)
         (raw : JsVal) (w1 : W) (n : Z),
    truthy (h_browserProvider (conn s)) = true ->
    eth_chainId E (world s) = (Resolve raw, w1) ->
    toNumber E raw = Resolve n ->
    strictEq (VNum n)
             (coalesce (optChain (h_shouldNetworkData (conn s)) "chain_id") (VNum 0%Z))
      = false ->
    let s1 := withConn (set_currentChainId (VNum n) (conn s)) (withWorld w1 s) in
    (forall b s2 t2,
        V1.addOrSwitchNetwork E s1 = (Ret b, s2, t2) ->
        V1.isCorrectNetwork (conn s2) = false ->
        V1.connectWallet E fuel forceNewConnect s
          = (Ret VUndefined, s2, Request "eth_chainId" :: t2)
        /\ h_account (conn s2) = h_account (conn s)
        /\ h_signer (conn s2) = h_signer (conn s)
        /\ never (emits "walletConnected") (Request "eth_chainId" :: t2))
    /\ (forall b s2 t2,
           V2.addOrSwitchNetwork E s1 = (Ret b, s2, t2) ->
           V2.isCorrectNetwork (conn s2) = false ->
           V2.connectWallet E fuel forceNewConnect s
             = (Ret VUndefined, s2, Request "eth_chainId" :: t2)
           /\ h_account (conn s2) = h_account (conn s)
           /\ h_signer (conn s2) = h_signer (conn s)
           /\ never (emits "walletConnected") (Request "eth_chainId" :: t2)).
Proof.
  intros W E fuel force s raw w1 n Hbp Hraw Hn Hnc s1.
  assert (HP : forall name args, String.eqb name "walletConnected" = false ->
                                 emits "walletConnected" (Emit name args) = false)
    by (intros name args H; exact H).
  split; intros b s2 t2 Hsw Hend.
  - split; [eapply connectWallet1_wrong_network; eauto|].
    assert (K : keeps besidesChain (emits "walletConnected") (V1.addOrSwitchNetwork E))
      by (apply addOrSwitchNetwork1_keeps; auto).
    destruct (K s1) as [Hk Ht].
    rewrite Hsw in Hk, Ht. unfold sysOf, traceOf in Hk, Ht. cbn [fst snd] in Hk, Ht.
    repeat split.
    + apply (f_equal h_account) in Hk. exact Hk.
    + apply (f_equal h_signer) in Hk. exact Hk.
    + constructor; [reflexivity | exact Ht].
  - split; [eapply connectWallet2_wrong_network; eauto|].
    assert (K : keeps besidesChain (emits "walletConnected") (V2.addOrSwitchNetwork E))
      by (apply addOrSwitchNetwork2_keeps; auto).
    destruct (K s1) as [Hk Ht].
    rewrite Hsw in Hk, Ht. unfold sysOf, traceOf in Hk, Ht. cbn [fst snd] in Hk, Ht.
    repeat split.
    + apply (f_equal h_account) in Hk. exact Hk.
    + apply (f_equal h_signer) in Hk. exact Hk.
    + constructor; [reflexivity | exact Ht].
Qed.

Lemma wrong_network_blocks_connecting_witness :
  truthy (h_browserProvider (conn (readySys VNull VNull))) = true
  /\ eth_chainId stubbornChain tt = (Resolve (VNum 1%Z), tt)
  /\ toNumber stubbornChain (VNum 1%Z) = Resolve 1%Z
  /\ V2.connectWallet stubbornChain 5 VUndefined (readySys VNull VNull)
     = (Ret VUndefined,
        withConn (set_currentChainId (VNum 1%Z) (readyState VNull VNull)) (readySys VNull VNull),
        [Request "eth_chainId"; Request "wallet_switchEthereumChain"; Request "eth_chainId"]).
Proof.
  split; [reflexivity|]. split; [reflexivity|]. split; [reflexivity|].
  exact (proj1 (proj2 (wrong_network_blocks_connecting unit stubbornChain 5 VUndefined
           (readySys VNull VNull) (VNum 1%Z) tt 1%Z eq_refl eq_refl eq_refl eq_refl)
           false
           (withConn (set_currentChainId (VNum 1%Z) (readyState VNull VNull))
                     (readySys VNull VNull))
           [Request "wallet_switchEthereumChain"; Request "eth_chainId"]
           eq_refl eq_refl)).
Defined.

(** * What the wallet operations leave alone *)

Lemma besidesChain_besidesWallet a b :
  besidesChain a = besidesChain b -> besidesWallet a = besidesWallet b.
Proof.
  intros H.
  change (set_signer VUndefined (set_account VUndefined (besidesChain a))
          = set_signer VUndefined (set_account VUndefined (besidesChain b))).
  rewrite H. reflexivity.
Qed.

Lemma id_besidesWallet (a b : State) : id a = id b -> besidesWallet a = besidesWallet b.
Proof. unfold id. intros ->. reflexivity. Qed.

Lemma besidesWallet_caches a b : besidesWallet a = besidesWallet b -> caches a = caches b.
Proof. intros H. apply (f_equal caches) in H. exact H. Qed.

Section WalletFrames.
Context {W : Type} (E : Env W).

Let chain_to_wallet {A} (m : M W A) :
  keeps besidesChain noAction m -> keeps besidesWallet noAction m.
Proof. apply keeps_weaken; [apply besidesChain_besidesWallet | auto]. Qed.

Let id_to_wallet {A} (m : M W A) :
  keeps id noAction m -> keeps besidesWallet noAction m.
Proof. apply keeps_weaken; [apply id_besidesWallet | auto]. Qed.

Lemma disconnectWallet1_keeps : keeps besidesWallet noAction (V1.disconnectWallet (W:=W)).
Proof. unfold V1.disconnectWallet. keeps_tac. Qed.

Lemma disconnectWallet2_keeps : keeps besidesWallet noAction (V2.disconnectWallet E).
Proof. unfold V2.disconnectWallet, V2.checkIfAllowed. keeps_tac. Qed.

Lemma startDisconnectWallet_keeps : keeps besidesWallet noAction (V2.startDisconnectWallet E).
Proof.
  unfold V2.startDisconnectWallet, V2.checkIfAllowed. keeps_tac.
  intros s. unfold V2.sendRevokeAndSuspend.
  destruct (nullish (h_browserProvider (conn s))).
  - split; [reflexivity | apply never_nil].
  - destruct (wallet_revokePermissions E (world s)) as [r w].
    split; [reflexivity | apply never_one; reflexivity].
Qed.

Lemma resumeDisconnectWallet_keeps :
  keeps besidesWallet noAction (V2.resumeDisconnectWallet (W:=W)).
Proof.
  intros s. unfold V2.resumeDisconnectWallet.
  destruct (suspended s) as [|r rest]; [split; [reflexivity | apply never_nil]|].
  match goal with
  | |- context [detached ?m ?s'] =>
      assert (K : keeps besidesWallet noAction (detached m)) by (destruct r; keeps_tac);
      exact (K s')
  end.
Qed.

Lemma detectNetwork1_any b : keeps besidesWallet noAction (V1.detectNetwork E b).
Proof.
  destruct b; [apply chain_to_wallet, detectNetwork1_keeps; auto|].
  unfold V1.detectNetwork.
  pose proof (chain_to_wallet _ (readChainId1_keeps E noAction ltac:(auto))).
  pose proof disconnectWallet1_keeps. keeps_tac.
Qed.

Lemma detectNetwork2_any b : keeps besidesWallet noAction (V2.detectNetwork E b).
Proof.
  destruct b; [apply chain_to_wallet, detectNetwork2_keeps; auto|].
  unfold V2.detectNetwork.
  pose proof (chain_to_wallet _ (readChainId2_keeps E noAction ltac:(auto))).
  pose proof startDisconnectWallet_keeps. keeps_tac.
Qed.

Lemma adoptAccount_keeps a :
  keeps besidesWallet noAction (V1.adoptAccount E a)
  /\ keeps besidesWallet noAction (V2.adoptAccount E a).
Proof. unfold V1.adoptAccount, V2.adoptAccount. split; keeps_tac. Qed.

Lemma connectWallet1_keeps fuel force :
  keeps besidesWallet noAction (V1.connectWallet E fuel force).
Proof.
  unfold V1.connectWallet.
  pose proof (detectNetwork1_any true).
  pose proof (id_to_wallet _ (proj1 (requestConnect_keeps E noAction ltac:(auto)))).
  pose proof (id_to_wallet _ (proj1 (getCurrentAccounts_keeps E noAction ltac:(auto)))).
  assert (HL : forall name cond loc,
             String.eqb name "walletConnected" = false ->
             (forall a, keeps id noAction (cond a)) ->
             keeps besidesWallet noAction (V1.retryLoop E fuel cond name loc)).
  { intros. apply id_to_wallet, retryLoop1_keeps; auto. }
  pose proof (fun a => proj1 (adoptAccount_keeps a)).
  pose proof (fun a => conds_keep (W:=W) noAction a) as Hc.
  keeps_tac; apply HL; first [reflexivity | intros ?; apply Hc].
Qed.

Lemma connectWallet2_keeps fuel force :
  keeps besidesWallet noAction (V2.connectWallet E fuel force).
Proof.
  unfold V2.connectWallet, V2.checkIfAllowed.
  pose proof (detectNetwork2_any true).
  pose proof (id_to_wallet _ (proj2 (requestConnect_keeps E noAction ltac:(auto)))).
  pose proof (id_to_wallet _ (proj2 (getCurrentAccounts_keeps E noAction ltac:(auto)))).
  assert (HL : forall name cond args loc,
             String.eqb name "walletConnected" = false ->
             (forall a, keeps id noAction (cond a)) ->
             keeps id noAction args ->
             keeps besidesWallet noAction (V2.retryLoop E fuel cond name args loc)).
  { intros. apply id_to_wallet, retryLoop2_keeps; auto. }
  pose proof (fun a => proj2 (adoptAccount_keeps a)).
  pose proof (fun a => conds_keep (W:=W) noAction a) as Hc.
  keeps_tac; apply HL; first [reflexivity | intros ?; apply Hc | keeps_tac].
Qed.

Lemma chainChanged1_keeps : keeps besidesWallet noAction (V1.chainChanged E).
Proof.
  intros s. unfold V1.chainChanged. apply keeps_runListeners.
  unfold V1.onChainChanged. pose proof (detectNetwork1_any false). keeps_tac.
Qed.

Lemma chainChanged2_keeps : keeps besidesWallet noAction (V2.chainChanged E).
Proof.
  intros s. unfold V2.chainChanged. apply keeps_runListeners.
  unfold V2.onChainChanged. pose proof (detectNetwork2_any false). keeps_tac.
Qed.

Lemma fireTimer_keeps : keeps besidesWallet noAction (V2.fireTimer (W:=W)).
Proof.
  intros s. unfold V2.fireTimer.
  destruct (timers s) as [|[] rest]; [split; [reflexivity | apply never_nil]|].
  match goal with
  | |- context [detached ?m ?s'] =>
      assert (K : keeps besidesWallet noAction (detached m)) by keeps_tac;
      exact (K s')
  end.
Qed.

End WalletFrames.

(** * The contract caches *)

Lemma grows_refl st : grows st st.
Proof. split; auto. Qed.

Lemma grows_trans a b c : grows a b -> grows b c -> grows a c.
Proof. intros [H1 H2] [H3 H4]. split; auto. Qed.

Lemma grows_caches a b : caches a = caches b -> grows a b.
Proof.
  unfold caches. intros H. inversion H as [[H1 H2]].
  split; intros k c Hk; [rewrite <- H1 | rewrite <- H2]; exact Hk.
Qed.

Section ContractCache.
Context {W : Type} (E : Env W).

Lemma extends_keeps {A X} (p : State -> X) P (m : M W A) :
  (forall a b, p a = p b -> caches a = caches b) ->
  keeps p P m -> extends m.
Proof.
  intros Hp Hm s. destruct (Hm s) as [H _]. apply grows_caches. symmetry. apply Hp, H.
Qed.

Lemma extends_caches {A} (m : M W A) : keeps caches noAction m -> extends m.
Proof. apply extends_keeps. auto. Qed.

Lemma extends_bind {A B} (m : M W A) (k : A -> M W B) :
  extends m -> (forall a, extends (k a)) -> extends (bind m k).
Proof.
  intros Hm Hk s. specialize (Hm s).
  destruct (m s) as [[[a|e|] s1] t1] eqn:Hms.
  - rewrite (bind_Ret _ _ _ _ _ _ Hms). eapply grows_trans; [exact Hm|]. apply Hk.
  - rewrite (bind_Throw _ _ _ _ _ _ Hms). exact Hm.
  - rewrite (bind_Diverge _ _ _ _ _ Hms). exact Hm.
Qed.

Lemma extends_ret {A} (a : A) : extends (W:=W) (ret a).
Proof. intros s. apply grows_refl. Qed.

Lemma extends_void {A} (m : M W A) : extends m -> extends (void m).
Proof. intros H. apply extends_bind; [exact H | intros; apply extends_ret]. Qed.

(** Storing under an address that a lookup does not find leaves every
    other lookup as it was. *)
Lemma cached_insert (cache : gmap string Contract) addr c a v :
  cached cache addr = None ->
  cached cache a = Some v ->
  cached (<[addr := c]> cache) a = Some v.
Proof.
  intros Hn Ha. destruct (decide (addr = a)) as [->|Hne]; [congruence|].
  unfold cached in *. rewrite lookup_insert_ne by assumption. exact Ha.
Qed.

Lemma cached_stored (cache : gmap string Contract) addr c :
  cached (<[addr := c]> cache) addr = Some (Built c).
Proof. unfold cached. rewrite lookup_insert_eq. reflexivity. Qed.

(** What the cache has under the address is handed back as it is, and
    nothing changes. *)
Lemma signerContractFor_hit addr ABI c (s : Sys W) :
  cached (h_signerContract (conn s)) addr = Some c ->
  signerContractFor E addr ABI s = (Ret c, s, []).
Proof. intros H. unfold signerContractFor. mgo. reflexivity. Qed.

Lemma providerContractFor_hit addr ABI c (s : Sys W) :
  cached (h_providerContract (conn s)) addr = Some c ->
  providerContractFor E addr ABI s = (Ret c, s, []).
Proof. intros H. unfold providerContractFor. mgo. reflexivity. Qed.

(** The lookup performs no action and does not touch the other cache;
    what it returns, the cache has under the address afterwards. *)
Lemma signerContractFor_post addr ABI (s : Sys W) :
  exists o s', signerContractFor E addr ABI s = (o, s', [])
               /\ (forall c, o = Ret c -> cached (h_signerContract (conn s')) addr = Some c)
               /\ h_providerContract (conn s') = h_providerContract (conn s)
               /\ grows (conn s) (conn s').
Proof.
  unfold signerContractFor, newContract.
  destruct (cached (h_signerContract (conn s)) addr) as [c|] eqn:Hl; mgo.
  - exists (Ret c), s. split; [reflexivity|]. split; [|split; [reflexivity | apply grows_refl]].
    intros c0 H. inversion H; subst. exact Hl.
  - destruct (newContractThrows E addr ABI (h_signer (conn s))) as [e|]; mgo.
    + exists (Throw e), s. split; [reflexivity|].
      split; [discriminate | split; [reflexivity | apply grows_refl]].
    + eexists _, _. split; [reflexivity|]. mproj.
      split; [intros c0 H; inversion H; subst; apply cached_stored|].
      split; [reflexivity|].
      split; mproj; auto. intros a v Ha. apply cached_insert; assumption.
Qed.

Lemma providerContractFor_post addr ABI (s : Sys W) :
  exists o s', providerContractFor E addr ABI s = (o, s', [])
               /\ (forall c, o = Ret c -> cached (h_providerContract (conn s')) addr = Some c)
               /\ h_signerContract (conn s') = h_signerContract (conn s)
               /\ grows (conn s) (conn s').
Proof.
  unfold providerContractFor, newContract.
  destruct (cached (h_providerContract (conn s)) addr) as [c|] eqn:Hl; mgo.
  - exists (Ret c), s. split; [reflexivity|]. split; [|split; [reflexivity | apply grows_refl]].
    intros c0 H. inversion H; subst. exact Hl.
  - destruct (newContractThrows E addr ABI (h_provider (conn s))) as [e|]; mgo.
    + exists (Throw e), s. split; [reflexivity|].
      split; [discriminate | split; [reflexivity | apply grows_refl]].
    + eexists _, _. split; [reflexivity|]. mproj.
      split; [intros c0 H; inversion H; subst; apply cached_stored|].
      split; [reflexivity|].
      split; mproj; auto. intros a v Ha. apply cached_insert; assumption.
Qed.

Lemma extends_signerContractFor addr ABI : extends (signerContractFor E addr ABI).
Proof.
  intros s. destruct (signerContractFor_post addr ABI s) as (c & s' & Hr & _ & _ & Hg).
  rewrite Hr. exact Hg.
Qed.

Lemma extends_providerContractFor addr ABI : extends (providerContractFor E addr ABI).
Proof.
  intros s. destruct (providerContractFor_post addr ABI s) as (c & s' & Hr & _ & _ & Hg).
  rewrite Hr. exact Hg.
Qed.

End ContractCache.

Section ContractCalls.
Context {W : Type} (E : Env W).

Let wallet_to_caches {A} (m : M W A) :
  keeps besidesWallet noAction m -> keeps caches noAction m.
Proof. apply keeps_weaken; [apply besidesWallet_caches | auto]. Qed.

Let id_to_caches {A} (m : M W A) : keeps id noAction m -> keeps caches noAction m.
Proof. apply keeps_weaken; [unfold id; intros a b ->; reflexivity | auto]. Qed.

(** The part of [contract] that precedes the cache lookups. *)
Lemma connectIfNeeded1_keeps fuel st :
  keeps caches noAction
        (if negb (V1.isWalletConnected st)
         then bind (V1.connectWallet E fuel VUndefined) (fun _ => ret tt)
         else ret tt).
Proof.
  pose proof (wallet_to_caches _ (connectWallet1_keeps E fuel VUndefined)). keeps_tac.
Qed.

Lemma connectIfNeeded2_keeps fuel st :
  keeps caches noAction
        (if negb (V2.isWalletConnected st)
         then bind (V2.connectWallet E fuel VUndefined) (fun _ => ret tt)
         else ret tt).
Proof.
  pose proof (wallet_to_caches _ (connectWallet2_keeps E fuel VUndefined)). keeps_tac.
Qed.

Lemma contract1_extends fuel addr ABI isSigner :
  extends (V1.contract E fuel addr ABI isSigner).
Proof.
  unfold V1.contract. cbv zeta.
  refine (extends_bind _ _ _ _); [refine (extends_caches _ _); apply keeps_get | intros st].
  refine (extends_bind _ _ _ _);
    [refine (extends_caches _ _); apply connectIfNeeded1_keeps | intros _].
  refine (extends_bind _ _ _ _); [|intros c; apply extends_ret].
  destruct (truthy (defaultTo isSigner (VBool false)));
    [apply extends_signerContractFor | apply extends_providerContractFor].
Qed.

Lemma contract2_extends fuel addr ABI : extends (V2.contract E fuel addr ABI).
Proof.
  unfold V2.contract.
  refine (extends_bind _ _ _ _);
    [refine (extends_caches _ _); unfold V2.checkIfAllowed; keeps_tac | intros allowed].
  destruct (negb allowed); [apply extends_ret|].
  refine (extends_bind _ _ _ _); [refine (extends_caches _ _); apply keeps_get | intros st].
  refine (extends_bind _ _ _ _);
    [refine (extends_caches _ _); apply connectIfNeeded2_keeps | intros _].
  refine (extends_bind _ _ _ _); [apply extends_providerContractFor | intros cc].
  refine (extends_bind _ _ _ _); [apply extends_signerContractFor | intros cs].
  apply extends_ret.
Qed.

(** After a call that returned a wrapper, a lookup in the cache that the
    call consulted finds what the wrapper holds. *)
Lemma contract1_result fuel addr ABI isSigner (s s' : Sys W) w t :
  V1.contract E fuel addr ABI isSigner s = (Ret w, s', t) ->
  cached (cacheFor isSigner (conn s')) addr = Some (V1.contract_ w).
Proof.
  unfold V1.contract, cacheFor. cbv zeta. intros H.
  apply bind_inv in H.
  destruct H as [(st & s1 & t1 & t2 & _ & H & _) | [(e & _ & He) | [_ He]]];
    try discriminate.
  apply bind_inv in H.
  destruct H as [(u & s2 & t3 & t4 & _ & H & _) | [(e & _ & He) | [_ He]]];
    try discriminate.
  apply bind_inv in H.
  destruct H as [(c & s3 & t5 & t6 & Hsel & H & _) | [(e & _ & He) | [_ He]]];
    try discriminate.
  unfold ret in H. inversion H; subst; clear H. cbn [V1.contract_].
  destruct (truthy (defaultTo isSigner (VBool false))).
  - destruct (signerContractFor_post E addr ABI s2) as (o & s4 & Hr & Hl & _).
    rewrite Hr in Hsel. inversion Hsel; subst. apply Hl. reflexivity.
  - destruct (providerContractFor_post E addr ABI s2) as (o & s4 & Hr & Hl & _).
    rewrite Hr in Hsel. inversion Hsel; subst. apply Hl. reflexivity.
Qed.

(** A call whose lookup finds something wraps what it found. *)
Lemma contract1_cached fuel addr ABI isSigner (s s' : Sys W) c w t :
  cached (cacheFor isSigner (conn s)) addr = Some c ->
  V1.contract E fuel addr ABI isSigner s = (Ret w, s', t) ->
  V1.contract_ w = c.
Proof.
  unfold V1.contract, cacheFor. cbv zeta. intros Hc H.
  apply bind_inv in H.
  destruct H as [(st & s1 & t1 & t2 & Hg & H & _) | [(e & _ & He) | [_ He]]];
    try discriminate.
  unfold get in Hg. inversion Hg; subst; clear Hg.
  apply bind_inv in H.
  destruct H as [(u & s2 & t3 & t4 & Hpre & H & _) | [(e & _ & He) | [_ He]]];
    try discriminate.
  destruct (connectIfNeeded1_keeps fuel (conn s1) s1) as [Hk _].
  rewrite Hpre in Hk. unfold sysOf, caches in Hk. cbn [fst snd] in Hk.
  inversion Hk as [[Hs Hp]].
  apply bind_inv in H.
  destruct H as [(c0 & s3 & t5 & t6 & Hsel & H & _) | [(e & _ & He) | [_ He]]];
    try discriminate.
  unfold ret in H. inversion H; subst; clear H. cbn [V1.contract_].
  destruct (truthy (defaultTo isSigner (VBool false))).
  - rewrite <- Hs in Hc. rewrite (signerContractFor_hit E addr ABI c s2 Hc) in Hsel.
    inversion Hsel; reflexivity.
  - rewrite <- Hp in Hc. rewrite (providerContractFor_hit E addr ABI c s2 Hc) in Hsel.
    inversion Hsel; reflexivity.
Qed.

Lemma contract2_result fuel addr ABI (s s' : Sys W) w t :
  V2.contract E fuel addr ABI s = (Ret (Some w), s', t) ->
  cached (h_providerContract (conn s')) addr = Some (V2.contractCaller w)
  /\ cached (h_signerContract (conn s')) addr = Some (V2.contractSigner w).
Proof.
  unfold V2.contract. intros H.
  apply bind_inv in H.
  destruct H as [(allowed & s0 & t0 & t0' & _ & H & _) | [(e & _ & He) | [_ He]]];
    try discriminate.
  destruct (negb allowed); [unfold ret in H; inversion H|].
  apply bind_inv in H.
  destruct H as [(st & s1 & t1 & t2 & _ & H & _) | [(e & _ & He) | [_ He]]];
    try discriminate.
  apply bind_inv in H.
  destruct H as [(u & s2 & t3 & t4 & _ & H & _) | [(e & _ & He) | [_ He]]];
    try discriminate.
  apply bind_inv in H.
  destruct H as [(cc & s3 & t5 & t6 & Hp & H & _) | [(e & _ & He) | [_ He]]];
    try discriminate.
  apply bind_inv in H.
  destruct H as [(cs & s4 & t7 & t8 & Hs & H & _) | [(e & _ & He) | [_ He]]];
    try discriminate.
  unfold ret in H. inversion H; subst; clear H. cbn [V2.contractCaller V2.contractSigner].
  destruct (providerContractFor_post E addr ABI s2) as (o & s5 & Hr & Hl & _).
  rewrite Hr in Hp. inversion Hp; subst; clear Hp.
  destruct (signerContractFor_post E addr ABI s3) as (o' & s6 & Hr' & Hl' & Hsame & _).
  rewrite Hr' in Hs. inversion Hs; subst; clear Hs.
  split; [rewrite Hsame; apply Hl; reflexivity | apply Hl'; reflexivity].
Qed.

Lemma contract2_cached fuel addr ABI (s s' : Sys W) cp cs w t :
  cached (h_providerContract (conn s)) addr = Some cp ->
  cached (h_signerContract (conn s)) addr = Some cs ->
  V2.contract E fuel addr ABI s = (Ret (Some w), s', t) ->
  w = V2.mkWrapper cp cs.
Proof.
  unfold V2.contract. intros Hcp Hcs H.
  apply bind_inv in H.
  destruct H as [(allowed & s0 & t0 & t0' & Hal & H & _) | [(e & _ & He) | [_ He]]];
    try discriminate.
  assert (Hk0 : caches (conn s0) = caches (conn s)).
  { assert (K : keeps caches noAction (V2.checkIfAllowed (W:=W)))
      by (unfold V2.checkIfAllowed; keeps_tac).
    destruct (K s) as [Hk _]. rewrite Hal in Hk. exact Hk. }
  destruct (negb allowed); [unfold ret in H; inversion H|].
  apply bind_inv in H.
  destruct H as [(st & s1 & t1 & t2 & Hg & H & _) | [(e & _ & He) | [_ He]]];
    try discriminate.
  unfold get in Hg. inversion Hg; subst; clear Hg.
  apply bind_inv in H.
  destruct H as [(u & s2 & t3 & t4 & Hpre & H & _) | [(e & _ & He) | [_ He]]];
    try discriminate.
  destruct (connectIfNeeded2_keeps fuel (conn s1) s1) as [Hk _].
  rewrite Hpre in Hk. unfold sysOf in Hk. cbn [fst snd] in Hk.
  rewrite Hk0 in Hk. unfold caches in Hk. inversion Hk as [[Hs Hp]].
  rewrite <- Hp in Hcp. rewrite <- Hs in Hcs.
  apply bind_inv in H.
  destruct H as [(cc & s3 & t5 & t6 & Hpc & H & _) | [(e & _ & He) | [_ He]]];
    try discriminate.
  rewrite (providerContractFor_hit E addr ABI cp s2 Hcp) in Hpc.
  inversion Hpc; subst; clear Hpc.
  apply bind_inv in H.
  destruct H as [(cs' & s4 & t7 & t8 & Hsc & H & _) | [(e & _ & He) | [_ He]]];
    try discriminate.
  rewrite (signerContractFor_hit E addr ABI cs s3 Hcs) in Hsc.
  inversion Hsc; subst; clear Hsc.
  unfold ret in H. inversion H; reflexivity.
Qed.

Lemma init1_keeps fuel d a c auto : keeps caches noAction (V1.init E fuel d a c auto).
Proof.
  unfold V1.init, V1.checkShouldNetworkDataIsCorrect. cbv zeta.
  pose proof (fun f => wallet_to_caches _ (connectWallet1_keeps E fuel f)).
  pose proof (fun b => wallet_to_caches _ (detectNetwork1_any E b)).
  keeps_tac.
Qed.

Lemma init2_keeps fuel auto : keeps caches noAction (V2.init E fuel auto).
Proof.
  unfold V2.init, V2.checkShouldNetworkDataIsCorrect. cbv zeta.
  pose proof (fun f => wallet_to_caches _ (connectWallet2_keeps E fuel f)).
  pose proof (fun b => wallet_to_caches _ (detectNetwork2_any E b)).
  keeps_tac.
Qed.

Lemma wrapper_keeps1 w m ps cp onError :
  keeps caches noAction (V1.call_ E w m ps cp onError)
  /\ keeps caches noAction (V1.send E w m ps cp).
Proof. unfold V1.call_, V1.send. split; keeps_tac. Qed.

Lemma wrapper_keeps2 w m ps cp onError :
  keeps caches noAction (V2.call_ E w m ps cp onError)
  /\ keeps caches noAction (V2.signedCall E w m ps cp onError)
  /\ keeps caches noAction (V2.send E w m ps cp).
Proof. unfold V2.call_, V2.signedCall, V2.send. split; [|split]; keeps_tac. Qed.

Lemma exec1_extends fuel op : resets1 op = false -> extends (exec1 E fuel op).
Proof.
  destruct op; cbn [resets1 exec1]; intros Hr; try discriminate.
  - refine (extends_caches _ _).
    apply keeps_void, init1_keeps.
  - refine (extends_caches _ _).
    apply keeps_void, wallet_to_caches, connectWallet1_keeps.
  - refine (extends_caches _ _).
    apply keeps_void, wallet_to_caches, disconnectWallet1_keeps.
  - apply extends_void, contract1_extends.
  - refine (extends_caches _ _).
    apply keeps_void, wrapper_keeps1.
  - refine (extends_caches _ _).
    apply keeps_void. apply (wrapper_keeps1 w methodName methodParams sendParams VNull).
  - refine (extends_caches _ _).
    apply wallet_to_caches, chainChanged1_keeps.
Qed.

Lemma exec2_extends fuel op : resets2 op = false -> extends (exec2 E fuel op).
Proof.
  destruct op; cbn [resets2 exec2]; intros Hr; try discriminate.
  - refine (extends_caches _ _).
    apply keeps_void, init2_keeps.
  - refine (extends_caches _ _).
    apply keeps_void, wallet_to_caches, connectWallet2_keeps.
  - refine (extends_caches _ _).
    apply keeps_void, wallet_to_caches, disconnectWallet2_keeps.
  - apply extends_void, contract2_extends.
  - refine (extends_caches _ _).
    apply keeps_void, wrapper_keeps2.
  - refine (extends_caches _ _).
    apply keeps_void, wrapper_keeps2.
  - refine (extends_caches _ _).
    apply keeps_void. apply (wrapper_keeps2 w methodName methodParams sendParams VNull).
  - refine (extends_caches _ _).
    apply wallet_to_caches, chainChanged2_keeps.
  - refine (extends_caches _ _).
    apply wallet_to_caches, fireTimer_keeps.
  - refine (extends_caches _ _).
    apply wallet_to_caches, resumeDisconnectWallet_keeps.
Qed.

Lemma runAll_grows {Op} (exec : Op -> M W unit) (resets : Op -> bool) ops :
  (forall op, resets op = false -> extends (exec op)) ->
  Forall (fun op => resets op = false) ops ->
  forall s, grows (conn s) (conn (runAll exec ops s)).
Proof.
  intros Hex Hall. induction Hall as [|op ops Hop _ IH]; intros s; cbn [runAll].
  - apply grows_refl.
  - eapply grows_trans; [apply (Hex op Hop s) | apply IH].
Qed.

End ContractCalls.

(** C10, as stated, fails on version 1: two calls for the same address
    with no [destroy] in between wrap different [Contract] instances when
    the first asks for the provider's contract and the second for the
    signer's, and the second wrapper carries the second call's ABI. *)
Lemma contract_cache_counterexample :
  outcomeOf readingCall
  = Ret (V1.mkWrapper (mkContract "0x55" (VStr "abi1") (BrowserProvider metamask)))
  /\ outcomeOf signingCall
     = Ret (V1.mkWrapper (mkContract "0x55" (VStr "abi2")
                                     (VObj [("address", VStr "0xabc")])))
  /\ outcomeOf signingCall <> outcomeOf readingCall.
Proof.
  assert (H1 : outcomeOf readingCall
               = Ret (V1.mkWrapper (mkContract "0x55" (VStr "abi1") (BrowserProvider metamask))))
    by (vm_compute; reflexivity).
  assert (H2 : outcomeOf signingCall
               = Ret (V1.mkWrapper (mkContract "0x55" (VStr "abi2")
                                               (VObj [("address", VStr "0xabc")]))))
    by (vm_compute; reflexivity).
  split; [exact H1|]. split; [exact H2|].
  rewrite H1, H2. discriminate.
Qed.

(** C10, amended.  Contract instances are cached per address, in version 1
    separately for the signer and for the provider (by the truthiness of
    [isSigner]), and the caches ignore the ABI.  Take two calls of
    [contract] for the same address (in version 1 with [isSigner] of the
    same truthiness) that both return a wrapper, with any operations in
    between other than [destroy] (and, in version 2, [setup], which calls
    it): the second wrapper holds the same [Contract] instances as the
    first, whatever ABI the second call was given. *)
Theorem contract_cache_per_address :
  forall (W : Type) (E : Env W) (fuel : nat) (contractAddress : string) (ABI1 ABI2 : JsVal),
    (forall (isSigner1 isSigner2 : JsVal) (ops : list Op1) (s : Sys W) (w1 w2 : V1.Wrapper),
        truthy (defaultTo isSigner1 (VBool false)) = truthy (defaultTo isSigner2 (VBool false)) ->
        Forall (fun op => resets1 op = false) ops ->
        outcomeOf (V1.contract E fuel contractAddress ABI1 isSigner1 s) = Ret w1 ->
        outcomeOf (V1.contract E fuel contractAddress ABI2 isSigner2
                     (runAll (exec1 E fuel) ops
                        (sysOf (V1.contract E fuel contractAddress ABI1 isSigner1 s))))
          = Ret w2 ->
        w2 = w1)
    /\ (forall (ops : list Op2) (s : Sys W) (w1 w2 : V2.Wrapper),
           Forall (fun op => resets2 op = false) ops ->
           outcomeOf (V2.contract E fuel contractAddress ABI1 s) = Ret (Some w1) ->
           outcomeOf (V2.contract E fuel contractAddress ABI2
                        (runAll (exec2 E fuel) ops
                           (sysOf (V2.contract E fuel contractAddress ABI1 s))))
             = Ret (Some w2) ->
           w2 = w1).
Proof.
  intros W E fuel addr ABI1 ABI2. split.
  - intros is1 is2 ops s w1 w2 Hsame Hops H1 H2.
    destruct (V1.contract E fuel addr ABI1 is1 s) as [[o1 s1] t1] eqn:Hc1.
    unfold outcomeOf, sysOf in H1, H2. cbn [fst snd] in H1, H2. subst o1.
    pose proof (contract1_result E _ _ _ _ _ _ _ _ Hc1) as Hin.
    pose proof (runAll_grows (exec1 E fuel) resets1 ops (exec1_extends E fuel) Hops s1)
      as [Hgs Hgp].
    destruct (V1.contract E fuel addr ABI2 is2 (runAll (exec1 E fuel) ops s1))
      as [[o2 s2] t2] eqn:Hc2.
    cbn [fst] in H2. subst o2.
    assert (Hin2 : cached (cacheFor is2 (conn (runAll (exec1 E fuel) ops s1))) addr
                   = Some (V1.contract_ w1)).
    { unfold cacheFor in *. rewrite <- Hsame.
      destruct (truthy (defaultTo is1 (VBool false))); [apply Hgs | apply Hgp]; exact Hin. }
    pose proof (contract1_cached E _ _ _ _ _ _ _ _ _ Hin2 Hc2) as Heq.
    destruct w1, w2. cbn [V1.contract_] in Heq. congruence.
  - intros ops s w1 w2 Hops H1 H2.
    destruct (V2.contract E fuel addr ABI1 s) as [[o1 s1] t1] eqn:Hc1.
    unfold outcomeOf, sysOf in H1, H2. cbn [fst snd] in H1, H2. subst o1.
    destruct (contract2_result E _ _ _ _ _ _ _ Hc1) as [Hp Hs].
    pose proof (runAll_grows (exec2 E fuel) resets2 ops (exec2_extends E fuel) Hops s1)
      as [Hgs Hgp].
    destruct (V2.contract E fuel addr ABI2 (runAll (exec2 E fuel) ops s1))
      as [[o2 s2] t2] eqn:Hc2.
    cbn [fst] in H2. subst o2.
    rewrite (contract2_cached E _ _ _ _ _ _ _ _ _ (Hgp _ _ Hp) (Hgs _ _ Hs) Hc2).
    destruct w1; reflexivity.
Qed.

Lemma contract_cache_per_address_witness :
  Forall (fun op => resets2 op = false) [DisconnectWallet2; ConnectWallet2 VUndefined]
  /\ outcomeOf (V2.contract oneAccount 5 "0x55" (VStr "abi2")
                  (runAll (exec2 oneAccount 5) [DisconnectWallet2; ConnectWallet2 VUndefined]
                     (sysOf (V2.contract oneAccount 5 "0x55" (VStr "abi1")
                               (readySys VNull VNull)))))
     = Ret (Some (V2.mkWrapper
                    (mkContract "0x55" (VStr "abi1") (BrowserProvider metamask))
                    (mkContract "0x55" (VStr "abi1") (VObj [("address", VStr "0xabc")])))).
Proof.
  assert (Hops : Forall (fun op => resets2 op = false)
                        [DisconnectWallet2; ConnectWallet2 VUndefined])
    by (repeat constructor).
  split; [exact Hops|].
  assert (H2 : exists w2,
             outcomeOf (V2.contract oneAccount 5 "0x55" (VStr "abi2")
                          (runAll (exec2 oneAccount 5)
                             [DisconnectWallet2; ConnectWallet2 VUndefined]
                             (sysOf (V2.contract oneAccount 5 "0x55" (VStr "abi1")
                                       (readySys VNull VNull)))))
             = Ret (Some w2))
    by (eexists; vm_compute; reflexivity).
  destruct H2 as [w2 H2]. rewrite H2. do 2 f_equal.
  refine (proj2 (contract_cache_per_address unit oneAccount 5 "0x55" (VStr "abi1")
                   (VStr "abi2"))
                [DisconnectWallet2; ConnectWallet2 VUndefined] (readySys VNull VNull)
                _ w2 Hops _ H2).
  vm_compute. reflexivity.
Defined.

(** * Termination and the cap of the retry loop *)

Lemma permissionRequests_app t1 t2 :
  permissionRequests (t1 ++ t2) = permissionRequests t1 + permissionRequests t2.
Proof. unfold permissionRequests. rewrite List.filter_app, length_app. reflexivity. Qed.

Lemma never_permissionRequests t : never isPermissionRequest t -> permissionRequests t = 0.
Proof. intros H. unfold permissionRequests. rewrite (never_filter _ _ H). reflexivity. Qed.

Section Halting.
Context {W : Type}.

Lemma halts_ret {A} (a : A) : halts (W:=W) (ret a).
Proof. intros s. discriminate. Qed.

Lemma halts_throw {A} e : halts (W:=W) (A:=A) (throw e).
Proof. intros s. discriminate. Qed.

Lemma halts_get : halts (W:=W) get.
Proof. intros s. discriminate. Qed.

Lemma halts_gets {A} (f : State -> A) : halts (W:=W) (gets f).
Proof. intros s. discriminate. Qed.

Lemma halts_modify f : halts (W:=W) (modify f).
Proof. intros s. discriminate. Qed.

Lemma halts_log a : halts (W:=W) (log a).
Proof. intros s. discriminate. Qed.

Lemma halts_settle {A} (r : Reply A) : halts (W:=W) (settle r).
Proof. destruct r; intros s; discriminate. Qed.

Lemma halts_ask {A} (q : W -> Reply A * W) : halts (ask q).
Proof.
  intros s. unfold ask. destruct (q (world s)) as [[a|e] w]; discriminate.
Qed.

Lemma halts_bind {A B} (m : M W A) (k : A -> M W B) :
  halts m -> (forall a, halts (k a)) -> halts (bind m k).
Proof.
  intros Hm Hk s. specialize (Hm s).
  destruct (m s) as [[[a|e|] s1] t1] eqn:Hms.
  - rewrite (bind_Ret _ _ _ _ _ _ Hms). apply Hk.
  - rewrite (bind_Throw _ _ _ _ _ _ Hms). discriminate.
  - exfalso. apply Hm. reflexivity.
Qed.

Lemma halts_tryCatch {A} (m : M W A) (h : JsVal -> M W A) :
  halts m -> (forall e, halts (h e)) -> halts (tryCatch m h).
Proof.
  intros Hm Hh s. specialize (Hm s). unfold tryCatch.
  destruct (m s) as [[[a|e|] s1] t1] eqn:Hms; try exact Hm.
  specialize (Hh e s1). destruct (h e s1) as [[o s2] t2]. exact Hh.
Qed.

Lemma halts_request {A} method (q : W -> Reply A * W) : halts (request method q).
Proof.
  unfold request. apply halts_bind; [apply halts_get | intros st].
  destruct (nullish (h_browserProvider st)); [apply halts_throw|].
  apply halts_bind; [apply halts_log | intros _; apply halts_ask].
Qed.

Lemma halts_call (E : Env W) f args : halts (call E f args).
Proof.
  destruct f; simpl; try apply halts_throw.
  apply halts_bind; [apply halts_log | intros _; apply halts_ask].
Qed.

Lemma halts_member v k : halts (W:=W) (member v k).
Proof. unfold member. destruct (nullish v); [apply halts_throw | apply halts_ret]. Qed.

Lemma halts_upperAccounts a : halts (W:=W) (upperAccounts a).
Proof. destruct a; simpl; [apply halts_ret | apply halts_throw ..]. Qed.

Lemma halts_upperOf v : halts (W:=W) (upperOf v).
Proof. destruct v; simpl; try apply halts_throw. apply halts_ret. Qed.

Lemma halts_lengthOf a : halts (W:=W) (lengthOf a).
Proof. destruct a; simpl; [apply halts_ret | apply halts_throw ..]. Qed.

Lemma halts_elementAt a i : halts (W:=W) (elementAt a i).
Proof. destruct a; simpl; [apply halts_ret | apply halts_throw ..]. Qed.

End Halting.

Ltac halts_step :=
  first
    [ assumption
    | match goal with
      | H : forall _, halts _ |- halts _ => apply H
      end
    | apply halts_ret | apply halts_throw | apply halts_get | apply halts_gets
    | apply halts_modify | apply halts_log | apply halts_settle | apply halts_ask
    | apply halts_request | apply halts_call | apply halts_member
    | apply halts_upperAccounts | apply halts_upperOf | apply halts_lengthOf
    | apply halts_elementAt
    | apply halts_bind; [ | intros ? ]
    | apply halts_tryCatch; [ | intros ? ]
    | match goal with
      | |- halts (if ?b then _ else _) => destruct b
      | |- halts (match ?x with _ => _ end) => destruct x
      | |- halts (let _ := _ in _) => cbv zeta
      end ].

Ltac halts_tac := repeat halts_step.

Section AtMost.
Context {W : Type}.

Lemma atMost_quiet {A X} (p : State -> X) n (m : M W A) :
  keeps p isPermissionRequest m -> atMost n m.
Proof.
  intros H s. destruct (H s) as [_ Ht].
  rewrite (never_permissionRequests _ Ht). lia.
Qed.

Lemma atMost_bind {A B} n1 n2 (m : M W A) (k : A -> M W B) :
  atMost n1 m -> (forall a, atMost n2 (k a)) -> atMost (n1 + n2) (bind m k).
Proof.
  intros Hm Hk s. specialize (Hm s).
  destruct (m s) as [[[a|e|] s1] t1] eqn:Hms.
  - rewrite (bind_Ret _ _ _ _ _ _ Hms). specialize (Hk a s1).
    unfold traceOf in *. cbn [snd] in *. rewrite permissionRequests_app. lia.
  - rewrite (bind_Throw _ _ _ _ _ _ Hms). unfold traceOf in *. cbn [snd] in *. lia.
  - rewrite (bind_Diverge _ _ _ _ _ Hms). unfold traceOf in *. cbn [snd] in *. lia.
Qed.

Lemma atMost_bind_ret {A B} n (v : A) (k : A -> M W B) :
  atMost n (k v) -> atMost n (bind (ret v) k).
Proof.
  intros H s. rewrite (bind_Ret (ret v) k s v s [] eq_refl).
  unfold traceOf at 1. cbn [snd app]. apply H.
Qed.

Lemma atMost_weaken {A} n n' (m : M W A) : n <= n' -> atMost n m -> atMost n' m.
Proof. intros Hn Hm s. specialize (Hm s). lia. Qed.

End AtMost.

Section RetryCap.
Context {W : Type} (E : Env W).

Ltac count_cases :=
  unfold outcomeOf, traceOf, permissionRequests; cbn [fst snd];
  repeat split;
  try discriminate;
  try (cbn; lia);
  try match goal with
      | H : Ret _ = Ret _ |- _ => inversion H; subst; cbn [tryConnectCount]
      end;
  try reflexivity;
  try match goal with
      | H : (3 <? _) = true |- _ => apply Nat.ltb_lt in H
      | H : (3 <? _) = false |- _ => apply Nat.ltb_ge in H
      end;
  try match goal with
      | H : (0 <? _) = false |- _ => apply Nat.ltb_ge in H
      end;
  try (cbn; lia).

(** One call of the [reconnect] closure: it ends, sends at most one
    permission request and none once the count is above three, and it
    answers [true] only for a count of at most three, which it increments. *)
Lemma reconnect1_step name loc (s : Sys W) :
  outcomeOf (V1.reconnect E name loc s) <> Diverge
  /\ permissionRequests (traceOf (V1.reconnect E name loc s)) <= 1
  /\ (3 < tryConnectCount loc ->
      permissionRequests (traceOf (V1.reconnect E name loc s)) = 0)
  /\ (forall loc', outcomeOf (V1.reconnect E name loc s) = Ret (true, loc') ->
                   tryConnectCount loc' = S (tryConnectCount loc)
                   /\ tryConnectCount loc <= 3).
Proof.
  unfold V1.reconnect, V1.shouldRetryNow, V1.attemptConnect, V1.requestConnect,
    V1.getCurrentAccounts.
  mforward; count_cases.
Qed.

Lemma reconnect2_step name args loc (s : Sys W) :
  outcomeOf (V2.reconnect E name args loc s) <> Diverge
  /\ permissionRequests (traceOf (V2.reconnect E name args loc s)) <= 1
  /\ (3 < tryConnectCount loc ->
      permissionRequests (traceOf (V2.reconnect E name args loc s)) = 0)
  /\ (forall loc', outcomeOf (V2.reconnect E name args loc s) = Ret (true, loc') ->
                   tryConnectCount loc' = S (tryConnectCount loc)
                   /\ tryConnectCount loc <= 3).
Proof.
  unfold V2.reconnect, V2.shouldRetryNow, V2.attemptConnect, V2.requestConnect,
    V2.getCurrentAccounts.
  mforward; count_cases.
Qed.

(** The loop conditions only look at [accounts] and at the allowed
    address. *)
Lemma conds_pure a :
  pureTest (V1.allowedMissing (W:=W) a) /\ pureTest (V1.noAccounts (W:=W) a)
  /\ pureTest (V2.allowedMissing (W:=W) a) /\ pureTest (V2.noAccounts (W:=W) a).
Proof.
  unfold V1.allowedMissing, V1.noAccounts, V2.allowedMissing, V2.noAccounts.
  split; [|split; [|split]]; intros s; mforward;
    unfold outcomeOf, sysOf, traceOf; cbn [fst snd]; repeat split; discriminate.
Qed.

Lemma pureTest_run {A} (m : M W A) (s : Sys W) :
  pureTest m ->
  (exists a, m s = (Ret a, s, [])) \/ (exists e, m s = (Throw e, s, [])).
Proof.
  intros H. destruct (H s) as (Ht & Hs & Ho).
  destruct (m s) as [[[a|e|] s1] t1]; unfold outcomeOf, sysOf, traceOf in *;
    cbn [fst snd] in *; subst.
  - left. eexists. reflexivity.
  - right. eexists. reflexivity.
  - exfalso. apply Ho. reflexivity.
Qed.

(** The loop ends and sends at most [4 - tryConnectCount] permission
    requests, given fuel for the calls of [reconnect] that are left. *)
Lemma retryLoop1_capped cond name :
  (forall a, pureTest (cond a)) ->
  forall fuel loc (s : Sys W),
    1 <= fuel -> 5 <= fuel + tryConnectCount loc ->
    outcomeOf (V1.retryLoop E fuel cond name loc s) <> Diverge
    /\ permissionRequests (traceOf (V1.retryLoop E fuel cond name loc s))
       <= 4 - tryConnectCount loc.
Proof.
  intros Hcond. induction fuel as [|fuel IH]; intros loc s H1 H5; [lia|].
  cbn [V1.retryLoop].
  destruct (pureTest_run _ s (Hcond (accounts loc))) as [[again Hc] | [e Hc]].
  - rewrite (bind_Ret _ _ _ _ _ _ Hc). cbn [app].
    destruct again.
    + destruct (reconnect1_step name loc s) as (Hd & Hle & Hz & Hok).
      destruct (V1.reconnect E name loc s) as [[[[ok loc']|e|] sr] tr] eqn:Hr.
      * rewrite (bind_Ret _ _ _ _ _ _ Hr). cbn [fst snd].
        unfold outcomeOf, traceOf in Hle, Hz, Hok. cbn [fst snd] in Hle, Hz, Hok.
        destruct ok.
        -- destruct (Hok loc' eq_refl) as [Hn H3].
           destruct (IH loc' sr) as [IHd IHn]; [lia | lia |].
           unfold outcomeOf, traceOf in *. cbn [fst snd] in *.
           split; [exact IHd|]. rewrite permissionRequests_app. lia.
        -- unfold ret, outcomeOf, traceOf. cbn [fst snd].
           split; [discriminate|]. rewrite app_nil_r.
           destruct (Nat.ltb_spec 3 (tryConnectCount loc)) as [Hgt|Hle3];
             [rewrite (Hz Hgt); lia | lia].
      * rewrite (bind_Throw _ _ _ _ _ _ Hr).
        unfold outcomeOf, traceOf in *. cbn [fst snd] in *.
        split; [discriminate|].
        destruct (Nat.ltb_spec 3 (tryConnectCount loc)) as [Hgt|Hle3];
          [rewrite (Hz Hgt); lia | lia].
      * exfalso. apply Hd. reflexivity.
    + unfold ret, outcomeOf, traceOf. cbn [fst snd]. split; [discriminate | cbn; lia].
  - rewrite (bind_Throw _ _ _ _ _ _ Hc). unfold outcomeOf, traceOf. cbn [fst snd].
    split; [discriminate | cbn; lia].
Qed.

Lemma retryLoop2_capped cond name args :
  (forall a, pureTest (cond a)) ->
  pureTest args ->
  forall fuel loc (s : Sys W),
    1 <= fuel -> 5 <= fuel + tryConnectCount loc ->
    outcomeOf (V2.retryLoop E fuel cond name args loc s) <> Diverge
    /\ permissionRequests (traceOf (V2.retryLoop E fuel cond name args loc s))
       <= 4 - tryConnectCount loc.
Proof.
  intros Hcond Hargs. induction fuel as [|fuel IH]; intros loc s H1 H5; [lia|].
  cbn [V2.retryLoop].
  destruct (pureTest_run _ s (Hcond (accounts loc))) as [[again Hc] | [e Hc]].
  - rewrite (bind_Ret _ _ _ _ _ _ Hc). cbn [app].
    destruct again.
    + destruct (pureTest_run _ s Hargs) as [[vs Ha] | [e Ha]].
      * rewrite (bind_Ret _ _ _ _ _ _ Ha). cbn [app].
        destruct (reconnect2_step name vs loc s) as (Hd & Hle & Hz & Hok).
        destruct (V2.reconnect E name vs loc s) as [[[[ok loc']|e|] sr] tr] eqn:Hr.
        -- rewrite (bind_Ret _ _ _ _ _ _ Hr). cbn [fst snd].
           unfold outcomeOf, traceOf in Hle, Hz, Hok. cbn [fst snd] in Hle, Hz, Hok.
           destruct ok.
           ++ destruct (Hok loc' eq_refl) as [Hn H3].
              destruct (IH loc' sr) as [IHd IHn]; [lia | lia |].
              unfold outcomeOf, traceOf in *. cbn [fst snd] in *.
              split; [exact IHd|]. rewrite permissionRequests_app. lia.
           ++ unfold ret, outcomeOf, traceOf. cbn [fst snd].
              split; [discriminate|]. rewrite app_nil_r.
              destruct (Nat.ltb_spec 3 (tryConnectCount loc)) as [Hgt|Hle3];
                [rewrite (Hz Hgt); lia | lia].
        -- rewrite (bind_Throw _ _ _ _ _ _ Hr).
           unfold outcomeOf, traceOf in *. cbn [fst snd] in *.
           split; [discriminate|].
           destruct (Nat.ltb_spec 3 (tryConnectCount loc)) as [Hgt|Hle3];
             [rewrite (Hz Hgt); lia | lia].
        -- exfalso. apply Hd. reflexivity.
      * rewrite (bind_Throw _ _ _ _ _ _ Ha). unfold outcomeOf, traceOf. cbn [fst snd].
        split; [discriminate | cbn; lia].
    + unfold ret, outcomeOf, traceOf. cbn [fst snd]. split; [discriminate | cbn; lia].
  - rewrite (bind_Throw _ _ _ _ _ _ Hc). unfold outcomeOf, traceOf. cbn [fst snd].
    split; [discriminate | cbn; lia].
Qed.

(** More fuel does not change a run that has ended. *)
Lemma bind_stable {A B} (m : M W A) (k1 k2 : A -> M W B) (s : Sys W) :
  (forall a s1, outcomeOf (k1 a s1) <> Diverge -> k2 a s1 = k1 a s1) ->
  outcomeOf (bind m k1 s) <> Diverge ->
  bind m k2 s = bind m k1 s.
Proof.
  intros Hk Hd. destruct (m s) as [[[a|e|] s1] t1] eqn:Hms.
  - rewrite (bind_Ret m k1 s _ _ _ Hms) in Hd.
    rewrite (bind_Ret m k1 s _ _ _ Hms), (bind_Ret m k2 s _ _ _ Hms).
    unfold outcomeOf at 1 in Hd. cbn [fst] in Hd. rewrite (Hk a s1 Hd). reflexivity.
  - rewrite (bind_Throw m k1 s _ _ _ Hms), (bind_Throw m k2 s _ _ _ Hms). reflexivity.
  - rewrite (bind_Diverge m k1 s _ _ Hms), (bind_Diverge m k2 s _ _ Hms). reflexivity.
Qed.

Lemma retryLoop1_more cond name fuel :
  forall loc (s : Sys W),
    outcomeOf (V1.retryLoop E fuel cond name loc s) <> Diverge ->
    V1.retryLoop E (S fuel) cond name loc s = V1.retryLoop E fuel cond name loc s.
Proof.
  induction fuel as [|fuel IH]; intros loc s Hd.
  - exfalso. apply Hd. reflexivity.
  - change (V1.retryLoop E (S (S fuel)) cond name loc s)
      with (bind (cond (accounts loc))
                 (fun again =>
                    if again then
                      bind (V1.reconnect E name loc)
                           (fun r => if fst r
                                     then V1.retryLoop E (S fuel) cond name (snd r)
                                     else ret (snd r))
                    else ret loc) s).
    change (V1.retryLoop E (S fuel) cond name loc s)
      with (bind (cond (accounts loc))
                 (fun again =>
                    if again then
                      bind (V1.reconnect E name loc)
                           (fun r => if fst r
                                     then V1.retryLoop E fuel cond name (snd r)
                                     else ret (snd r))
                    else ret loc) s) in Hd |- *.
    apply bind_stable; [|exact Hd].
    intros [|] s1 Hd1; [|reflexivity].
    apply bind_stable; [|exact Hd1].
    intros [[|] loc'] s2 Hd2; cbn [fst snd] in *; [apply IH; exact Hd2 | reflexivity].
Qed.

Lemma retryLoop2_more cond name args fuel :
  forall loc (s : Sys W),
    outcomeOf (V2.retryLoop E fuel cond name args loc s) <> Diverge ->
    V2.retryLoop E (S fuel) cond name args loc s = V2.retryLoop E fuel cond name args loc s.
Proof.
  induction fuel as [|fuel IH]; intros loc s Hd.
  - exfalso. apply Hd. reflexivity.
  - change (V2.retryLoop E (S (S fuel)) cond name args loc s)
      with (bind (cond (accounts loc))
                 (fun again =>
                    if again then
                      bind args
                           (fun vs =>
                              bind (V2.reconnect E name vs loc)
                                   (fun r => if fst r
                                             then V2.retryLoop E (S fuel) cond name args (snd r)
                                             else ret (snd r)))
                    else ret loc) s).
    change (V2.retryLoop E (S fuel) cond name args loc s)
      with (bind (cond (accounts loc))
                 (fun again =>
                    if again then
                      bind args
                           (fun vs =>
                              bind (V2.reconnect E name vs loc)
                                   (fun r => if fst r
                                             then V2.retryLoop E fuel cond name args (snd r)
                                             else ret (snd r)))
                    else ret loc) s) in Hd |- *.
    apply bind_stable; [|exact Hd].
    intros [|] s1 Hd1; [|reflexivity].
    apply bind_stable; [|exact Hd1].
    intros vs s2 Hd2.
    apply bind_stable; [|exact Hd2].
    intros [[|] loc'] s3 Hd3; cbn [fst snd] in *; [apply IH; exact Hd3 | reflexivity].
Qed.

Lemma retryLoop1_fuel cond name fuel extra loc (s : Sys W) :
  outcomeOf (V1.retryLoop E fuel cond name loc s) <> Diverge ->
  V1.retryLoop E (extra + fuel) cond name loc s = V1.retryLoop E fuel cond name loc s.
Proof.
  intros Hd. induction extra as [|extra IH]; [reflexivity|].
  cbn [Nat.add]. rewrite retryLoop1_more; [exact IH | rewrite IH; exact Hd].
Qed.

Lemma retryLoop2_fuel cond name args fuel extra loc (s : Sys W) :
  outcomeOf (V2.retryLoop E fuel cond name args loc s) <> Diverge ->
  V2.retryLoop E (extra + fuel) cond name args loc s
  = V2.retryLoop E fuel cond name args loc s.
Proof.
  intros Hd. induction extra as [|extra IH]; [reflexivity|].
  cbn [Nat.add]. rewrite retryLoop2_more; [exact IH | rewrite IH; exact Hd].
Qed.

End RetryCap.

Section ConnectWalletCap.
Context {W : Type} (E : Env W).

Ltac quiet_leaf := refine (atMost_quiet id _ _ _); keeps_tac.

Lemma detectNetwork_counts :
  atMost 0 (V1.detectNetwork E true) /\ atMost 0 (V2.detectNetwork E true).
Proof.
  split.
  - refine (atMost_quiet besidesChain _ _ _).
    unfold V1.detectNetwork, V1.addOrSwitchNetwork, V1.addChainParams, V1.readChainId.
    keeps_tac.
  - refine (atMost_quiet besidesChain _ _ _).
    unfold V2.detectNetwork, V2.addOrSwitchNetwork, V2.addChainParams, V2.readChainId.
    keeps_tac.
Qed.

Lemma requestConnect_counts :
  atMost 1 (V1.requestConnect E) /\ atMost 1 (V2.requestConnect E).
Proof.
  unfold V1.requestConnect, V2.requestConnect.
  split; intros s; mforward; unfold traceOf, permissionRequests; cbn; lia.
Qed.

Lemma adoptAccount_counts a :
  atMost 0 (V1.adoptAccount E a) /\ atMost 0 (V2.adoptAccount E a).
Proof.
  split; refine (atMost_quiet besidesWallet _ _ _);
    unfold V1.adoptAccount, V2.adoptAccount; keeps_tac.
Qed.

Lemma connectWallet1_counts fuel force :
  5 <= fuel ->
  atMost 5 (V1.connectWallet E fuel force)
  /\ (truthy (defaultTo force (VBool false)) = false ->
      isFunction (defaultTo force (VBool false)) = false ->
      atMost 4 (V1.connectWallet E fuel force)).
Proof.
  intros Hfuel.
  assert (Hloop : forall cond name accs,
             (forall a, pureTest (cond a)) ->
             atMost 4 (V1.retryLoop E fuel cond name (mkLocals accs 0))).
  { intros cond name accs Hc s.
    destruct (retryLoop1_capped E cond name Hc fuel (mkLocals accs 0) s) as [_ H];
      cbn [tryConnectCount] in *; lia. }
  pose proof (fun a => conds_pure (W:=W) a) as Hp.
  unfold V1.connectWallet. cbv zeta. split.
  - apply (atMost_bind 0 5); [apply detectNetwork_counts | intros ok].
    destruct (negb ok); [quiet_leaf|].
    apply (atMost_bind 0 5); [quiet_leaf | intros f].
    apply (atMost_bind 1 4).
    { destruct (truthy f); [|apply (atMost_weaken 0); [lia | quiet_leaf]].
      apply (atMost_bind 1 0); [apply requestConnect_counts | intros c].
      quiet_leaf. }
    intros g. destruct (negb g); [quiet_leaf|].
    apply (atMost_bind 0 4);
      [refine (atMost_quiet id _ _ _); unfold V1.getCurrentAccounts; keeps_tac | intros accs].
    apply (atMost_bind 0 4); [quiet_leaf | intros st].
    apply (atMost_bind 4 0).
    { destruct (negb (strictEq (h_shouldWalletAddress st) VNull));
        apply Hloop; intros a; apply Hp. }
    intros loc. apply (atMost_bind 0 0); [|intros _; quiet_leaf].
    destruct (accounts loc); try apply adoptAccount_counts. quiet_leaf.
  - intros Hf Hfun.
    apply (atMost_bind 0 4); [apply detectNetwork_counts | intros ok].
    destruct (negb ok); [quiet_leaf|].
    rewrite Hfun. apply atMost_bind_ret. rewrite Hf. apply atMost_bind_ret.
    cbn [negb].
    apply (atMost_bind 0 4);
      [refine (atMost_quiet id _ _ _); unfold V1.getCurrentAccounts; keeps_tac | intros accs].
    apply (atMost_bind 0 4); [quiet_leaf | intros st].
    apply (atMost_bind 4 0).
    { destruct (negb (strictEq (h_shouldWalletAddress st) VNull));
        apply Hloop; intros a; apply Hp. }
    intros loc. apply (atMost_bind 0 0); [|intros _; quiet_leaf].
    destruct (accounts loc); try apply adoptAccount_counts. quiet_leaf.
Qed.

Lemma args_pure :
  pureTest (W:=W) (bind get (fun st => ret [h_shouldWalletAddress st]))
  /\ pureTest (W:=W) (ret (@nil JsVal)).
Proof.
  split; intros s; mrun; unfold outcomeOf, sysOf, traceOf; cbn [fst snd];
    repeat split; discriminate.
Qed.

Lemma connectWallet2_counts fuel force :
  5 <= fuel ->
  atMost 5 (V2.connectWallet E fuel force)
  /\ (truthy (defaultTo force (VBool false)) = false ->
      isFunction (defaultTo force (VBool false)) = false ->
      atMost 4 (V2.connectWallet E fuel force)).
Proof.
  intros Hfuel.
  assert (Hloop : forall cond name args accs,
             (forall a, pureTest (cond a)) -> pureTest args ->
             atMost 4 (V2.retryLoop E fuel cond name args (mkLocals accs 0))).
  { intros cond name args accs Hc Ha s.
    destruct (retryLoop2_capped E cond name args Hc Ha fuel (mkLocals accs 0) s) as [_ H];
      cbn [tryConnectCount] in *; lia. }
  pose proof (fun a => conds_pure (W:=W) a) as Hp.
  destruct args_pure as [Ha1 Ha2].
  unfold V2.connectWallet, V2.checkIfAllowed. cbv zeta. split.
  - apply (atMost_bind 0 5); [quiet_leaf | intros allowed].
    destruct (negb allowed); [quiet_leaf|].
    apply (atMost_bind 0 5); [apply detectNetwork_counts | intros ok].
    destruct (negb ok); [quiet_leaf|].
    apply (atMost_bind 0 5); [quiet_leaf | intros f].
    apply (atMost_bind 1 4).
    { destruct (truthy f); [|apply (atMost_weaken 0); [lia | quiet_leaf]].
      apply (atMost_bind 1 0); [apply requestConnect_counts | intros c].
      quiet_leaf. }
    intros g. destruct (negb g); [quiet_leaf|].
    apply (atMost_bind 0 4);
      [refine (atMost_quiet id _ _ _); unfold V2.getCurrentAccounts; keeps_tac | intros accs].
    apply (atMost_bind 0 4); [quiet_leaf | intros st].
    apply (atMost_bind 4 0).
    { destruct (negb (strictEq (h_shouldWalletAddress st) VNull));
        apply Hloop; try assumption; intros a; apply Hp. }
    intros loc. apply (atMost_bind 0 0); [|intros _; quiet_leaf].
    destruct (accounts loc); try apply adoptAccount_counts. quiet_leaf.
  - intros Hf Hfun.
    apply (atMost_bind 0 4); [quiet_leaf | intros allowed].
    destruct (negb allowed); [quiet_leaf|].
    apply (atMost_bind 0 4); [apply detectNetwork_counts | intros ok].
    destruct (negb ok); [quiet_leaf|].
    rewrite Hfun. apply atMost_bind_ret. rewrite Hf. apply atMost_bind_ret.
    cbn [negb].
    apply (atMost_bind 0 4);
      [refine (atMost_quiet id _ _ _); unfold V2.getCurrentAccounts; keeps_tac | intros accs].
    apply (atMost_bind 0 4); [quiet_leaf | intros st].
    apply (atMost_bind 4 0).
    { destruct (negb (strictEq (h_shouldWalletAddress st) VNull));
        apply Hloop; try assumption; intros a; apply Hp. }
    intros loc. apply (atMost_bind 0 0); [|intros _; quiet_leaf].
    destruct (accounts loc); try apply adoptAccount_counts. quiet_leaf.
Qed.

Lemma connectWallet1_halts fuel force :
  5 <= fuel -> halts (V1.connectWallet E fuel force).
Proof.
  intros Hfuel.
  assert (Hloop : forall cond name accs,
             (forall a, pureTest (cond a)) ->
             halts (V1.retryLoop E fuel cond name (mkLocals accs 0))).
  { intros cond name accs Hc s.
    destruct (retryLoop1_capped E cond name Hc fuel (mkLocals accs 0) s) as [H _];
      cbn [tryConnectCount] in *; [lia | lia | exact H]. }
  pose proof (fun a => conds_pure (W:=W) a) as Hp.
  unfold V1.connectWallet, V1.detectNetwork, V1.addOrSwitchNetwork, V1.addChainParams,
    V1.readChainId, V1.requestConnect, V1.getCurrentAccounts, V1.adoptAccount,
    V1.disconnectWallet, detached, emit.
  halts_tac; apply Hloop; intros ?; apply Hp.
Qed.

Lemma connectWallet2_halts fuel force :
  5 <= fuel -> halts (V2.connectWallet E fuel force).
Proof.
  intros Hfuel.
  assert (Hloop : forall cond name args accs,
             (forall a, pureTest (cond a)) -> pureTest args ->
             halts (V2.retryLoop E fuel cond name args (mkLocals accs 0))).
  { intros cond name args accs Hc Ha s.
    destruct (retryLoop2_capped E cond name args Hc Ha fuel (mkLocals accs 0) s) as [H _];
      cbn [tryConnectCount] in *; [lia | lia | exact H]. }
  pose proof (fun a => conds_pure (W:=W) a) as Hp.
  destruct args_pure as [Ha1 Ha2].
  assert (Hstart : halts (V2.startDisconnectWallet E)).
  { unfold V2.startDisconnectWallet, V2.checkIfAllowed, detached, emit, error.
    halts_tac. intros s. unfold V2.sendRevokeAndSuspend.
    destruct (nullish (h_browserProvider (conn s))); [discriminate|].
    destruct (wallet_revokePermissions E (world s)); discriminate. }
  unfold V2.connectWallet, V2.checkIfAllowed, V2.detectNetwork, V2.addOrSwitchNetwork,
    V2.addChainParams, V2.readChainId, V2.requestConnect, V2.getCurrentAccounts,
    V2.adoptAccount, emit, error.
  halts_tac; apply Hloop; first [assumption | intros ?; apply Hp].
Qed.

End ConnectWalletCap.

Section CapReached.
Context {W : Type} (E : Env W).

(** Above the cap the closure gives up at once: no callback, no request,
    the failure event, [accounts] set to [null]. *)
Lemma cap_reached name args loc (s : Sys W) :
  3 < tryConnectCount loc ->
  V1.reconnect E name loc s
  = (Ret (false, mkLocals AccNull (tryConnectCount loc)), s, [Emit name []])
  /\ V2.reconnect E name args loc s
     = (Ret (false, mkLocals AccNull (tryConnectCount loc)), s, [Emit name args]).
Proof.
  intros H. unfold V1.reconnect, V2.reconnect, V1.shouldRetryNow, V2.shouldRetryNow.
  assert (H0 : (0 <? tryConnectCount loc) = true) by (apply Nat.ltb_lt; lia).
  assert (H3 : (3 <? tryConnectCount loc) = true) by (apply Nat.ltb_lt; lia).
  rewrite H0, H3. split; mgo; reflexivity.
Qed.

End CapReached.

(** C1, as stated, fails: with a provider that grants every permission
    request and never reports an account, the initial account read is
    followed by four permission requests, not three, before the failure
    event. *)
Lemma retry_cap_counterexample :
  overCapRun
  = (Ret VUndefined, readySys VNull VNull,
     [Request "eth_chainId"; Request "eth_accounts";
      Request "wallet_requestPermissions"; Request "eth_accounts";
      Request "wallet_requestPermissions"; Request "eth_accounts";
      Request "wallet_requestPermissions"; Request "eth_accounts";
      Request "wallet_requestPermissions"; Request "eth_accounts";
      Emit "failedToConnectWallet" []])
  /\ ~ permissionRequests (traceOf overCapRun) <= 3.
Proof.
  assert (H : overCapRun
              = (Ret VUndefined, readySys VNull VNull,
                 [Request "eth_chainId"; Request "eth_accounts";
                  Request "wallet_requestPermissions"; Request "eth_accounts";
                  Request "wallet_requestPermissions"; Request "eth_accounts";
                  Request "wallet_requestPermissions"; Request "eth_accounts";
                  Request "wallet_requestPermissions"; Request "eth_accounts";
                  Emit "failedToConnectWallet" []]))
    by (vm_compute; reflexivity).
  split; [exact H|]. rewrite H. vm_compute. lia.
Qed.

(** C1, amended.  The retry loop of [connectWallet] always terminates and
    is capped at four connection attempts: the first one, which needs no
    confirmation, and at most three retries.  With fuel for five calls of
    the retry closure the loop never runs out, more fuel changes nothing,
    and the loop sends at most four permission requests after the initial
    account read; once the attempt count is above three the closure makes
    no request and emits the failure event.  [connectWallet] as a whole
    then terminates and sends at most four permission requests, plus the
    one that [forceNewConnect] asks for before the account read. *)
Theorem retry_loop_is_capped :
  forall (W : Type) (E : Env W) (fuel : nat),
    5 <= fuel ->
    (forall name accs (s : Sys W),
        (outcomeOf (V1.retryLoop E fuel V1.allowedMissing name (mkLocals accs 0) s) <> Diverge
         /\ permissionRequests
              (traceOf (V1.retryLoop E fuel V1.allowedMissing name (mkLocals accs 0) s)) <= 4
         /\ V1.retryLoop E fuel V1.allowedMissing name (mkLocals accs 0) s
            = V1.retryLoop E 5 V1.allowedMissing name (mkLocals accs 0) s)
        /\ (outcomeOf (V1.retryLoop E fuel V1.noAccounts name (mkLocals accs 0) s) <> Diverge
            /\ permissionRequests
                 (traceOf (V1.retryLoop E fuel V1.noAccounts name (mkLocals accs 0) s)) <= 4
            /\ V1.retryLoop E fuel V1.noAccounts name (mkLocals accs 0) s
               = V1.retryLoop E 5 V1.noAccounts name (mkLocals accs 0) s))
    /\ (forall name args accs (s : Sys W),
           args = ret [] \/ args = bind get (fun st => ret [h_shouldWalletAddress st]) ->
           (outcomeOf (V2.retryLoop E fuel V2.allowedMissing name args (mkLocals accs 0) s)
              <> Diverge
            /\ permissionRequests
                 (traceOf (V2.retryLoop E fuel V2.allowedMissing name args (mkLocals accs 0) s))
               <= 4
            /\ V2.retryLoop E fuel V2.allowedMissing name args (mkLocals accs 0) s
               = V2.retryLoop E 5 V2.allowedMissing name args (mkLocals accs 0) s)
           /\ (outcomeOf (V2.retryLoop E fuel V2.noAccounts name args (mkLocals accs 0) s)
                 <> Diverge
               /\ permissionRequests
                    (traceOf (V2.retryLoop E fuel V2.noAccounts name args (mkLocals accs 0) s))
                  <= 4
               /\ V2.retryLoop E fuel V2.noAccounts name args (mkLocals accs 0) s
                  = V2.retryLoop E 5 V2.noAccounts name args (mkLocals accs 0) s))
    /\ (forall name args loc (s : Sys W),
           3 < tryConnectCount loc ->
           V1.reconnect E name loc s
           = (Ret (false, mkLocals AccNull (tryConnectCount loc)), s, [Emit name []])
           /\ V2.reconnect E name args loc s
              = (Ret (false, mkLocals AccNull (tryConnectCount loc)), s, [Emit name args]))
    /\ (forall forceNewConnect (s : Sys W),
           outcomeOf (V1.connectWallet E fuel forceNewConnect s) <> Diverge
           /\ outcomeOf (V2.connectWallet E fuel forceNewConnect s) <> Diverge
           /\ permissionRequests (traceOf (V1.connectWallet E fuel forceNewConnect s)) <= 5
           /\ permissionRequests (traceOf (V2.connectWallet E fuel forceNewConnect s)) <= 5
           /\ (truthy (defaultTo forceNewConnect (VBool false)) = false ->
               isFunction (defaultTo forceNewConnect (VBool false)) = false ->
               permissionRequests (traceOf (V1.connectWallet E fuel forceNewConnect s)) <= 4
               /\ permissionRequests (traceOf (V2.connectWallet E fuel forceNewConnect s)) <= 4)).
Proof.
  intros W E fuel Hfuel.
  assert (Hsplit : fuel = (fuel - 5) + 5) by lia.
  assert (L1 : forall cond name accs (s : Sys W),
             (forall a, pureTest (cond a)) ->
             outcomeOf (V1.retryLoop E fuel cond name (mkLocals accs 0) s) <> Diverge
             /\ permissionRequests
                  (traceOf (V1.retryLoop E fuel cond name (mkLocals accs 0) s)) <= 4
             /\ V1.retryLoop E fuel cond name (mkLocals accs 0) s
                = V1.retryLoop E 5 cond name (mkLocals accs 0) s).
  { intros cond name accs s Hc.
    destruct (retryLoop1_capped E cond name Hc fuel (mkLocals accs 0) s) as [Hd Hn];
      cbn [tryConnectCount] in *; try lia.
    destruct (retryLoop1_capped E cond name Hc 5 (mkLocals accs 0) s) as [Hd5 _];
      cbn [tryConnectCount] in *; try lia.
    split; [exact Hd|]. split; [lia|].
    rewrite Hsplit. apply retryLoop1_fuel. exact Hd5. }
  assert (L2 : forall cond name args accs (s : Sys W),
             (forall a, pureTest (cond a)) -> pureTest args ->
             outcomeOf (V2.retryLoop E fuel cond name args (mkLocals accs 0) s) <> Diverge
             /\ permissionRequests
                  (traceOf (V2.retryLoop E fuel cond name args (mkLocals accs 0) s)) <= 4
             /\ V2.retryLoop E fuel cond name args (mkLocals accs 0) s
                = V2.retryLoop E 5 cond name args (mkLocals accs 0) s).
  { intros cond name args accs s Hc Ha.
    destruct (retryLoop2_capped E cond name args Hc Ha fuel (mkLocals accs 0) s) as [Hd Hn];
      cbn [tryConnectCount] in *; try lia.
    destruct (retryLoop2_capped E cond name args Hc Ha 5 (mkLocals accs 0) s) as [Hd5 _];
      cbn [tryConnectCount] in *; try lia.
    split; [exact Hd|]. split; [lia|].
    rewrite Hsplit. apply retryLoop2_fuel. exact Hd5. }
  pose proof (fun a => conds_pure (W:=W) a) as Hp.
  split; [|split; [|split]].
  - intros name accs s. split; apply L1; intros a; apply Hp.
  - intros name args accs s Hargs.
    assert (Ha : pureTest args)
      by (destruct Hargs as [-> | ->]; apply (args_pure (W:=W))).
    split; apply L2; try exact Ha; intros a; apply Hp.
  - intros name args loc s Hc. apply cap_reached. exact Hc.
  - intros force s.
    destruct (connectWallet1_counts E fuel force Hfuel) as [H15 H14].
    destruct (connectWallet2_counts E fuel force Hfuel) as [H25 H24].
    split; [apply connectWallet1_halts; exact Hfuel|].
    split; [apply connectWallet2_halts; exact Hfuel|].
    split; [apply H15|]. split; [apply H25|].
    intros Hf Hfun. split; [apply H14 | apply H24]; assumption.
Qed.

Lemma retry_loop_is_capped_witness :
  5 <= 5 /\ permissionRequests (traceOf overCapRun) <= 4.
Proof.
  assert (H5 : 5 <= 5) by lia.
  split; [exact H5|].
  destruct (retry_loop_is_capped unit (emptyWallet VUndefined) 5 H5) as (_ & _ & _ & D).
  destruct (D VUndefined (readySys VNull VNull)) as (_ & _ & _ & _ & H4).
  exact (proj1 (H4 eq_refl eq_refl)).
Defined.

(** * The allowed-address policy *)

Lemma lastAction_app t1 t2 : t2 <> [] -> lastAction (t1 ++ t2) = lastAction t2.
Proof.
  intros H. induction t1 as [|a t1 IH]; [reflexivity|].
  cbn [app lastAction]. destruct (t1 ++ t2) eqn:Heq; [|exact IH].
  apply app_eq_nil in Heq. destruct Heq as [_ Heq]. contradiction.
Qed.

Lemma endsInFailure_app name t1 t2 :
  endsInFailure name t2 = true -> endsInFailure name (t1 ++ t2) = true.
Proof.
  unfold endsInFailure. intros H. destruct t2 as [|a t2]; [discriminate|].
  rewrite lastAction_app; [exact H | discriminate].
Qed.

Section Policy.
Context {W : Type} (E : Env W).

Ltac shape_cases :=
  unfold outcomeOf, traceOf; cbn [fst snd];
  intros ok loc' Heq; inversion Heq; subst; clear Heq; cbn [accounts];
  first
    [ split; [reflexivity|];
      unfold endsInFailure; cbn [lastAction];
      first [ rewrite String.eqb_refl; reflexivity
            | apply orb_true_iff; right; reflexivity ]
    | eexists _, _; eassumption ].

(** What one call of [reconnect] leaves in [accounts]: an answer of the
    provider when it says [true]; [null], after a failure event, when it
    says [false]. *)
Lemma reconnect1_shape name loc (s : Sys W) :
  forall ok loc',
    outcomeOf (V1.reconnect E name loc s) = Ret (ok, loc') ->
    if ok then fromProvider E (accounts loc')
    else accounts loc' = AccNull
         /\ endsInFailure name (traceOf (V1.reconnect E name loc s)) = true.
Proof.
  unfold V1.reconnect, V1.shouldRetryNow, V1.attemptConnect, V1.requestConnect,
    V1.getCurrentAccounts, fromProvider.
  mforward; try (unfold outcomeOf; cbn [fst]; discriminate); shape_cases.
Qed.

Lemma reconnect2_shape name args loc (s : Sys W) :
  forall ok loc',
    outcomeOf (V2.reconnect E name args loc s) = Ret (ok, loc') ->
    if ok then fromProvider E (accounts loc')
    else accounts loc' = AccNull
         /\ endsInFailure name (traceOf (V2.reconnect E name args loc s)) = true.
Proof.
  unfold V2.reconnect, V2.shouldRetryNow, V2.attemptConnect, V2.requestConnect,
    V2.getCurrentAccounts, fromProvider.
  mforward; try (unfold outcomeOf; cbn [fst]; discriminate); shape_cases.
Qed.

(** The loop condition says [false] only for an array that has the
    allowed address. *)
Lemma allowedMissing_false a (s s' : Sys W) t :
  V1.allowedMissing a s = (Ret false, s', t) ->
  exists x l, h_shouldWalletAddress (conn s) = VStr x /\ a = AccArray l
              /\ includes (toUpperCase x) (map toUpperCase l) = true.
Proof.
  unfold V1.allowedMissing. mforward; intros H; inversion H; subst.
  eexists _, _. split; [reflexivity|]. split; [reflexivity|].
  apply negb_false_iff. assumption.
Qed.

Lemma allowedMissing_same a (s : Sys W) :
  V2.allowedMissing a s = V1.allowedMissing a s.
Proof. reflexivity. Qed.

Lemma reconnect_unchanged name args loc :
  keeps id noAction (V1.reconnect E name loc)
  /\ keeps id noAction (V2.reconnect E name args loc).
Proof.
  unfold V1.reconnect, V2.reconnect, V1.shouldRetryNow, V2.shouldRetryNow,
    V1.attemptConnect, V2.attemptConnect, V1.requestConnect, V2.requestConnect,
    V1.getCurrentAccounts, V2.getCurrentAccounts.
  split; keeps_tac.
Qed.

(** How the loop on the allowed address is left when it returns: it gave
    up, with [accounts] at [null] and a failure event last; or [accounts]
    is an array with the allowed address, either the one the loop started
    with or an answer of the provider. *)
Lemma retryLoop1_exit name fuel :
  forall loc (s : Sys W) loc',
    outcomeOf (V1.retryLoop E fuel V1.allowedMissing name loc s) = Ret loc' ->
    (accounts loc' = AccNull
     /\ endsInFailure name (traceOf (V1.retryLoop E fuel V1.allowedMissing name loc s)) = true)
    \/ ((exists x l, h_shouldWalletAddress (conn s) = VStr x /\ accounts loc' = AccArray l
                     /\ includes (toUpperCase x) (map toUpperCase l) = true)
        /\ (accounts loc' = accounts loc \/ fromProvider E (accounts loc'))).
Proof.
  induction fuel as [|fuel IH]; intros loc s loc' Hret; [discriminate|].
  cbn [V1.retryLoop] in Hret |- *.
  destruct (conds_pure (W:=W) (accounts loc)) as [Hpure _].
  destruct (pureTest_run _ s Hpure) as [[again Hc] | [e Hc]].
  - rewrite (bind_Ret _ _ _ _ _ _ Hc) in Hret |- *. cbn [app] in *.
    unfold outcomeOf at 1 in Hret. unfold traceOf at 1. cbn [fst snd] in *.
    destruct again.
    + pose proof (reconnect1_shape name loc s) as Hshape.
      pose proof (proj1 (reconnect_unchanged name [] loc)) as Hk.
      destruct (Hk s) as [Hconn _]. unfold id in Hconn.
      destruct (V1.reconnect E name loc s) as [[[[ok loc1]|e|] sr] tr] eqn:Hr.
      * rewrite (bind_Ret _ _ _ _ _ _ Hr) in Hret |- *. cbn [fst snd] in *.
        unfold outcomeOf at 1 in Hret. unfold traceOf at 1. cbn [fst snd] in *.
        unfold sysOf in Hconn. cbn [fst snd] in Hconn.
        specialize (Hshape ok loc1 eq_refl).
        destruct ok.
        -- destruct (IH loc1 sr loc' Hret) as [[Hn Hf] | [(x & l & Hx & Hl & Hi) Hfrom]].
           ++ left. split; [exact Hn | apply endsInFailure_app; exact Hf].
           ++ right. split.
              ** exists x, l. rewrite <- Hconn. auto.
              ** right. destruct Hfrom as [-> | Hfrom]; assumption.
        -- unfold ret in Hret. cbn [fst] in Hret. inversion Hret; subst.
           destruct Hshape as [Hn Hf]. left. split; [exact Hn|].
           unfold ret. cbn [snd]. rewrite app_nil_r.
           unfold traceOf in Hf. cbn [snd] in Hf. exact Hf.
      * rewrite (bind_Throw _ _ _ _ _ _ Hr) in Hret. discriminate.
      * rewrite (bind_Diverge _ _ _ _ _ Hr) in Hret. discriminate.
    + unfold ret in Hret. cbn [fst] in Hret. inversion Hret; subst.
      right. split; [|left; reflexivity].
      destruct (allowedMissing_false _ _ _ _ Hc) as (x & l & Hx & Hl & Hi).
      exists x, l. auto.
  - rewrite (bind_Throw _ _ _ _ _ _ Hc) in Hret. discriminate.
Qed.

Lemma retryLoop2_exit name args fuel :
  pureTest args ->
  forall loc (s : Sys W) loc',
    outcomeOf (V2.retryLoop E fuel V2.allowedMissing name args loc s) = Ret loc' ->
    (accounts loc' = AccNull
     /\ endsInFailure name
          (traceOf (V2.retryLoop E fuel V2.allowedMissing name args loc s)) = true)
    \/ ((exists x l, h_shouldWalletAddress (conn s) = VStr x /\ accounts loc' = AccArray l
                     /\ includes (toUpperCase x) (map toUpperCase l) = true)
        /\ (accounts loc' = accounts loc \/ fromProvider E (accounts loc'))).
Proof.
  intros Hargs.
  induction fuel as [|fuel IH]; intros loc s loc' Hret; [discriminate|].
  cbn [V2.retryLoop] in Hret |- *.
  destruct (conds_pure (W:=W) (accounts loc)) as (_ & _ & Hpure & _).
  destruct (pureTest_run _ s Hpure) as [[again Hc] | [e Hc]].
  - rewrite (bind_Ret _ _ _ _ _ _ Hc) in Hret |- *. cbn [app] in *.
    unfold outcomeOf at 1 in Hret. unfold traceOf at 1. cbn [fst snd] in *.
    destruct again.
    + destruct (pureTest_run _ s Hargs) as [[vs Ha] | [e Ha]].
      * rewrite (bind_Ret _ _ _ _ _ _ Ha) in Hret |- *. cbn [app] in *.
        unfold outcomeOf at 1 in Hret. unfold traceOf at 1. cbn [fst snd] in *.
        pose proof (reconnect2_shape name vs loc s) as Hshape.
        pose proof (proj2 (reconnect_unchanged name vs loc)) as Hk.
        destruct (Hk s) as [Hconn _]. unfold id in Hconn.
        destruct (V2.reconnect E name vs loc s) as [[[[ok loc1]|e|] sr] tr] eqn:Hr.
        -- rewrite (bind_Ret _ _ _ _ _ _ Hr) in Hret |- *. cbn [fst snd] in *.
           unfold outcomeOf at 1 in Hret. unfold traceOf at 1. cbn [fst snd] in *.
           unfold sysOf in Hconn. cbn [fst snd] in Hconn.
           specialize (Hshape ok loc1 eq_refl).
           destruct ok.
           ++ destruct (IH loc1 sr loc' Hret) as [[Hn Hf] | [(x & l & Hx & Hl & Hi) Hfrom]].
              ** left. split; [exact Hn | apply endsInFailure_app; exact Hf].
              ** right. split.
                 --- exists x, l. rewrite <- Hconn. auto.
                 --- right. destruct Hfrom as [-> | Hfrom]; assumption.
           ++ unfold ret in Hret. cbn [fst] in Hret. inversion Hret; subst.
              destruct Hshape as [Hn Hf]. left. split; [exact Hn|].
              unfold ret. cbn [snd]. rewrite app_nil_r.
              unfold traceOf in Hf. cbn [snd] in Hf. exact Hf.
        -- rewrite (bind_Throw _ _ _ _ _ _ Hr) in Hret. discriminate.
        -- rewrite (bind_Diverge _ _ _ _ _ Hr) in Hret. discriminate.
      * rewrite (bind_Throw _ _ _ _ _ _ Ha) in Hret. discriminate.
    + unfold ret in Hret. cbn [fst] in Hret. inversion Hret; subst.
      right. split; [|left; reflexivity].
      rewrite allowedMissing_same in Hc.
      destruct (allowedMissing_false _ _ _ _ Hc) as (x & l & Hx & Hl & Hi).
      exists x, l. auto.
  - rewrite (bind_Throw _ _ _ _ _ _ Hc) in Hret. discriminate.
Qed.

(** A quiet step in front of a run keeps its shape. *)
Lemma policyShape_prefixed finish account0 allowed t r :
  never (emits "walletConnected") t ->
  policyShape E finish account0 allowed r ->
  policyShape E finish account0 allowed (prefixed t r).
Proof.
  intros Ht [(Ha & Hn & Hf) | (x & l & s1 & t1 & Hx & Hi & Hp & Hn & Hs & Ha & Hr)].
  - left. unfold prefixed, sysOf, traceOf, outcomeOf in *. cbn [fst snd] in *.
    split; [exact Ha|]. split; [apply never_app; assumption|].
    intros v Hv. apply endsInFailure_app. apply (Hf v Hv).
  - right. exists x, l, s1, (t ++ t1). repeat split; try assumption.
    + apply never_app; assumption.
    + rewrite Hr. unfold prefixed, sysOf, traceOf, outcomeOf. cbn [fst snd].
      rewrite app_assoc. reflexivity.
Qed.

(** Sequencing after a step that emits no [walletConnected] and changes
    nothing but the chain id. *)
Lemma policyShape_bind {A} finish account0 allowed (m : M W A) (k : A -> M W JsVal)
      (s : Sys W) :
  keeps besidesChain (emits "walletConnected") m ->
  h_account (conn s) = account0 ->
  (forall a s1 t1,
      m s = (Ret a, s1, t1) ->
      besidesChain (conn s1) = besidesChain (conn s) ->
      policyShape E finish account0 allowed (k a s1)) ->
  policyShape E finish account0 allowed (bind m k s).
Proof.
  intros Hm Hacc Hk. destruct (Hm s) as [Hp Ht].
  destruct (m s) as [[[a|e|] s1] t1] eqn:Hms;
    unfold sysOf, traceOf in Hp, Ht; cbn [fst snd] in Hp, Ht.
  - rewrite (bind_Ret _ _ _ _ _ _ Hms).
    apply (policyShape_prefixed finish account0 allowed t1 (k a s1) Ht).
    apply (Hk a s1 t1 eq_refl Hp).
  - rewrite (bind_Throw _ _ _ _ _ _ Hms). left.
    unfold sysOf, traceOf, outcomeOf. cbn [fst snd].
    split; [apply (f_equal h_account) in Hp; cbn in Hp; congruence|].
    split; [exact Ht | discriminate].
  - rewrite (bind_Diverge _ _ _ _ _ Hms). left.
    unfold sysOf, traceOf, outcomeOf. cbn [fst snd].
    split; [apply (f_equal h_account) in Hp; cbn in Hp; congruence|].
    split; [exact Ht | discriminate].
Qed.

Lemma getCurrentAccounts_fromProvider a (s s' : Sys W) t :
  V1.getCurrentAccounts E s = (Ret a, s', t) -> fromProvider E a.
Proof.
  unfold V1.getCurrentAccounts, fromProvider.
  mforward; intros H; inversion H; subst. eexists _, _. eassumption.
Qed.

(** The forced connection attempt says [false] only after the failure
    event. *)
Lemma forced_false f (s s' : Sys W) t :
  (if truthy f then
     bind (V1.requestConnect E)
          (fun connected =>
             if negb connected then bind (emit "failedToConnectWallet" []) (fun _ => ret false)
             else ret true)
   else ret true) s = (Ret false, s', t) ->
  endsInFailure "invalidWallet" t = true.
Proof.
  unfold V1.requestConnect.
  mforward; intros H; inversion H; subst; reflexivity.
Qed.

Lemma forced_keeps f :
  keeps besidesChain (emits "walletConnected")
        (if truthy f then
           bind (V1.requestConnect E)
                (fun connected =>
                   if negb connected
                   then bind (emit (W:=W) "failedToConnectWallet" []) (fun _ => ret false)
                   else ret true)
         else ret true).
Proof. unfold V1.requestConnect. keeps_tac. Qed.

Lemma besidesChain_fields a b :
  besidesChain a = besidesChain b ->
  h_account a = h_account b /\ h_shouldWalletAddress a = h_shouldWalletAddress b.
Proof.
  intros H. split;
    [apply (f_equal h_account) in H | apply (f_equal h_shouldWalletAddress) in H]; exact H.
Qed.

Lemma connectWallet1_policy fuel force (s : Sys W) :
  h_shouldWalletAddress (conn s) <> VNull ->
  (h_account (conn (sysOf (V1.connectWallet E fuel force s))) = h_account (conn s)
   /\ never (emits "walletConnected") (traceOf (V1.connectWallet E fuel force s))
   /\ outcomeOf (V1.detectNetwork E true s) <> Ret true)
  \/ policyShape E (finish1 E) (h_account (conn s)) (h_shouldWalletAddress (conn s))
                 (V1.connectWallet E fuel force s).
Proof.
  intros Hnn.
  assert (HPwc : forall name args, String.eqb name "walletConnected" = false ->
                                   emits "walletConnected" (Emit name args) = false)
    by (intros name args H; exact H).
  unfold V1.connectWallet. cbv zeta.
  (* the network check *)
  assert (K1 : keeps besidesChain (emits "walletConnected") (V1.detectNetwork E true))
    by (apply detectNetwork1_keeps; auto).
  destruct (K1 s) as [Hp1 Ht1].
  destruct (V1.detectNetwork E true s) as [[[ok|e|] s1] t1] eqn:Hnet;
    unfold sysOf, traceOf in Hp1, Ht1; cbn [fst snd] in Hp1, Ht1;
    destruct (besidesChain_fields _ _ Hp1) as [Hacc1 Hswa1].
  2:{ rewrite (bind_Throw _ _ _ _ _ _ Hnet). left.
      unfold outcomeOf, sysOf, traceOf. cbn [fst snd]. repeat split; auto; discriminate. }
  2:{ rewrite (bind_Diverge _ _ _ _ _ Hnet). left.
      unfold outcomeOf, sysOf, traceOf. cbn [fst snd]. repeat split; auto; discriminate. }
  rewrite (bind_Ret _ _ _ _ _ _ Hnet).
  destruct ok; cbn [negb].
  2:{ left. unfold ret, outcomeOf, sysOf, traceOf. cbn [fst snd].
      rewrite app_nil_r. repeat split; auto; discriminate. }
  right. rewrite <- Hacc1, <- Hswa1. rewrite <- Hswa1 in Hnn.
  apply (policyShape_prefixed (finish1 E) _ _ t1 _ Ht1).
  clear Hnet K1 Hp1 Ht1 Hacc1 Hswa1 t1 s. rename s1 into s.
  (* the forced connection attempt *)
  apply policyShape_bind; [destruct (isFunction _); keeps_tac | reflexivity |].
  intros f s2 t2 _ Hp2. destruct (besidesChain_fields _ _ Hp2) as [Hacc2 Hswa2].
  rewrite <- Hacc2, <- Hswa2. rewrite <- Hswa2 in Hnn. clear Hp2 Hacc2 Hswa2 t2 s.
  rename s2 into s.
  pose proof (forced_keeps f s) as [Hp3 Ht3].
  pose proof (forced_false f s) as Hff.
  match goal with
  | |- policyShape _ _ _ _ (bind ?m _ _) => destruct (m s) as [[[goOn|e|] s3] t3] eqn:Hforce
  end;
    unfold sysOf, traceOf in Hp3, Ht3; cbn [fst snd] in Hp3, Ht3;
    destruct (besidesChain_fields _ _ Hp3) as [Hacc3 Hswa3].
  2:{ rewrite (bind_Throw _ _ _ _ _ _ Hforce). left.
      unfold outcomeOf, sysOf, traceOf. cbn [fst snd]. repeat split; auto; discriminate. }
  2:{ rewrite (bind_Diverge _ _ _ _ _ Hforce). left.
      unfold outcomeOf, sysOf, traceOf. cbn [fst snd]. repeat split; auto; discriminate. }
  rewrite (bind_Ret _ _ _ _ _ _ Hforce).
  destruct goOn; cbn [negb].
  2:{ left. unfold ret, prefixed, outcomeOf, sysOf, traceOf. cbn [fst snd].
      rewrite app_nil_r. repeat split; auto. intros v _. apply (Hff _ _ eq_refl). }
  rewrite <- Hacc3, <- Hswa3. rewrite <- Hswa3 in Hnn.
  apply (policyShape_prefixed (finish1 E) _ _ t3 _ Ht3).
  clear Hforce Hff Hp3 Ht3 Hacc3 Hswa3 t3 s. rename s3 into s.
  (* the initial account read *)
  apply policyShape_bind;
    [unfold V1.getCurrentAccounts; keeps_tac | reflexivity |].
  intros accs s4 t4 Hread Hp4. destruct (besidesChain_fields _ _ Hp4) as [Hacc4 Hswa4].
  pose proof (getCurrentAccounts_fromProvider _ _ _ _ Hread) as Hfrom.
  rewrite <- Hacc4, <- Hswa4. rewrite <- Hswa4 in Hnn. clear Hread Hp4 Hacc4 Hswa4 t4 s.
  rename s4 into s.
  apply policyShape_bind; [keeps_tac | reflexivity |].
  intros st s5 t5 Hget _. unfold get in Hget. inversion Hget; subst st s5 t5. clear Hget.
  assert (Hne : negb (strictEq (h_shouldWalletAddress (conn s)) VNull) = true).
  { rewrite strictEq_null. destruct (h_shouldWalletAddress (conn s)); try reflexivity.
    contradiction. }
  rewrite Hne.
  (* the loop *)
  assert (KL : keeps id (emits "walletConnected")
                     (V1.retryLoop E fuel V1.allowedMissing "invalidWallet"
                        (mkLocals (if negb (isArray accs) then AccArray [] else accs) 0))).
  { apply retryLoop1_keeps; auto. intros a. apply conds_keep; auto. }
  destruct (KL s) as [HpL HtL]. unfold id in HpL.
  pose proof (retryLoop1_exit "invalidWallet" fuel
                (mkLocals (if negb (isArray accs) then AccArray [] else accs) 0) s) as Hexit.
  destruct (V1.retryLoop E fuel V1.allowedMissing "invalidWallet"
              (mkLocals (if negb (isArray accs) then AccArray [] else accs) 0) s)
    as [[[loc|e|] sl] tl] eqn:Hloop;
    unfold sysOf, traceOf, outcomeOf in HpL, HtL, Hexit; cbn [fst snd] in HpL, HtL, Hexit.
  2:{ rewrite (bind_Throw _ _ _ _ _ _ Hloop). left.
      unfold outcomeOf, sysOf, traceOf. cbn [fst snd]. rewrite HpL.
      repeat split; auto; discriminate. }
  2:{ rewrite (bind_Diverge _ _ _ _ _ Hloop). left.
      unfold outcomeOf, sysOf, traceOf. cbn [fst snd]. rewrite HpL.
      repeat split; auto; discriminate. }
  rewrite (bind_Ret _ _ _ _ _ _ Hloop).
  destruct (Hexit loc eq_refl) as [[Hnull Hfail] | [(x & l & Hx & Hl & Hi) Hprov]].
  - left. rewrite Hnull. mrun. rewrite app_nil_r. rewrite HpL.
    repeat split; auto.
  - right. exists x, l, sl, tl. rewrite HpL. cbn [accounts] in Hprov.
    repeat split; auto.
    + destruct Hprov as [Heq | Hp]; [|rewrite <- Hl; exact Hp].
      rewrite Hl in Heq. destruct accs as [l'| |]; cbn in Heq.
      * inversion Heq; subst. exact Hfrom.
      * inversion Heq; subst. discriminate.
      * inversion Heq; subst. discriminate.
    + rewrite Hl. reflexivity.
Qed.

Lemma getCurrentAccounts2_fromProvider a (s s' : Sys W) t :
  V2.getCurrentAccounts E s = (Ret a, s', t) -> fromProvider E a.
Proof.
  unfold V2.getCurrentAccounts, fromProvider.
  mforward; intros H; inversion H; subst. eexists _, _. eassumption.
Qed.

Lemma forced2_false f (s s' : Sys W) t :
  (if truthy f then
     bind (V2.requestConnect E)
          (fun connected =>
             if negb connected then bind (emit "failedToConnectWallet" []) (fun _ => ret false)
             else ret true)
   else ret true) s = (Ret false, s', t) ->
  endsInFailure "invalidWallet" t = true.
Proof.
  unfold V2.requestConnect.
  mforward; intros H; inversion H; subst; reflexivity.
Qed.

Lemma forced2_keeps f :
  keeps besidesChain (emits "walletConnected")
        (if truthy f then
           bind (V2.requestConnect E)
                (fun connected =>
                   if negb connected
                   then bind (emit (W:=W) "failedToConnectWallet" []) (fun _ => ret false)
                   else ret true)
         else ret true).
Proof. unfold V2.requestConnect. keeps_tac. Qed.

Lemma connectWallet2_policy fuel force (s : Sys W) :
  h_shouldWalletAddress (conn s) <> VNull ->
  (h_account (conn (sysOf (V2.connectWallet E fuel force s))) = h_account (conn s)
   /\ never (emits "walletConnected") (traceOf (V2.connectWallet E fuel force s))
   /\ (truthy (h_browserProvider (conn s)) = true ->
       outcomeOf (V2.detectNetwork E true s) <> Ret true))
  \/ policyShape E (finish2 E) (h_account (conn s)) (h_shouldWalletAddress (conn s))
                 (V2.connectWallet E fuel force s).
Proof.
  intros Hnn.
  assert (HPwc : forall name args, String.eqb name "walletConnected" = false ->
                                   emits "walletConnected" (Emit name args) = false)
    by (intros name args H; exact H).
  unfold V2.connectWallet. cbv zeta.
  (* the provider check *)
  assert (K0 : keeps id (emits "walletConnected") (V2.checkIfAllowed (W:=W)))
    by (unfold V2.checkIfAllowed; keeps_tac).
  destruct (K0 s) as [Hp0 Ht0]. unfold id in Hp0.
  assert (Hsame : forall s0 t0, V2.checkIfAllowed s = (Ret true, s0, t0) -> s0 = s /\ t0 = [])
    by (unfold V2.checkIfAllowed; mforward; intros s0 t0 H; inversion H; auto).
  assert (Hfalsy : forall a s0 t0, V2.checkIfAllowed s <> (Ret true, s0, t0) ->
                                   V2.checkIfAllowed s = (a, s0, t0) ->
                                   truthy (h_browserProvider (conn s)) = true -> False).
  { unfold V2.checkIfAllowed. mrun.
    destruct (truthy (h_browserProvider (conn s))); mrun;
      [intros a s0 t0 Hne H; congruence | discriminate]. }
  destruct (V2.checkIfAllowed s) as [[[allowed|e|] s0] t0] eqn:Hallowed;
    unfold sysOf, traceOf in Hp0, Ht0; cbn [fst snd] in Hp0, Ht0.
  2:{ rewrite (bind_Throw _ _ _ _ _ _ Hallowed). left.
      unfold outcomeOf, sysOf, traceOf. cbn [fst snd]. rewrite Hp0.
      repeat split; auto. intros Hbp. exfalso.
      apply (Hfalsy _ _ _ ltac:(discriminate) eq_refl Hbp). }
  2:{ rewrite (bind_Diverge _ _ _ _ _ Hallowed). left.
      unfold outcomeOf, sysOf, traceOf. cbn [fst snd]. rewrite Hp0.
      repeat split; auto. intros Hbp. exfalso.
      apply (Hfalsy _ _ _ ltac:(discriminate) eq_refl Hbp). }
  destruct allowed.
  2:{ rewrite (bind_Ret _ _ _ _ _ _ Hallowed). cbn [negb]. left.
      unfold ret, outcomeOf, sysOf, traceOf. cbn [fst snd]. rewrite Hp0.
      rewrite app_nil_r. repeat split; auto. intros Hbp. exfalso.
      apply (Hfalsy _ _ _ ltac:(discriminate) eq_refl Hbp). }
  destruct (Hsame s0 t0 eq_refl) as [-> ->].
  rewrite (bind_pure _ _ _ _ Hallowed). cbn [negb].
  clear Hsame Hfalsy Hallowed K0 Hp0 Ht0.
  (* the network check *)
  assert (K1 : keeps besidesChain (emits "walletConnected") (V2.detectNetwork E true))
    by (apply detectNetwork2_keeps; auto).
  destruct (K1 s) as [Hp1 Ht1].
  destruct (V2.detectNetwork E true s) as [[[ok|e|] s1] t1] eqn:Hnet;
    unfold sysOf, traceOf in Hp1, Ht1; cbn [fst snd] in Hp1, Ht1;
    destruct (besidesChain_fields _ _ Hp1) as [Hacc1 Hswa1].
  2:{ rewrite (bind_Throw _ _ _ _ _ _ Hnet). left.
      unfold outcomeOf, sysOf, traceOf. cbn [fst snd]. repeat split; auto; discriminate. }
  2:{ rewrite (bind_Diverge _ _ _ _ _ Hnet). left.
      unfold outcomeOf, sysOf, traceOf. cbn [fst snd]. repeat split; auto; discriminate. }
  rewrite (bind_Ret _ _ _ _ _ _ Hnet).
  destruct ok; cbn [negb].
  2:{ left. unfold ret, outcomeOf, sysOf, traceOf. cbn [fst snd].
      rewrite app_nil_r. repeat split; auto; discriminate. }
  right. rewrite <- Hacc1, <- Hswa1. rewrite <- Hswa1 in Hnn.
  apply (policyShape_prefixed (finish2 E) _ _ t1 _ Ht1).
  clear Hnet K1 Hp1 Ht1 Hacc1 Hswa1 t1 s. rename s1 into s.
  (* the forced connection attempt *)
  apply policyShape_bind; [destruct (isFunction _); keeps_tac | reflexivity |].
  intros f s2 t2 _ Hp2. destruct (besidesChain_fields _ _ Hp2) as [Hacc2 Hswa2].
  rewrite <- Hacc2, <- Hswa2. rewrite <- Hswa2 in Hnn. clear Hp2 Hacc2 Hswa2 t2 s.
  rename s2 into s.
  pose proof (forced2_keeps f s) as [Hp3 Ht3].
  pose proof (forced2_false f s) as Hff.
  match goal with
  | |- policyShape _ _ _ _ (bind ?m _ _) => destruct (m s) as [[[goOn|e|] s3] t3] eqn:Hforce
  end;
    unfold sysOf, traceOf in Hp3, Ht3; cbn [fst snd] in Hp3, Ht3;
    destruct (besidesChain_fields _ _ Hp3) as [Hacc3 Hswa3].
  2:{ rewrite (bind_Throw _ _ _ _ _ _ Hforce). left.
      unfold outcomeOf, sysOf, traceOf. cbn [fst snd]. repeat split; auto; discriminate. }
  2:{ rewrite (bind_Diverge _ _ _ _ _ Hforce). left.
      unfold outcomeOf, sysOf, traceOf. cbn [fst snd]. repeat split; auto; discriminate. }
  rewrite (bind_Ret _ _ _ _ _ _ Hforce).
  destruct goOn; cbn [negb].
  2:{ left. unfold ret, prefixed, outcomeOf, sysOf, traceOf. cbn [fst snd].
      rewrite app_nil_r. repeat split; auto. intros v _. apply (Hff _ _ eq_refl). }
  rewrite <- Hacc3, <- Hswa3. rewrite <- Hswa3 in Hnn.
  apply (policyShape_prefixed (finish2 E) _ _ t3 _ Ht3).
  clear Hforce Hff Hp3 Ht3 Hacc3 Hswa3 t3 s. rename s3 into s.
  (* the initial account read *)
  apply policyShape_bind;
    [unfold V2.getCurrentAccounts; keeps_tac | reflexivity |].
  intros accs s4 t4 Hread Hp4. destruct (besidesChain_fields _ _ Hp4) as [Hacc4 Hswa4].
  pose proof (getCurrentAccounts2_fromProvider _ _ _ _ Hread) as Hfrom.
  rewrite <- Hacc4, <- Hswa4. rewrite <- Hswa4 in Hnn. clear Hread Hp4 Hacc4 Hswa4 t4 s.
  rename s4 into s.
  apply policyShape_bind; [keeps_tac | reflexivity |].
  intros st s5 t5 Hget _. unfold get in Hget. inversion Hget; subst st s5 t5. clear Hget.
  assert (Hne : negb (strictEq (h_shouldWalletAddress (conn s)) VNull) = true).
  { rewrite strictEq_null. destruct (h_shouldWalletAddress (conn s)); try reflexivity.
    contradiction. }
  rewrite Hne.
  (* the loop *)
  assert (KL : keeps id (emits "walletConnected")
                     (V2.retryLoop E fuel V2.allowedMissing "invalidWallet"
                        (bind get (fun st0 => ret [h_shouldWalletAddress st0]))
                        (mkLocals (if negb (isArray accs) then AccArray [] else accs) 0))).
  { apply retryLoop2_keeps; auto; [intros a; apply conds_keep; auto | keeps_tac]. }
  destruct (KL s) as [HpL HtL]. unfold id in HpL.
  pose proof (retryLoop2_exit "invalidWallet"
                (bind get (fun st0 => ret [h_shouldWalletAddress st0])) fuel
                (proj1 args_pure)
                (mkLocals (if negb (isArray accs) then AccArray [] else accs) 0) s) as Hexit.
  destruct (V2.retryLoop E fuel V2.allowedMissing "invalidWallet"
              (bind get (fun st0 => ret [h_shouldWalletAddress st0]))
              (mkLocals (if negb (isArray accs) then AccArray [] else accs) 0) s)
    as [[[loc|e|] sl] tl] eqn:Hloop;
    unfold sysOf, traceOf, outcomeOf in HpL, HtL, Hexit; cbn [fst snd] in HpL, HtL, Hexit.
  2:{ rewrite (bind_Throw _ _ _ _ _ _ Hloop). left.
      unfold outcomeOf, sysOf, traceOf. cbn [fst snd]. rewrite HpL.
      repeat split; auto; discriminate. }
  2:{ rewrite (bind_Diverge _ _ _ _ _ Hloop). left.
      unfold outcomeOf, sysOf, traceOf. cbn [fst snd]. rewrite HpL.
      repeat split; auto; discriminate. }
  rewrite (bind_Ret _ _ _ _ _ _ Hloop).
  destruct (Hexit loc eq_refl) as [[Hnull Hfail] | [(x & l & Hx & Hl & Hi) Hprov]].
  - left. rewrite Hnull. mrun. rewrite app_nil_r. rewrite HpL.
    repeat split; auto.
  - right. exists x, l, sl, tl. rewrite HpL. cbn [accounts] in Hprov.
    repeat split; auto.
    + destruct Hprov as [Heq | Hp]; [|rewrite <- Hl; exact Hp].
      rewrite Hl in Heq. destruct accs as [l'| |]; cbn in Heq.
      * inversion Heq; subst. exact Hfrom.
      * inversion Heq; subst. discriminate.
      * inversion Heq; subst. discriminate.
    + rewrite Hl. reflexivity.
Qed.

End Policy.

Lemma includes_indexOf x us :
  includes x us = true ->
  exists i, indexOf x us = Some i /\ nth_error us i = Some x.
Proof.
  unfold includes. induction us as [|y us IH]; cbn [existsb indexOf]; [discriminate|].
  destruct (String.eqb y x) eqn:Hy.
  - intros _. exists 0. split; [reflexivity|]. apply String.eqb_eq in Hy. subst.
    reflexivity.
  - cbn [orb]. intros H. destruct (IH H) as (i & Hi & Hn).
    exists (S i). rewrite Hi. split; [reflexivity | exact Hn].
Qed.

Lemma includes_upper x l :
  includes (toUpperCase x) (map toUpperCase l) = true ->
  exists i y, indexOf (toUpperCase x) (map toUpperCase l) = Some i
              /\ nth_error l i = Some y /\ toUpperCase y = toUpperCase x.
Proof.
  intros H. destruct (includes_indexOf _ _ H) as (i & Hi & Hn).
  rewrite nth_error_map in Hn. destruct (nth_error l i) as [y|] eqn:Hy; [|discriminate].
  cbn in Hn. assert (Hup : toUpperCase y = toUpperCase x) by congruence.
  exists i, y.
  split; [exact Hi|]. split; [exact Hy | exact Hup].
Qed.

Section Adoption.
Context {W : Type} (E : Env W).

(** Adopting from an array that has the allowed address: if
    [walletConnected] is emitted, it carries the stored account, which is
    the allowed address up to letter case. *)
Lemma finish_spec x l (s1 : Sys W) :
  h_shouldWalletAddress (conn s1) = VStr x ->
  includes (toUpperCase x) (map toUpperCase l) = true ->
  (forall args,
      In (Emit "walletConnected" args) (traceOf (finish1 E (AccArray l) s1)) ->
      exists acc, args = [VStr acc]
                  /\ h_account (conn (sysOf (finish1 E (AccArray l) s1))) = VStr acc
                  /\ toUpperCase acc = toUpperCase x)
  /\ (forall args,
         In (Emit "walletConnected" args) (traceOf (finish2 E (AccArray l) s1)) ->
         exists acc, args = [VStr acc]
                     /\ h_account (conn (sysOf (finish2 E (AccArray l) s1))) = VStr acc
                     /\ toUpperCase acc = toUpperCase x).
Proof.
  intros Hx Hi. destruct (includes_upper _ _ Hi) as (i & y & Hidx & Hnth & Hup).
  unfold finish1, finish2, V1.adoptAccount, V2.adoptAccount.
  split; mgo; cbn [strictEq negb]; mforward;
    cbn [In]; intros args Hin;
    repeat match goal with
           | H : _ \/ _ |- _ => destruct H
           | H : False |- _ => contradiction
           | H : Emit _ _ = Emit _ _ |- _ => inversion H; subst; clear H
           end;
    eexists; repeat split; exact Hup.
Qed.

End Adoption.

(** C3, as stated, fails in its second half: the provider never reports
    the allowed address, the user turns the permission request down, and the
    run ends with [failedToConnectWallet]; [invalidWallet] is never
    emitted. *)
Lemma allowed_address_counterexample :
  neverReports refusingWallet (VStr "0xabc")
  /\ refusedRun
     = (Ret VUndefined, readySys (VStr "0xabc") VNull,
        [Request "eth_chainId"; Request "eth_accounts";
         Request "wallet_requestPermissions"; Emit "failedToConnectWallet" []])
  /\ never (emits "invalidWallet") (traceOf refusedRun).
Proof.
  assert (H : refusedRun
              = (Ret VUndefined, readySys (VStr "0xabc") VNull,
                 [Request "eth_chainId"; Request "eth_accounts";
                  Request "wallet_requestPermissions"; Emit "failedToConnectWallet" []]))
    by (vm_compute; reflexivity).
  split; [|split; [exact H|]].
  - intros a w l w' Ha Hl. inversion Ha; subst. cbn in Hl. inversion Hl; subst.
    reflexivity.
  - rewrite H. unfold traceOf. cbn [snd]. repeat constructor.
Qed.

(** C3, amended.  With an allowed address configured (not [null]), in both
    versions: if [walletConnected] is emitted, it carries the stored
    account, and that account equals the allowed address up to letter case.
    If the provider never reports the allowed address, the run leaves the
    account as it was and does not emit [walletConnected]; when it returns
    after the provider and network checks have passed, its last action is
    the emission of [invalidWallet] (retry declined or cap reached) or of
    [failedToConnectWallet] (permission request turned down). *)
Theorem allowed_address_policy :
  forall (W : Type) (E : Env W) (fuel : nat) (forceNewConnect : JsVal) (s : Sys W),
    h_shouldWalletAddress (conn s) <> VNull ->
    ((forall args,
         In (Emit "walletConnected" args) (traceOf (V1.connectWallet E fuel forceNewConnect s)) ->
         exists x acc,
           h_shouldWalletAddress (conn s) = VStr x
           /\ args = [VStr acc]
           /\ h_account (conn (sysOf (V1.connectWallet E fuel forceNewConnect s))) = VStr acc
           /\ toUpperCase acc = toUpperCase x)
     /\ (neverReports E (h_shouldWalletAddress (conn s)) ->
         h_account (conn (sysOf (V1.connectWallet E fuel forceNewConnect s)))
         = h_account (conn s)
         /\ never (emits "walletConnected") (traceOf (V1.connectWallet E fuel forceNewConnect s))
         /\ (forall v,
                outcomeOf (V1.connectWallet E fuel forceNewConnect s) = Ret v ->
                outcomeOf (V1.detectNetwork E true s) = Ret true ->
                endsInFailure "invalidWallet"
                              (traceOf (V1.connectWallet E fuel forceNewConnect s)) = true)))
    /\ ((forall args,
            In (Emit "walletConnected" args) (traceOf (V2.connectWallet E fuel forceNewConnect s)) ->
            exists x acc,
              h_shouldWalletAddress (conn s) = VStr x
              /\ args = [VStr acc]
              /\ h_account (conn (sysOf (V2.connectWallet E fuel forceNewConnect s))) = VStr acc
              /\ toUpperCase acc = toUpperCase x)
        /\ (neverReports E (h_shouldWalletAddress (conn s)) ->
            h_account (conn (sysOf (V2.connectWallet E fuel forceNewConnect s)))
            = h_account (conn s)
            /\ never (emits "walletConnected")
                     (traceOf (V2.connectWallet E fuel forceNewConnect s))
            /\ (forall v,
                   outcomeOf (V2.connectWallet E fuel forceNewConnect s) = Ret v ->
                   truthy (h_browserProvider (conn s)) = true ->
                   outcomeOf (V2.detectNetwork E true s) = Ret true ->
                   endsInFailure "invalidWallet"
                                 (traceOf (V2.connectWallet E fuel forceNewConnect s)) = true))).
Proof.
  intros W E fuel force s Hnn. split.
  - destruct (connectWallet1_policy E fuel force s Hnn)
      as [(Ha & Hn & Hnet)
         | [(Ha & Hn & Hf)
           | (x & l & s1 & t1 & Hx & Hi & Hp & Hn & Hs & Ha & Hr)]].
    + split.
      * intros args Hin. exfalso. exact (never_In _ _ (Emit "walletConnected" args) Hn eq_refl Hin).
      * intros _. repeat split; auto; intros v _ Hok; contradiction.
    + split.
      * intros args Hin. exfalso. exact (never_In _ _ (Emit "walletConnected" args) Hn eq_refl Hin).
      * intros _. repeat split; eauto.
    + split.
      * intros args Hin. rewrite Hr in Hin |- *.
        unfold prefixed in Hin |- *. unfold traceOf at 1 in Hin. unfold sysOf at 1.
        cbn [fst snd] in Hin |- *.
        apply in_app_or in Hin. destruct Hin as [Hin | Hin];
          [exfalso; exact (never_In _ _ (Emit "walletConnected" args) Hn eq_refl Hin)|].
        rewrite Hx in Hs.
        destruct (proj1 (finish_spec E x l s1 Hs Hi) args Hin) as (acc & H1 & H2 & H3).
        exists x, acc. auto.
      * intros Hnever. exfalso. destruct Hp as (w & w' & Hw).
        rewrite (Hnever x w l w' Hx Hw) in Hi. discriminate.
  - destruct (connectWallet2_policy E fuel force s Hnn)
      as [(Ha & Hn & Hnet)
         | [(Ha & Hn & Hf)
           | (x & l & s1 & t1 & Hx & Hi & Hp & Hn & Hs & Ha & Hr)]].
    + split.
      * intros args Hin. exfalso. exact (never_In _ _ (Emit "walletConnected" args) Hn eq_refl Hin).
      * intros _. repeat split; auto; intros v _ Hbp Hok; exfalso; exact (Hnet Hbp Hok).
    + split.
      * intros args Hin. exfalso. exact (never_In _ _ (Emit "walletConnected" args) Hn eq_refl Hin).
      * intros _. repeat split; eauto.
    + split.
      * intros args Hin. rewrite Hr in Hin |- *.
        unfold prefixed in Hin |- *. unfold traceOf at 1 in Hin. unfold sysOf at 1.
        cbn [fst snd] in Hin |- *.
        apply in_app_or in Hin. destruct Hin as [Hin | Hin];
          [exfalso; exact (never_In _ _ (Emit "walletConnected" args) Hn eq_refl Hin)|].
        rewrite Hx in Hs.
        destruct (proj2 (finish_spec E x l s1 Hs Hi) args Hin) as (acc & H1 & H2 & H3).
        exists x, acc. auto.
      * intros Hnever. exfalso. destruct Hp as (w & w' & Hw).
        rewrite (Hnever x w l w' Hx Hw) in Hi. discriminate.
Qed.

Lemma allowed_address_policy_witness :
  h_shouldWalletAddress (conn (readySys (VStr "0xabc") VNull)) <> VNull
  /\ In (Emit "walletConnected" [VStr "0xABC"])
        (traceOf (V2.connectWallet matchingWallet 5 VUndefined (readySys (VStr "0xabc") VNull)))
  /\ exists x acc,
       h_shouldWalletAddress (conn (readySys (VStr "0xabc") VNull)) = VStr x
       /\ [VStr "0xABC"] = [VStr acc]
       /\ h_account (conn (sysOf (V2.connectWallet matchingWallet 5 VUndefined
                                    (readySys (VStr "0xabc") VNull)))) = VStr acc
       /\ toUpperCase acc = toUpperCase x.
Proof.
  assert (Hnn : h_shouldWalletAddress (conn (readySys (VStr "0xabc") VNull)) <> VNull)
    by (cbn; discriminate).
  assert (Hin : In (Emit "walletConnected" [VStr "0xABC"])
                   (traceOf (V2.connectWallet matchingWallet 5 VUndefined
                               (readySys (VStr "0xabc") VNull))))
    by (vm_compute; auto).
  split; [exact Hnn|]. split; [exact Hin|].
  exact (proj1 (proj2 (allowed_address_policy unit matchingWallet 5 VUndefined
                         (readySys (VStr "0xabc") VNull) Hnn))
               [VStr "0xABC"] Hin).
Defined.

(** * The two versions side by side *)

Section SideBySide.
Context {W : Type} (E : Env W).

Lemma sameRun_refl {A} (r : Outcome A * Sys W * list Action) : sameRun r r.
Proof. repeat split. Qed.

Lemma agree_refl {A} (m : M W A) : agree m m.
Proof. intros s. apply sameRun_refl. Qed.

Lemma sameRun_bind {A B} (m1 m2 : M W A) (k1 k2 : A -> M W B) (s : Sys W) :
  sameRun (m1 s) (m2 s) ->
  (forall a s', sameRun (k1 a s') (k2 a s')) ->
  sameRun (bind m1 k1 s) (bind m2 k2 s).
Proof.
  intros (Ho & Hs & Ht) Hk.
  destruct (m1 s) as [[o1 s1] t1] eqn:H1. destruct (m2 s) as [[o2 s2] t2] eqn:H2.
  unfold outcomeOf, sysOf, traceOf in Ho, Hs, Ht. cbn [fst snd] in Ho, Hs, Ht. subst.
  destruct o2 as [a|e|].
  - rewrite (bind_Ret _ _ _ _ _ _ H1), (bind_Ret _ _ _ _ _ _ H2).
    destruct (Hk a s2) as (Ho' & Hs' & Ht').
    unfold sameRun, outcomeOf, sysOf, traceOf in *. cbn [fst snd] in *.
    rewrite !map_app, Ht, Ht'. auto.
  - rewrite (bind_Throw _ _ _ _ _ _ H1), (bind_Throw _ _ _ _ _ _ H2).
    unfold sameRun, outcomeOf, sysOf, traceOf. cbn [fst snd]. auto.
  - rewrite (bind_Diverge _ _ _ _ _ H1), (bind_Diverge _ _ _ _ _ H2).
    unfold sameRun, outcomeOf, sysOf, traceOf. cbn [fst snd]. auto.
Qed.

Lemma agree_bind {A B} (m1 m2 : M W A) (k1 k2 : A -> M W B) :
  agree m1 m2 -> (forall a, agree (k1 a) (k2 a)) -> agree (bind m1 k1) (bind m2 k2).
Proof. intros Hm Hk s. apply sameRun_bind; [apply Hm | intros a s'; apply Hk]. Qed.

Lemma sameRun_prefixed {A} t (r1 r2 : Outcome A * Sys W * list Action) :
  sameRun r1 r2 -> sameRun (prefixed t r1) (prefixed t r2).
Proof.
  intros (Ho & Hs & Ht). unfold sameRun, prefixed, outcomeOf, sysOf, traceOf in *.
  cbn [fst snd]. rewrite !map_app, Ht. auto.
Qed.

(** The closures differ only in the arguments of the failure event. *)
Lemma agree_reconnect name args loc :
  bare (Emit name args) = bare (Emit name []) ->
  agree (V1.reconnect E name loc) (V2.reconnect E name args loc).
Proof.
  intros Hb. unfold V1.reconnect, V2.reconnect.
  destruct (0 <? tryConnectCount loc); [|apply agree_refl].
  apply agree_bind; [apply agree_refl | intros shouldRetry].
  destruct (negb shouldRetry); [|apply agree_refl].
  intros s. unfold sameRun. mrun. repeat split. cbn [map]. rewrite Hb. reflexivity.
Qed.

Lemma agree_retryLoop fuel cond name argsM :
  (forall s, exists args,
      argsM s = (Ret args, s, []) /\ bare (Emit name args) = bare (Emit name [])) ->
  forall loc,
    agree (V1.retryLoop E fuel cond name loc) (V2.retryLoop E fuel cond name argsM loc).
Proof.
  intros Hargs. induction fuel as [|fuel IH]; intros loc; [apply agree_refl|].
  cbn [V1.retryLoop V2.retryLoop].
  apply agree_bind; [apply agree_refl | intros again].
  destruct again; [|apply agree_refl].
  intros s. destruct (Hargs s) as (args & Ha & Hb).
  rewrite (bind_pure argsM _ s args Ha).
  apply sameRun_bind; [apply agree_reconnect, Hb | intros [ok loc'] s'; cbn [fst snd]].
  destruct ok; [apply IH | apply sameRun_refl].
Qed.

Lemma versions_agree_on_connectWallet fuel force (s : Sys W) raw w1 n :
  truthy (h_browserProvider (conn s)) = true ->
  eth_chainId E (world s) = (Resolve raw, w1) ->
  toNumber E raw = Resolve n ->
  V1.isCorrectNetwork (set_currentChainId (VNum n) (conn s)) = true ->
  sameRun (V1.connectWallet E fuel force s) (V2.connectWallet E fuel force s).
Proof.
  intros Hbp Hraw Hn Hok.
  pose proof (truthy_not_nullish _ Hbp) as Hnn.
  assert (Hok2 : V2.isCorrectNetwork (set_currentChainId (VNum n) (conn s)) = true)
    by exact Hok.
  assert (H1 : V1.detectNetwork E true s
               = (Ret true, withConn (set_currentChainId (VNum n) (conn s)) (withWorld w1 s),
                  [Request "eth_chainId"])).
  { unfold V1.detectNetwork, V1.readChainId. mgo. reflexivity. }
  assert (H2 : V2.detectNetwork E true s
               = (Ret true, withConn (set_currentChainId (VNum n) (conn s)) (withWorld w1 s),
                  [Request "eth_chainId"])).
  { unfold V2.detectNetwork, V2.readChainId. mgo. reflexivity. }
  assert (H0 : V2.checkIfAllowed s = (Ret true, s, [])).
  { unfold V2.checkIfAllowed. mgo. reflexivity. }
  unfold V1.connectWallet, V2.connectWallet. cbv zeta.
  rewrite (bind_pure _ _ _ _ H0). cbn [negb].
  rewrite (bind_Ret _ _ _ _ _ _ H1), (bind_Ret _ _ _ _ _ _ H2). cbn [negb].
  apply (sameRun_prefixed [Request "eth_chainId"]).
  generalize (withConn (set_currentChainId (VNum n) (conn s)) (withWorld w1 s)).
  clear. intros s.
  revert s. apply agree_bind; [apply agree_refl | intros f].
  apply agree_bind; [apply agree_refl | intros goOn].
  destruct (negb goOn); [apply agree_refl|].
  apply agree_bind; [apply agree_refl | intros accs].
  apply agree_bind; [apply agree_refl | intros st].
  apply agree_bind; [|intros loc; apply agree_refl].
  destruct (negb (strictEq (h_shouldWalletAddress st) VNull)).
  - apply agree_retryLoop. intros s. eexists. split; [reflexivity|]. reflexivity.
  - apply agree_retryLoop. intros s. eexists. split; [reflexivity|]. reflexivity.
Qed.

End SideBySide.

(** C2, as stated, fails on [disconnectWallet]: from the same connected
    state, with a wallet that refuses to revoke permissions, version 1
    clears the account, emits [walletDisconnected] and returns [undefined],
    while version 2 sends a revoke request, keeps the account, emits nothing
    and returns [false]. *)
Lemma versions_counterexample :
  V1.disconnectWallet connectedSys
  = (Ret VUndefined, withConn (set_account VUndefined (conn connectedSys)) connectedSys,
     [Emit "walletDisconnected" []])
  /\ V2.disconnectWallet keepingWallet connectedSys
     = (Ret (VBool false), connectedSys, [Request "wallet_revokePermissions"])
  /\ outcomeOf (V1.disconnectWallet connectedSys)
     <> outcomeOf (V2.disconnectWallet keepingWallet connectedSys)
  /\ h_account (conn (sysOf (V1.disconnectWallet connectedSys)))
     <> h_account (conn (sysOf (V2.disconnectWallet keepingWallet connectedSys)))
  /\ events (traceOf (V1.disconnectWallet connectedSys))
     <> events (traceOf (V2.disconnectWallet keepingWallet connectedSys)).
Proof.
  assert (H1 : V1.disconnectWallet connectedSys
               = (Ret VUndefined,
                  withConn (set_account VUndefined (conn connectedSys)) connectedSys,
                  [Emit "walletDisconnected" []]))
    by (vm_compute; reflexivity).
  assert (H2 : V2.disconnectWallet keepingWallet connectedSys
               = (Ret (VBool false), connectedSys, [Request "wallet_revokePermissions"]))
    by (vm_compute; reflexivity).
  split; [exact H1|]. split; [exact H2|].
  rewrite H1, H2. split; [|split]; vm_compute; discriminate.
Qed.

(** C2, amended.  The two versions agree on the getters in every state, and
    on [connectWallet] whenever the connector holds a provider and the
    wallet is on the configured network when the chain id is first read:
    same return value, same resulting system, and the same provider
    requests and events in the same order, up to the arguments of
    [invalidWallet] (none in version 1, the allowed address in version 2).
    They agree on [disconnectWallet] when the connector holds a provider and
    no account.  On [destroy] they emit nothing and leave the same fields,
    except that version 2 also clears its setup flag and returns the
    connector instead of [undefined]. *)
Theorem versions_agree :
  forall (W : Type) (E : Env W) (fuel : nat) (forceNewConnect : JsVal) (s : Sys W),
    (forall st,
        V1.provider st = V2.provider st
        /\ V1.signer st = V2.signer st
        /\ V1.account st = V2.account st
        /\ V1.currentChainId st = V2.currentChainId st
        /\ V1.isCorrectNetwork st = V2.isCorrectNetwork st
        /\ V1.isWalletConnected st = V2.isWalletConnected st)
    /\ (forall raw w1 n,
           truthy (h_browserProvider (conn s)) = true ->
           eth_chainId E (world s) = (Resolve raw, w1) ->
           toNumber E raw = Resolve n ->
           V1.isCorrectNetwork (set_currentChainId (VNum n) (conn s)) = true ->
           sameRun (V1.connectWallet E fuel forceNewConnect s)
                   (V2.connectWallet E fuel forceNewConnect s))
    /\ (truthy (h_browserProvider (conn s)) = true ->
        V1.isWalletConnected (conn s) = false ->
        V2.disconnectWallet E s = V1.disconnectWallet s)
    /\ (V1.destroy s = (Ret VUndefined, sysOf (V1.destroy s), [])
        /\ V2.destroy s
           = (Ret this, withConn (set_isSetup false (conn (sysOf (V1.destroy s)))) s, [])).
Proof.
  intros W E fuel force s. split; [|split; [|split]].
  - intros st. repeat split.
  - intros raw w1 n Hbp Hraw Hn Hok.
    exact (versions_agree_on_connectWallet E fuel force s raw w1 n Hbp Hraw Hn Hok).
  - intros Hbp Hc.
    assert (Hc2 : V2.isWalletConnected (conn s) = false) by exact Hc.
    unfold V2.disconnectWallet, V2.checkIfAllowed, V1.disconnectWallet.
    mgo. destruct s; reflexivity.
  - split; reflexivity.
Qed.

Lemma versions_agree_witness :
  truthy (h_browserProvider (conn (readySys (VStr "0xdef") VNull))) = true
  /\ eth_chainId oneAccount (world (readySys (VStr "0xdef") VNull)) = (Resolve (VNum 97%Z), tt)
  /\ toNumber oneAccount (VNum 97%Z) = Resolve 97%Z
  /\ V1.isCorrectNetwork
       (set_currentChainId (VNum 97%Z) (conn (readySys (VStr "0xdef") VNull))) = true
  /\ In (Emit "invalidWallet" [])
        (traceOf (V1.connectWallet oneAccount 5 VUndefined (readySys (VStr "0xdef") VNull)))
  /\ In (Emit "invalidWallet" [VStr "0xdef"])
        (traceOf (V2.connectWallet oneAccount 5 VUndefined (readySys (VStr "0xdef") VNull)))
  /\ sameRun (V1.connectWallet oneAccount 5 VUndefined (readySys (VStr "0xdef") VNull))
             (V2.connectWallet oneAccount 5 VUndefined (readySys (VStr "0xdef") VNull)).
Proof.
  split; [reflexivity|]. split; [reflexivity|]. split; [reflexivity|].
  split; [reflexivity|].
  split; [vm_compute; auto 20|]. split; [vm_compute; auto 20|].
  exact (proj1 (proj2 (versions_agree unit oneAccount 5 VUndefined
                         (readySys (VStr "0xdef") VNull)))
               (VNum 97%Z) tt 97%Z eq_refl eq_refl eq_refl eq_refl).
Defined.

(** * The chain-change listener *)

Section Hooks.
Context {W : Type}.

Lemma steady_ret {A} (a : A) : steady (W:=W) (ret a).
Proof. intros s. reflexivity. Qed.

Lemma steady_throw {A} e : steady (W:=W) (A:=A) (throw e).
Proof. intros s. reflexivity. Qed.

Lemma steady_diverge {A} : steady (W:=W) (A:=A) diverge.
Proof. intros s. reflexivity. Qed.

Lemma steady_get : steady (W:=W) get.
Proof. intros s. reflexivity. Qed.

Lemma steady_gets {A} (f : State -> A) : steady (W:=W) (gets f).
Proof. intros s. reflexivity. Qed.

Lemma steady_modify f : steady (W:=W) (modify f).
Proof. intros s. reflexivity. Qed.

Lemma steady_log a : steady (W:=W) (log a).
Proof. intros s. reflexivity. Qed.

Lemma steady_emit name args : steady (W:=W) (emit name args).
Proof. intros s. reflexivity. Qed.

Lemma steady_error {A} msg : steady (W:=W) (A:=A) (error msg).
Proof. intros s. reflexivity. Qed.

Lemma steady_settle {A} (r : Reply A) : steady (W:=W) (settle r).
Proof. destruct r; intros s; reflexivity. Qed.

Lemma steady_ask {A} (q : W -> Reply A * W) : steady (ask q).
Proof.
  intros s. unfold ask. destruct (q (world s)) as [[a|e] w]; reflexivity.
Qed.

Lemma steady_bind {A B} (m : M W A) (k : A -> M W B) :
  steady m -> (forall a, steady (k a)) -> steady (bind m k).
Proof.
  intros Hm Hk s. specialize (Hm s).
  destruct (m s) as [[[a|e|] s1] t1] eqn:Hms.
  - rewrite (bind_Ret _ _ _ _ _ _ Hms).
    specialize (Hk a s1). destruct (k a s1) as [[o s2] t2].
    unfold sysOf in *. cbn [fst snd] in *. congruence.
  - rewrite (bind_Throw _ _ _ _ _ _ Hms). exact Hm.
  - rewrite (bind_Diverge _ _ _ _ _ Hms). exact Hm.
Qed.

Lemma steady_tryCatch {A} (m : M W A) (h : JsVal -> M W A) :
  steady m -> (forall e, steady (h e)) -> steady (tryCatch m h).
Proof.
  intros Hm Hh s. specialize (Hm s). unfold tryCatch.
  destruct (m s) as [[[a|e|] s1] t1] eqn:Hms; try exact Hm.
  specialize (Hh e s1). destruct (h e s1) as [[o s2] t2].
  unfold sysOf in *. cbn [fst snd] in *. congruence.
Qed.

Lemma steady_detached (m : M W unit) : steady m -> steady (detached m).
Proof. intros H. apply steady_tryCatch; [exact H | intros e; apply steady_ret]. Qed.

Lemma steady_request {A} method (q : W -> Reply A * W) : steady (request method q).
Proof.
  unfold request. apply steady_bind; [apply steady_get | intros st].
  destruct (nullish (h_browserProvider st)); [apply steady_throw|].
  apply steady_bind; [apply steady_log | intros _; apply steady_ask].
Qed.

Lemma steady_call (E : Env W) f args : steady (call E f args).
Proof.
  destruct f; simpl; try apply steady_throw.
  apply steady_bind; [apply steady_log | intros _; apply steady_ask].
Qed.

Lemma steady_member v k : steady (W:=W) (member v k).
Proof. unfold member. destruct (nullish v); [apply steady_throw | apply steady_ret]. Qed.

Lemma steady_injectedProvider (E : Env W) : steady (injectedProvider E).
Proof.
  intros s. unfold injectedProvider.
  destruct (nullish (window_ethereum E (world s))); [apply steady_ask | reflexivity].
Qed.

Lemma steady_forEach {A} (f : A -> M W unit) l :
  (forall x, steady (f x)) -> steady (forEach f l).
Proof.
  intros Hf. induction l as [|x l IH]; simpl; [apply steady_ret|].
  apply steady_bind; [apply Hf | intros _; exact IH].
Qed.

Lemma steady_pure {A} (m : M W A) : pureTest m -> steady m.
Proof. intros H s. destruct (H s) as (_ & Hs & _). rewrite Hs. reflexivity. Qed.

Lemma steady_upperAccounts a : steady (W:=W) (upperAccounts a).
Proof. destruct a; simpl; [apply steady_ret | apply steady_throw ..]. Qed.

Lemma steady_upperOf v : steady (W:=W) (upperOf v).
Proof. destruct v; simpl; try apply steady_throw. apply steady_ret. Qed.

Lemma steady_lengthOf a : steady (W:=W) (lengthOf a).
Proof. destruct a; simpl; [apply steady_ret | apply steady_throw ..]. Qed.

Lemma steady_elementAt a i : steady (W:=W) (elementAt a i).
Proof. destruct a; simpl; [apply steady_ret | apply steady_throw ..]. Qed.


Lemma registers_steady {A} (m : M W A) : steady m -> registers 0 [] m.
Proof.
  intros H s v _. rewrite (H s). unfold hooks. rewrite app_nil_r. reflexivity.
Qed.





End Hooks.

Ltac steady_step :=
  first
    [ assumption
    | match goal with
      | H : forall _, steady _ |- steady _ => apply H
      end
    | apply steady_ret | apply steady_throw | apply steady_diverge | apply steady_get
    | apply steady_gets | apply steady_modify | apply steady_log | apply steady_emit
    | apply steady_error | apply steady_settle | apply steady_ask
    | apply steady_request | apply steady_call | apply steady_member
    | apply steady_injectedProvider
    | apply steady_upperAccounts | apply steady_upperOf | apply steady_lengthOf
    | apply steady_elementAt
    | apply steady_bind; [ | intros ? ]
    | apply steady_tryCatch; [ | intros ? ]
    | apply steady_forEach; intros ?
    | match goal with
      | |- steady (if ?b then _ else _) => destruct b
      | |- steady (match ?x with _ => _ end) => destruct x
      | |- steady (let _ := _ in _) => cbv zeta
      end ].

Ltac steady_tac := repeat steady_step.

Section Registration.
Context {W : Type} (E : Env W).

Lemma attemptConnect_steady loc :
  steady (V1.attemptConnect E loc) /\ steady (V2.attemptConnect E loc).
Proof.
  unfold V1.attemptConnect, V1.requestConnect, V1.getCurrentAccounts,
    V2.attemptConnect, V2.requestConnect, V2.getCurrentAccounts.
  split; steady_tac.
Qed.

Lemma reconnect_steady name args loc :
  steady (V1.reconnect E name loc) /\ steady (V2.reconnect E name args loc).
Proof.
  destruct (attemptConnect_steady loc) as [H1 H2].
  unfold V1.reconnect, V1.shouldRetryNow, V2.reconnect, V2.shouldRetryNow. cbv zeta.
  split; steady_tac.
Qed.

Lemma retryLoop1_steady fuel cond name :
  (forall a, steady (cond a)) ->
  forall loc, steady (V1.retryLoop E fuel cond name loc).
Proof.
  intros Hc. induction fuel as [|fuel IH]; intros loc; cbn [V1.retryLoop];
    [apply steady_diverge|].
  apply steady_bind; [apply Hc | intros again].
  destruct again; [|apply steady_ret].
  apply steady_bind; [apply (reconnect_steady name [] loc) | intros [ok loc']].
  cbn [fst snd]. destruct ok; [apply IH | apply steady_ret].
Qed.

Lemma retryLoop2_steady fuel cond name args :
  (forall a, steady (cond a)) -> steady args ->
  forall loc, steady (V2.retryLoop E fuel cond name args loc).
Proof.
  intros Hc Ha. induction fuel as [|fuel IH]; intros loc; cbn [V2.retryLoop];
    [apply steady_diverge|].
  apply steady_bind; [apply Hc | intros again].
  destruct again; [|apply steady_ret].
  apply steady_bind; [exact Ha | intros xs].
  apply steady_bind; [apply (reconnect_steady name xs loc) | intros [ok loc']].
  cbn [fst snd]. destruct ok; [apply IH | apply steady_ret].
Qed.

Lemma startDisconnectWallet_steady : steady (V2.startDisconnectWallet E).
Proof.
  unfold V2.startDisconnectWallet, V2.checkIfAllowed, detached.
  steady_tac. intros s. unfold V2.sendRevokeAndSuspend.
  destruct (nullish (h_browserProvider (conn s))); [reflexivity|].
  destruct (wallet_revokePermissions E (world s)); reflexivity.
Qed.

Lemma detectNetwork_steady ask :
  steady (V1.detectNetwork E ask) /\ steady (V2.detectNetwork E ask).
Proof.
  pose proof startDisconnectWallet_steady as Hstart.
  unfold V1.detectNetwork, V1.addOrSwitchNetwork, V1.addChainParams, V1.readChainId,
    V1.disconnectWallet, V2.detectNetwork, V2.addOrSwitchNetwork, V2.addChainParams,
    V2.readChainId, detached.
  split; steady_tac.
Qed.

Lemma connectWallet_steady fuel force :
  steady (V1.connectWallet E fuel force) /\ steady (V2.connectWallet E fuel force).
Proof.
  pose proof (fun b => proj1 (detectNetwork_steady b)) as Hd1.
  pose proof (fun b => proj2 (detectNetwork_steady b)) as Hd2.
  pose proof (fun a => steady_pure _ (proj1 (conds_pure (W:=W) a))) as Hc1.
  pose proof (fun a => steady_pure _ (proj1 (proj2 (conds_pure (W:=W) a)))) as Hc2.
  pose proof (fun a => steady_pure _ (proj1 (proj2 (proj2 (conds_pure (W:=W) a))))) as Hc3.
  pose proof (fun a => steady_pure _ (proj2 (proj2 (proj2 (conds_pure (W:=W) a))))) as Hc4.
  unfold V1.connectWallet, V1.requestConnect, V1.getCurrentAccounts, V1.adoptAccount,
    V2.connectWallet, V2.checkIfAllowed, V2.requestConnect, V2.getCurrentAccounts,
    V2.adoptAccount.
  split; steady_tac;
    first [ apply retryLoop1_steady; assumption
          | apply retryLoop2_steady; [assumption | steady_tac] ].
Qed.




End Registration.

Section Handler.
Context {W : Type} (E : Env W).





End Handler.




(** * Further properties of the connector *)

Section ReturnValue.
Context {W : Type} (E : Env W).

Lemma returnsAccount_bind {A} (m : M W A) (k : A -> M W JsVal) :
  (forall a, returnsAccount (k a)) -> returnsAccount (bind m k).
Proof.
  intros Hk s v Hv.
  destruct (m s) as [[[a|e|] s1] t1] eqn:Hms.
  - rewrite (bind_Ret _ _ _ _ _ _ Hms) in Hv |- *.
    specialize (Hk a s1 v). destruct (k a s1) as [[o s2] t2].
    unfold sysOf, outcomeOf in *. cbn [fst snd] in *. auto.
  - rewrite (bind_Throw _ _ _ _ _ _ Hms) in Hv. discriminate.
  - rewrite (bind_Diverge _ _ _ _ _ Hms) in Hv. discriminate.
Qed.

Lemma returnsAccount_undefined : returnsAccount (W:=W) (ret VUndefined).
Proof. intros s v Hv. left. inversion Hv. reflexivity. Qed.

Lemma returnsAccount_gets : returnsAccount (W:=W) (gets h_account).
Proof. intros s v Hv. right. inversion Hv. reflexivity. Qed.

Lemma returnsAccount_throw e : returnsAccount (W:=W) (throw e).
Proof. intros s v Hv. discriminate. Qed.

Ltac returns_tac :=
  repeat first
    [ apply returnsAccount_undefined | apply returnsAccount_gets
    | apply returnsAccount_throw
    | apply returnsAccount_bind; intros ?
    | match goal with
      | |- returnsAccount (if ?b then _ else _) => destruct b
      | |- returnsAccount (let _ := _ in _) => cbv zeta
      end ].

Lemma connectWallet_returnsAccount fuel force :
  returnsAccount (V1.connectWallet E fuel force)
  /\ returnsAccount (V2.connectWallet E fuel force).
Proof.
  unfold V1.connectWallet, V2.connectWallet. split; returns_tac.
Qed.

End ReturnValue.

Section Establishes.
Context {W : Type}.

Lemma establishes_bind {A B} q (m : M W A) (k : A -> M W B) :
  (forall a, establishes q (k a)) -> establishes q (bind m k).
Proof.
  intros Hk s v Hv.
  destruct (m s) as [[[a|e|] s1] t1] eqn:Hms.
  - rewrite (bind_Ret _ _ _ _ _ _ Hms) in Hv |- *.
    specialize (Hk a s1 v). destruct (k a s1) as [[o s2] t2].
    unfold sysOf, outcomeOf in *. cbn [fst snd] in *. auto.
  - rewrite (bind_Throw _ _ _ _ _ _ Hms) in Hv. discriminate.
  - rewrite (bind_Diverge _ _ _ _ _ Hms) in Hv. discriminate.
Qed.

Lemma establishes_then {A B} q (m : M W A) (k : A -> M W B) :
  establishes q m -> (forall a, keeps q noAction (k a)) -> establishes q (bind m k).
Proof.
  intros Hm Hk s v Hv. specialize (Hm s).
  destruct (m s) as [[[a|e|] s1] t1] eqn:Hms.
  - rewrite (bind_Ret _ _ _ _ _ _ Hms) in Hv |- *.
    destruct (Hk a s1) as [Hq _]. destruct (k a s1) as [[o s2] t2].
    unfold sysOf, outcomeOf in *. cbn [fst snd] in *.
    rewrite Hq. exact (Hm a eq_refl).
  - rewrite (bind_Throw _ _ _ _ _ _ Hms) in Hv. discriminate.
  - rewrite (bind_Diverge _ _ _ _ _ Hms) in Hv. discriminate.
Qed.

Lemma establishes_throw {A} q e : establishes (W:=W) (A:=A) q (throw e).
Proof. intros s v Hv. discriminate. Qed.

Lemma establishes_modify q f :
  (forall st, q (f st) = true) -> establishes (W:=W) q (modify f).
Proof. intros H s v _. apply H. Qed.

End Establishes.

Section InitOnce.
Context {W : Type} (E : Env W).

Lemma besidesWallet_isInitalized a b :
  besidesWallet a = besidesWallet b -> h_isInitalized a = h_isInitalized b.
Proof. intros H. apply (f_equal h_isInitalized) in H. exact H. Qed.

Lemma init1_initializes fuel d a c auto :
  establishes h_isInitalized (V1.init E fuel d a c auto).
Proof.
  unfold V1.init. cbv zeta.
  repeat first
    [ apply establishes_throw
    | apply establishes_then;
      [ apply establishes_modify; reflexivity | intros ?; solve [keeps_tac] ]
    | apply establishes_bind; intros ?
    | match goal with
      | |- establishes _ (if ?b then _ else _) => destruct b
      end ].
Qed.

Lemma init2_initializes fuel auto :
  establishes h_isInitalized (V2.init E fuel auto).
Proof.
  pose proof (fun f =>
                keeps_weaken besidesWallet h_isInitalized noAction noAction _
                             besidesWallet_isInitalized (fun _ H => H)
                             (connectWallet2_keeps E fuel f)) as Hc.
  unfold V2.init. cbv zeta.
  repeat first
    [ apply establishes_throw
    | apply establishes_then;
      [ apply establishes_modify; reflexivity | intros ?; solve [keeps_tac] ]
    | apply establishes_bind; intros ?
    | match goal with
      | |- establishes _ (if ?b then _ else _) => destruct b
      end ].
Qed.

Lemma init1_guard fuel d a c auto (s : Sys W) :
  h_isInitalized (conn s) = true ->
  V1.init E fuel d a c auto s
  = (Throw (errorOf "EthersWalletConnector is already initialized."), s, []).
Proof. intros H. unfold V1.init. mgo. reflexivity. Qed.

Lemma init2_guard fuel auto (s : Sys W) :
  h_isSetup (conn s) = true ->
  h_isInitalized (conn s) = true ->
  V2.init E fuel auto s
  = (Throw (errorOf "EthersWalletConnector is already initialized."), s, []).
Proof. intros H1 H2. unfold V2.init. mgo. reflexivity. Qed.

Lemma init2_needs_setup fuel auto (s : Sys W) :
  h_isSetup (conn s) = false ->
  V2.init E fuel auto s
  = (Throw (errorOf "You should setup EthersWalletConnector first."), s, []).
Proof. intros H. unfold V2.init. mgo. reflexivity. Qed.

Lemma besidesWallet_isSetup a b :
  besidesWallet a = besidesWallet b -> h_isSetup a = h_isSetup b.
Proof. intros H. apply (f_equal h_isSetup) in H. exact H. Qed.

Lemma init2_keeps_setup fuel auto : keeps h_isSetup noAction (V2.init E fuel auto).
Proof.
  pose proof (fun f =>
                keeps_weaken besidesWallet h_isSetup noAction noAction _
                             besidesWallet_isSetup (fun _ H => H)
                             (connectWallet2_keeps E fuel f)) as Hc.
  pose proof (fun b =>
                keeps_weaken besidesWallet h_isSetup noAction noAction _
                             besidesWallet_isSetup (fun _ H => H)
                             (detectNetwork2_any E b)) as Hd.
  unfold V2.init, V2.checkShouldNetworkDataIsCorrect. cbv zeta. keeps_tac.
Qed.

Lemma init2_was_setup fuel auto (s : Sys W) v :
  outcomeOf (V2.init E fuel auto s) = Ret v -> h_isSetup (conn s) = true.
Proof.
  intros Hv. destruct (h_isSetup (conn s)) eqn:Hs; [reflexivity|].
  rewrite (init2_needs_setup fuel auto s Hs) in Hv. discriminate.
Qed.

(** Only [init], [destroy] and [setup] write the two marks; an [init] on an
    initialised connector throws before it writes anything. *)
Lemma besidesWallet_marks a b : besidesWallet a = besidesWallet b -> marks a = marks b.
Proof. intros H. apply (f_equal marks) in H. exact H. Qed.

Lemma wallet_to_marks {A} (m : M W A) :
  keeps besidesWallet noAction m -> keeps marks noAction m.
Proof. apply keeps_weaken; [apply besidesWallet_marks | auto]. Qed.

Lemma contract1_keeps_marks fuel addr ABI isSigner :
  keeps marks noAction (V1.contract E fuel addr ABI isSigner).
Proof.
  pose proof (fun f => wallet_to_marks _ (connectWallet1_keeps E fuel f)).
  unfold V1.contract, signerContractFor, providerContractFor. cbv zeta. keeps_tac.
Qed.

Lemma contract2_keeps_marks fuel addr ABI :
  keeps marks noAction (V2.contract E fuel addr ABI).
Proof.
  pose proof (fun f => wallet_to_marks _ (connectWallet2_keeps E fuel f)).
  unfold V2.contract, V2.checkIfAllowed, signerContractFor, providerContractFor.
  cbv zeta. keeps_tac.
Qed.

Lemma init2_refused fuel auto (s : Sys W) :
  h_isInitalized (conn s) = true ->
  sysOf (V2.init E fuel auto s) = s.
Proof.
  intros Hi. destruct (h_isSetup (conn s)) eqn:Hs.
  - rewrite (init2_guard fuel auto s Hs Hi). reflexivity.
  - rewrite (init2_needs_setup fuel auto s Hs). reflexivity.
Qed.

Lemma sysOf_void {A} (m : M W A) (s : Sys W) : sysOf (void m s) = sysOf (m s).
Proof.
  unfold void, bind, ret, sysOf. destruct (m s) as [[[a|e|] s1] t1]; reflexivity.
Qed.

Lemma exec1_keeps_marks fuel op (s : Sys W) :
  resets1 op = false ->
  h_isInitalized (conn s) = true ->
  marks (conn (sysOf (exec1 E fuel op s))) = marks (conn s).
Proof.
  destruct op; cbn [resets1 exec1]; intros Hr Hi; try discriminate.
  - rewrite sysOf_void, (init1_guard fuel _ _ _ _ s Hi). reflexivity.
  - apply (keeps_void marks noAction), wallet_to_marks, connectWallet1_keeps.
  - apply (keeps_void marks noAction), wallet_to_marks, disconnectWallet1_keeps.
  - apply (keeps_void marks noAction), contract1_keeps_marks.
  - apply (keeps_void marks noAction). unfold V1.call_. keeps_tac.
  - apply (keeps_void marks noAction). unfold V1.send. keeps_tac.
  - apply wallet_to_marks, chainChanged1_keeps.
Qed.

Lemma exec2_keeps_marks fuel op (s : Sys W) :
  resets2 op = false ->
  h_isInitalized (conn s) = true ->
  marks (conn (sysOf (exec2 E fuel op s))) = marks (conn s).
Proof.
  destruct op; cbn [resets2 exec2]; intros Hr Hi; try discriminate.
  - rewrite sysOf_void, (init2_refused fuel _ s Hi). reflexivity.
  - apply (keeps_void marks noAction), wallet_to_marks, connectWallet2_keeps.
  - apply (keeps_void marks noAction), wallet_to_marks, disconnectWallet2_keeps.
  - apply (keeps_void marks noAction), contract2_keeps_marks.
  - apply (keeps_void marks noAction). unfold V2.call_. keeps_tac.
  - apply (keeps_void marks noAction). unfold V2.signedCall. keeps_tac.
  - apply (keeps_void marks noAction). unfold V2.send. keeps_tac.
  - apply wallet_to_marks, chainChanged2_keeps.
  - apply wallet_to_marks, fireTimer_keeps.
  - apply wallet_to_marks, resumeDisconnectWallet_keeps.
Qed.

(** No sequence of operations without [destroy] (and [setup]) changes the
    marks of an initialised connector. *)
Lemma runAll_keeps_marks {Op} (exec : Op -> M W unit) (resets : Op -> bool) ops :
  (forall op s, resets op = false -> h_isInitalized (conn s) = true ->
                marks (conn (sysOf (exec op s))) = marks (conn s)) ->
  Forall (fun op => resets op = false) ops ->
  forall s, h_isInitalized (conn s) = true ->
            marks (conn (runAll exec ops s)) = marks (conn s).
Proof.
  intros Hex Hall. induction Hall as [|op ops Hop _ IH]; intros s Hi; cbn [runAll].
  - reflexivity.
  - pose proof (Hex op s Hop Hi) as Hm. rewrite IH.
    + exact Hm.
    + apply (f_equal snd) in Hm. cbn [marks snd] in Hm. rewrite Hm. exact Hi.
Qed.

Lemma stays_initialized1 fuel ops (s : Sys W) :
  Forall (fun op => resets1 op = false) ops ->
  h_isInitalized (conn s) = true ->
  h_isInitalized (conn (runAll (exec1 E fuel) ops s)) = true.
Proof.
  intros Hops Hi.
  pose proof (runAll_keeps_marks (exec1 E fuel) resets1 ops
                (fun op s => exec1_keeps_marks fuel op s) Hops s Hi) as Hm.
  apply (f_equal snd) in Hm. cbn [marks snd] in Hm. rewrite Hm. exact Hi.
Qed.

Lemma stays_initialized2 fuel ops (s : Sys W) :
  Forall (fun op => resets2 op = false) ops ->
  h_isSetup (conn s) = true ->
  h_isInitalized (conn s) = true ->
  h_isSetup (conn (runAll (exec2 E fuel) ops s)) = true
  /\ h_isInitalized (conn (runAll (exec2 E fuel) ops s)) = true.
Proof.
  intros Hops Hs Hi.
  pose proof (runAll_keeps_marks (exec2 E fuel) resets2 ops
                (fun op s => exec2_keeps_marks fuel op s) Hops s Hi) as Hm.
  unfold marks in Hm. inversion Hm as [[H1 H2]]. rewrite H1, H2. auto.
Qed.

End InitOnce.

(** X1.  [init] succeeds at most once between two calls of [destroy].
    When a call of [init] has returned, then after any further calls and
    events, as long as [destroy] (and in version 2 [setup], which calls
    it) is not among them, every call of [init], whatever its arguments,
    throws the "already initialized" error, changes nothing and performs no
    action. *)
Theorem init_succeeds_once :
  forall (W : Type) (E : Env W) (fuel fuel' : nat),
    (forall d a c auto d' a' c' auto' (ops : list Op1) (s : Sys W) v,
        outcomeOf (V1.init E fuel d a c auto s) = Ret v ->
        Forall (fun op => resets1 op = false) ops ->
        V1.init E fuel' d' a' c' auto'
                (runAll (exec1 E fuel) ops (sysOf (V1.init E fuel d a c auto s)))
        = (Throw (errorOf "EthersWalletConnector is already initialized."),
           runAll (exec1 E fuel) ops (sysOf (V1.init E fuel d a c auto s)), []))
    /\ (forall auto auto' (ops : list Op2) (s : Sys W) v,
           outcomeOf (V2.init E fuel auto s) = Ret v ->
           Forall (fun op => resets2 op = false) ops ->
           V2.init E fuel' auto'
                   (runAll (exec2 E fuel) ops (sysOf (V2.init E fuel auto s)))
           = (Throw (errorOf "EthersWalletConnector is already initialized."),
              runAll (exec2 E fuel) ops (sysOf (V2.init E fuel auto s)), [])).
Proof.
  intros W E fuel fuel'. split.
  - intros d a c auto d' a' c' auto' ops s v Hv Hops.
    apply init1_guard. apply stays_initialized1; [exact Hops|].
    exact (init1_initializes E fuel d a c auto s v Hv).
  - intros auto auto' ops s v Hv Hops.
    destruct (stays_initialized2 E fuel ops (sysOf (V2.init E fuel auto s)) Hops)
      as [Hs Hi].
    + destruct (init2_keeps_setup E fuel auto s) as [Hk _]. rewrite Hk.
      exact (init2_was_setup E fuel auto s v Hv).
    + exact (init2_initializes E fuel auto s v Hv).
    + apply init2_guard; assumption.
Qed.

Lemma init_succeeds_once_witness :
  outcomeOf (V1.init oneAccount 5 bscTestnet VNull VNull (VBool true) (freshSys tt))
  = Ret VUndefined
  /\ Forall (fun op => resets1 op = false)
            [DisconnectWallet1; ChainChanged1; ConnectWallet1 VUndefined]
  /\ V1.init oneAccount 5 bscTestnet VNull VNull (VBool false)
             (runAll (exec1 oneAccount 5)
                     [DisconnectWallet1; ChainChanged1; ConnectWallet1 VUndefined]
                     (sysOf (V1.init oneAccount 5 bscTestnet VNull VNull (VBool true)
                                     (freshSys tt))))
     = (Throw (errorOf "EthersWalletConnector is already initialized."),
        runAll (exec1 oneAccount 5)
               [DisconnectWallet1; ChainChanged1; ConnectWallet1 VUndefined]
               (sysOf (V1.init oneAccount 5 bscTestnet VNull VNull (VBool true)
                               (freshSys tt))), []).
Proof.
  assert (Hv : outcomeOf (V1.init oneAccount 5 bscTestnet VNull VNull (VBool true)
                                  (freshSys tt)) = Ret VUndefined)
    by (vm_compute; reflexivity).
  assert (Hops : Forall (fun op => resets1 op = false)
                        [DisconnectWallet1; ChainChanged1; ConnectWallet1 VUndefined])
    by (repeat constructor).
  split; [exact Hv|]. split; [exact Hops|].
  exact (proj1 (init_succeeds_once unit oneAccount 5 5)
               bscTestnet VNull VNull (VBool true) bscTestnet VNull VNull (VBool false)
               [DisconnectWallet1; ChainChanged1; ConnectWallet1 VUndefined]
               (freshSys tt) VUndefined Hv Hops).
Defined.

(** X2.  Version 2 refuses [init] on a connector that is not set up: it
    throws the "setup first" error, changes nothing and performs no action.
    [destroy] withdraws the setup, so [init] after [destroy] is refused in
    the same way from every state. *)
Theorem init_requires_setup :
  forall (W : Type) (E : Env W) (fuel : nat) (autoConnect : JsVal) (s : Sys W),
    (h_isSetup (conn s) = false ->
     V2.init E fuel autoConnect s
     = (Throw (errorOf "You should setup EthersWalletConnector first."), s, []))
    /\ V2.init E fuel autoConnect (sysOf (V2.destroy s))
       = (Throw (errorOf "You should setup EthersWalletConnector first."),
          sysOf (V2.destroy s), []).
Proof.
  intros W E fuel auto s. split.
  - apply init2_needs_setup.
  - apply init2_needs_setup. reflexivity.
Qed.

Lemma init_requires_setup_witness :
  h_isSetup (conn (freshSys tt)) = false
  /\ V2.init oneAccount 5 (VBool true) (freshSys tt)
     = (Throw (errorOf "You should setup EthersWalletConnector first."), freshSys tt, []).
Proof.
  split; [reflexivity|].
  exact (proj1 (init_requires_setup unit oneAccount 5 (VBool true) (freshSys tt)) eq_refl).
Defined.

Section ProviderNotFound.
Context {W : Type} (E : Env W).

Lemma init1_no_provider fuel d a c auto (s : Sys W) p w1 :
  h_isInitalized (conn s) = false ->
  isFunction (defaultTo auto (VBool true)) = false ->
  descriptorPresent d = true ->
  nullish (window_ethereum E (world s)) = true ->
  detectEthereumProvider E (world s) = (Resolve p, w1) ->
  truthy p = false ->
  outcomeOf (V1.init E fuel d a c auto s) = Throw (errorOf "You should install MetaMask.")
  /\ traceOf (V1.init E fuel d a c auto s) = [Emit "browserProviderNotFound" []]
  /\ h_isInitalized (conn (sysOf (V1.init E fuel d a c auto s))) = false
  /\ hooks (sysOf (V1.init E fuel d a c auto s)) = hooks s.
Proof.
  intros Hi Hf Hd Hw Hdet Hp. unfold V1.init. mgo.
  match goal with
  | |- context [V1.checkShouldNetworkDataIsCorrect ?s'] =>
      rewrite (check1_present s' Hd)
  end.
  mgo. unfold nullish in Hw. mgo.
  split; [reflexivity|]. split; [reflexivity|]. split; [exact Hi | reflexivity].
Qed.

Lemma init2_no_provider fuel auto (s : Sys W) p w1 :
  h_isSetup (conn s) = true ->
  h_isInitalized (conn s) = false ->
  isFunction (defaultTo auto (VBool true)) = false ->
  descriptorPresent (h_shouldNetworkData (conn s)) = true ->
  nullish (window_ethereum E (world s)) = true ->
  detectEthereumProvider E (world s) = (Resolve p, w1) ->
  truthy p = false ->
  outcomeOf (V2.init E fuel auto s) = Throw (errorOf "Wallet provider not found.")
  /\ traceOf (V2.init E fuel auto s) = [Emit "walletProviderNotFound" []]
  /\ h_isInitalized (conn (sysOf (V2.init E fuel auto s))) = false
  /\ hooks (sysOf (V2.init E fuel auto s)) = hooks s.
Proof.
  intros Hs Hi Hf Hd Hw Hdet Hp. unfold V2.init. mgo.
  rewrite check2_eq, (check1_present s Hd).
  mgo. unfold nullish in Hw. mgo.
  split; [reflexivity|]. split; [reflexivity|]. split; [exact Hi | reflexivity].
Qed.

Lemma checkIfAllowed_throws (s : Sys W) :
  truthy (h_browserProvider (conn s)) = false ->
  V2.checkIfAllowed s
  = (Throw (errorOf "Wallet provider not found."), s, [Emit "walletProviderNotFound" []]).
Proof. intros H. unfold V2.checkIfAllowed. mgo. reflexivity. Qed.

Lemma checkIfAllowed_passes (s : Sys W) :
  truthy (h_browserProvider (conn s)) = true ->
  V2.checkIfAllowed s = (Ret true, s, []).
Proof. intros H. unfold V2.checkIfAllowed. mgo. reflexivity. Qed.

Lemma guarded_operations fuel force addr ABI (s : Sys W) :
  truthy (h_browserProvider (conn s)) = false ->
  V2.connectWallet E fuel force s
  = (Throw (errorOf "Wallet provider not found."), s, [Emit "walletProviderNotFound" []])
  /\ V2.disconnectWallet E s
     = (Throw (errorOf "Wallet provider not found."), s, [Emit "walletProviderNotFound" []])
  /\ V2.contract E fuel addr ABI s
     = (Throw (errorOf "Wallet provider not found."), s, [Emit "walletProviderNotFound" []]).
Proof.
  intros H. pose proof (checkIfAllowed_throws s H) as Hc.
  unfold V2.connectWallet, V2.disconnectWallet, V2.contract. cbv zeta.
  rewrite !(bind_Throw _ _ _ _ _ _ Hc). auto.
Qed.

Lemma connectWallet1_without_provider fuel force (s : Sys W) :
  nullish (h_browserProvider (conn s)) = true ->
  V1.connectWallet E fuel force s = (Throw TypeError, s, []).
Proof.
  intros H. unfold nullish in H.
  unfold V1.connectWallet, V1.detectNetwork, V1.readChainId. mgo. reflexivity.
Qed.

End ProviderNotFound.

(** X3.  [init] without a wallet provider: when [window.ethereum] is
    [null] or [undefined] and provider detection comes back with a falsy
    value, [init] emits the not-found event of its version
    ([browserProviderNotFound] in version 1, [walletProviderNotFound] in
    version 2) and nothing else, throws the matching error, leaves the
    connector uninitialised, and registers neither a listener nor a timer. *)
Theorem init_without_provider :
  forall (W : Type) (E : Env W) (fuel : nat) (autoConnect : JsVal) (s : Sys W)
         (p : JsVal) (w1 : W),
    h_isInitalized (conn s) = false ->
    isFunction (defaultTo autoConnect (VBool true)) = false ->
    nullish (window_ethereum E (world s)) = true ->
    detectEthereumProvider E (world s) = (Resolve p, w1) ->
    truthy p = false ->
    (forall d a c,
        descriptorPresent d = true ->
        outcomeOf (V1.init E fuel d a c autoConnect s)
        = Throw (errorOf "You should install MetaMask.")
        /\ traceOf (V1.init E fuel d a c autoConnect s) = [Emit "browserProviderNotFound" []]
        /\ h_isInitalized (conn (sysOf (V1.init E fuel d a c autoConnect s))) = false
        /\ hooks (sysOf (V1.init E fuel d a c autoConnect s)) = hooks s)
    /\ (h_isSetup (conn s) = true ->
        descriptorPresent (h_shouldNetworkData (conn s)) = true ->
        outcomeOf (V2.init E fuel autoConnect s)
        = Throw (errorOf "Wallet provider not found.")
        /\ traceOf (V2.init E fuel autoConnect s) = [Emit "walletProviderNotFound" []]
        /\ h_isInitalized (conn (sysOf (V2.init E fuel autoConnect s))) = false
        /\ hooks (sysOf (V2.init E fuel autoConnect s)) = hooks s).
Proof.
  intros W E fuel auto s p w1 Hi Hf Hw Hdet Hp. split.
  - intros d a c Hd. exact (init1_no_provider E fuel d a c auto s p w1 Hi Hf Hd Hw Hdet Hp).
  - intros Hs Hd. exact (init2_no_provider E fuel auto s p w1 Hs Hi Hf Hd Hw Hdet Hp).
Qed.

Lemma init_without_provider_witness :
  h_isInitalized (conn (freshSys tt)) = false
  /\ isFunction (defaultTo VUndefined (VBool true)) = false
  /\ nullish (window_ethereum noWallet (world (freshSys tt))) = true
  /\ detectEthereumProvider noWallet (world (freshSys tt)) = (Resolve VNull, tt)
  /\ truthy VNull = false
  /\ descriptorPresent bscTestnet = true
  /\ outcomeOf (V1.init noWallet 5 bscTestnet VUndefined VUndefined VUndefined (freshSys tt))
     = Throw (errorOf "You should install MetaMask.")
  /\ traceOf (V1.init noWallet 5 bscTestnet VUndefined VUndefined VUndefined (freshSys tt))
     = [Emit "browserProviderNotFound" []].
Proof.
  split; [reflexivity|]. split; [reflexivity|]. split; [reflexivity|].
  split; [reflexivity|]. split; [reflexivity|]. split; [reflexivity|].
  destruct (proj1 (init_without_provider unit noWallet 5 VUndefined (freshSys tt) VNull tt
                     eq_refl eq_refl eq_refl eq_refl eq_refl)
                  bscTestnet VUndefined VUndefined eq_refl) as (H1 & H2 & _).
  split; [exact H1 | exact H2].
Defined.

(** X4.  Version 2 guards its public operations: without a provider
    (the stored provider is falsy), [connectWallet], [disconnectWallet] and
    [contract] each emit [walletProviderNotFound], throw the "not found"
    error and change nothing; none of them returns.  Version 1 has no such
    guard: its [connectWallet] throws a [TypeError] before any request or
    event when the stored provider is [null] or [undefined]. *)
Theorem operations_without_provider :
  forall (W : Type) (E : Env W) (fuel : nat) (forceNewConnect : JsVal)
         (contractAddress : string) (ABI : JsVal) (s : Sys W),
    (truthy (h_browserProvider (conn s)) = false ->
     V2.connectWallet E fuel forceNewConnect s
     = (Throw (errorOf "Wallet provider not found."), s, [Emit "walletProviderNotFound" []])
     /\ V2.disconnectWallet E s
        = (Throw (errorOf "Wallet provider not found."), s,
           [Emit "walletProviderNotFound" []])
     /\ V2.contract E fuel contractAddress ABI s
        = (Throw (errorOf "Wallet provider not found."), s,
           [Emit "walletProviderNotFound" []]))
    /\ (nullish (h_browserProvider (conn s)) = true ->
        V1.connectWallet E fuel forceNewConnect s = (Throw TypeError, s, [])).
Proof.
  intros W E fuel force addr ABI s. split.
  - intros H. exact (guarded_operations E fuel force addr ABI s H).
  - intros H. exact (connectWallet1_without_provider E fuel force s H).
Qed.

Lemma operations_without_provider_witness :
  truthy (h_browserProvider (conn (freshSys tt))) = false
  /\ V2.connectWallet oneAccount 5 VUndefined (freshSys tt)
     = (Throw (errorOf "Wallet provider not found."), freshSys tt,
        [Emit "walletProviderNotFound" []])
  /\ nullish (h_browserProvider (conn (freshSys tt))) = true
  /\ V1.connectWallet oneAccount 5 VUndefined (freshSys tt)
     = (Throw TypeError, freshSys tt, []).
Proof.
  split; [reflexivity|].
  split; [exact (proj1 (proj1 (operations_without_provider
                                 unit oneAccount 5 VUndefined "0x55" VNull (freshSys tt))
                              eq_refl))|].
  split; [reflexivity|].
  exact (proj2 (operations_without_provider
                  unit oneAccount 5 VUndefined "0x55" VNull (freshSys tt)) eq_refl).
Defined.

Section AfterDestroy.
Context {W : Type} (E : Env W).

Lemma runListeners_deaf n (h : M W unit) (s : Sys W) e :
  h s = (Throw e, s, []) -> runListeners n h s = (Ret tt, s, []).
Proof.
  intros Hh. induction n as [|n IH]; [reflexivity|].
  cbn [runListeners].
  assert (Hd : detached h s = (Ret tt, s, [])).
  { unfold detached, tryCatch. rewrite Hh. reflexivity. }
  rewrite (bind_pure _ _ _ _ Hd). exact IH.
Qed.

Lemma onChainChanged_without_provider (s : Sys W) :
  nullish (h_browserProvider (conn s)) = true ->
  V1.onChainChanged E s = (Throw TypeError, s, [])
  /\ V2.onChainChanged E s = (Throw TypeError, s, []).
Proof.
  intros H. unfold nullish in H.
  unfold V1.onChainChanged, V1.detectNetwork, V1.readChainId,
    V2.onChainChanged, V2.detectNetwork, V2.readChainId.
  split; mgo; reflexivity.
Qed.

Lemma chainChanged_without_provider (s : Sys W) :
  nullish (h_browserProvider (conn s)) = true ->
  V1.chainChanged E s = (Ret tt, s, []) /\ V2.chainChanged E s = (Ret tt, s, []).
Proof.
  intros H. destruct (onChainChanged_without_provider s H) as [H1 H2].
  unfold V1.chainChanged, V2.chainChanged.
  split; eapply runListeners_deaf; eassumption.
Qed.

Lemma fireTimer_without_provider (s : Sys W) rest :
  nullish (h_browserProvider (conn s)) = true ->
  timers s = RegisterChainChanged :: rest ->
  V2.fireTimer s
  = (Ret tt, mkSys (conn s) (world s) (chainListeners s) rest (suspended s), []).
Proof.
  intros H Ht. unfold nullish in H. unfold V2.fireTimer. rewrite Ht.
  unfold detached, tryCatch, addChainChangedListener, nullish. cbn [conn].
  rewrite H. reflexivity.
Qed.

End AfterDestroy.

(** X5.  [destroy] does not unregister anything: the [chainChanged]
    listeners and the pending timers are as before.  But the connector no
    longer answers: after [destroy], in either version, a [chainChanged]
    event leads to no request and no event and leaves the connector as it
    is (each handler fails on the missing provider, and nobody sees that),
    and in version 2 a pending timer that fires registers no listener. *)
Theorem destroy_silences_listeners :
  forall (W : Type) (E : Env W) (s : Sys W),
    (hooks (sysOf (V1.destroy s)) = hooks s
     /\ V1.chainChanged E (sysOf (V1.destroy s)) = (Ret tt, sysOf (V1.destroy s), []))
    /\ (hooks (sysOf (V2.destroy s)) = hooks s
        /\ V2.chainChanged E (sysOf (V2.destroy s)) = (Ret tt, sysOf (V2.destroy s), [])
        /\ (forall rest,
               timers s = RegisterChainChanged :: rest ->
               chainListeners (sysOf (V2.fireTimer (sysOf (V2.destroy s))))
               = chainListeners s
               /\ timers (sysOf (V2.fireTimer (sysOf (V2.destroy s)))) = rest
               /\ traceOf (V2.fireTimer (sysOf (V2.destroy s))) = [])).
Proof.
  intros W E s. split; [|split; [|split]].
  - split; [reflexivity|].
    exact (proj1 (chainChanged_without_provider E (sysOf (V1.destroy s)) eq_refl)).
  - reflexivity.
  - exact (proj2 (chainChanged_without_provider E (sysOf (V2.destroy s)) eq_refl)).
  - intros rest Ht.
    rewrite (fireTimer_without_provider (sysOf (V2.destroy s)) rest eq_refl Ht).
    split; [reflexivity|]. split; reflexivity.
Qed.

Lemma destroy_silences_listeners_witness :
  timers pendingSys = [RegisterChainChanged]
  /\ chainListeners (sysOf (V2.fireTimer (sysOf (V2.destroy pendingSys))))
     = chainListeners pendingSys
  /\ timers (sysOf (V2.fireTimer (sysOf (V2.destroy pendingSys)))) = []
  /\ traceOf (V2.fireTimer (sysOf (V2.destroy pendingSys))) = [].
Proof.
  split; [reflexivity|].
  exact (proj2 (proj2 (proj2 (destroy_silences_listeners unit oneAccount pendingSys)))
               [] eq_refl).
Defined.

Lemma emitted_app name t1 t2 : emitted name (t1 ++ t2) = emitted name t1 + emitted name t2.
Proof. unfold emitted. rewrite List.filter_app, length_app. reflexivity. Qed.

Section EveryListener.
Context {W : Type} (E : Env W).
Context (Hanswered : chainIdAnswered E).

Lemma onChainChanged1_once (s : Sys W) :
  truthy (h_browserProvider (conn s)) = true ->
  exists s1 t,
    V1.onChainChanged E s = (Ret tt, s1, t)
    /\ h_browserProvider (conn s1) = h_browserProvider (conn s)
    /\ emitted "networkSwitched" t = 1.
Proof.
  intros Hbp. pose proof (truthy_not_nullish _ Hbp) as Hnn.
  destruct (Hanswered (world s)) as (raw & w1 & n & Hraw & Hn).
  unfold V1.onChainChanged, V1.detectNetwork, V1.readChainId, V1.disconnectWallet.
  mgo.
  destruct (V1.isCorrectNetwork (set_currentChainId (VNum n) (conn s))) eqn:Hok; mgo.
  - eexists _, _. split; [reflexivity|]. split; reflexivity.
  - destruct (V1.isWalletConnected (set_currentChainId (VNum n) (conn s))) eqn:Hc; mgo;
      (eexists _, _; split; [reflexivity|]; split; reflexivity).
Qed.

Lemma onChainChanged2_once (s : Sys W) :
  truthy (h_browserProvider (conn s)) = true ->
  nullish (h_shouldNetworkData (conn s)) = false ->
  exists s1 t,
    V2.onChainChanged E s = (Ret tt, s1, t)
    /\ h_browserProvider (conn s1) = h_browserProvider (conn s)
    /\ h_shouldNetworkData (conn s1) = h_shouldNetworkData (conn s)
    /\ emitted "networkSwitched" t = 1.
Proof.
  intros Hbp Hd. pose proof (truthy_not_nullish _ Hbp) as Hnn. unfold nullish in Hd.
  destruct (Hanswered (world s)) as (raw & w1 & n & Hraw & Hn).
  unfold V2.onChainChanged, V2.detectNetwork, V2.readChainId, V2.startDisconnectWallet,
    V2.checkIfAllowed, V2.sendRevokeAndSuspend.
  mgo.
  destruct (V2.isCorrectNetwork (set_currentChainId (VNum n) (conn s))) eqn:Hok; mgo.
  - eexists _, _. split; [reflexivity|]. split; [reflexivity|]. split; reflexivity.
  - destruct (V2.isWalletConnected (set_currentChainId (VNum n) (conn s))) eqn:Hc;
      mgo; [destruct (wallet_revokePermissions E w1) as [r w]; mgo|];
      (eexists _, _; split; [reflexivity|]; split; [reflexivity|]; split; reflexivity).
Qed.

Lemma runListeners1_all n :
  forall s : Sys W,
    truthy (h_browserProvider (conn s)) = true ->
    exists s1 t,
      runListeners n (V1.onChainChanged E) s = (Ret tt, s1, t)
      /\ emitted "networkSwitched" t = n.
Proof.
  induction n as [|n IH]; intros s Hbp.
  - eexists _, _. split; reflexivity.
  - destruct (onChainChanged1_once s Hbp) as (s1 & t1 & H1 & Hb1 & Hc1).
    assert (Hd : detached (V1.onChainChanged E) s = (Ret tt, s1, t1)).
    { unfold detached, tryCatch. rewrite H1. reflexivity. }
    rewrite <- Hb1 in Hbp.
    destruct (IH s1 Hbp) as (s2 & t2 & H2 & Hc2).
    cbn [runListeners]. rewrite (bind_Ret _ _ _ _ _ _ Hd), H2.
    unfold outcomeOf, sysOf, traceOf. cbn [fst snd].
    eexists _, _. split; [reflexivity|].
    rewrite emitted_app, Hc1, Hc2. reflexivity.
Qed.

Lemma runListeners2_all n :
  forall s : Sys W,
    truthy (h_browserProvider (conn s)) = true ->
    nullish (h_shouldNetworkData (conn s)) = false ->
    exists s1 t,
      runListeners n (V2.onChainChanged E) s = (Ret tt, s1, t)
      /\ emitted "networkSwitched" t = n.
Proof.
  induction n as [|n IH]; intros s Hbp Hnd.
  - eexists _, _. split; reflexivity.
  - destruct (onChainChanged2_once s Hbp Hnd) as (s1 & t1 & H1 & Hb1 & Hd1 & Hc1).
    assert (Hd : detached (V2.onChainChanged E) s = (Ret tt, s1, t1)).
    { unfold detached, tryCatch. rewrite H1. reflexivity. }
    rewrite <- Hb1 in Hbp. rewrite <- Hd1 in Hnd.
    destruct (IH s1 Hbp Hnd) as (s2 & t2 & H2 & Hc2).
    cbn [runListeners]. rewrite (bind_Ret _ _ _ _ _ _ Hd), H2.
    unfold outcomeOf, sysOf, traceOf. cbn [fst snd].
    eexists _, _. split; [reflexivity|].
    rewrite emitted_app, Hc1, Hc2. reflexivity.
Qed.

End EveryListener.

(** X6.  Every registered listener answers every event.  With a provider
    that answers each chain-id request, a [chainChanged] event makes a
    connector that holds the provider emit [networkSwitched] once per
    registered listener and return (in version 2 the network descriptor
    must be present as well). *)
Theorem every_listener_answers :
  forall (W : Type) (E : Env W) (s : Sys W),
    chainIdAnswered E ->
    truthy (h_browserProvider (conn s)) = true ->
    (outcomeOf (V1.chainChanged E s) = Ret tt
     /\ emitted "networkSwitched" (traceOf (V1.chainChanged E s)) = chainListeners s)
    /\ (nullish (h_shouldNetworkData (conn s)) = false ->
        outcomeOf (V2.chainChanged E s) = Ret tt
        /\ emitted "networkSwitched" (traceOf (V2.chainChanged E s)) = chainListeners s).
Proof.
  intros W E s Ha Hbp. split.
  - destruct (runListeners1_all E Ha (chainListeners s) s Hbp) as (s1 & t & H & Hc).
    unfold V1.chainChanged. rewrite H. split; [reflexivity | exact Hc].
  - intros Hd.
    destruct (runListeners2_all E Ha (chainListeners s) s Hbp Hd) as (s1 & t & H & Hc).
    unfold V2.chainChanged. rewrite H. split; [reflexivity | exact Hc].
Qed.

Lemma every_listener_answers_witness :
  chainIdAnswered stubbornChain
  /\ truthy (h_browserProvider (conn twoListeners)) = true
  /\ outcomeOf (V1.chainChanged stubbornChain twoListeners) = Ret tt
  /\ emitted "networkSwitched" (traceOf (V1.chainChanged stubbornChain twoListeners)) = 2.
Proof.
  assert (Ha : chainIdAnswered stubbornChain).
  { intros w. exists (VNum 1%Z), w, 1%Z. split; reflexivity. }
  split; [exact Ha|]. split; [reflexivity|].
  exact (proj1 (every_listener_answers unit stubbornChain twoListeners Ha eq_refl)).
Defined.



Lemma indexOf_includes x us i : indexOf x us = Some i -> includes x us = true.
Proof.
  unfold includes. revert i. induction us as [|y us IH]; cbn [existsb indexOf];
    [discriminate|].
  intros i. destruct (String.eqb y x); [reflexivity|]. cbn [orb].
  destruct (indexOf x us) as [j|]; [|discriminate]. intros _. exact (IH j eq_refl).
Qed.

Section HappyPath.
Context {W : Type} (E : Env W).

Lemma connectWallet1_first_account fuel force (s : Sys W) raw w1 n a l w2 sg w3 :
  truthy (h_browserProvider (conn s)) = true ->
  nullish (h_provider (conn s)) = false ->
  h_shouldWalletAddress (conn s) = VNull ->
  isFunction (defaultTo force (VBool false)) = false ->
  truthy (defaultTo force (VBool false)) = false ->
  eth_chainId E (world s) = (Resolve raw, w1) ->
  toNumber E raw = Resolve n ->
  V1.isCorrectNetwork (set_currentChainId (VNum n) (conn s)) = true ->
  eth_accounts E w1 = (Resolve (AccArray (a :: l)), w2) ->
  getSigner E (VStr a) w2 = (Resolve sg, w3) ->
  V1.connectWallet E (S fuel) force s
  = (Ret (VStr a),
     mkSys (set_signer sg (set_account (VStr a) (set_currentChainId (VNum n) (conn s))))
           w3 (chainListeners s) (timers s) (suspended s),
     [Request "eth_chainId"; Request "eth_accounts"; Emit "walletConnected" [VStr a]]).
Proof.
  intros Hbp Hpr Hnull Hf Ht Hraw Hn Hok Hacc Hsg.
  pose proof (truthy_not_nullish _ Hbp) as Hnn. unfold nullish in Hpr.
  unfold V1.connectWallet, V1.detectNetwork, V1.readChainId, V1.getCurrentAccounts,
    V1.adoptAccount.
  cbn [V1.retryLoop]. unfold V1.noAccounts.
  mgo. rewrite !Hnull. cbn [isNull negb length Nat.leb]. mgo.
  cbn [nth_error]. mgo. reflexivity.
Qed.

Lemma connectWallet2_first_account fuel force (s : Sys W) raw w1 n a l w2 sg w3 :
  truthy (h_browserProvider (conn s)) = true ->
  nullish (h_provider (conn s)) = false ->
  h_shouldWalletAddress (conn s) = VNull ->
  isFunction (defaultTo force (VBool false)) = false ->
  truthy (defaultTo force (VBool false)) = false ->
  eth_chainId E (world s) = (Resolve raw, w1) ->
  toNumber E raw = Resolve n ->
  V2.isCorrectNetwork (set_currentChainId (VNum n) (conn s)) = true ->
  eth_accounts E w1 = (Resolve (AccArray (a :: l)), w2) ->
  getSigner E (VStr a) w2 = (Resolve sg, w3) ->
  V2.connectWallet E (S fuel) force s
  = (Ret (VStr a),
     mkSys (set_signer sg (set_account (VStr a) (set_currentChainId (VNum n) (conn s))))
           w3 (chainListeners s) (timers s) (suspended s),
     [Request "eth_chainId"; Request "eth_accounts"; Emit "walletConnected" [VStr a]]).
Proof.
  intros Hbp Hpr Hnull Hf Ht Hraw Hn Hok Hacc Hsg.
  pose proof (truthy_not_nullish _ Hbp) as Hnn. unfold nullish in Hpr.
  unfold V2.connectWallet, V2.checkIfAllowed, V2.detectNetwork, V2.readChainId,
    V2.getCurrentAccounts, V2.adoptAccount.
  cbn [V2.retryLoop]. unfold V2.noAccounts.
  mgo. rewrite !Hnull. cbn [isNull negb length Nat.leb]. mgo.
  cbn [nth_error]. mgo. reflexivity.
Qed.

Lemma connectWallet1_allowed_account fuel force (s : Sys W) raw w1 n x l i a w2 sg w3 :
  truthy (h_browserProvider (conn s)) = true ->
  nullish (h_provider (conn s)) = false ->
  h_shouldWalletAddress (conn s) = VStr x ->
  isFunction (defaultTo force (VBool false)) = false ->
  truthy (defaultTo force (VBool false)) = false ->
  eth_chainId E (world s) = (Resolve raw, w1) ->
  toNumber E raw = Resolve n ->
  V1.isCorrectNetwork (set_currentChainId (VNum n) (conn s)) = true ->
  eth_accounts E w1 = (Resolve (AccArray l), w2) ->
  indexOf (toUpperCase x) (map toUpperCase l) = Some i ->
  nth_error l i = Some a ->
  getSigner E (VStr a) w2 = (Resolve sg, w3) ->
  V1.connectWallet E (S fuel) force s
  = (Ret (VStr a),
     mkSys (set_signer sg (set_account (VStr a) (set_currentChainId (VNum n) (conn s))))
           w3 (chainListeners s) (timers s) (suspended s),
     [Request "eth_chainId"; Request "eth_accounts"; Emit "walletConnected" [VStr a]]).
Proof.
  intros Hbp Hpr Hx Hf Ht Hraw Hn Hok Hacc Hi Ha Hsg.
  pose proof (truthy_not_nullish _ Hbp) as Hnn. unfold nullish in Hpr.
  pose proof (indexOf_includes _ _ _ Hi) as Hinc.
  unfold V1.connectWallet, V1.detectNetwork, V1.readChainId,
    V1.getCurrentAccounts, V1.adoptAccount.
  cbn [V1.retryLoop]. unfold V1.allowedMissing.
  mgo. rewrite !Hx. cbn [isNull negb upperOf]. mgo. reflexivity.
Qed.

Lemma connectWallet2_allowed_account fuel force (s : Sys W) raw w1 n x l i a w2 sg w3 :
  truthy (h_browserProvider (conn s)) = true ->
  nullish (h_provider (conn s)) = false ->
  h_shouldWalletAddress (conn s) = VStr x ->
  isFunction (defaultTo force (VBool false)) = false ->
  truthy (defaultTo force (VBool false)) = false ->
  eth_chainId E (world s) = (Resolve raw, w1) ->
  toNumber E raw = Resolve n ->
  V2.isCorrectNetwork (set_currentChainId (VNum n) (conn s)) = true ->
  eth_accounts E w1 = (Resolve (AccArray l), w2) ->
  indexOf (toUpperCase x) (map toUpperCase l) = Some i ->
  nth_error l i = Some a ->
  getSigner E (VStr a) w2 = (Resolve sg, w3) ->
  V2.connectWallet E (S fuel) force s
  = (Ret (VStr a),
     mkSys (set_signer sg (set_account (VStr a) (set_currentChainId (VNum n) (conn s))))
           w3 (chainListeners s) (timers s) (suspended s),
     [Request "eth_chainId"; Request "eth_accounts"; Emit "walletConnected" [VStr a]]).
Proof.
  intros Hbp Hpr Hx Hf Ht Hraw Hn Hok Hacc Hi Ha Hsg.
  pose proof (truthy_not_nullish _ Hbp) as Hnn. unfold nullish in Hpr.
  pose proof (indexOf_includes _ _ _ Hi) as Hinc.
  unfold V2.connectWallet, V2.checkIfAllowed,V2.detectNetwork, V2.readChainId,
    V2.getCurrentAccounts, V2.adoptAccount.
  cbn [V2.retryLoop]. unfold V2.allowedMissing.
  mgo. rewrite !Hx. cbn [isNull negb upperOf]. mgo. reflexivity.
Qed.

End HappyPath.

(** X8.  Connecting without asking.  With no allowed address configured
    ([null]), a provider held, the wallet on the configured network and a
    falsy [forceNewConnect], [connectWallet] takes the first account the
    provider reports: it reads the chain id and the accounts, sends no
    permission request, stores that account and its signer, emits
    [walletConnected] with the account and returns it.  Both versions. *)
Theorem connects_to_first_account :
  forall (W : Type) (E : Env W) (fuel : nat) (forceNewConnect : JsVal) (s : Sys W)
         (raw : JsVal) (w1 : W) (n : Z) (a : string) (l : list string) (w2 : W)
         (sg : JsVal) (w3 : W),
    truthy (h_browserProvider (conn s)) = true ->
    nullish (h_provider (conn s)) = false ->
    h_shouldWalletAddress (conn s) = VNull ->
    isFunction (defaultTo forceNewConnect (VBool false)) = false ->
    truthy (defaultTo forceNewConnect (VBool false)) = false ->
    eth_chainId E (world s) = (Resolve raw, w1) ->
    toNumber E raw = Resolve n ->
    V1.isCorrectNetwork (set_currentChainId (VNum n) (conn s)) = true ->
    eth_accounts E w1 = (Resolve (AccArray (a :: l)), w2) ->
    getSigner E (VStr a) w2 = (Resolve sg, w3) ->
    V1.connectWallet E (S fuel) forceNewConnect s
    = (Ret (VStr a),
       mkSys (set_signer sg (set_account (VStr a) (set_currentChainId (VNum n) (conn s))))
             w3 (chainListeners s) (timers s) (suspended s),
       [Request "eth_chainId"; Request "eth_accounts"; Emit "walletConnected" [VStr a]])
    /\ V2.connectWallet E (S fuel) forceNewConnect s
       = (Ret (VStr a),
          mkSys (set_signer sg (set_account (VStr a) (set_currentChainId (VNum n) (conn s))))
                w3 (chainListeners s) (timers s) (suspended s),
          [Request "eth_chainId"; Request "eth_accounts"; Emit "walletConnected" [VStr a]]).
Proof.
  intros W E fuel force s raw w1 n a l w2 sg w3 Hbp Hpr Hnull Hf Ht Hraw Hn Hok Hacc Hsg.
  split.
  - exact (connectWallet1_first_account E fuel force s raw w1 n a l w2 sg w3
             Hbp Hpr Hnull Hf Ht Hraw Hn Hok Hacc Hsg).
  - exact (connectWallet2_first_account E fuel force s raw w1 n a l w2 sg w3
             Hbp Hpr Hnull Hf Ht Hraw Hn Hok Hacc Hsg).
Qed.

Lemma connects_to_first_account_witness :
  V1.connectWallet oneAccount 1 VUndefined (readySys VNull VNull)
  = (Ret (VStr "0xabc"),
     mkSys (set_signer (VObj [("address", VStr "0xabc")])
              (set_account (VStr "0xabc")
                 (set_currentChainId (VNum 97%Z) (conn (readySys VNull VNull)))))
           tt (chainListeners (readySys VNull VNull)) (timers (readySys VNull VNull))
           (suspended (readySys VNull VNull)),
     [Request "eth_chainId"; Request "eth_accounts";
      Emit "walletConnected" [VStr "0xabc"]]).
Proof.
  exact (proj1 (connects_to_first_account
                  unit oneAccount 0 VUndefined (readySys VNull VNull)
                  (VNum 97%Z) tt 97%Z "0xabc" [] tt (VObj [("address", VStr "0xabc")]) tt
                  eq_refl eq_refl eq_refl eq_refl eq_refl eq_refl eq_refl eq_refl
                  eq_refl eq_refl)).
Defined.

(** X9.  Connecting to the allowed address without asking.  With an allowed
    address configured and already among the accounts the provider reports,
    [connectWallet] (falsy [forceNewConnect], wallet on the configured
    network) sends no permission request and connects to the first reported
    account that equals the allowed address up to letter case, in the
    provider's spelling: that account is stored, emitted with
    [walletConnected] and returned.  Both versions. *)
Theorem connects_to_allowed_account :
  forall (W : Type) (E : Env W) (fuel : nat) (forceNewConnect : JsVal) (s : Sys W)
         (raw : JsVal) (w1 : W) (n : Z) (x : string) (l : list string) (i : nat)
         (a : string) (w2 : W) (sg : JsVal) (w3 : W),
    truthy (h_browserProvider (conn s)) = true ->
    nullish (h_provider (conn s)) = false ->
    h_shouldWalletAddress (conn s) = VStr x ->
    isFunction (defaultTo forceNewConnect (VBool false)) = false ->
    truthy (defaultTo forceNewConnect (VBool false)) = false ->
    eth_chainId E (world s) = (Resolve raw, w1) ->
    toNumber E raw = Resolve n ->
    V1.isCorrectNetwork (set_currentChainId (VNum n) (conn s)) = true ->
    eth_accounts E w1 = (Resolve (AccArray l), w2) ->
    indexOf (toUpperCase x) (map toUpperCase l) = Some i ->
    nth_error l i = Some a ->
    getSigner E (VStr a) w2 = (Resolve sg, w3) ->
    V1.connectWallet E (S fuel) forceNewConnect s
    = (Ret (VStr a),
       mkSys (set_signer sg (set_account (VStr a) (set_currentChainId (VNum n) (conn s))))
             w3 (chainListeners s) (timers s) (suspended s),
       [Request "eth_chainId"; Request "eth_accounts"; Emit "walletConnected" [VStr a]])
    /\ V2.connectWallet E (S fuel) forceNewConnect s
       = (Ret (VStr a),
          mkSys (set_signer sg (set_account (VStr a) (set_currentChainId (VNum n) (conn s))))
                w3 (chainListeners s) (timers s) (suspended s),
          [Request "eth_chainId"; Request "eth_accounts"; Emit "walletConnected" [VStr a]]).
Proof.
  intros W E fuel force s raw w1 n x l i a w2 sg w3
         Hbp Hpr Hx Hf Ht Hraw Hn Hok Hacc Hi Ha Hsg.
  split.
  - exact (connectWallet1_allowed_account E fuel force s raw w1 n x l i a w2 sg w3
             Hbp Hpr Hx Hf Ht Hraw Hn Hok Hacc Hi Ha Hsg).
  - exact (connectWallet2_allowed_account E fuel force s raw w1 n x l i a w2 sg w3
             Hbp Hpr Hx Hf Ht Hraw Hn Hok Hacc Hi Ha Hsg).
Qed.

Lemma connects_to_allowed_account_witness :
  V2.connectWallet matchingWallet 1 VUndefined (readySys (VStr "0xabc") VNull)
  = (Ret (VStr "0xABC"),
     mkSys (set_signer (VObj [("address", VStr "0xABC")])
              (set_account (VStr "0xABC")
                 (set_currentChainId (VNum 97%Z) (conn (readySys (VStr "0xabc") VNull)))))
           tt (chainListeners (readySys (VStr "0xabc") VNull))
           (timers (readySys (VStr "0xabc") VNull))
           (suspended (readySys (VStr "0xabc") VNull)),
     [Request "eth_chainId"; Request "eth_accounts";
      Emit "walletConnected" [VStr "0xABC"]]).
Proof.
  exact (proj2 (connects_to_allowed_account
                  unit matchingWallet 0 VUndefined (readySys (VStr "0xabc") VNull)
                  (VNum 97%Z) tt 97%Z "0xabc" ["0xdef"; "0xABC"] 1 "0xABC" tt
                  (VObj [("address", VStr "0xABC")]) tt
                  eq_refl eq_refl eq_refl eq_refl eq_refl eq_refl eq_refl eq_refl
                  eq_refl eq_refl eq_refl eq_refl)).
Defined.

Section Announces.
Context {W : Type} (E : Env W).

Lemma announces_bind {A} (m : M W A) (k : A -> M W JsVal) :
  keeps nothing (emits "walletConnected") m ->
  (forall a, announces (k a)) -> announces (bind m k).
Proof.
  intros Hm Hk s v args Hv Hin. destruct (Hm s) as [_ Hn].
  destruct (m s) as [[[a|e|] s1] t1] eqn:Hms.
  - rewrite (bind_Ret _ _ _ _ _ _ Hms) in Hv, Hin |- *.
    specialize (Hk a s1 v args). destruct (k a s1) as [[o s2] t2].
    unfold sysOf, outcomeOf, traceOf in *. cbn [fst snd] in *.
    apply in_app_or in Hin. destruct Hin as [Hin | Hin]; [|auto].
    exfalso. exact (never_In _ _ (Emit "walletConnected" args) Hn eq_refl Hin).
  - rewrite (bind_Throw _ _ _ _ _ _ Hms) in Hv. discriminate.
  - rewrite (bind_Diverge _ _ _ _ _ Hms) in Hv. discriminate.
Qed.

Lemma announces_quiet (m : M W JsVal) :
  keeps nothing (emits "walletConnected") m -> announces m.
Proof.
  intros Hm s v args _ Hin. destruct (Hm s) as [_ Hn].
  exfalso. exact (never_In _ _ (Emit "walletConnected" args) Hn eq_refl Hin).
Qed.

Lemma announces_finish a :
  announces (finish1 E a) /\ announces (finish2 E a).
Proof.
  unfold finish1, finish2, V1.adoptAccount, V2.adoptAccount.
  split; intros s v args; destruct a; mforward;
    unfold outcomeOf, traceOf, sysOf; cbn [fst snd In];
    intros Hv Hin; try discriminate;
    repeat match goal with
           | H : _ \/ _ |- _ => destruct H
           | H : False |- _ => contradiction
           | H : Emit _ _ = Emit _ _ |- _ => inversion H; subst; clear H
           | H : Ret _ = Ret _ |- _ => inversion H; subst; clear H
           end;
    split; reflexivity.
Qed.

Let quietly {A X} (p : State -> X) (m : M W A) :
  keeps p (emits "walletConnected") m -> keeps nothing (emits "walletConnected") m.
Proof. apply keeps_weaken; [reflexivity | auto]. Qed.

Let HPwc : forall name args,
    String.eqb name "walletConnected" = false ->
    emits "walletConnected" (Emit name args) = false.
Proof. intros name args H. exact H. Qed.

Lemma connectWallet1_announces fuel force : announces (V1.connectWallet E fuel force).
Proof.
  assert (Hd : keeps nothing (emits "walletConnected") (V1.detectNetwork E true))
    by (apply (quietly besidesChain), detectNetwork1_keeps; auto).
  assert (Hr : keeps nothing (emits "walletConnected") (V1.requestConnect E))
    by (apply (quietly id), requestConnect_keeps; auto).
  assert (Hg : keeps nothing (emits "walletConnected") (V1.getCurrentAccounts E))
    by (apply (quietly id), getCurrentAccounts_keeps; auto).
  assert (HL : forall name cond loc,
             String.eqb name "walletConnected" = false ->
             (forall a, keeps id (emits "walletConnected") (cond a)) ->
             keeps nothing (emits "walletConnected") (V1.retryLoop E fuel cond name loc)).
  { intros. apply (quietly id), retryLoop1_keeps; auto. }
  pose proof (fun a => conds_keep (W:=W) (emits "walletConnected") a) as Hc.
  unfold V1.connectWallet. cbv zeta.
  apply announces_bind; [exact Hd | intros ok].
  destruct (negb ok); [apply announces_quiet; keeps_tac|].
  apply announces_bind; [keeps_tac | intros f].
  apply announces_bind; [keeps_tac | intros goOn].
  destruct (negb goOn); [apply announces_quiet; keeps_tac|].
  apply announces_bind; [exact Hg | intros accs].
  apply announces_bind; [keeps_tac | intros st].
  apply announces_bind;
    [keeps_tac; apply HL; first [reflexivity | intros ?; apply Hc] | intros loc].
  destruct (accounts loc) as [l| |].
  - exact (proj1 (announces_finish (AccArray l))).
  - apply announces_quiet. keeps_tac.
  - exact (proj1 (announces_finish AccUndefined)).
Qed.

Lemma connectWallet2_announces fuel force : announces (V2.connectWallet E fuel force).
Proof.
  assert (Hd : keeps nothing (emits "walletConnected") (V2.detectNetwork E true))
    by (apply (quietly besidesChain), detectNetwork2_keeps; auto).
  assert (Hr : keeps nothing (emits "walletConnected") (V2.requestConnect E))
    by (apply (quietly id), requestConnect_keeps; auto).
  assert (Hg : keeps nothing (emits "walletConnected") (V2.getCurrentAccounts E))
    by (apply (quietly id), getCurrentAccounts_keeps; auto).
  assert (HL : forall name cond args loc,
             String.eqb name "walletConnected" = false ->
             (forall a, keeps id (emits "walletConnected") (cond a)) ->
             keeps id (emits "walletConnected") args ->
             keeps nothing (emits "walletConnected")
                   (V2.retryLoop E fuel cond name args loc)).
  { intros. apply (quietly id), retryLoop2_keeps; auto. }
  pose proof (fun a => conds_keep (W:=W) (emits "walletConnected") a) as Hc.
  unfold V2.connectWallet, V2.checkIfAllowed. cbv zeta.
  apply announces_bind; [keeps_tac | intros allowed].
  destruct (negb allowed); [apply announces_quiet; keeps_tac|].
  apply announces_bind; [exact Hd | intros ok].
  destruct (negb ok); [apply announces_quiet; keeps_tac|].
  apply announces_bind; [keeps_tac | intros f].
  apply announces_bind; [keeps_tac | intros goOn].
  destruct (negb goOn); [apply announces_quiet; keeps_tac|].
  apply announces_bind; [exact Hg | intros accs].
  apply announces_bind; [keeps_tac | intros st].
  apply announces_bind;
    [keeps_tac; apply HL; first [reflexivity | intros ?; apply Hc | keeps_tac] | intros loc].
  destruct (accounts loc) as [l| |].
  - exact (proj2 (announces_finish (AccArray l))).
  - apply announces_quiet. keeps_tac.
  - exact (proj2 (announces_finish AccUndefined)).
Qed.

End Announces.

(** X10.  What [connectWallet] returns, what it announces and what it
    stores agree.  Whenever [connectWallet] returns, the value is
    [undefined] or the account stored at that moment; and if the run has
    emitted [walletConnected], the event carries exactly the returned
    value, which is the stored account.  Both versions, every provider. *)
Theorem connectWallet_result_is_consistent :
  forall (W : Type) (E : Env W) (fuel : nat) (forceNewConnect : JsVal) (s : Sys W)
         (v : JsVal),
    (outcomeOf (V1.connectWallet E fuel forceNewConnect s) = Ret v ->
     (v = VUndefined
      \/ v = h_account (conn (sysOf (V1.connectWallet E fuel forceNewConnect s))))
     /\ (forall args,
            In (Emit "walletConnected" args)
               (traceOf (V1.connectWallet E fuel forceNewConnect s)) ->
            args = [v]
            /\ v = h_account (conn (sysOf (V1.connectWallet E fuel forceNewConnect s)))))
    /\ (outcomeOf (V2.connectWallet E fuel forceNewConnect s) = Ret v ->
        (v = VUndefined
         \/ v = h_account (conn (sysOf (V2.connectWallet E fuel forceNewConnect s))))
        /\ (forall args,
               In (Emit "walletConnected" args)
                  (traceOf (V2.connectWallet E fuel forceNewConnect s)) ->
               args = [v]
               /\ v = h_account (conn (sysOf (V2.connectWallet E fuel forceNewConnect s))))).
Proof.
  intros W E fuel force s v. split; intros Hv; split.
  - exact (proj1 (connectWallet_returnsAccount E fuel force) s v Hv).
  - intros args Hin. exact (connectWallet1_announces E fuel force s v args Hv Hin).
  - exact (proj2 (connectWallet_returnsAccount E fuel force) s v Hv).
  - intros args Hin. exact (connectWallet2_announces E fuel force s v args Hv Hin).
Qed.

Lemma connectWallet_result_is_consistent_witness :
  outcomeOf (V1.connectWallet oneAccount 5 VUndefined (readySys VNull VNull))
  = Ret (VStr "0xabc")
  /\ In (Emit "walletConnected" [VStr "0xabc"])
        (traceOf (V1.connectWallet oneAccount 5 VUndefined (readySys VNull VNull)))
  /\ VStr "0xabc"
     = h_account (conn (sysOf (V1.connectWallet oneAccount 5 VUndefined
                                 (readySys VNull VNull)))).
Proof.
  assert (Hv : outcomeOf (V1.connectWallet oneAccount 5 VUndefined (readySys VNull VNull))
               = Ret (VStr "0xabc")) by (vm_compute; reflexivity).
  assert (Hin : In (Emit "walletConnected" [VStr "0xabc"])
                   (traceOf (V1.connectWallet oneAccount 5 VUndefined
                               (readySys VNull VNull))))
    by (vm_compute; auto).
  split; [exact Hv|]. split; [exact Hin|].
  exact (proj2 (proj2 (proj1 (connectWallet_result_is_consistent
                                unit oneAccount 5 VUndefined (readySys VNull VNull)
                                (VStr "0xabc")) Hv)
                      [VStr "0xabc"] Hin)).
Defined.

Section Forced.
Context {W : Type} (E : Env W).

Lemma forced_connect_rejected fuel force (s : Sys W) raw w1 n e w2 :
  truthy (h_browserProvider (conn s)) = true ->
  isFunction (defaultTo force (VBool false)) = false ->
  truthy (defaultTo force (VBool false)) = true ->
  eth_chainId E (world s) = (Resolve raw, w1) ->
  toNumber E raw = Resolve n ->
  V1.isCorrectNetwork (set_currentChainId (VNum n) (conn s)) = true ->
  wallet_requestPermissions E w1 = (Reject e, w2) ->
  V1.connectWallet E fuel force s
  = (Ret VUndefined,
     mkSys (set_currentChainId (VNum n) (conn s)) w2
           (chainListeners s) (timers s) (suspended s),
     [Request "eth_chainId"; Request "wallet_requestPermissions";
      Emit "failedToConnectWallet" []])
  /\ V2.connectWallet E fuel force s
     = (Ret VUndefined,
        mkSys (set_currentChainId (VNum n) (conn s)) w2
              (chainListeners s) (timers s) (suspended s),
        [Request "eth_chainId"; Request "wallet_requestPermissions";
         Emit "failedToConnectWallet" []]).
Proof.
  intros Hbp Hf Ht Hraw Hn Hok Hperm.
  assert (Hok2 : V2.isCorrectNetwork (set_currentChainId (VNum n) (conn s)) = true)
    by exact Hok.
  pose proof (truthy_not_nullish _ Hbp) as Hnn.
  unfold V1.connectWallet, V1.detectNetwork, V1.readChainId, V1.requestConnect,
    V2.connectWallet, V2.checkIfAllowed, V2.detectNetwork, V2.readChainId,
    V2.requestConnect.
  split; mgo; reflexivity.
Qed.

Lemma forced_by_function_rejected fuel f r (s : Sys W) raw w1 w1' n e w2 :
  truthy (h_browserProvider (conn s)) = true ->
  eth_chainId E (world s) = (Resolve raw, w1) ->
  toNumber E raw = Resolve n ->
  V1.isCorrectNetwork (set_currentChainId (VNum n) (conn s)) = true ->
  callFunction E f [] w1 = (Resolve r, w1') ->
  truthy r = true ->
  wallet_requestPermissions E w1' = (Reject e, w2) ->
  V1.connectWallet E fuel (VFun f) s
  = (Ret VUndefined,
     mkSys (set_currentChainId (VNum n) (conn s)) w2
           (chainListeners s) (timers s) (suspended s),
     [Request "eth_chainId"; Call f; Request "wallet_requestPermissions";
      Emit "failedToConnectWallet" []])
  /\ V2.connectWallet E fuel (VFun f) s
     = (Ret VUndefined,
        mkSys (set_currentChainId (VNum n) (conn s)) w2
              (chainListeners s) (timers s) (suspended s),
        [Request "eth_chainId"; Call f; Request "wallet_requestPermissions";
         Emit "failedToConnectWallet" []]).
Proof.
  intros Hbp Hraw Hn Hok Hcall Ht Hperm.
  assert (Hok2 : V2.isCorrectNetwork (set_currentChainId (VNum n) (conn s)) = true)
    by exact Hok.
  pose proof (truthy_not_nullish _ Hbp) as Hnn.
  unfold V1.connectWallet, V1.detectNetwork, V1.readChainId, V1.requestConnect,
    V2.connectWallet, V2.checkIfAllowed, V2.detectNetwork, V2.readChainId,
    V2.requestConnect.
  split; mgo; cbn [defaultTo isUndefined isFunction]; mgo; reflexivity.
Qed.

End Forced.

Section NetworkFlow.
Context {W : Type} (E : Env W).

Lemma addChainParams_spec (s : Sys W) hex :
  nullish (h_shouldNetworkData (conn s)) = false ->
  toBeHex E (propOf (h_shouldNetworkData (conn s)) "chain_id") = Resolve hex ->
  V1.addChainParams E s = (Ret (paramsOf hex (h_shouldNetworkData (conn s))), s, [])
  /\ V2.addChainParams E s = (Ret (paramsOf hex (h_shouldNetworkData (conn s))), s, []).
Proof.
  intros Hd Hhex. unfold nullish in Hd.
  unfold V1.addChainParams, V2.addChainParams, paramsOf.
  split; mgo; reflexivity.
Qed.

Lemma switch_accepted (s : Sys W) hex w1 raw w2 n :
  truthy (h_browserProvider (conn s)) = true ->
  nullish (h_shouldNetworkData (conn s)) = false ->
  toBeHex E (propOf (h_shouldNetworkData (conn s)) "chain_id") = Resolve hex ->
  wallet_switchEthereumChain E hex (world s) = (Resolve tt, w1) ->
  eth_chainId E w1 = (Resolve raw, w2) ->
  toNumber E raw = Resolve n ->
  V2.addOrSwitchNetwork E s
  = (Ret (V2.isCorrectNetwork (set_currentChainId (VNum n) (conn s))),
     mkSys (set_currentChainId (VNum n) (conn s)) w2
           (chainListeners s) (timers s) (suspended s),
     [Request "wallet_switchEthereumChain"; Request "eth_chainId"]
     ++ (if strictEq (h_currentChainId (conn s)) (VNum n) then []
         else [Emit "networkSwitched"
                    [VBool (V2.isCorrectNetwork (set_currentChainId (VNum n) (conn s)));
                     propOf (h_shouldNetworkData (conn s)) "chain_name"]])).
Proof.
  intros Hbp Hd Hhex Hsw Hraw Hn.
  pose proof (truthy_not_nullish _ Hbp) as Hnn.
  destruct (addChainParams_spec s hex Hd Hhex) as [_ Hp].
  unfold nullish in Hd.
  unfold V2.addOrSwitchNetwork. rewrite (bind_pure _ _ _ _ Hp).
  unfold V2.readChainId. mgo.
  destruct (strictEq (h_currentChainId (conn s)) (VNum n)); mgo; reflexivity.
Qed.

Lemma switch_refused (s : Sys W) hex e w1 :
  truthy (h_browserProvider (conn s)) = true ->
  nullish (h_shouldNetworkData (conn s)) = false ->
  toBeHex E (propOf (h_shouldNetworkData (conn s)) "chain_id") = Resolve hex ->
  wallet_switchEthereumChain E hex (world s) = (Reject e, w1) ->
  nullish e = false ->
  strictEq (propOf e "code") (VNum 4902%Z) = false ->
  V2.addOrSwitchNetwork E s
  = (Ret false, withWorld w1 s,
     [Request "wallet_switchEthereumChain"; Emit "failedToSwitchNetwork" []]).
Proof.
  intros Hbp Hd Hhex Hsw He Hcode.
  pose proof (truthy_not_nullish _ Hbp) as Hnn.
  destruct (addChainParams_spec s hex Hd Hhex) as [_ Hp].
  unfold nullish in Hd, He.
  unfold V2.addOrSwitchNetwork. rewrite (bind_pure _ _ _ _ Hp).
  mgo. reflexivity.
Qed.

Lemma unknown_chain_added (s : Sys W) hex e w1 r w2 raw w3 n :
  truthy (h_browserProvider (conn s)) = true ->
  nullish (h_shouldNetworkData (conn s)) = false ->
  toBeHex E (propOf (h_shouldNetworkData (conn s)) "chain_id") = Resolve hex ->
  wallet_switchEthereumChain E hex (world s) = (Reject e, w1) ->
  nullish e = false ->
  propOf e "code" = VNum 4902%Z ->
  wallet_addEthereumChain E (paramsOf hex (h_shouldNetworkData (conn s))) w1 = (r, w2) ->
  (r = Resolve tt
   \/ exists e2, r = Reject e2 /\ nullish e2 = false
                 /\ propOf e2 "code" = VNum (-32603)%Z) ->
  eth_chainId E w2 = (Resolve raw, w3) ->
  toNumber E raw = Resolve n ->
  V2.addOrSwitchNetwork E s
  = (Ret (V2.isCorrectNetwork (set_currentChainId (VNum n) (conn s))),
     mkSys (set_currentChainId (VNum n) (conn s)) w3
           (chainListeners s) (timers s) (suspended s),
     [Request "wallet_switchEthereumChain"; Request "wallet_addEthereumChain";
      Request "eth_chainId"]).
Proof.
  intros Hbp Hd Hhex Hsw He Hcode Hadd Hr Hraw Hn.
  pose proof (truthy_not_nullish _ Hbp) as Hnn.
  destruct (addChainParams_spec s hex Hd Hhex) as [_ Hp].
  unfold nullish in Hd, He.
  unfold V2.addOrSwitchNetwork. rewrite (bind_pure _ _ _ _ Hp).
  unfold V2.readChainId.
  destruct Hr as [-> | (e2 & -> & He2 & Hc2)]; [|unfold nullish in He2];
    repeat (progress (mgo; rewrite ?Hcode, ?Hc2; cbn [strictEq Z.eqb Pos.eqb negb]));
    reflexivity.
Qed.

Lemma unknown_chain_not_added (s : Sys W) hex e w1 e2 w2 :
  truthy (h_browserProvider (conn s)) = true ->
  nullish (h_shouldNetworkData (conn s)) = false ->
  toBeHex E (propOf (h_shouldNetworkData (conn s)) "chain_id") = Resolve hex ->
  wallet_switchEthereumChain E hex (world s) = (Reject e, w1) ->
  nullish e = false ->
  propOf e "code" = VNum 4902%Z ->
  wallet_addEthereumChain E (paramsOf hex (h_shouldNetworkData (conn s))) w1
  = (Reject e2, w2) ->
  nullish e2 = false ->
  strictEq (propOf e2 "code") (VNum (-32603)%Z) = false ->
  V2.addOrSwitchNetwork E s
  = (Ret false, withWorld w2 s,
     [Request "wallet_switchEthereumChain"; Request "wallet_addEthereumChain";
      Emit "failedToAddNetwork" []]).
Proof.
  intros Hbp Hd Hhex Hsw He Hcode Hadd He2 Hc2.
  pose proof (truthy_not_nullish _ Hbp) as Hnn.
  destruct (addChainParams_spec s hex Hd Hhex) as [_ Hp].
  unfold nullish in Hd, He, He2.
  unfold V2.addOrSwitchNetwork. rewrite (bind_pure _ _ _ _ Hp).
  repeat (progress (mgo; rewrite ?Hcode; cbn [strictEq Z.eqb Pos.eqb negb]));
  reflexivity.
Qed.

Lemma add_requested1 (s : Sys W) hex w1 raw w2 n :
  truthy (h_browserProvider (conn s)) = true ->
  nullish (h_shouldNetworkData (conn s)) = false ->
  toBeHex E (propOf (h_shouldNetworkData (conn s)) "chain_id") = Resolve hex ->
  wallet_addEthereumChain E (paramsOf hex (h_shouldNetworkData (conn s))) (world s)
  = (Resolve tt, w1) ->
  eth_chainId E w1 = (Resolve raw, w2) ->
  toNumber E raw = Resolve n ->
  V1.addOrSwitchNetwork E s
  = (Ret (V1.isCorrectNetwork (set_currentChainId (VNum n) (conn s))),
     mkSys (set_currentChainId (VNum n) (conn s)) w2
           (chainListeners s) (timers s) (suspended s),
     [Request "wallet_addEthereumChain"; Request "eth_chainId"]).
Proof.
  intros Hbp Hd Hhex Hadd Hraw Hn.
  pose proof (truthy_not_nullish _ Hbp) as Hnn.
  destruct (addChainParams_spec s hex Hd Hhex) as [Hp _].
  unfold V1.addOrSwitchNetwork. rewrite (bind_pure _ _ _ _ Hp).
  unfold V1.readChainId. mgo. reflexivity.
Qed.

Lemma add_refused1 (s : Sys W) hex e w1 :
  truthy (h_browserProvider (conn s)) = true ->
  nullish (h_shouldNetworkData (conn s)) = false ->
  toBeHex E (propOf (h_shouldNetworkData (conn s)) "chain_id") = Resolve hex ->
  wallet_addEthereumChain E (paramsOf hex (h_shouldNetworkData (conn s))) (world s)
  = (Reject e, w1) ->
  V1.addOrSwitchNetwork E s
  = (Ret false, withWorld w1 s,
     [Request "wallet_addEthereumChain"; Emit "failedToAddnetwork" []]).
Proof.
  intros Hbp Hd Hhex Hadd.
  pose proof (truthy_not_nullish _ Hbp) as Hnn.
  destruct (addChainParams_spec s hex Hd Hhex) as [Hp _].
  unfold V1.addOrSwitchNetwork. rewrite (bind_pure _ _ _ _ Hp).
  mgo. reflexivity.
Qed.

End NetworkFlow.

(** X11.  A forced connection that is turned down.  With a truthy
    [forceNewConnect] (given as a value, or as a function whose result is
    truthy) and the wallet on the configured network, [connectWallet] asks
    for permission before it reads any account; when the request is
    rejected it emits [failedToConnectWallet], returns [undefined] and
    leaves account and signer as they were.  Both versions. *)
Theorem forced_connection_refused :
  forall (W : Type) (E : Env W) (fuel : nat) (s : Sys W) (raw : JsVal) (w1 : W) (n : Z),
    truthy (h_browserProvider (conn s)) = true ->
    eth_chainId E (world s) = (Resolve raw, w1) ->
    toNumber E raw = Resolve n ->
    V1.isCorrectNetwork (set_currentChainId (VNum n) (conn s)) = true ->
    (forall forceNewConnect e w2,
        isFunction (defaultTo forceNewConnect (VBool false)) = false ->
        truthy (defaultTo forceNewConnect (VBool false)) = true ->
        wallet_requestPermissions E w1 = (Reject e, w2) ->
        V1.connectWallet E fuel forceNewConnect s
        = (Ret VUndefined,
           mkSys (set_currentChainId (VNum n) (conn s)) w2
                 (chainListeners s) (timers s) (suspended s),
           [Request "eth_chainId"; Request "wallet_requestPermissions";
            Emit "failedToConnectWallet" []])
        /\ V2.connectWallet E fuel forceNewConnect s
           = (Ret VUndefined,
              mkSys (set_currentChainId (VNum n) (conn s)) w2
                    (chainListeners s) (timers s) (suspended s),
              [Request "eth_chainId"; Request "wallet_requestPermissions";
               Emit "failedToConnectWallet" []]))
    /\ (forall f r w1' e w2,
           callFunction E f [] w1 = (Resolve r, w1') ->
           truthy r = true ->
           wallet_requestPermissions E w1' = (Reject e, w2) ->
           V1.connectWallet E fuel (VFun f) s
           = (Ret VUndefined,
              mkSys (set_currentChainId (VNum n) (conn s)) w2
                    (chainListeners s) (timers s) (suspended s),
              [Request "eth_chainId"; Call f; Request "wallet_requestPermissions";
               Emit "failedToConnectWallet" []])
           /\ V2.connectWallet E fuel (VFun f) s
              = (Ret VUndefined,
                 mkSys (set_currentChainId (VNum n) (conn s)) w2
                       (chainListeners s) (timers s) (suspended s),
                 [Request "eth_chainId"; Call f; Request "wallet_requestPermissions";
                  Emit "failedToConnectWallet" []])).
Proof.
  intros W E fuel s raw w1 n Hbp Hraw Hn Hok. split.
  - intros force e w2 Hf Ht Hperm.
    exact (forced_connect_rejected E fuel force s raw w1 n e w2 Hbp Hf Ht Hraw Hn Hok Hperm).
  - intros f r w1' e w2 Hcall Ht Hperm.
    exact (forced_by_function_rejected E fuel f r s raw w1 w1' n e w2
             Hbp Hraw Hn Hok Hcall Ht Hperm).
Qed.

Lemma forced_connection_refused_witness :
  V2.connectWallet refusingWallet 5 (VBool true) (readySys VNull VNull)
  = (Ret VUndefined,
     mkSys (set_currentChainId (VNum 97%Z) (conn (readySys VNull VNull))) tt
           (chainListeners (readySys VNull VNull)) (timers (readySys VNull VNull))
           (suspended (readySys VNull VNull)),
     [Request "eth_chainId"; Request "wallet_requestPermissions";
      Emit "failedToConnectWallet" []]).
Proof.
  exact (proj2 (proj1 (forced_connection_refused
                         unit refusingWallet 5 (readySys VNull VNull) (VNum 97%Z) tt 97%Z
                         eq_refl eq_refl eq_refl eq_refl)
                      (VBool true) (VObj [("code", VNum 4001%Z)]) tt
                      eq_refl eq_refl eq_refl)).
Defined.

(** X12.  Version 2 switches before it adds.  [#addOrSwitchNetwork] first
    asks the wallet to switch to the configured chain.  If the wallet
    accepts, no add request is sent: the chain id is read again, and
    [networkSwitched] is emitted (with the verdict and the chain name)
    exactly when the chain id read differs from the one stored before.  If
    the wallet rejects with a code other than 4902, the connector emits
    [failedToSwitchNetwork] and the answer is [false], with no add request
    and no new chain-id read. *)
Theorem switch_comes_first :
  forall (W : Type) (E : Env W) (s : Sys W) (hex : string),
    truthy (h_browserProvider (conn s)) = true ->
    nullish (h_shouldNetworkData (conn s)) = false ->
    toBeHex E (propOf (h_shouldNetworkData (conn s)) "chain_id") = Resolve hex ->
    (forall w1 raw w2 n,
        wallet_switchEthereumChain E hex (world s) = (Resolve tt, w1) ->
        eth_chainId E w1 = (Resolve raw, w2) ->
        toNumber E raw = Resolve n ->
        V2.addOrSwitchNetwork E s
        = (Ret (V2.isCorrectNetwork (set_currentChainId (VNum n) (conn s))),
           mkSys (set_currentChainId (VNum n) (conn s)) w2
                 (chainListeners s) (timers s) (suspended s),
           [Request "wallet_switchEthereumChain"; Request "eth_chainId"]
           ++ (if strictEq (h_currentChainId (conn s)) (VNum n) then []
               else [Emit "networkSwitched"
                          [VBool (V2.isCorrectNetwork
                                    (set_currentChainId (VNum n) (conn s)));
                           propOf (h_shouldNetworkData (conn s)) "chain_name"]])))
    /\ (forall e w1,
           wallet_switchEthereumChain E hex (world s) = (Reject e, w1) ->
           nullish e = false ->
           strictEq (propOf e "code") (VNum 4902%Z) = false ->
           V2.addOrSwitchNetwork E s
           = (Ret false, withWorld w1 s,
              [Request "wallet_switchEthereumChain"; Emit "failedToSwitchNetwork" []])).
Proof.
  intros W E s hex Hbp Hd Hhex. split.
  - intros w1 raw w2 n Hsw Hraw Hn.
    exact (switch_accepted E s hex w1 raw w2 n Hbp Hd Hhex Hsw Hraw Hn).
  - intros e w1 Hsw He Hcode.
    exact (switch_refused E s hex e w1 Hbp Hd Hhex Hsw He Hcode).
Qed.

Lemma switch_comes_first_witness :
  V2.addOrSwitchNetwork unwillingWallet (readySys VNull VNull)
  = (Ret false, withWorld tt (readySys VNull VNull),
     [Request "wallet_switchEthereumChain"; Emit "failedToSwitchNetwork" []]).
Proof.
  exact (proj2 (switch_comes_first unit unwillingWallet (readySys VNull VNull) "0x61"
                  eq_refl eq_refl eq_refl)
               (VObj [("code", VNum 4001%Z)]) tt eq_refl eq_refl eq_refl).
Defined.

(** X13.  Version 2 adds the chain only when the wallet does not know it.
    When the switch request is rejected with code 4902, the connector sends
    [wallet_addEthereumChain] with the parameters built from the
    descriptor.  If the wallet accepts, or rejects with code -32603 (which
    is ignored), the chain id is read again and its verdict returned,
    without any [networkSwitched] event.  If the wallet rejects with
    another code, the connector emits [failedToAddNetwork] and the answer
    is [false]. *)
Theorem add_follows_unknown_chain :
  forall (W : Type) (E : Env W) (s : Sys W) (hex : string) (e : JsVal) (w1 : W),
    truthy (h_browserProvider (conn s)) = true ->
    nullish (h_shouldNetworkData (conn s)) = false ->
    toBeHex E (propOf (h_shouldNetworkData (conn s)) "chain_id") = Resolve hex ->
    wallet_switchEthereumChain E hex (world s) = (Reject e, w1) ->
    nullish e = false ->
    propOf e "code" = VNum 4902%Z ->
    (forall r w2 raw w3 n,
        wallet_addEthereumChain E (paramsOf hex (h_shouldNetworkData (conn s))) w1
        = (r, w2) ->
        (r = Resolve tt
         \/ exists e2, r = Reject e2 /\ nullish e2 = false
                       /\ propOf e2 "code" = VNum (-32603)%Z) ->
        eth_chainId E w2 = (Resolve raw, w3) ->
        toNumber E raw = Resolve n ->
        V2.addOrSwitchNetwork E s
        = (Ret (V2.isCorrectNetwork (set_currentChainId (VNum n) (conn s))),
           mkSys (set_currentChainId (VNum n) (conn s)) w3
                 (chainListeners s) (timers s) (suspended s),
           [Request "wallet_switchEthereumChain"; Request "wallet_addEthereumChain";
            Request "eth_chainId"]))
    /\ (forall e2 w2,
           wallet_addEthereumChain E (paramsOf hex (h_shouldNetworkData (conn s))) w1
           = (Reject e2, w2) ->
           nullish e2 = false ->
           strictEq (propOf e2 "code") (VNum (-32603)%Z) = false ->
           V2.addOrSwitchNetwork E s
           = (Ret false, withWorld w2 s,
              [Request "wallet_switchEthereumChain"; Request "wallet_addEthereumChain";
               Emit "failedToAddNetwork" []])).
Proof.
  intros W E s hex e w1 Hbp Hd Hhex Hsw He Hcode. split.
  - intros r w2 raw w3 n Hadd Hr Hraw Hn.
    exact (unknown_chain_added E s hex e w1 r w2 raw w3 n
             Hbp Hd Hhex Hsw He Hcode Hadd Hr Hraw Hn).
  - intros e2 w2 Hadd He2 Hc2.
    exact (unknown_chain_not_added E s hex e w1 e2 w2
             Hbp Hd Hhex Hsw He Hcode Hadd He2 Hc2).
Qed.

Lemma add_follows_unknown_chain_witness :
  V2.addOrSwitchNetwork confusedWallet (readySys VNull VNull)
  = (Ret (V2.isCorrectNetwork (set_currentChainId (VNum 1%Z) (conn (readySys VNull VNull)))),
     mkSys (set_currentChainId (VNum 1%Z) (conn (readySys VNull VNull))) tt
           (chainListeners (readySys VNull VNull)) (timers (readySys VNull VNull))
           (suspended (readySys VNull VNull)),
     [Request "wallet_switchEthereumChain"; Request "wallet_addEthereumChain";
      Request "eth_chainId"]).
Proof.
  refine (proj1 (add_follows_unknown_chain
                   unit confusedWallet (readySys VNull VNull) "0x61"
                   (VObj [("code", VNum 4902%Z)]) tt
                   eq_refl eq_refl eq_refl eq_refl eq_refl eq_refl)
                (Reject (VObj [("code", VNum (-32603)%Z)])) tt (VNum 1%Z) tt 1%Z
                eq_refl _ eq_refl eq_refl).
  right. exists (VObj [("code", VNum (-32603)%Z)]).
  split; [reflexivity|]. split; reflexivity.
Defined.

(** X14.  Version 1 only ever adds.  [#addOrSwitchNetwork] of version 1
    sends [wallet_addEthereumChain] with the parameters built from the
    descriptor and never a switch request.  If the wallet accepts, the
    chain id is read again and its verdict returned; if it rejects,
    whatever the error, the connector emits [failedToAddnetwork] (spelled
    with a small n) and the answer is [false]. *)
Theorem version1_adds_the_chain :
  forall (W : Type) (E : Env W) (s : Sys W) (hex : string),
    truthy (h_browserProvider (conn s)) = true ->
    nullish (h_shouldNetworkData (conn s)) = false ->
    toBeHex E (propOf (h_shouldNetworkData (conn s)) "chain_id") = Resolve hex ->
    (forall w1 raw w2 n,
        wallet_addEthereumChain E (paramsOf hex (h_shouldNetworkData (conn s))) (world s)
        = (Resolve tt, w1) ->
        eth_chainId E w1 = (Resolve raw, w2) ->
        toNumber E raw = Resolve n ->
        V1.addOrSwitchNetwork E s
        = (Ret (V1.isCorrectNetwork (set_currentChainId (VNum n) (conn s))),
           mkSys (set_currentChainId (VNum n) (conn s)) w2
                 (chainListeners s) (timers s) (suspended s),
           [Request "wallet_addEthereumChain"; Request "eth_chainId"]))
    /\ (forall e w1,
           wallet_addEthereumChain E (paramsOf hex (h_shouldNetworkData (conn s))) (world s)
           = (Reject e, w1) ->
           V1.addOrSwitchNetwork E s
           = (Ret false, withWorld w1 s,
              [Request "wallet_addEthereumChain"; Emit "failedToAddnetwork" []])).
Proof.
  intros W E s hex Hbp Hd Hhex. split.
  - intros w1 raw w2 n Hadd Hraw Hn.
    exact (add_requested1 E s hex w1 raw w2 n Hbp Hd Hhex Hadd Hraw Hn).
  - intros e w1 Hadd. exact (add_refused1 E s hex e w1 Hbp Hd Hhex Hadd).
Qed.

Lemma version1_adds_the_chain_witness :
  V1.addOrSwitchNetwork addRefusingWallet (readySys VNull VNull)
  = (Ret false, withWorld tt (readySys VNull VNull),
     [Request "wallet_addEthereumChain"; Emit "failedToAddnetwork" []]).
Proof.
  exact (proj2 (version1_adds_the_chain unit addRefusingWallet (readySys VNull VNull) "0x61"
                  eq_refl eq_refl eq_refl)
               (VObj [("code", VNum 4001%Z)]) tt eq_refl).
Defined.

Lemma explorer_omitted hex d :
  blockExplorerUrls (paramsOf hex d) = None
  <-> (propOf d "block_explorer_url" = VUndefined
       \/ propOf d "block_explorer_url" = VNull
       \/ propOf d "block_explorer_url" = VStr "").
Proof.
  unfold paramsOf. cbn [blockExplorerUrls]. unfold coalesce, nullish.
  destruct (propOf d "block_explorer_url") as [| |b|z|u|f|ps] eqn:Hu;
    cbn [isUndefined isNull orb strictEq negb String.eqb]; try tauto;
    try (split; [discriminate | intros [H | [H | H]]; discriminate]).
  destruct (String.eqb u "") eqn:Hq; cbn [negb].
  - apply String.eqb_eq in Hq. subst. tauto.
  - apply String.eqb_neq in Hq.
    split; [discriminate | intros [H | [H | H]]; try discriminate].
    inversion H. contradiction.
Qed.

(** X15.  The add-chain request built from the descriptor.  With a
    descriptor that is present and a [chain_id] that [toBeHex] accepts,
    building the parameters performs no action and does not throw.  The
    chain id is the hexadecimal form; [decimals] is [currency_decimals]
    unless that is [null] or [undefined], in which case it is 18 (so 0 is
    kept); [blockExplorerUrls] is left out exactly when
    [block_explorer_url] is [undefined], [null] or the empty string, and
    holds that one URL otherwise.  Both versions. *)
Theorem add_chain_parameters :
  forall (W : Type) (E : Env W) (s : Sys W) (hex : string),
    nullish (h_shouldNetworkData (conn s)) = false ->
    toBeHex E (propOf (h_shouldNetworkData (conn s)) "chain_id") = Resolve hex ->
    exists p,
      V1.addChainParams E s = (Ret p, s, [])
      /\ V2.addChainParams E s = (Ret p, s, [])
      /\ chainId p = hex
      /\ chainName p = propOf (h_shouldNetworkData (conn s)) "chain_name"
      /\ rpcUrls p = [propOf (h_shouldNetworkData (conn s)) "rpc_url"]
      /\ nc_decimals (nativeCurrency p)
         = (if nullish (propOf (h_shouldNetworkData (conn s)) "currency_decimals")
            then VNum 18%Z
            else propOf (h_shouldNetworkData (conn s)) "currency_decimals")
      /\ (blockExplorerUrls p = None
          <-> (propOf (h_shouldNetworkData (conn s)) "block_explorer_url" = VUndefined
               \/ propOf (h_shouldNetworkData (conn s)) "block_explorer_url" = VNull
               \/ propOf (h_shouldNetworkData (conn s)) "block_explorer_url" = VStr ""))
      /\ (forall urls,
             blockExplorerUrls p = Some urls ->
             urls = [propOf (h_shouldNetworkData (conn s)) "block_explorer_url"]).
Proof.
  intros W E s hex Hd Hhex.
  destruct (addChainParams_spec E s hex Hd Hhex) as [H1 H2].
  exists (paramsOf hex (h_shouldNetworkData (conn s))).
  split; [exact H1|]. split; [exact H2|].
  split; [reflexivity|]. split; [reflexivity|]. split; [reflexivity|].
  split; [reflexivity|]. split; [apply explorer_omitted|].
  intros urls. unfold paramsOf. cbn [blockExplorerUrls].
  destruct (negb _); intros H; inversion H; reflexivity.
Qed.

Lemma add_chain_parameters_witness :
  exists p,
    V1.addChainParams oneAccount (readySys VNull VNull) = (Ret p, readySys VNull VNull, [])
    /\ chainId p = "0x61"
    /\ nc_decimals (nativeCurrency p) = VNum 18%Z
    /\ blockExplorerUrls p = Some [VStr "https://testnet.bscscan.com"].
Proof.
  destruct (add_chain_parameters unit oneAccount (readySys VNull VNull) "0x61"
              eq_refl eq_refl)
    as (p & H1 & _ & Hc & _ & _ & Hdec & _ & Hurl).
  exists p. split; [exact H1|]. split; [exact Hc|]. split; [exact Hdec|].
  destruct (blockExplorerUrls p) as [urls|] eqn:Hu.
  - rewrite (Hurl urls eq_refl). reflexivity.
  - exfalso. revert Hu. inversion H1. discriminate.
Defined.

Section WrongChainEvent.
Context {W : Type} (E : Env W).

Lemma wrong_chain_event1 (s : Sys W) raw w1 n :
  chainListeners s = 1 ->
  truthy (h_browserProvider (conn s)) = true ->
  V1.isWalletConnected (conn s) = true ->
  eth_chainId E (world s) = (Resolve raw, w1) ->
  toNumber E raw = Resolve n ->
  V1.isCorrectNetwork (set_currentChainId (VNum n) (conn s)) = false ->
  V1.chainChanged E s
  = (Ret tt,
     mkSys (set_account VUndefined (set_currentChainId (VNum n) (conn s))) w1
           (chainListeners s) (timers s) (suspended s),
     [Request "eth_chainId"; Emit "walletDisconnected" [];
      Emit "networkSwitched" [VBool false]]).
Proof.
  intros Hone Hbp Hc Hraw Hn Hok.
  pose proof (truthy_not_nullish _ Hbp) as Hnn.
  assert (Hc' : V1.isWalletConnected (set_currentChainId (VNum n) (conn s)) = true)
    by exact Hc.
  unfold V1.chainChanged. rewrite Hone. cbn [runListeners].
  unfold V1.onChainChanged, V1.detectNetwork, V1.readChainId, V1.disconnectWallet.
  mgo. rewrite ?Hone. reflexivity.
Qed.

Lemma wrong_chain_event2 (s : Sys W) raw w1 n r w2 :
  chainListeners s = 1 ->
  truthy (h_browserProvider (conn s)) = true ->
  nullish (h_shouldNetworkData (conn s)) = false ->
  V2.isWalletConnected (conn s) = true ->
  eth_chainId E (world s) = (Resolve raw, w1) ->
  toNumber E raw = Resolve n ->
  V2.isCorrectNetwork (set_currentChainId (VNum n) (conn s)) = false ->
  wallet_revokePermissions E w1 = (r, w2) ->
  V2.chainChanged E s
  = (Ret tt,
     mkSys (set_currentChainId (VNum n) (conn s)) w2
           (chainListeners s) (timers s) (suspended s ++ [r]),
     [Request "eth_chainId"; Request "wallet_revokePermissions";
      Emit "networkSwitched"
           [VBool false; propOf (h_shouldNetworkData (conn s)) "chain_name"]]).
Proof.
  intros Hone Hbp Hd Hc Hraw Hn Hok Hrev.
  pose proof (truthy_not_nullish _ Hbp) as Hnn. unfold nullish in Hd.
  assert (Hc' : V2.isWalletConnected (set_currentChainId (VNum n) (conn s)) = true)
    by exact Hc.
  unfold V2.chainChanged. rewrite Hone. cbn [runListeners].
  unfold V2.onChainChanged, V2.detectNetwork, V2.readChainId, V2.startDisconnectWallet,
    V2.checkIfAllowed, V2.sendRevokeAndSuspend.
  mgo. rewrite ?Hone. reflexivity.
Qed.

Lemma resume_settles (s : Sys W) r rest :
  suspended s = r :: rest ->
  V2.resumeDisconnectWallet s
  = match r with
    | Resolve _ =>
        (Ret tt,
         mkSys (set_account VUndefined (conn s)) (world s) (chainListeners s) (timers s) rest,
         [Emit "walletDisconnected" []])
    | Reject _ =>
        (Ret tt, mkSys (conn s) (world s) (chainListeners s) (timers s) rest, [])
    end.
Proof.
  intros Hs. unfold V2.resumeDisconnectWallet. rewrite Hs.
  destruct r; mgo; reflexivity.
Qed.

End WrongChainEvent.

(** X16.  A change to a wrong chain disconnects the wallet.  With one
    listener registered and a connected wallet, a [chainChanged] event on
    which the chain id read is not the configured one does this.  Version 1
    clears the account at once and emits [walletDisconnected] before
    [networkSwitched(false)].  Version 2 reads the chain id, sends one
    revoke request and emits [networkSwitched(false, chain_name)] once;
    the account is cleared and [walletDisconnected] emitted, once, when
    the wallet grants that request, and the wallet stays connected on the
    wrong chain, with no [walletDisconnected], when it refuses.  Nothing is
    said here about the order of [networkSwitched] and the wallet's answer:
    [disconnectWallet] is not awaited, so that order is the wallet's. *)
Theorem wrong_chain_disconnects :
  forall (W : Type) (E : Env W) (s : Sys W) (raw : JsVal) (w1 : W) (n : Z),
    chainListeners s = 1 ->
    truthy (h_browserProvider (conn s)) = true ->
    V1.isWalletConnected (conn s) = true ->
    eth_chainId E (world s) = (Resolve raw, w1) ->
    toNumber E raw = Resolve n ->
    V1.isCorrectNetwork (set_currentChainId (VNum n) (conn s)) = false ->
    V1.chainChanged E s
    = (Ret tt,
       mkSys (set_account VUndefined (set_currentChainId (VNum n) (conn s))) w1
             (chainListeners s) (timers s) (suspended s),
       [Request "eth_chainId"; Emit "walletDisconnected" [];
        Emit "networkSwitched" [VBool false]])
    /\ (forall r w2,
           nullish (h_shouldNetworkData (conn s)) = false ->
           suspended s = [] ->
           wallet_revokePermissions E w1 = (r, w2) ->
           let event := V2.chainChanged E s in
           let answer := V2.resumeDisconnectWallet (sysOf event) in
           let whole := traceOf event ++ traceOf answer in
           requests whole = ["eth_chainId"; "wallet_revokePermissions"]
           /\ List.filter (emits "networkSwitched") whole
              = [Emit "networkSwitched"
                      [VBool false; propOf (h_shouldNetworkData (conn s)) "chain_name"]]
           /\ h_currentChainId (conn (sysOf answer)) = VNum n
           /\ match r with
              | Resolve _ =>
                  h_account (conn (sysOf answer)) = VUndefined
                  /\ emitted "walletDisconnected" whole = 1
              | Reject _ =>
                  h_account (conn (sysOf answer)) = h_account (conn s)
                  /\ emitted "walletDisconnected" whole = 0
              end).
Proof.
  intros W E s raw w1 n Hone Hbp Hc Hraw Hn Hok. split.
  - exact (wrong_chain_event1 E s raw w1 n Hone Hbp Hc Hraw Hn Hok).
  - intros r w2 Hd Hs Hrev. cbv zeta.
    pose proof (wrong_chain_event2 E s raw w1 n r w2 Hone Hbp Hd Hc Hraw Hn Hok Hrev) as H.
    rewrite Hs in H. cbn [app] in H.
    rewrite H. unfold sysOf at 2 4 6 8. cbn [fst snd].
    match goal with
    | |- context [V2.resumeDisconnectWallet ?s1] =>
        rewrite (resume_settles s1 r [] eq_refl)
    end.
    destruct r; repeat split.
Qed.

Lemma wrong_chain_disconnects_witness :
  V1.chainChanged stubbornChain connectedSys
  = (Ret tt,
     mkSys (set_account VUndefined (set_currentChainId (VNum 1%Z) (conn connectedSys))) tt
           (chainListeners connectedSys) (timers connectedSys) (suspended connectedSys),
     [Request "eth_chainId"; Emit "walletDisconnected" [];
      Emit "networkSwitched" [VBool false]])
  /\ h_account
       (conn (sysOf (V2.resumeDisconnectWallet
                       (sysOf (V2.chainChanged stubbornChain connectedSys)))))
     = VUndefined
  /\ emitted "walletDisconnected"
             (traceOf (V2.chainChanged stubbornChain connectedSys)
              ++ traceOf (V2.resumeDisconnectWallet
                            (sysOf (V2.chainChanged stubbornChain connectedSys))))
     = 1.
Proof.
  destruct (wrong_chain_disconnects unit stubbornChain connectedSys (VNum 1%Z) tt 1%Z
              eq_refl eq_refl eq_refl eq_refl eq_refl eq_refl) as [H1 H2].
  split; [exact H1|].
  destruct (H2 (Resolve tt) tt eq_refl eq_refl eq_refl) as (_ & _ & _ & Ha & He).
  split; [exact Ha | exact He].
Defined.

Section Disconnect.
Context {W : Type} (E : Env W).

Lemma disconnectWallet1_spec (s : Sys W) :
  V1.disconnectWallet s
  = if V1.isWalletConnected (conn s)
    then (Ret VUndefined, withConn (set_account VUndefined (conn s)) s,
          [Emit "walletDisconnected" []])
    else (Ret VUndefined, s, []).
Proof.
  unfold V1.disconnectWallet. mgo.
  destruct (V1.isWalletConnected (conn s)); mgo; reflexivity.
Qed.

Lemma disconnectWallet2_idle (s : Sys W) :
  truthy (h_browserProvider (conn s)) = true ->
  V2.isWalletConnected (conn s) = false ->
  V2.disconnectWallet E s = (Ret VUndefined, s, []).
Proof.
  intros Hbp Hc. unfold V2.disconnectWallet, V2.checkIfAllowed. mgo. reflexivity.
Qed.

Lemma disconnectWallet2_revoked (s : Sys W) w1 :
  truthy (h_browserProvider (conn s)) = true ->
  V2.isWalletConnected (conn s) = true ->
  wallet_revokePermissions E (world s) = (Resolve tt, w1) ->
  V2.disconnectWallet E s
  = (Ret VUndefined,
     mkSys (set_account VUndefined (conn s)) w1 (chainListeners s) (timers s) (suspended s),
     [Request "wallet_revokePermissions"; Emit "walletDisconnected" []]).
Proof.
  intros Hbp Hc Hrev. pose proof (truthy_not_nullish _ Hbp) as Hnn.
  unfold V2.disconnectWallet, V2.checkIfAllowed. mgo. reflexivity.
Qed.

Lemma disconnectWallet2_kept (s : Sys W) e w1 :
  truthy (h_browserProvider (conn s)) = true ->
  V2.isWalletConnected (conn s) = true ->
  wallet_revokePermissions E (world s) = (Reject e, w1) ->
  V2.disconnectWallet E s
  = (Ret (VBool false), withWorld w1 s, [Request "wallet_revokePermissions"]).
Proof.
  intros Hbp Hc Hrev. pose proof (truthy_not_nullish _ Hbp) as Hnn.
  unfold V2.disconnectWallet, V2.checkIfAllowed. mgo. reflexivity.
Qed.

End Disconnect.

(** X17.  [disconnectWallet], case by case.  Version 1 asks nobody: a
    connected wallet loses its account and [walletDisconnected] is emitted;
    a second call does nothing.  Version 2, holding a provider: without an
    account it does nothing; with one it sends a revoke request, and clears
    the account and emits [walletDisconnected] if the wallet agrees, but
    returns [false] and stays connected if the wallet refuses.  In every
    case the stored signer is left in place. *)
Theorem disconnectWallet_cases :
  forall (W : Type) (E : Env W) (s : Sys W),
    (V1.disconnectWallet s
     = (if V1.isWalletConnected (conn s)
        then (Ret VUndefined, withConn (set_account VUndefined (conn s)) s,
              [Emit "walletDisconnected" []])
        else (Ret VUndefined, s, []))
     /\ V1.disconnectWallet (sysOf (V1.disconnectWallet s))
        = (Ret VUndefined, sysOf (V1.disconnectWallet s), [])
     /\ h_signer (conn (sysOf (V1.disconnectWallet s))) = h_signer (conn s))
    /\ (truthy (h_browserProvider (conn s)) = true ->
        (V2.isWalletConnected (conn s) = false ->
         V2.disconnectWallet E s = (Ret VUndefined, s, []))
        /\ (forall w1,
               V2.isWalletConnected (conn s) = true ->
               wallet_revokePermissions E (world s) = (Resolve tt, w1) ->
               V2.disconnectWallet E s
               = (Ret VUndefined,
                  mkSys (set_account VUndefined (conn s)) w1
                        (chainListeners s) (timers s) (suspended s),
                  [Request "wallet_revokePermissions"; Emit "walletDisconnected" []]))
        /\ (forall e w1,
               V2.isWalletConnected (conn s) = true ->
               wallet_revokePermissions E (world s) = (Reject e, w1) ->
               V2.disconnectWallet E s
               = (Ret (VBool false), withWorld w1 s, [Request "wallet_revokePermissions"]))
        /\ h_signer (conn (sysOf (V2.disconnectWallet E s))) = h_signer (conn s)).
Proof.
  intros W E s. split.
  - split; [apply disconnectWallet1_spec|]. split.
    + rewrite !disconnectWallet1_spec.
      destruct (V1.isWalletConnected (conn s)) eqn:Hc; unfold sysOf; cbn [fst snd].
      * unfold V1.isWalletConnected, withConn. cbn. reflexivity.
      * rewrite Hc. reflexivity.
    + rewrite disconnectWallet1_spec.
      destruct (V1.isWalletConnected (conn s)); reflexivity.
  - intros Hbp. split; [|split; [|split]].
    + intros Hc. exact (disconnectWallet2_idle E s Hbp Hc).
    + intros w1 Hc Hrev. exact (disconnectWallet2_revoked E s w1 Hbp Hc Hrev).
    + intros e w1 Hc Hrev. exact (disconnectWallet2_kept E s e w1 Hbp Hc Hrev).
    + destruct (V2.isWalletConnected (conn s)) eqn:Hc.
      * destruct (wallet_revokePermissions E (world s)) as [[[]|e] w1] eqn:Hrev.
        -- rewrite (disconnectWallet2_revoked E s w1 Hbp Hc Hrev). reflexivity.
        -- rewrite (disconnectWallet2_kept E s e w1 Hbp Hc Hrev). reflexivity.
      * rewrite (disconnectWallet2_idle E s Hbp Hc). reflexivity.
Qed.

Lemma disconnectWallet_cases_witness :
  V2.disconnectWallet oneAccount connectedSys
  = (Ret VUndefined,
     mkSys (set_account VUndefined (conn connectedSys)) tt
           (chainListeners connectedSys) (timers connectedSys) (suspended connectedSys),
     [Request "wallet_revokePermissions"; Emit "walletDisconnected" []]).
Proof.
  exact (proj1 (proj2 (proj2 (disconnectWallet_cases unit oneAccount connectedSys) eq_refl))
               tt eq_refl eq_refl).
Defined.

Section ContractCalls2.
Context {W : Type} (E : Env W).

(** The lookup, case by case: it hands back what the cache has; else it
    builds and stores an instance; else it throws what the constructor
    threw and stores nothing. *)
Lemma signerContractFor_miss addr ABI (s : Sys W) :
  cached (h_signerContract (conn s)) addr = None ->
  signerContractFor E addr ABI s
  = match newContractThrows E addr ABI (h_signer (conn s)) with
    | Some e => (Throw e, s, [])
    | None =>
        (Ret (Built (mkContract addr ABI (h_signer (conn s)))),
         withConn (set_signerContract
                     (<[addr := mkContract addr ABI (h_signer (conn s))]>
                        (h_signerContract (conn s))) (conn s)) s,
         [])
    end.
Proof.
  intros Hm. unfold signerContractFor, newContract. mgo.
  destruct (newContractThrows E addr ABI (h_signer (conn s))); mgo; reflexivity.
Qed.

Lemma providerContractFor_miss addr ABI (s : Sys W) :
  cached (h_providerContract (conn s)) addr = None ->
  providerContractFor E addr ABI s
  = match newContractThrows E addr ABI (h_provider (conn s)) with
    | Some e => (Throw e, s, [])
    | None =>
        (Ret (Built (mkContract addr ABI (h_provider (conn s)))),
         withConn (set_providerContract
                     (<[addr := mkContract addr ABI (h_provider (conn s))]>
                        (h_providerContract (conn s))) (conn s)) s,
         [])
    end.
Proof.
  intros Hm. unfold providerContractFor, newContract. mgo.
  destruct (newContractThrows E addr ABI (h_provider (conn s))); mgo; reflexivity.
Qed.

(** A lookup returns, or throws what the constructor threw. *)
Lemma signerContractFor_ends addr ABI (s : Sys W) :
  (exists c s', signerContractFor E addr ABI s = (Ret c, s', []))
  \/ (exists e, newContractThrows E addr ABI (h_signer (conn s)) = Some e
                /\ signerContractFor E addr ABI s = (Throw e, s, [])).
Proof.
  destruct (cached (h_signerContract (conn s)) addr) as [c|] eqn:Hl.
  - left. exists c, s. apply signerContractFor_hit, Hl.
  - rewrite (signerContractFor_miss addr ABI s Hl).
    destruct (newContractThrows E addr ABI (h_signer (conn s))) as [e|].
    + right. exists e. auto.
    + left. eexists _, _. reflexivity.
Qed.

Lemma providerContractFor_ends addr ABI (s : Sys W) :
  (exists c s', providerContractFor E addr ABI s = (Ret c, s', [])
                /\ h_signer (conn s') = h_signer (conn s))
  \/ (exists e, newContractThrows E addr ABI (h_provider (conn s)) = Some e
                /\ providerContractFor E addr ABI s = (Throw e, s, [])).
Proof.
  destruct (cached (h_providerContract (conn s)) addr) as [c|] eqn:Hl.
  - left. exists c, s. split; [apply providerContractFor_hit, Hl | reflexivity].
  - rewrite (providerContractFor_miss addr ABI s Hl).
    destruct (newContractThrows E addr ABI (h_provider (conn s))) as [e|].
    + right. exists e. auto.
    + left. eexists _, _. split; reflexivity.
Qed.

(** [contract] of version 1 on a connected connector is its lookup. *)
Lemma contract1_lookup fuel addr ABI isSigner (s : Sys W) :
  V1.isWalletConnected (conn s) = true ->
  V1.contract E fuel addr ABI isSigner s
  = (let* c := (if truthy (defaultTo isSigner (VBool false))
                then signerContractFor E addr ABI
                else providerContractFor E addr ABI) in
     ret (V1.mkWrapper c)) s.
Proof.
  intros Hc. unfold V1.contract. cbv zeta.
  assert (Hg : get s = (Ret (conn s), s, [])) by reflexivity.
  rewrite (bind_pure _ _ _ _ Hg), Hc. cbn [negb].
  assert (Hr : ret (W:=W) tt s = (Ret tt, s, [])) by reflexivity.
  rewrite (bind_pure _ _ _ _ Hr). reflexivity.
Qed.

Lemma contract1_connected fuel addr ABI isSigner (s : Sys W) :
  V1.isWalletConnected (conn s) = true ->
  traceOf (V1.contract E fuel addr ABI isSigner s) = []
  /\ (forall v,
         cached (cacheFor isSigner (conn s)) addr = Some v ->
         V1.contract E fuel addr ABI isSigner s = (Ret (V1.mkWrapper v), s, []))
  /\ (forall e,
         cached (cacheFor isSigner (conn s)) addr = None ->
         newContractThrows E addr ABI (runnerFor isSigner (conn s)) = Some e ->
         V1.contract E fuel addr ABI isSigner s = (Throw e, s, []))
  /\ (cached (cacheFor isSigner (conn s)) addr = None ->
      newContractThrows E addr ABI (runnerFor isSigner (conn s)) = None ->
      V1.contract E fuel addr ABI isSigner s
      = (Ret (V1.mkWrapper (mkContract addr ABI (runnerFor isSigner (conn s)))),
         withConn (storeFor isSigner addr
                            (mkContract addr ABI (runnerFor isSigner (conn s)))
                            (conn s)) s,
         [])).
Proof.
  intros Hc. rewrite (contract1_lookup fuel addr ABI isSigner s Hc).
  unfold cacheFor, runnerFor, storeFor.
  destruct (truthy (defaultTo isSigner (VBool false))).
  - split; [|split; [|split]].
    + destruct (signerContractFor_post E addr ABI s) as (o & s' & Hr & _).
      unfold bind. rewrite Hr. destruct o; reflexivity.
    + intros v Hv. rewrite (bind_pure _ _ _ _ (signerContractFor_hit E addr ABI v s Hv)).
      reflexivity.
    + intros e Hm He. unfold bind. rewrite (signerContractFor_miss addr ABI s Hm), He.
      reflexivity.
    + intros Hm He. unfold bind. rewrite (signerContractFor_miss addr ABI s Hm), He.
      reflexivity.
  - split; [|split; [|split]].
    + destruct (providerContractFor_post E addr ABI s) as (o & s' & Hr & _).
      unfold bind. rewrite Hr. destruct o; reflexivity.
    + intros v Hv. rewrite (bind_pure _ _ _ _ (providerContractFor_hit E addr ABI v s Hv)).
      reflexivity.
    + intros e Hm He. unfold bind. rewrite (providerContractFor_miss addr ABI s Hm), He.
      reflexivity.
    + intros Hm He. unfold bind. rewrite (providerContractFor_miss addr ABI s Hm), He.
      reflexivity.
Qed.

(** [contract] of version 2 on a connected connector is its two lookups. *)
Lemma contract2_lookup fuel addr ABI (s : Sys W) :
  truthy (h_browserProvider (conn s)) = true ->
  V2.isWalletConnected (conn s) = true ->
  V2.contract E fuel addr ABI s
  = (let* contractCaller := providerContractFor E addr ABI in
     let* contractSigner := signerContractFor E addr ABI in
     ret (Some (V2.mkWrapper contractCaller contractSigner))) s.
Proof.
  intros Hbp Hc. unfold V2.contract.
  rewrite (bind_pure _ _ _ _ (checkIfAllowed_passes s Hbp)). cbn [negb].
  assert (Hg : get s = (Ret (conn s), s, [])) by reflexivity.
  rewrite (bind_pure _ _ _ _ Hg), Hc. cbn [negb].
  assert (Hr : ret (W:=W) tt s = (Ret tt, s, [])) by reflexivity.
  rewrite (bind_pure _ _ _ _ Hr). reflexivity.
Qed.

Lemma contract2_connected fuel addr ABI (s : Sys W) :
  truthy (h_browserProvider (conn s)) = true ->
  V2.isWalletConnected (conn s) = true ->
  traceOf (V2.contract E fuel addr ABI s) = []
  /\ (forall vp vs,
         cached (h_providerContract (conn s)) addr = Some vp ->
         cached (h_signerContract (conn s)) addr = Some vs ->
         V2.contract E fuel addr ABI s = (Ret (Some (V2.mkWrapper vp vs)), s, []))
  /\ (forall e,
         cached (h_providerContract (conn s)) addr = None ->
         newContractThrows E addr ABI (h_provider (conn s)) = Some e ->
         V2.contract E fuel addr ABI s = (Throw e, s, []))
  /\ (forall e,
         cached (h_providerContract (conn s)) addr = None ->
         cached (h_signerContract (conn s)) addr = None ->
         newContractThrows E addr ABI (h_provider (conn s)) = None ->
         newContractThrows E addr ABI (h_signer (conn s)) = Some e ->
         V2.contract E fuel addr ABI s
         = (Throw e,
            withConn (set_providerContract
                        (<[addr := mkContract addr ABI (h_provider (conn s))]>
                           (h_providerContract (conn s))) (conn s)) s,
            []))
  /\ (cached (h_providerContract (conn s)) addr = None ->
      cached (h_signerContract (conn s)) addr = None ->
      newContractThrows E addr ABI (h_provider (conn s)) = None ->
      newContractThrows E addr ABI (h_signer (conn s)) = None ->
      V2.contract E fuel addr ABI s
      = (Ret (Some (V2.mkWrapper (mkContract addr ABI (h_provider (conn s)))
                                 (mkContract addr ABI (h_signer (conn s))))),
         withConn (set_signerContract
                     (<[addr := mkContract addr ABI (h_signer (conn s))]>
                        (h_signerContract (conn s)))
                     (set_providerContract
                        (<[addr := mkContract addr ABI (h_provider (conn s))]>
                           (h_providerContract (conn s))) (conn s))) s,
         [])).
Proof.
  intros Hbp Hc. rewrite (contract2_lookup fuel addr ABI s Hbp Hc).
  split; [|split; [|split; [|split]]].
  - destruct (providerContractFor_post E addr ABI s) as (o & s1 & Hr & _).
    destruct o as [cp|e|].
    + rewrite (bind_Ret _ _ _ _ _ _ Hr).
      destruct (signerContractFor_post E addr ABI s1) as (o' & s2 & Hr' & _).
      unfold bind. rewrite Hr'. destruct o'; reflexivity.
    + rewrite (bind_Throw _ _ _ _ _ _ Hr). reflexivity.
    + rewrite (bind_Diverge _ _ _ _ _ Hr). reflexivity.
  - intros vp vs Hp Hs.
    rewrite (bind_pure _ _ _ _ (providerContractFor_hit E addr ABI vp s Hp)).
    rewrite (bind_pure _ _ _ _ (signerContractFor_hit E addr ABI vs s Hs)).
    reflexivity.
  - intros e Hp He. unfold bind at 1.
    rewrite (providerContractFor_miss addr ABI s Hp), He. reflexivity.
  - intros e Hp Hs Hep Hes. unfold bind at 1.
    rewrite (providerContractFor_miss addr ABI s Hp), Hep.
    unfold bind. rewrite signerContractFor_miss by exact Hs.
    unfold withConn. mproj. rewrite Hes. reflexivity.
  - intros Hp Hs Hep Hes. unfold bind at 1.
    rewrite (providerContractFor_miss addr ABI s Hp), Hep.
    unfold bind. rewrite signerContractFor_miss by exact Hs.
    unfold withConn. mproj. rewrite Hes. reflexivity.
Qed.

(** Once [connectWallet] has returned, [contract] returns a wrapper or
    throws what the [Contract] constructor threw. *)
Lemma contract1_connects_first fuel addr ABI isSigner (s : Sys W) :
  V1.isWalletConnected (conn s) = false ->
  traceOf (V1.contract E fuel addr ABI isSigner s)
  = traceOf (V1.connectWallet E fuel VUndefined s)
  /\ (forall v, outcomeOf (V1.connectWallet E fuel VUndefined s) = Ret v ->
             (exists w, outcomeOf (V1.contract E fuel addr ABI isSigner s) = Ret w)
             \/ (exists e runner,
                    newContractThrows E addr ABI runner = Some e
                    /\ outcomeOf (V1.contract E fuel addr ABI isSigner s) = Throw e))
  /\ (forall e, outcomeOf (V1.connectWallet E fuel VUndefined s) = Throw e ->
             outcomeOf (V1.contract E fuel addr ABI isSigner s) = Throw e).
Proof.
  intros Hc. unfold V1.contract. cbv zeta.
  assert (Hg : get s = (Ret (conn s), s, [])) by reflexivity.
  rewrite (bind_pure _ _ _ _ Hg), Hc. cbn [negb].
  destruct (V1.connectWallet E fuel VUndefined s) as [[[v|e|] s1] t1] eqn:Hcw.
  - assert (H1 : bind (V1.connectWallet E fuel VUndefined) (fun _ => ret tt) s
                 = (Ret tt, s1, t1)).
    { rewrite (bind_Ret _ _ _ _ _ _ Hcw). unfold ret, outcomeOf, sysOf, traceOf.
      cbn [fst snd]. rewrite app_nil_r. reflexivity. }
    rewrite (bind_Ret _ _ _ _ _ _ H1).
    destruct (truthy (defaultTo isSigner (VBool false))).
    + destruct (signerContractFor_ends addr ABI s1) as [(c & s' & Hr) | (e & He & Hr)].
      * rewrite (bind_Ret _ _ _ _ _ _ Hr).
        unfold ret, outcomeOf, sysOf, traceOf. cbn [fst snd]. rewrite app_nil_r.
        split; [reflexivity|].
        split; [intros; left; eexists; reflexivity | intros; discriminate].
      * rewrite (bind_Throw _ _ _ _ _ _ Hr).
        unfold outcomeOf, sysOf, traceOf. cbn [fst snd]. rewrite app_nil_r.
        split; [reflexivity|].
        split; [intros; right; exists e; eexists; split; [exact He | reflexivity]
               | intros; discriminate].
    + destruct (providerContractFor_ends addr ABI s1) as [(c & s' & Hr & _) | (e & He & Hr)].
      * rewrite (bind_Ret _ _ _ _ _ _ Hr).
        unfold ret, outcomeOf, sysOf, traceOf. cbn [fst snd]. rewrite app_nil_r.
        split; [reflexivity|].
        split; [intros; left; eexists; reflexivity | intros; discriminate].
      * rewrite (bind_Throw _ _ _ _ _ _ Hr).
        unfold outcomeOf, sysOf, traceOf. cbn [fst snd]. rewrite app_nil_r.
        split; [reflexivity|].
        split; [intros; right; exists e; eexists; split; [exact He | reflexivity]
               | intros; discriminate].
  - assert (H1 : bind (V1.connectWallet E fuel VUndefined) (fun _ => ret tt) s
                 = (Throw e, s1, t1)) by (apply bind_Throw; exact Hcw).
    rewrite (bind_Throw _ _ _ _ _ _ H1).
    unfold outcomeOf, traceOf. cbn [fst snd].
    split; [reflexivity|]. split; [intros; discriminate | intros e' H; inversion H; reflexivity].
  - assert (H1 : bind (V1.connectWallet E fuel VUndefined) (fun _ => ret tt) s
                 = (Diverge, s1, t1)) by (apply bind_Diverge; exact Hcw).
    rewrite (bind_Diverge _ _ _ _ _ H1).
    unfold outcomeOf, traceOf. cbn [fst snd].
    split; [reflexivity|]. split; intros; discriminate.
Qed.

Lemma contract2_connects_first fuel addr ABI (s : Sys W) :
  truthy (h_browserProvider (conn s)) = true ->
  V2.isWalletConnected (conn s) = false ->
  traceOf (V2.contract E fuel addr ABI s)
  = traceOf (V2.connectWallet E fuel VUndefined s)
  /\ (forall v, outcomeOf (V2.connectWallet E fuel VUndefined s) = Ret v ->
             (exists w, outcomeOf (V2.contract E fuel addr ABI s) = Ret (Some w))
             \/ (exists e runner,
                    newContractThrows E addr ABI runner = Some e
                    /\ outcomeOf (V2.contract E fuel addr ABI s) = Throw e))
  /\ (forall e, outcomeOf (V2.connectWallet E fuel VUndefined s) = Throw e ->
             outcomeOf (V2.contract E fuel addr ABI s) = Throw e).
Proof.
  intros Hbp Hc. unfold V2.contract. cbv zeta.
  rewrite (bind_pure _ _ _ _ (checkIfAllowed_passes s Hbp)). cbn [negb].
  assert (Hg : get s = (Ret (conn s), s, [])) by reflexivity.
  rewrite (bind_pure _ _ _ _ Hg), Hc. cbn [negb].
  destruct (V2.connectWallet E fuel VUndefined s) as [[[v|e|] s1] t1] eqn:Hcw.
  - assert (H1 : bind (V2.connectWallet E fuel VUndefined) (fun _ => ret tt) s
                 = (Ret tt, s1, t1)).
    { rewrite (bind_Ret _ _ _ _ _ _ Hcw). unfold ret, outcomeOf, sysOf, traceOf.
      cbn [fst snd]. rewrite app_nil_r. reflexivity. }
    rewrite (bind_Ret _ _ _ _ _ _ H1).
    destruct (providerContractFor_ends addr ABI s1) as [(cp & s2 & Hp & _) | (e & He & Hp)].
    + rewrite (bind_Ret _ _ _ _ _ _ Hp).
      destruct (signerContractFor_ends addr ABI s2) as [(cs & s3 & Hs) | (e & He & Hs)].
      * rewrite (bind_Ret _ _ _ _ _ _ Hs).
        unfold ret, outcomeOf, sysOf, traceOf. cbn [fst snd]. rewrite app_nil_r.
        split; [reflexivity|].
        split; [intros; left; eexists; reflexivity | intros; discriminate].
      * rewrite (bind_Throw _ _ _ _ _ _ Hs).
        unfold outcomeOf, sysOf, traceOf. cbn [fst snd]. rewrite app_nil_r.
        split; [reflexivity|].
        split; [intros; right; exists e; eexists; split; [exact He | reflexivity]
               | intros; discriminate].
    + rewrite (bind_Throw _ _ _ _ _ _ Hp).
      unfold outcomeOf, sysOf, traceOf. cbn [fst snd]. rewrite app_nil_r.
      split; [reflexivity|].
      split; [intros; right; exists e; eexists; split; [exact He | reflexivity]
             | intros; discriminate].
  - assert (H1 : bind (V2.connectWallet E fuel VUndefined) (fun _ => ret tt) s
                 = (Throw e, s1, t1)) by (apply bind_Throw; exact Hcw).
    rewrite (bind_Throw _ _ _ _ _ _ H1).
    unfold outcomeOf, traceOf. cbn [fst snd].
    split; [reflexivity|]. split; [intros; discriminate | intros e' H; inversion H; reflexivity].
  - assert (H1 : bind (V2.connectWallet E fuel VUndefined) (fun _ => ret tt) s
                 = (Diverge, s1, t1)) by (apply bind_Diverge; exact Hcw).
    rewrite (bind_Diverge _ _ _ _ _ H1).
    unfold outcomeOf, traceOf. cbn [fst snd].
    split; [reflexivity|]. split; intros; discriminate.
Qed.

Lemma checkIfAllowed_true (s s' : Sys W) b t :
  V2.checkIfAllowed s = (Ret b, s', t) -> b = true.
Proof.
  unfold V2.checkIfAllowed. mforward; intros H; inversion H; reflexivity.
Qed.

Lemma contract2_some fuel addr ABI (s s' : Sys W) w t :
  V2.contract E fuel addr ABI s = (Ret w, s', t) -> exists x, w = Some x.
Proof.
  unfold V2.contract. intros H.
  apply bind_inv in H.
  destruct H as [(allowed & s0 & t0 & t0' & Ha & H & _) | [(e & _ & He) | [_ He]]];
    try discriminate.
  rewrite (checkIfAllowed_true _ _ _ _ Ha) in H. cbn [negb] in H.
  apply bind_inv in H.
  destruct H as [(st & s1 & t1 & t2 & _ & H & _) | [(e & _ & He) | [_ He]]];
    try discriminate.
  apply bind_inv in H.
  destruct H as [(u & s2 & t3 & t4 & _ & H & _) | [(e & _ & He) | [_ He]]];
    try discriminate.
  apply bind_inv in H.
  destruct H as [(cc & s3 & t5 & t6 & Hp & H & _) | [(e & _ & He) | [_ He]]];
    try discriminate.
  apply bind_inv in H.
  destruct H as [(cs & s4 & t7 & t8 & Hs & H & _) | [(e & _ & He) | [_ He]]];
    try discriminate.
  unfold ret in H. inversion H; subst; clear H. eexists. reflexivity.
Qed.

End ContractCalls2.

(** X18.  [contract] on a connected connector is silent and is its cache
    lookup.  With an account stored (and, in version 2, a provider held),
    [contract] sends no request and emits nothing.  Where the lookup under
    the address finds something (an instance stored earlier, or what a
    plain object inherits under a name such as [toString]), [contract]
    wraps what it found and builds and stores nothing.  Where it finds
    nothing, [contract] calls the [Contract] constructor with the given
    ABI: if the constructor throws, [contract] throws that exception and
    stores nothing; else the new instance is stored and wrapped.  Version 1
    does one lookup, in the signer cache with instances bound to the
    signer if [isSigner] is truthy, and in the provider cache with
    instances bound to the provider otherwise.  Version 2 does two, first
    in the provider cache and then in the signer cache: where both find
    something it wraps the two values; where both find nothing it builds
    the caller's instance and then the signer's, and when only the second
    constructor call throws, the first instance stays stored. *)
Theorem contract_when_connected :
  forall (W : Type) (E : Env W) (fuel : nat) (contractAddress : string)
         (ABI : JsVal) (s : Sys W),
    V1.isWalletConnected (conn s) = true ->
    (forall isSigner,
        traceOf (V1.contract E fuel contractAddress ABI isSigner s) = []
        /\ (forall v,
               cached (cacheFor isSigner (conn s)) contractAddress = Some v ->
               V1.contract E fuel contractAddress ABI isSigner s
               = (Ret (V1.mkWrapper v), s, []))
        /\ (forall e,
               cached (cacheFor isSigner (conn s)) contractAddress = None ->
               newContractThrows E contractAddress ABI (runnerFor isSigner (conn s))
               = Some e ->
               V1.contract E fuel contractAddress ABI isSigner s = (Throw e, s, []))
        /\ (cached (cacheFor isSigner (conn s)) contractAddress = None ->
            newContractThrows E contractAddress ABI (runnerFor isSigner (conn s)) = None ->
            V1.contract E fuel contractAddress ABI isSigner s
            = (Ret (V1.mkWrapper
                      (mkContract contractAddress ABI (runnerFor isSigner (conn s)))),
               withConn (storeFor isSigner contractAddress
                           (mkContract contractAddress ABI (runnerFor isSigner (conn s)))
                           (conn s)) s,
               [])))
    /\ (truthy (h_browserProvider (conn s)) = true ->
        traceOf (V2.contract E fuel contractAddress ABI s) = []
        /\ (forall vp vs,
               cached (h_providerContract (conn s)) contractAddress = Some vp ->
               cached (h_signerContract (conn s)) contractAddress = Some vs ->
               V2.contract E fuel contractAddress ABI s
               = (Ret (Some (V2.mkWrapper vp vs)), s, []))
        /\ (forall e,
               cached (h_providerContract (conn s)) contractAddress = None ->
               newContractThrows E contractAddress ABI (h_provider (conn s)) = Some e ->
               V2.contract E fuel contractAddress ABI s = (Throw e, s, []))
        /\ (forall e,
               cached (h_providerContract (conn s)) contractAddress = None ->
               cached (h_signerContract (conn s)) contractAddress = None ->
               newContractThrows E contractAddress ABI (h_provider (conn s)) = None ->
               newContractThrows E contractAddress ABI (h_signer (conn s)) = Some e ->
               V2.contract E fuel contractAddress ABI s
               = (Throw e,
                  withConn (set_providerContract
                              (<[contractAddress :=
                                   mkContract contractAddress ABI (h_provider (conn s))]>
                                 (h_providerContract (conn s))) (conn s)) s,
                  []))
        /\ (cached (h_providerContract (conn s)) contractAddress = None ->
            cached (h_signerContract (conn s)) contractAddress = None ->
            newContractThrows E contractAddress ABI (h_provider (conn s)) = None ->
            newContractThrows E contractAddress ABI (h_signer (conn s)) = None ->
            V2.contract E fuel contractAddress ABI s
            = (Ret (Some (V2.mkWrapper
                            (mkContract contractAddress ABI (h_provider (conn s)))
                            (mkContract contractAddress ABI (h_signer (conn s))))),
               withConn (set_signerContract
                           (<[contractAddress :=
                                mkContract contractAddress ABI (h_signer (conn s))]>
                              (h_signerContract (conn s)))
                           (set_providerContract
                              (<[contractAddress :=
                                   mkContract contractAddress ABI (h_provider (conn s))]>
                                 (h_providerContract (conn s))) (conn s))) s,
               []))).
Proof.
  intros W E fuel addr ABI s Hc. split.
  - intros isSigner. exact (contract1_connected E fuel addr ABI isSigner s Hc).
  - intros Hbp. exact (contract2_connected E fuel addr ABI s Hbp Hc).
Qed.

Lemma contract_when_connected_witness :
  V1.isWalletConnected (conn connectedSys) = true
  /\ cached (cacheFor VUndefined (conn connectedSys)) "0x55" = None
  /\ newContractThrows strictAbi "0x55" (VStr "[]") (runnerFor VUndefined (conn connectedSys))
     = None
  /\ V1.contract strictAbi 5 "0x55" (VStr "[]") VUndefined connectedSys
     = (Ret (V1.mkWrapper (mkContract "0x55" (VStr "[]") (BrowserProvider metamask))),
        withConn (storeFor VUndefined "0x55"
                    (mkContract "0x55" (VStr "[]") (BrowserProvider metamask))
                    (conn connectedSys)) connectedSys,
        [])
  /\ newContractThrows strictAbi "0x55" (VStr "abi") (runnerFor VUndefined (conn connectedSys))
     = Some SyntaxError
  /\ V1.contract strictAbi 5 "0x55" (VStr "abi") VUndefined connectedSys
     = (Throw SyntaxError, connectedSys, [])
  /\ cached (cacheFor VUndefined (conn connectedSys)) "toString"
     = Some (Inherited "toString")
  /\ V1.contract strictAbi 5 "toString" (VStr "[]") VUndefined connectedSys
     = (Ret (V1.mkWrapper (Inherited "toString")), connectedSys, []).
Proof.
  pose proof (fun addr ABI =>
                proj1 (contract_when_connected unit strictAbi 5 addr ABI
                         connectedSys eq_refl) VUndefined) as H.
  split; [reflexivity|]. split; [reflexivity|]. split; [reflexivity|].
  split; [exact (proj2 (proj2 (proj2 (H "0x55" (VStr "[]")))) eq_refl eq_refl)|].
  split; [reflexivity|].
  split; [exact (proj1 (proj2 (proj2 (H "0x55" (VStr "abi")))) SyntaxError eq_refl eq_refl)|].
  split; [reflexivity|].
  exact (proj1 (proj2 (H "toString" (VStr "[]"))) (Inherited "toString") eq_refl).
Defined.

(** X19.  [contract] on a connector without an account connects first.  It
    runs [connectWallet()] and performs exactly the requests and events of
    that run.  An exception of [connectWallet] stops it and is passed on.
    Whatever [connectWallet] returns, also [undefined] after a failed
    attempt, [contract] goes on to its cache lookup, and so returns a
    wrapper unless the [Contract] constructor throws, in which case it
    throws that exception.  Version 2's [contract] never returns
    [undefined]: it returns a wrapper or throws. *)
Theorem contract_connects_first :
  forall (W : Type) (E : Env W) (fuel : nat) (contractAddress : string)
         (ABI : JsVal) (s : Sys W),
    (forall isSigner,
        V1.isWalletConnected (conn s) = false ->
        traceOf (V1.contract E fuel contractAddress ABI isSigner s)
        = traceOf (V1.connectWallet E fuel VUndefined s)
        /\ (forall v, outcomeOf (V1.connectWallet E fuel VUndefined s) = Ret v ->
                   (exists w,
                       outcomeOf (V1.contract E fuel contractAddress ABI isSigner s) = Ret w)
                   \/ (exists e runner,
                          newContractThrows E contractAddress ABI runner = Some e
                          /\ outcomeOf (V1.contract E fuel contractAddress ABI isSigner s)
                             = Throw e))
        /\ (forall e, outcomeOf (V1.connectWallet E fuel VUndefined s) = Throw e ->
                   outcomeOf (V1.contract E fuel contractAddress ABI isSigner s) = Throw e))
    /\ (truthy (h_browserProvider (conn s)) = true ->
        V2.isWalletConnected (conn s) = false ->
        traceOf (V2.contract E fuel contractAddress ABI s)
        = traceOf (V2.connectWallet E fuel VUndefined s)
        /\ (forall v, outcomeOf (V2.connectWallet E fuel VUndefined s) = Ret v ->
                   (exists w,
                       outcomeOf (V2.contract E fuel contractAddress ABI s) = Ret (Some w))
                   \/ (exists e runner,
                          newContractThrows E contractAddress ABI runner = Some e
                          /\ outcomeOf (V2.contract E fuel contractAddress ABI s) = Throw e))
        /\ (forall e, outcomeOf (V2.connectWallet E fuel VUndefined s) = Throw e ->
                   outcomeOf (V2.contract E fuel contractAddress ABI s) = Throw e))
    /\ (forall w, outcomeOf (V2.contract E fuel contractAddress ABI s) = Ret w ->
                  exists x, w = Some x).
Proof.
  intros W E fuel addr ABI s. split; [|split].
  - intros isSigner Hc. exact (contract1_connects_first E fuel addr ABI isSigner s Hc).
  - intros Hbp Hc. exact (contract2_connects_first E fuel addr ABI s Hbp Hc).
  - intros w Hw.
    destruct (V2.contract E fuel addr ABI s) as [[o s'] t] eqn:Hr.
    unfold outcomeOf in Hw. cbn [fst] in Hw. subst o.
    exact (contract2_some E fuel addr ABI s s' w t Hr).
Qed.

Lemma contract_connects_first_witness :
  V1.isWalletConnected (conn (readySys VNull VNull)) = false
  /\ outcomeOf (V1.connectWallet (withConstructor stubbornChain parsesAbi) 5 VUndefined
                                 (readySys VNull VNull))
     = Ret VUndefined
  /\ traceOf (V1.contract (withConstructor stubbornChain parsesAbi) 5 "0x55" (VStr "[]")
                          VUndefined (readySys VNull VNull))
     = traceOf (V1.connectWallet (withConstructor stubbornChain parsesAbi) 5 VUndefined
                                 (readySys VNull VNull))
  /\ outcomeOf (V1.contract (withConstructor stubbornChain parsesAbi) 5 "0x55" (VStr "[]")
                            VUndefined (readySys VNull VNull))
     = Ret (V1.mkWrapper (mkContract "0x55" (VStr "[]") (BrowserProvider metamask)))
  /\ outcomeOf (V1.contract (withConstructor stubbornChain parsesAbi) 5 "0x55" (VStr "abi")
                            VUndefined (readySys VNull VNull))
     = Throw SyntaxError.
Proof.
  assert (Hv : outcomeOf (V1.connectWallet (withConstructor stubbornChain parsesAbi) 5
                            VUndefined (readySys VNull VNull))
               = Ret VUndefined) by (vm_compute; reflexivity).
  split; [reflexivity|]. split; [exact Hv|].
  split; [exact (proj1 (proj1 (contract_connects_first
                                 unit (withConstructor stubbornChain parsesAbi) 5 "0x55"
                                 (VStr "[]") (readySys VNull VNull))
                              VUndefined eq_refl))|].
  split; vm_compute; reflexivity.
Defined.

Section WrapperPassThrough.
Context {W : Type} (E : Env W).

Lemma call_passes (c c' : Contract) methodName methodParams callParams onError r w1
      (s : Sys W) :
  contractMethod E c methodName methodParams callParams (world s) = (Resolve r, w1) ->
  V1.call_ E (V1.mkWrapper c) methodName methodParams callParams onError s
    = (Ret r, withWorld w1 s, [])
  /\ V2.call_ E (V2.mkWrapper c c') methodName methodParams callParams onError s
    = (Ret r, withWorld w1 s, [])
  /\ V2.signedCall E (V2.mkWrapper c' c) methodName methodParams callParams onError s
    = (Ret r, withWorld w1 s, []).
Proof.
  intros Hc. unfold V1.call_, V2.call_, V2.signedCall.
  split; [|split]; cbn [V1.contract_ V2.contractCaller V2.contractSigner]; mgo;
    reflexivity.
Qed.

Lemma send_passes (c c' : Contract) methodName methodParams sendParams txn receipt w1 w2
      (s : Sys W) :
  contractMethod E c methodName methodParams sendParams (world s) = (Resolve txn, w1) ->
  txnWait E txn w1 = (Resolve receipt, w2) ->
  V1.send E (V1.mkWrapper c) methodName methodParams sendParams s
    = (Ret receipt, withWorld w2 s, [])
  /\ V2.send E (V2.mkWrapper c' c) methodName methodParams sendParams s
    = (Ret receipt, withWorld w2 s, []).
Proof.
  intros Hc Hw. unfold V1.send, V2.send.
  split; cbn [V1.contract_ V2.contractCaller V2.contractSigner]; mgo; reflexivity.
Qed.

Lemma call_handler_throws (c c' : Contract) methodName methodParams callParams e f e2 w1 w2
      (s : Sys W) :
  contractMethod E c methodName methodParams callParams (world s) = (Reject e, w1) ->
  callFunction E f [e] w1 = (Reject e2, w2) ->
  V1.call_ E (V1.mkWrapper c) methodName methodParams callParams (VFun f) s
    = (Throw e2, withWorld w2 s, [Call f])
  /\ V2.call_ E (V2.mkWrapper c c') methodName methodParams callParams (VFun f) s
    = (Throw e2, withWorld w2 s, [Call f])
  /\ V2.signedCall E (V2.mkWrapper c' c) methodName methodParams callParams (VFun f) s
    = (Throw e2, withWorld w2 s, [Call f]).
Proof.
  intros Hc Hf. unfold V1.call_, V2.call_, V2.signedCall.
  split; [|split]; cbn [V1.contract_ V2.contractCaller V2.contractSigner]; mgo;
    reflexivity.
Qed.

End WrapperPassThrough.

(** X20.  The wrapper passes results through.  When the contract method
    answers, [call] and [signedCall] return the answer, log nothing and do
    not call [onError]; [send] waits for the transaction and returns the
    receipt.  In version 2, [call] uses the provider's contract and
    [signedCall] and [send] the signer's.  None of them touches the
    connector's fields. *)
Theorem wrapper_passes_results :
  forall (W : Type) (E : Env W) (c c' : Contract) (methodName : string)
         (methodParams : list JsVal) (params : JsVal) (s : Sys W),
    (forall onError r w1,
        contractMethod E c methodName methodParams params (world s) = (Resolve r, w1) ->
        V1.call_ E (V1.mkWrapper c) methodName methodParams params onError s
        = (Ret r, withWorld w1 s, [])
        /\ V2.call_ E (V2.mkWrapper c c') methodName methodParams params onError s
           = (Ret r, withWorld w1 s, [])
        /\ V2.signedCall E (V2.mkWrapper c' c) methodName methodParams params onError s
           = (Ret r, withWorld w1 s, []))
    /\ (forall txn receipt w1 w2,
           contractMethod E c methodName methodParams params (world s) = (Resolve txn, w1) ->
           txnWait E txn w1 = (Resolve receipt, w2) ->
           V1.send E (V1.mkWrapper c) methodName methodParams params s
           = (Ret receipt, withWorld w2 s, [])
           /\ V2.send E (V2.mkWrapper c' c) methodName methodParams params s
              = (Ret receipt, withWorld w2 s, [])).
Proof.
  intros W E c c' methodName methodParams params s. split.
  - intros onError r w1 Hc.
    exact (call_passes E c c' methodName methodParams params onError r w1 s Hc).
  - intros txn receipt w1 w2 Hc Hw.
    exact (send_passes E c c' methodName methodParams params txn receipt w1 w2 s Hc Hw).
Qed.

Lemma wrapper_passes_results_witness :
  V2.send readableChain
          (V2.mkWrapper (mkContract "0x55" (VStr "abi") VNull)
                        (mkContract "0x55" (VStr "abi") (VObj [("address", VStr "0xabc")])))
          "transfer" [] VUndefined connectedSys
  = (Ret (VObj [("status", VNum 1%Z)]), withWorld tt connectedSys, []).
Proof.
  exact (proj2 (proj2 (wrapper_passes_results
                         unit readableChain
                         (mkContract "0x55" (VStr "abi") (VObj [("address", VStr "0xabc")]))
                         (mkContract "0x55" (VStr "abi") VNull)
                         "transfer" [] VUndefined connectedSys)
                      (VNum 7%Z) (VObj [("status", VNum 1%Z)]) tt tt eq_refl eq_refl)).
Defined.

(** X21.  An [onError] handler that throws is not shielded.  When the
    contract method throws and [onError] is a function that throws in
    turn, [call] and [signedCall] throw the handler's exception (not the
    original one) and log nothing. *)
Theorem throwing_handler_escapes :
  forall (W : Type) (E : Env W) (c c' : Contract) (methodName : string)
         (methodParams : list JsVal) (params : JsVal) (s : Sys W)
         (e : JsVal) (f : nat) (e2 : JsVal) (w1 w2 : W),
    contractMethod E c methodName methodParams params (world s) = (Reject e, w1) ->
    callFunction E f [e] w1 = (Reject e2, w2) ->
    V1.call_ E (V1.mkWrapper c) methodName methodParams params (VFun f) s
    = (Throw e2, withWorld w2 s, [Call f])
    /\ V2.call_ E (V2.mkWrapper c c') methodName methodParams params (VFun f) s
       = (Throw e2, withWorld w2 s, [Call f])
    /\ V2.signedCall E (V2.mkWrapper c' c) methodName methodParams params (VFun f) s
       = (Throw e2, withWorld w2 s, [Call f]).
Proof.
  intros W E c c' methodName methodParams params s e f e2 w1 w2 Hc Hf.
  exact (call_handler_throws E c c' methodName methodParams params e f e2 w1 w2 s Hc Hf).
Qed.

Lemma throwing_handler_escapes_witness :
  V1.call_ failingHandler (V1.mkWrapper (mkContract "0x55" (VStr "abi") VNull))
           "balanceOf" [] VUndefined (VFun 0) connectedSys
  = (Throw (VStr "handler failed"), withWorld tt connectedSys, [Call 0]).
Proof.
  exact (proj1 (throwing_handler_escapes
                  unit failingHandler
                  (mkContract "0x55" (VStr "abi") VNull)
                  (mkContract "0x55" (VStr "abi") VNull)
                  "balanceOf" [] VUndefined connectedSys
                  (VObj [("code", VStr "CALL_EXCEPTION")]) 0 (VStr "handler failed") tt tt
                  eq_refl eq_refl)).
Defined.

Section FailedInit.
Context {W : Type} (E : Env W).

Lemma failsClean_bind {A B} (m : M W A) (k : A -> M W B) :
  keeps h_isInitalized noAction m -> steady m ->
  (forall a, failsClean (k a)) -> failsClean (bind m k).
Proof.
  intros Hk Hs Hf s e He. destruct (Hk s) as [Hi _]. specialize (Hs s).
  destruct (m s) as [[[a|e'|] s1] t1] eqn:Hms.
  - rewrite (bind_Ret _ _ _ _ _ _ Hms) in He |- *.
    specialize (Hf a s1 e). destruct (k a s1) as [[o s2] t2].
    unfold sysOf, outcomeOf in *. cbn [fst snd] in *.
    destruct (Hf He) as [H1 H2]. split; congruence.
  - rewrite (bind_Throw _ _ _ _ _ _ Hms). unfold sysOf in *. cbn [fst snd] in *.
    split; assumption.
  - rewrite (bind_Diverge _ _ _ _ _ Hms) in He. discriminate.
Qed.

Lemma failsClean_throw {A} e : failsClean (W:=W) (A:=A) (throw e).
Proof. intros s e' _. split; reflexivity. Qed.

Lemma failsClean_registration :
  failsClean (W:=W)
    (addChainChangedListener ;;;
     modify (set_isInitalized true) ;;;
     emit "walletConnectorInitialized" [] ;;;
     ret VUndefined).
Proof.
  intros s e. unfold addChainChangedListener. mgo.
  destruct (isUndefined (h_browserProvider (conn s)) || isNull (h_browserProvider (conn s)));
    mgo; intros H; [split; reflexivity | discriminate].
Qed.

Lemma init1_failsClean fuel d a c auto : failsClean (V1.init E fuel d a c auto).
Proof.
  pose proof (fun f =>
                keeps_weaken besidesWallet h_isInitalized noAction noAction _
                             besidesWallet_isInitalized (fun _ H => H)
                             (connectWallet1_keeps E fuel f)) as Hc.
  pose proof (fun b =>
                keeps_weaken besidesWallet h_isInitalized noAction noAction _
                             besidesWallet_isInitalized (fun _ H => H)
                             (detectNetwork1_any E b)) as Hd.
  pose proof (fun f => proj1 (connectWallet_steady E fuel f)) as Hcs.
  pose proof (fun b => proj1 (detectNetwork_steady E b)) as Hds.
  unfold V1.init, V1.checkShouldNetworkDataIsCorrect. cbv zeta.
  repeat first
    [ apply failsClean_throw
    | apply failsClean_registration
    | apply failsClean_bind; [solve [keeps_tac] | solve [steady_tac] | intros ?]
    | match goal with
      | |- failsClean (if ?b then _ else _) => destruct b
      end ].
Qed.

End FailedInit.

Section HalfInitialised.
Context {W : Type} (E : Env W).

Lemma init2_fails_late fuel auto (s : Sys W) e w1 :
  h_isSetup (conn s) = true ->
  h_isInitalized (conn s) = false ->
  isFunction (defaultTo auto (VBool true)) = false ->
  truthy (defaultTo auto (VBool true)) = true ->
  descriptorPresent (h_shouldNetworkData (conn s)) = true ->
  truthy (window_ethereum E (world s)) = true ->
  eth_chainId E (world s) = (Reject e, w1) ->
  V2.init E fuel auto s
  = (Throw e,
     mkSys (set_isInitalized true
              (set_provider (BrowserProvider (window_ethereum E (world s)))
                 (set_browserProvider (window_ethereum E (world s)) (conn s))))
           w1 (chainListeners s) (timers s ++ [RegisterChainChanged]) (suspended s),
     [Emit "walletConnectorInitialized" []; Request "eth_chainId"]).
Proof.
  intros Hs Hi Hf Ht Hd Hw Hraw.
  pose proof (truthy_not_nullish _ Hw) as Hnn.
  unfold V2.init. mgo.
  rewrite check2_eq, (check1_present s Hd). mgo.
  unfold V2.connectWallet, V2.checkIfAllowed, V2.detectNetwork, V2.readChainId.
  mgo. reflexivity.
Qed.

End HalfInitialised.

(** X22.  A failed [init] of version 1 can be repeated.  If [init] throws
    on a connector that was not initialised, and throws before it gets to
    emit [walletConnectorInitialized] (so because of an invalid
    descriptor, a missing provider, or a request or a caller function that
    fails while it connects or checks the network),
    the connector is still not initialised, and no listener has been
    registered and no timer set.  The listener and the mark are set only
    after all of that, right before that last event. *)
Theorem failed_init_leaves_no_mark :
  forall (W : Type) (E : Env W) (fuel : nat)
         (shouldNetworkData shouldWalletAddress execBeforeReconnect autoConnect : JsVal)
         (s : Sys W) (e : JsVal),
    h_isInitalized (conn s) = false ->
    outcomeOf (V1.init E fuel shouldNetworkData shouldWalletAddress execBeforeReconnect
                       autoConnect s) = Throw e ->
    never (emits "walletConnectorInitialized")
          (traceOf (V1.init E fuel shouldNetworkData shouldWalletAddress execBeforeReconnect
                            autoConnect s)) ->
    h_isInitalized
      (conn (sysOf (V1.init E fuel shouldNetworkData shouldWalletAddress
                            execBeforeReconnect autoConnect s))) = false
    /\ hooks (sysOf (V1.init E fuel shouldNetworkData shouldWalletAddress
                             execBeforeReconnect autoConnect s)) = hooks s.
Proof.
  intros W E fuel d a c auto s e Hi He _.
  destruct (init1_failsClean E fuel d a c auto s e He) as [H1 H2].
  split; [rewrite H1; exact Hi | exact H2].
Qed.

Lemma failed_init_leaves_no_mark_witness :
  outcomeOf (V1.init silentWallet 5 bscTestnet VNull VNull (VBool true) (freshSys tt))
  = Throw (VObj [("code", VNum 4100%Z)])
  /\ traceOf (V1.init silentWallet 5 bscTestnet VNull VNull (VBool true) (freshSys tt))
     = [Request "eth_chainId"]
  /\ h_isInitalized
       (conn (sysOf (V1.init silentWallet 5 bscTestnet VNull VNull (VBool true)
                             (freshSys tt)))) = false
  /\ hooks (sysOf (V1.init silentWallet 5 bscTestnet VNull VNull (VBool true) (freshSys tt)))
     = hooks (freshSys tt).
Proof.
  assert (He : outcomeOf (V1.init silentWallet 5 bscTestnet VNull VNull (VBool true)
                                  (freshSys tt))
               = Throw (VObj [("code", VNum 4100%Z)])) by (vm_compute; reflexivity).
  assert (Ht : traceOf (V1.init silentWallet 5 bscTestnet VNull VNull (VBool true)
                                (freshSys tt))
               = [Request "eth_chainId"]) by (vm_compute; reflexivity).
  split; [exact He|]. split; [exact Ht|].
  apply (failed_init_leaves_no_mark unit silentWallet 5 bscTestnet VNull VNull (VBool true)
           (freshSys tt) (VObj [("code", VNum 4100%Z)]) eq_refl He).
  rewrite Ht. repeat constructor.
Defined.

(** X23.  A failed [init] of version 2 can leave the connector
    initialised.  Version 2 sets the timer, marks the connector
    initialised and emits [walletConnectorInitialized] before it connects.
    With automatic connection and a wallet that rejects the chain-id
    request, [init] throws that rejection, yet the connector is marked
    initialised and the timer is pending.  From then on, whatever calls
    and events follow, every [init] throws "already initialized" until
    [setup] or [destroy] is called. *)
Theorem failed_init_can_leave_a_mark :
  forall (W : Type) (E : Env W) (fuel fuel' : nat) (autoConnect autoConnect' : JsVal)
         (s : Sys W) (e : JsVal) (w1 : W),
    h_isSetup (conn s) = true ->
    h_isInitalized (conn s) = false ->
    isFunction (defaultTo autoConnect (VBool true)) = false ->
    truthy (defaultTo autoConnect (VBool true)) = true ->
    descriptorPresent (h_shouldNetworkData (conn s)) = true ->
    truthy (window_ethereum E (world s)) = true ->
    eth_chainId E (world s) = (Reject e, w1) ->
    V2.init E fuel autoConnect s
    = (Throw e,
       mkSys (set_isInitalized true
                (set_provider (BrowserProvider (window_ethereum E (world s)))
                   (set_browserProvider (window_ethereum E (world s)) (conn s))))
             w1 (chainListeners s) (timers s ++ [RegisterChainChanged]) (suspended s),
       [Emit "walletConnectorInitialized" []; Request "eth_chainId"])
    /\ (forall ops : list Op2,
           Forall (fun op => resets2 op = false) ops ->
           V2.init E fuel' autoConnect'
                   (runAll (exec2 E fuel) ops (sysOf (V2.init E fuel autoConnect s)))
           = (Throw (errorOf "EthersWalletConnector is already initialized."),
              runAll (exec2 E fuel) ops (sysOf (V2.init E fuel autoConnect s)), [])).
Proof.
  intros W E fuel fuel' auto auto' s e w1 Hs Hi Hf Ht Hd Hw Hraw.
  pose proof (init2_fails_late E fuel auto s e w1 Hs Hi Hf Ht Hd Hw Hraw) as H.
  split; [exact H|].
  intros ops Hops.
  destruct (stays_initialized2 E fuel ops (sysOf (V2.init E fuel auto s)) Hops)
    as [Hs' Hi'].
  - rewrite H. exact Hs.
  - rewrite H. reflexivity.
  - apply init2_guard; assumption.
Qed.

Lemma failed_init_can_leave_a_mark_witness :
  outcomeOf (V2.init silentWallet 5 VUndefined setUpSys)
  = Throw (VObj [("code", VNum 4100%Z)])
  /\ Forall (fun op => resets2 op = false) [FireTimer2; ChainChanged2; DisconnectWallet2]
  /\ V2.init silentWallet 5 VUndefined
             (runAll (exec2 silentWallet 5) [FireTimer2; ChainChanged2; DisconnectWallet2]
                     (sysOf (V2.init silentWallet 5 VUndefined setUpSys)))
     = (Throw (errorOf "EthersWalletConnector is already initialized."),
        runAll (exec2 silentWallet 5) [FireTimer2; ChainChanged2; DisconnectWallet2]
               (sysOf (V2.init silentWallet 5 VUndefined setUpSys)), []).
Proof.
  assert (Hops : Forall (fun op => resets2 op = false)
                        [FireTimer2; ChainChanged2; DisconnectWallet2])
    by (repeat constructor).
  destruct (failed_init_can_leave_a_mark
              unit silentWallet 5 5 VUndefined VUndefined setUpSys
              (VObj [("code", VNum 4100%Z)]) tt
              eq_refl eq_refl eq_refl eq_refl eq_refl eq_refl eq_refl) as [H1 H2].
  split; [rewrite H1; reflexivity|]. split; [exact Hops|].
  exact (H2 [FireTimer2; ChainChanged2; DisconnectWallet2] Hops).
Defined.

Section InitComposes.
Context {W : Type} (E : Env W).

Lemma besidesWallet_browserProvider a b :
  besidesWallet a = besidesWallet b -> h_browserProvider a = h_browserProvider b.
Proof. intros H. apply (f_equal h_browserProvider) in H. exact H. Qed.

Lemma init1_then_connects fuel d a c auto (s s1 : Sys W) v t1 :
  h_isInitalized (conn s) = false ->
  isFunction (defaultTo auto (VBool true)) = false ->
  truthy (defaultTo auto (VBool true)) = true ->
  descriptorPresent d = true ->
  truthy (window_ethereum E (world s)) = true ->
  V1.connectWallet E fuel VUndefined
    (withConn (set_provider (BrowserProvider (window_ethereum E (world s)))
                 (set_browserProvider (window_ethereum E (world s))
                    (set_execBeforeReconnect (defaultTo c VNull)
                       (set_shouldWalletAddress (defaultTo a VNull)
                          (set_shouldNetworkData d (conn s)))))) s)
  = (Ret v, s1, t1) ->
  V1.init E fuel d a c auto s
  = (Ret VUndefined,
     mkSys (set_isInitalized true (conn s1)) (world s1) (S (chainListeners s1))
           (timers s1) (suspended s1),
     t1 ++ [Emit "walletConnectorInitialized" []]).
Proof.
  intros Hi Hf Ht Hd Hw Hcw.
  pose proof (truthy_not_nullish _ Hw) as Hnn.
  destruct (connectWallet1_keeps E fuel VUndefined
              (withConn (set_provider (BrowserProvider (window_ethereum E (world s)))
                           (set_browserProvider (window_ethereum E (world s))
                              (set_execBeforeReconnect (defaultTo c VNull)
                                 (set_shouldWalletAddress (defaultTo a VNull)
                                    (set_shouldNetworkData d (conn s)))))) s)) as [Hk _].
  rewrite Hcw in Hk. unfold sysOf in Hk. cbn [fst snd] in Hk.
  apply besidesWallet_browserProvider in Hk. cbn in Hk.
  unfold V1.init. mgo.
  match goal with
  | |- context [V1.checkShouldNetworkDataIsCorrect ?s'] =>
      rewrite (check1_present s' Hd)
  end.
  mgo. unfold withConn in Hcw. rewrite Hcw. mgo.
  unfold addChainChangedListener, nullish. rewrite Hk, Hnn. mgo. reflexivity.
Qed.

Lemma init2_connects_after fuel auto (s s1 : Sys W) v t1 :
  h_isSetup (conn s) = true ->
  h_isInitalized (conn s) = false ->
  isFunction (defaultTo auto (VBool true)) = false ->
  truthy (defaultTo auto (VBool true)) = true ->
  descriptorPresent (h_shouldNetworkData (conn s)) = true ->
  truthy (window_ethereum E (world s)) = true ->
  V2.connectWallet E fuel VUndefined
    (mkSys (set_isInitalized true
              (set_provider (BrowserProvider (window_ethereum E (world s)))
                 (set_browserProvider (window_ethereum E (world s)) (conn s))))
           (world s) (chainListeners s) (timers s ++ [RegisterChainChanged]) (suspended s))
  = (Ret v, s1, t1) ->
  V2.init E fuel auto s
  = (Ret VUndefined, s1, Emit "walletConnectorInitialized" [] :: t1).
Proof.
  intros Hs Hi Hf Ht Hd Hw Hcw.
  pose proof (truthy_not_nullish _ Hw) as Hnn.
  unfold V2.init. mgo.
  rewrite check2_eq, (check1_present s Hd). mgo. reflexivity.
Qed.

Lemma init_without_connecting fuel d a c auto (s : Sys W) raw w1 n :
  h_isInitalized (conn s) = false ->
  isFunction (defaultTo auto (VBool true)) = false ->
  truthy (defaultTo auto (VBool true)) = false ->
  descriptorPresent d = true ->
  truthy (window_ethereum E (world s)) = true ->
  eth_chainId E (world s) = (Resolve raw, w1) ->
  toNumber E raw = Resolve n ->
  strictEq (VNum n) (coalesce (optChain d "chain_id") (VNum 0%Z)) = true ->
  V1.init E fuel d a c auto s
  = (Ret VUndefined,
     mkSys (set_isInitalized true
              (set_currentChainId (VNum n)
                 (set_provider (BrowserProvider (window_ethereum E (world s)))
                    (set_browserProvider (window_ethereum E (world s))
                       (set_execBeforeReconnect (defaultTo c VNull)
                          (set_shouldWalletAddress (defaultTo a VNull)
                             (set_shouldNetworkData d (conn s))))))))
           w1 (S (chainListeners s)) (timers s) (suspended s),
     [Request "eth_chainId"; Emit "walletConnectorInitialized" []]).
Proof.
  intros Hi Hf Ht Hd Hw Hraw Hn Hok.
  pose proof (truthy_not_nullish _ Hw) as Hnn.
  unfold V1.init. mgo.
  match goal with
  | |- context [V1.checkShouldNetworkDataIsCorrect ?s'] =>
      rewrite (check1_present s' Hd)
  end.
  mgo. unfold V1.detectNetwork, V1.readChainId. mgo.
  unfold V1.isCorrectNetwork. mproj. rewrite Hok. mgo.
  unfold addChainChangedListener, nullish. mgo. reflexivity.
Qed.

Lemma init2_without_connecting fuel auto (s : Sys W) raw w1 n :
  h_isSetup (conn s) = true ->
  h_isInitalized (conn s) = false ->
  isFunction (defaultTo auto (VBool true)) = false ->
  truthy (defaultTo auto (VBool true)) = false ->
  descriptorPresent (h_shouldNetworkData (conn s)) = true ->
  truthy (window_ethereum E (world s)) = true ->
  eth_chainId E (world s) = (Resolve raw, w1) ->
  toNumber E raw = Resolve n ->
  strictEq (VNum n) (coalesce (optChain (h_shouldNetworkData (conn s)) "chain_id")
                              (VNum 0%Z)) = true ->
  V2.init E fuel auto s
  = (Ret VUndefined,
     mkSys (set_isInitalized true
              (set_currentChainId (VNum n)
                 (set_provider (BrowserProvider (window_ethereum E (world s)))
                    (set_browserProvider (window_ethereum E (world s)) (conn s)))))
           w1 (chainListeners s) (timers s ++ [RegisterChainChanged]) (suspended s),
     [Request "eth_chainId"; Emit "walletConnectorInitialized" []]).
Proof.
  intros Hs Hi Hf Ht Hd Hw Hraw Hn Hok.
  pose proof (truthy_not_nullish _ Hw) as Hnn.
  unfold V2.init. mgo.
  rewrite check2_eq, (check1_present s Hd). mgo.
  unfold V2.detectNetwork, V2.readChainId. mgo.
  unfold V2.isCorrectNetwork. mproj. rewrite Hok. mgo. reflexivity.
Qed.

End InitComposes.

(** X24.  What the wallet operations leave alone.  [connectWallet],
    [disconnectWallet], a [chainChanged] event, a firing timer and the
    completion of a pending disconnect change at most the stored chain id,
    account and signer: the configuration, the setup and initialised flags,
    the provider and both contract caches are as before, however the
    operation ends.  Both versions. *)
Theorem wallet_operations_frame :
  forall (W : Type) (E : Env W) (fuel : nat) (forceNewConnect : JsVal) (s : Sys W),
    (besidesWallet (conn (sysOf (V1.connectWallet E fuel forceNewConnect s)))
     = besidesWallet (conn s)
     /\ besidesWallet (conn (sysOf (V1.disconnectWallet s))) = besidesWallet (conn s)
     /\ besidesWallet (conn (sysOf (V1.chainChanged E s))) = besidesWallet (conn s))
    /\ (besidesWallet (conn (sysOf (V2.connectWallet E fuel forceNewConnect s)))
        = besidesWallet (conn s)
        /\ besidesWallet (conn (sysOf (V2.disconnectWallet E s))) = besidesWallet (conn s)
        /\ besidesWallet (conn (sysOf (V2.chainChanged E s))) = besidesWallet (conn s)
        /\ besidesWallet (conn (sysOf (V2.fireTimer s))) = besidesWallet (conn s)
        /\ besidesWallet (conn (sysOf (V2.resumeDisconnectWallet s)))
           = besidesWallet (conn s)).
Proof.
  intros W E fuel force s. split.
  - split; [exact (proj1 (connectWallet1_keeps E fuel force s))|].
    split; [exact (proj1 (disconnectWallet1_keeps s))|].
    exact (proj1 (chainChanged1_keeps E s)).
  - split; [exact (proj1 (connectWallet2_keeps E fuel force s))|].
    split; [exact (proj1 (disconnectWallet2_keeps E s))|].
    split; [exact (proj1 (chainChanged2_keeps E s))|].
    split; [exact (proj1 (fireTimer_keeps s))|].
    exact (proj1 (resumeDisconnectWallet_keeps s)).
Qed.

(** X25.  Where [init] connects.  With automatic connection (the default),
    an injected provider and a valid descriptor, [init] runs
    [connectWallet()] and returns when that returns.  Version 1 connects
    first and then registers its listener, marks the connector initialised
    and emits [walletConnectorInitialized] as the last event.  Version 2
    sets its timer, marks the connector initialised and emits
    [walletConnectorInitialized] first, and connects afterwards, so the
    events of the connection follow. *)
Theorem init_connects :
  forall (W : Type) (E : Env W) (fuel : nat) (autoConnect : JsVal) (s s1 : Sys W)
         (v : JsVal) (t1 : list Action),
    h_isInitalized (conn s) = false ->
    isFunction (defaultTo autoConnect (VBool true)) = false ->
    truthy (defaultTo autoConnect (VBool true)) = true ->
    truthy (window_ethereum E (world s)) = true ->
    (forall d a c,
        descriptorPresent d = true ->
        V1.connectWallet E fuel VUndefined
          (withConn (set_provider (BrowserProvider (window_ethereum E (world s)))
                       (set_browserProvider (window_ethereum E (world s))
                          (set_execBeforeReconnect (defaultTo c VNull)
                             (set_shouldWalletAddress (defaultTo a VNull)
                                (set_shouldNetworkData d (conn s)))))) s)
        = (Ret v, s1, t1) ->
        V1.init E fuel d a c autoConnect s
        = (Ret VUndefined,
           mkSys (set_isInitalized true (conn s1)) (world s1) (S (chainListeners s1))
                 (timers s1) (suspended s1),
           t1 ++ [Emit "walletConnectorInitialized" []]))
    /\ (h_isSetup (conn s) = true ->
        descriptorPresent (h_shouldNetworkData (conn s)) = true ->
        V2.connectWallet E fuel VUndefined
          (mkSys (set_isInitalized true
                    (set_provider (BrowserProvider (window_ethereum E (world s)))
                       (set_browserProvider (window_ethereum E (world s)) (conn s))))
                 (world s) (chainListeners s) (timers s ++ [RegisterChainChanged])
                 (suspended s))
        = (Ret v, s1, t1) ->
        V2.init E fuel autoConnect s
        = (Ret VUndefined, s1, Emit "walletConnectorInitialized" [] :: t1)).
Proof.
  intros W E fuel auto s s1 v t1 Hi Hf Ht Hw. split.
  - intros d a c Hd Hcw.
    exact (init1_then_connects E fuel d a c auto s s1 v t1 Hi Hf Ht Hd Hw Hcw).
  - intros Hs Hd Hcw.
    exact (init2_connects_after E fuel auto s s1 v t1 Hs Hi Hf Ht Hd Hw Hcw).
Qed.

Lemma init_connects_witness :
  traceOf (V2.init oneAccount 5 VUndefined setUpSys)
  = [Emit "walletConnectorInitialized" []; Request "eth_chainId"; Request "eth_accounts";
     Emit "walletConnected" [VStr "0xabc"]].
Proof.
  destruct (V2.connectWallet oneAccount 5 VUndefined
              (mkSys (set_isInitalized true
                        (set_provider (BrowserProvider
                                         (window_ethereum oneAccount (world setUpSys)))
                           (set_browserProvider
                              (window_ethereum oneAccount (world setUpSys))
                              (conn setUpSys))))
                     (world setUpSys) (chainListeners setUpSys)
                     (timers setUpSys ++ [RegisterChainChanged]) (suspended setUpSys)))
    as [[o s1] t1] eqn:Hcw.
  assert (Ho : o = Ret (VStr "0xabc")).
  { apply (f_equal outcomeOf) in Hcw. vm_compute in Hcw. congruence. }
  assert (Htr : t1 = [Request "eth_chainId"; Request "eth_accounts";
                      Emit "walletConnected" [VStr "0xabc"]]).
  { apply (f_equal traceOf) in Hcw. vm_compute in Hcw. congruence. }
  subst o.
  rewrite (proj2 (init_connects unit oneAccount 5 VUndefined setUpSys s1 (VStr "0xabc") t1
                    eq_refl eq_refl eq_refl eq_refl)
                 eq_refl eq_refl Hcw).
  unfold traceOf. cbn [snd]. rewrite Htr. reflexivity.
Defined.

(** X26.  [init] without automatic connection only checks the network.
    With a falsy [autoConnect], an injected provider, a valid descriptor
    and the wallet on the configured chain, [init] reads the chain id and
    nothing else: no account is read, no permission asked.  It stores the
    provider and the chain id, marks the connector initialised, emits
    [walletConnectorInitialized], and registers the listener (version 1)
    or sets the timer for it (version 2). *)
Theorem init_without_connection :
  forall (W : Type) (E : Env W) (fuel : nat) (autoConnect : JsVal) (s : Sys W)
         (raw : JsVal) (w1 : W) (n : Z),
    h_isInitalized (conn s) = false ->
    isFunction (defaultTo autoConnect (VBool true)) = false ->
    truthy (defaultTo autoConnect (VBool true)) = false ->
    truthy (window_ethereum E (world s)) = true ->
    eth_chainId E (world s) = (Resolve raw, w1) ->
    toNumber E raw = Resolve n ->
    (forall d a c,
        descriptorPresent d = true ->
        strictEq (VNum n) (coalesce (optChain d "chain_id") (VNum 0%Z)) = true ->
        V1.init E fuel d a c autoConnect s
        = (Ret VUndefined,
           mkSys (set_isInitalized true
                    (set_currentChainId (VNum n)
                       (set_provider (BrowserProvider (window_ethereum E (world s)))
                          (set_browserProvider (window_ethereum E (world s))
                             (set_execBeforeReconnect (defaultTo c VNull)
                                (set_shouldWalletAddress (defaultTo a VNull)
                                   (set_shouldNetworkData d (conn s))))))))
                 w1 (S (chainListeners s)) (timers s) (suspended s),
           [Request "eth_chainId"; Emit "walletConnectorInitialized" []]))
    /\ (h_isSetup (conn s) = true ->
        descriptorPresent (h_shouldNetworkData (conn s)) = true ->
        strictEq (VNum n) (coalesce (optChain (h_shouldNetworkData (conn s)) "chain_id")
                                    (VNum 0%Z)) = true ->
        V2.init E fuel autoConnect s
        = (Ret VUndefined,
           mkSys (set_isInitalized true
                    (set_currentChainId (VNum n)
                       (set_provider (BrowserProvider (window_ethereum E (world s)))
                          (set_browserProvider (window_ethereum E (world s)) (conn s)))))
                 w1 (chainListeners s) (timers s ++ [RegisterChainChanged]) (suspended s),
           [Request "eth_chainId"; Emit "walletConnectorInitialized" []])).
Proof.
  intros W E fuel auto s raw w1 n Hi Hf Ht Hw Hraw Hn. split.
  - intros d a c Hd Hok.
    exact (init_without_connecting E fuel d a c auto s raw w1 n Hi Hf Ht Hd Hw Hraw Hn Hok).
  - intros Hs Hd Hok.
    exact (init2_without_connecting E fuel auto s raw w1 n Hs Hi Hf Ht Hd Hw Hraw Hn Hok).
Qed.

Lemma init_without_connection_witness :
  traceOf (V1.init oneAccount 5 bscTestnet VUndefined VUndefined (VBool false) (freshSys tt))
  = [Request "eth_chainId"; Emit "walletConnectorInitialized" []]
  /\ V1.isWalletConnected
       (conn (sysOf (V1.init oneAccount 5 bscTestnet VUndefined VUndefined (VBool false)
                             (freshSys tt)))) = false.
Proof.
  rewrite (proj1 (init_without_connection unit oneAccount 5 (VBool false) (freshSys tt)
                    (VNum 97%Z) tt 97%Z eq_refl eq_refl eq_refl eq_refl eq_refl eq_refl)
                 bscTestnet VUndefined VUndefined eq_refl eq_refl).
  split; reflexivity.
Defined.
